(** * Schedule generation engine of the workforce back end

    A shallow embedding of [backend/app/services/scheduler.py]: the
    circuit breaker, the shift-hour calculator, the business coverage
    planner, the constraint normaliser, the employee filter, the conflict
    detector and resolver, the fallback scheduler and [generate_schedule].

    Conventions of the embedding.
    - A Python [dict] read with [.get(key, default)] is a record whose field
      is an [option]: [None] is an absent key.
    - Python [int] is [Z]; the floats of the scheduler (hours, clock
      readings, fairness scores) are exact rationals [Q].
    - A call that can raise returns an [outcome]; a loop whose termination
      depends on the input runs on fuel and reports [Diverged] when the
      source would not come back.
    - [random] is an explicit oracle: a list of naturals consumed left to
      right, each draw reduced modulo the size of the population.
    - [print] is taken to return, and what it writes is not kept; the one
      place where it is not is [calculate_shift_hours_on], whose stream is a
      parameter. *)

From Stdlib Require Import ZArith QArith List String Ascii Bool Lia DecimalString
  Permutation.
From Stdlib Require DecimalPos DecimalZ.
Import ListNotations.
Open Scope Z_scope.

(** ** Outcomes of Python calls *)

Inductive outcome (A : Type) : Type :=
| Returned (a : A)
| Raised (exn : string)
| Diverged.

Arguments Returned {A} a.
Arguments Raised {A} exn.
Arguments Diverged {A}.

Definition bind {A B : Type} (m : outcome A) (k : A -> outcome B) : outcome B :=
  match m with
  | Returned a => k a
  | Raised e => Raised e
  | Diverged => Diverged
  end.

Notation "x <- m ;; k" := (bind m (fun x => k))
  (at level 61, m at next level, right associativity).

Definition lift_option {A : Type} (exn : string) (o : option A) : outcome A :=
  match o with
  | Some a => Returned a
  | None => Raised exn
  end.

(** ** The circuit breaker (class [CircuitBreaker]) *)

Module CircuitBreaker.

Inductive CircuitBreakerState : Type := CLOSED | OPEN | HALF_OPEN.

Record t : Type := mk {
  failure_threshold : Z;
  recovery_timeout : Z;
  failure_count : Z;
  last_failure_time : option Q;
  state : CircuitBreakerState
}.

(** [__init__] *)
Definition init (threshold timeout : Z) : t :=
  mk threshold timeout 0 None CLOSED.

(** The module-level instance [scheduler_circuit_breaker = CircuitBreaker()]. *)
Definition scheduler_circuit_breaker : t := init 3 60.

Definition set_state (s : CircuitBreakerState) (cb : t) : t :=
  mk (failure_threshold cb) (recovery_timeout cb) (failure_count cb)
     (last_failure_time cb) s.

(** [can_execute], at clock reading [now].  Subtracting [None] from a
    float is a [TypeError]. *)
Definition can_execute (now : Q) (cb : t) : outcome (bool * t) :=
  match state cb with
  | CLOSED => Returned (true, cb)
  | OPEN =>
      match last_failure_time cb with
      | None => Raised "TypeError"
      | Some last =>
          if Qle_bool (now - last) (inject_Z (recovery_timeout cb))
          then Returned (false, cb)
          else Returned (true, set_state HALF_OPEN cb)
      end
  | HALF_OPEN => Returned (true, cb)
  end.

Definition record_success (cb : t) : t :=
  mk (failure_threshold cb) (recovery_timeout cb) 0 (last_failure_time cb) CLOSED.

Definition record_failure (now : Q) (cb : t) : t :=
  let count := failure_count cb + 1 in
  mk (failure_threshold cb) (recovery_timeout cb) count (Some now)
     (if failure_threshold cb <=? count then OPEN else state cb).

(** [reset_scheduler_circuit_breaker] *)
Definition reset_scheduler_circuit_breaker (cb : t) : t :=
  mk (failure_threshold cb) (recovery_timeout cb) 0 None CLOSED.

(** [n] consecutive failures, at the clock readings [times]. *)
Definition record_failures (times : list Q) (cb : t) : t :=
  fold_left (fun c now => record_failure now c) times cb.

End CircuitBreaker.

(** ** Times of day *)

Definition digit_of (c : ascii) : option Z :=
  let n := Z.of_nat (nat_of_ascii c) in
  if (48 <=? n) && (n <=? 57) then Some (n - 48) else None.

Definition colon : ascii := ":"%char.

Fixpoint chars (s : string) : list ascii :=
  match s with
  | EmptyString => []
  | String c r => c :: chars r
  end.

(** The hour field of [%H]: [2[0-3]|[0-1]\d|\d]. *)
Definition hour_field (cs : list ascii) : option Z :=
  match cs with
  | [d] => digit_of d
  | [d1; d2] =>
      match digit_of d1, digit_of d2 with
      | Some a, Some b => if 10 * a + b <? 24 then Some (10 * a + b) else None
      | _, _ => None
      end
  | _ => None
  end.

(** The minute field of [%M]: [[0-5]\d|\d]. *)
Definition minute_field (cs : list ascii) : option Z :=
  match cs with
  | [d] => digit_of d
  | [d1; d2] =>
      match digit_of d1, digit_of d2 with
      | Some a, Some b => if a <? 6 then Some (10 * a + b) else None
      | _, _ => None
      end
  | _ => None
  end.

(** [datetime.strptime(s, "%H:%M")]: the hour and minute, or [None] for the
    [ValueError].  The digits read are the ASCII ones.  Python's [\d] also
    takes the other decimal digits of Unicode, a set that varies with the
    interpreter: a text holding one is outside this definition.  A text
    without the colon does not parse, whatever its digits. *)
Definition strptime_HM (s : string) : option (Z * Z) :=
  match chars s with
  | h :: c :: rest =>
      if Ascii.eqb c colon then
        match hour_field [h], minute_field rest with
        | Some hh, Some mm => Some (hh, mm)
        | _, _ => None
        end
      else
        match rest with
        | c' :: rest' =>
            if Ascii.eqb c' colon then
              match hour_field [h; c], minute_field rest' with
              | Some hh, Some mm => Some (hh, mm)
              | _, _ => None
              end
            else None
        | [] => None
        end
  | _ => None
  end.


(** An object that is not text, as [calculate_shift_hours] can be handed
    one: a naive [datetime] (microseconds since 1900-01-01 00:00, from
    [datetime_min] to [datetime_max]), a [timedelta] (microseconds, from
    [timedelta_min] to [timedelta_max]), [None], an [int]. *)
Inductive pyobj : Type :=
| Datetime (micros : Z)
| Timedelta (micros : Z)
| NoneObj
| Int (n : Z).

(** An argument of [calculate_shift_hours]: the annotation says [str], the
    body tests [isinstance(_, str)] and takes every other object as it is. *)
Inductive pyarg : Type :=
| PyStr (s : string)
| PyObj (o : pyobj).

Definition micros_per_second : Z := 1000000.
Definition micros_per_day : Z := 86400 * micros_per_second.

(** [datetime.min] is 0001-01-01 00:00 and [datetime.max] is
    9999-12-31 23:59:59.999999; [timedelta.min] is -999999999 days and
    [timedelta.max] one microsecond short of 1000000000 days. *)
Definition datetime_min : Z := - 693595 * micros_per_day.
Definition datetime_max : Z := 2958464 * micros_per_day - 1.
Definition timedelta_min : Z := - 999999999 * micros_per_day.
Definition timedelta_max : Z := 1000000000 * micros_per_day - 1.

Definition datetime_of_HM (hm : Z * Z) : Z :=
  (fst hm * 3600 + snd hm * 60) * micros_per_second.

(** [datetime.strptime(x, "%H:%M") if isinstance(x, str) else x] *)
Definition to_datetime (a : pyarg) : outcome pyobj :=
  match a with
  | PyStr s =>
      hm <- lift_option "ValueError" (strptime_HM s) ;;
      Returned (Datetime (datetime_of_HM hm))
  | PyObj o => Returned o
  end.

(** [x < y]: defined between two of a kind, a [TypeError] otherwise and on
    [None]. *)
Definition py_lt (x y : pyobj) : outcome bool :=
  match x, y with
  | Datetime a, Datetime b => Returned (a <? b)
  | Timedelta a, Timedelta b => Returned (a <? b)
  | Int a, Int b => Returned (a <? b)
  | _, _ => Raised "TypeError"
  end.

(** [x += timedelta(days=1)] *)
Definition add_one_day (x : pyobj) : outcome pyobj :=
  match x with
  | Datetime a =>
      if a + micros_per_day <=? datetime_max
      then Returned (Datetime (a + micros_per_day))
      else Raised "OverflowError"
  | Timedelta a =>
      if a + micros_per_day <=? timedelta_max
      then Returned (Timedelta (a + micros_per_day))
      else Raised "OverflowError"
  | NoneObj | Int _ => Raised "TypeError"
  end.

(** [timedelta.seconds]: the seconds component of the normalised difference. *)
Definition timedelta_seconds (delta : Z) : Z :=
  (delta mod micros_per_day) / micros_per_second.

(** [(x - y).seconds]: the difference of two [datetime]s or of two
    [timedelta]s is a [timedelta], that of two [int]s an [int], which has no
    such attribute. *)
Definition seconds_between (x y : pyobj) : outcome Z :=
  match x, y with
  | Datetime b, Datetime a => Returned (timedelta_seconds (b - a))
  | Timedelta b, Timedelta a =>
      if (timedelta_min <=? b - a) && (b - a <=? timedelta_max)
      then Returned (timedelta_seconds (b - a))
      else Raised "OverflowError"
  | Int _, Int _ => Raised "AttributeError"
  | _, _ => Raised "TypeError"
  end.

(** The body of the [try] block. *)
Definition calculate_shift_hours_try (start_time end_time : pyarg) : outcome Q :=
  start <- to_datetime start_time ;;
  end_ <- to_datetime end_time ;;
  overnight <- py_lt end_ start ;;
  end_ <- (if overnight : bool then add_one_day end_ else Returned end_) ;;
  seconds <- seconds_between end_ start ;;
  Returned (inject_Z seconds / inject_Z 3600)%Q.

(** [sys.stdout] as the [print] of the handler meets it.  The message is
    made of the two arguments and of the exception; writing it returns, or
    raises when the stream cannot take it (a character its encoding lacks, a
    stream that is closed). *)
Definition Console : Type := pyarg -> pyarg -> string -> outcome unit.

(** [calculate_shift_hours] on the standard output [stdout]: the [try]
    block, and for every exception the handler, which prints and then
    returns [0.0]. *)
Definition calculate_shift_hours_on (stdout : Console)
    (start_time end_time : pyarg) : outcome Q :=
  match calculate_shift_hours_try start_time end_time with
  | Returned hours => Returned hours
  | Raised e =>
      printed <- stdout start_time end_time e ;;
      Returned 0%Q
  | Diverged => Diverged
  end.

(** A stream that takes every message: UTF-8, the texts of this model being
    UTF-8, and open. *)
Definition utf8_stdout : Console := fun _ _ _ => Returned tt.




(** [calculate_shift_hours] as the rest of the scheduler uses it: the value
    of the call on a stream that takes the message, where it always
    returns. *)
Definition calculate_shift_hours (start_time end_time : pyarg) : Q :=
  match calculate_shift_hours_on utf8_stdout start_time end_time with
  | Returned hours => hours
  | Raised _ => 0%Q
  | Diverged => 0%Q
  end.

(** ** Text helpers *)

Definition str_of_Z (z : Z) : string :=
  DecimalString.NilZero.string_of_int (Z.to_int z).

(** The format [{h:02d}]: at least two characters, zero-padded. *)
Definition fmt02 (z : Z) : string :=
  if (0 <=? z) && (z <? 10) then ("0" ++ str_of_Z z)%string else str_of_Z z.

Definition hh00 (h : Z) : string := (fmt02 h ++ ":00")%string.

(** [s.split(":")[0]] *)
Fixpoint before_colon (s : string) : string :=
  match s with
  | EmptyString => EmptyString
  | String c r => if Ascii.eqb c colon then EmptyString else String c (before_colon r)
  end.

(** [int(text)] for decimal text with an optional sign; anything else is the
    [ValueError].  (Python also accepts surrounding blanks and underscores
    between digits; no [HH:MM] time contains them.) *)
Definition int_of_string (s : string) : option Z :=
  match s with
  | EmptyString => None
  | String c r =>
      if Ascii.eqb c "+"%char then option_map Z.of_uint (NilZero.uint_of_string r)
      else option_map Z.of_int (NilZero.int_of_string s)
  end.

(** [int(t.split(":")[0])] *)
Definition hour_of (t : string) : outcome Z :=
  lift_option "ValueError" (int_of_string (before_colon t)).

(** ** Randomness *)

Definition oracle : Type := list nat.

Definition draw (rnd : oracle) : nat * oracle :=
  match rnd with
  | [] => (O, [])
  | r :: rest => (r, rest)
  end.

(** [random.randint(lo, hi)] on the draw [r]. *)
Definition randint (lo hi : Z) (r : nat) : outcome Z :=
  if hi <? lo then Raised "ValueError"
  else Returned (lo + Z.of_nat r mod (hi - lo + 1)).

(** [random.choice(population)] on the draw [r]. *)
Definition choice {A : Type} (population : list A) (r : nat) : outcome A :=
  match population with
  | [] => Raised "IndexError"
  | x :: _ => Returned (nth (r mod List.length population) population x)
  end.

(** ** The data model *)

(** [day_of_week] of an operating-hours entry: 0-6, Sunday to Saturday, as
    the [OperatingHours] model declares it. *)
Inductive DayOfWeek : Type :=
| Sunday | Monday | Tuesday | Wednesday | Thursday | Friday | Saturday.

Definition day_number (d : DayOfWeek) : Z :=
  match d with
  | Sunday => 0 | Monday => 1 | Tuesday => 2 | Wednesday => 3
  | Thursday => 4 | Friday => 5 | Saturday => 6
  end.

(** [range(7)] *)
Definition range7 : list DayOfWeek :=
  [Sunday; Monday; Tuesday; Wednesday; Thursday; Friday; Saturday].

Definition day_name (d : DayOfWeek) : string :=
  match d with
  | Sunday => "Sunday" | Monday => "Monday" | Tuesday => "Tuesday"
  | Wednesday => "Wednesday" | Thursday => "Thursday" | Friday => "Friday"
  | Saturday => "Saturday"
  end.

Definition day_eqb (a b : DayOfWeek) : bool := day_number a =? day_number b.

Definition DayOfWeek_eq_dec (a b : DayOfWeek) : {a = b} + {a <> b}.
Proof. decide equality. Defined.

Record OperatingHours : Type := mkOH {
  day_of_week : DayOfWeek;
  is_open : option bool;
  open_time : option string;
  close_time : option string;
  min_staff : option Z;
  max_staff : option Z
}.

Record ShiftTemplate : Type := mkShift {
  name : string;
  start_time : string;
  end_time : string;
  duration : option Z;
  type : option string;
  required_roles : option (list (string * Z));
  preferred_locations : option (list string);
  is_active : option bool
}.

Definition get {A : Type} (o : option A) (default : A) : A :=
  match o with
  | Some a => a
  | None => default
  end.

(** [key in d] *)
Definition present {A : Type} (o : option A) : bool :=
  match o with
  | Some _ => true
  | None => false
  end.

(** Python truthiness of a list. *)
Definition nonempty {A : Type} (l : list A) : bool :=
  match l with
  | [] => false
  | _ :: _ => true
  end.

Record SkillRequirement : Type := mkSkillReq {
  sr_role : option string;
  required_skills : option (list string);
  is_mandatory : option bool
}.

(** A constraint document.  [OH] is what the key ["operating_hours"] holds:
    the list itself where only values matter, the address of the list object
    where aliasing matters. *)
Record Constraints_ (OH : Type) : Type := mkConstraints {
  c_name : option string;
  operating_hours : option OH;
  shift_templates : option (list ShiftTemplate);
  locations : option (list string);
  departments : option (list string);
  roles : option (list string);
  skill_requirements : option (list SkillRequirement);
  max_consecutive_days : option Z;
  min_rest_hours_between_shifts : option Z;
  max_hours_per_week : option Q;
  min_consecutive_hours_per_shift : option Z;
  max_consecutive_hours_per_shift : option Z;
  optimization_priority : option string;
  require_manager_coverage : option bool;
  c_min_staff : option Z;
  c_max_staff : option Z;
  min_employees_per_day : option Z;
  max_employees_per_day : option Z;
  solver_time_limit : option Z
}.

Arguments mkConstraints {OH}.
Arguments c_name {OH}.
Arguments operating_hours {OH}.
Arguments shift_templates {OH}.
Arguments locations {OH}.
Arguments departments {OH}.
Arguments roles {OH}.
Arguments skill_requirements {OH}.
Arguments max_consecutive_days {OH}.
Arguments min_rest_hours_between_shifts {OH}.
Arguments max_hours_per_week {OH}.
Arguments min_consecutive_hours_per_shift {OH}.
Arguments max_consecutive_hours_per_shift {OH}.
Arguments optimization_priority {OH}.
Arguments require_manager_coverage {OH}.
Arguments c_min_staff {OH}.
Arguments c_max_staff {OH}.
Arguments min_employees_per_day {OH}.
Arguments max_employees_per_day {OH}.
Arguments solver_time_limit {OH}.

Definition Constraints : Type := Constraints_ (list OperatingHours).

(** ** The business coverage planner ([_create_business_coverage_plan]) *)

Definition planned (nm start_ end_ : string) (dur : Z) (ty : string)
    (needs : list (string * Z)) : ShiftTemplate :=
  mkShift nm start_ end_ (Some dur) (Some ty) (Some needs) None (Some true).

Definition span (a b : string) : string := ("(" ++ a ++ "-" ++ b ++ ")")%string.

Definition manager_and_employee : list (string * Z) :=
  [("manager"%string, 1); ("employee"%string, 1)].
Definition manager_only : list (string * Z) := [("manager"%string, 1)].

(** [range(lo, hi)] *)
Definition range (lo hi : Z) : list Z :=
  map (fun k => lo + Z.of_nat k) (seq 0 (Z.to_nat (hi - lo))).

(** [max(2, int(total_hours / duration) + 1)] *)
Definition shifts_needed (total_hours dur : Z) : outcome Z :=
  if dur =? 0 then Raised "ZeroDivisionError"
  else Returned (Z.max 2 (Z.quot total_hours dur + 1)).

(** The search [for duration in range(min, max + 1)] for a duration that
    needs at most six shifts; [None] when the loop ends without [break]. *)
Fixpoint search_duration (total_hours : Z) (candidates : list Z)
    : outcome (option (Z * Z)) :=
  match candidates with
  | [] => Returned None
  | dur :: rest =>
      test_shifts <- shifts_needed total_hours dur ;;
      if test_shifts <=? 6 then Returned (Some (dur, test_shifts))
      else search_duration total_hours rest
  end.

(** One turn of [for i in range(required_shifts)]: the shift appended, if any. *)
Definition coverage_shift (open_hour close_hour min_shift_hours max_shift_hours
    optimal_shift_duration required_shifts i : Z) : list ShiftTemplate :=
  let start_hour := open_hour + i * optimal_shift_duration in
  let end_hour := start_hour + optimal_shift_duration in
  let adjusted : option (Z * Z) :=
    if close_hour <? end_hour then Some (close_hour, close_hour - start_hour)
    else if (i =? required_shifts - 1) && (end_hour <? close_hour) then
      let remaining_hours := close_hour - start_hour in
      if (remaining_hours <=? max_shift_hours) && (min_shift_hours <=? remaining_hours)
      then Some (close_hour, remaining_hours)
      else if remaining_hours <? min_shift_hours then None
      else if max_shift_hours <? remaining_hours
           then Some (start_hour + max_shift_hours, max_shift_hours)
           else Some (end_hour, optimal_shift_duration)
    else Some (end_hour, optimal_shift_duration) in
  match adjusted with
  | None => []
  | Some (end_hour, actual_duration) =>
      if (actual_duration <? min_shift_hours) || (max_shift_hours <? actual_duration)
      then []
      else if (start_hour <? close_hour) && (end_hour <=? close_hour) then
        let st := hh00 start_hour in
        let en := hh00 end_hour in
        if i =? 0 then
          [planned ("Opening Shift " ++ span st en) st en actual_duration
                   "opening_shift" manager_and_employee]
        else if i =? required_shifts - 1 then
          [planned ("Closing Shift " ++ span st en) st en actual_duration
                   "closing_shift" manager_and_employee]
        else
          [planned ("Mid Shift " ++ str_of_Z (i + 1) ++ " " ++ span st en) st en
                   actual_duration "mid_shift" manager_and_employee]
      else []
  end.

(** The three overlapping manager shifts added when manager coverage is
    required. *)
Definition manager_coverage_shifts (open_hour close_hour min_shift_hours
    max_shift_hours : Z) : list ShiftTemplate :=
  let manager_shift_duration := Z.min max_shift_hours (Z.max min_shift_hours 4) in
  let morning_end := Z.min (open_hour + manager_shift_duration) close_hour in
  let afternoon_start := open_hour + 2 in
  let afternoon_end := Z.min (afternoon_start + manager_shift_duration) close_hour in
  let evening_start := Z.max (close_hour - manager_shift_duration) (open_hour + 4) in
  (if open_hour <? morning_end then
     [planned ("Morning Manager " ++ span (hh00 open_hour) (hh00 morning_end))
              (hh00 open_hour) (hh00 morning_end) (morning_end - open_hour)
              "morning_manager" manager_only]
   else [])
  ++ (if afternoon_start <? afternoon_end then
        [planned ("Afternoon Manager " ++ span (hh00 afternoon_start) (hh00 afternoon_end))
                 (hh00 afternoon_start) (hh00 afternoon_end)
                 (afternoon_end - afternoon_start) "afternoon_manager" manager_only]
      else [])
  ++ (if evening_start <? close_hour then
        [planned ("Evening Manager " ++ span (hh00 evening_start) (hh00 close_hour))
                 (hh00 evening_start) (hh00 close_hour) (close_hour - evening_start)
                 "evening_manager" manager_only]
      else []).

(** "Extend the last shift": the last manager shift is rewritten in place to
    end at closing time. *)
Definition extend_last (close_hour : Z) (manager_shifts : list ShiftTemplate)
    : outcome (list ShiftTemplate) :=
  match rev manager_shifts with
  | [] => Returned []
  | last_shift :: earlier =>
      start_hour <- hour_of (start_time last_shift) ;;
      let en := hh00 close_hour in
      Returned (rev earlier ++
        [mkShift ("Manager Shift " ++ span (start_time last_shift) en)
                 (start_time last_shift) en (Some (close_hour - start_hour))
                 (type last_shift) (required_roles last_shift)
                 (preferred_locations last_shift) (is_active last_shift)])
  end.

(** [while current_start < close_hour], on fuel. *)
Fixpoint sequential_manager_shifts (fuel : nat) (current_start close_hour
    min_shift_hours manager_shift_duration : Z) (manager_shifts : list ShiftTemplate)
    : outcome (list ShiftTemplate) :=
  match fuel with
  | O => Diverged
  | S fuel' =>
      if current_start <? close_hour then
        let current_end := Z.min (current_start + manager_shift_duration) close_hour in
        if min_shift_hours <=? current_end - current_start then
          sequential_manager_shifts fuel' current_end close_hour min_shift_hours
            manager_shift_duration
            (manager_shifts ++
               [planned ("Manager Shift " ++ span (hh00 current_start) (hh00 current_end))
                        (hh00 current_start) (hh00 current_end)
                        (current_end - current_start) "manager_shift" manager_only])
        else extend_last close_hour manager_shifts
      else Returned manager_shifts
  end.

(** The validation pass: shifts inside business hours whose [duration] is
    within the bounds. *)
Fixpoint validated_shifts (open_hour close_hour min_shift_hours max_shift_hours : Z)
    (shifts : list ShiftTemplate) : outcome (list ShiftTemplate) :=
  match shifts with
  | [] => Returned []
  | shift :: rest =>
      start_hour <- hour_of (start_time shift) ;;
      end_hour <- hour_of (end_time shift) ;;
      dur <- lift_option "KeyError" (duration shift) ;;
      kept <- validated_shifts open_hour close_hour min_shift_hours max_shift_hours rest ;;
      if (open_hour <=? start_hour) && (end_hour <=? close_hour)
         && (min_shift_hours <=? dur) && (dur <=? max_shift_hours)
      then Returned (shift :: kept)
      else Returned kept
  end.

(** [min] and [max] of a list of strings, in Python's string order. *)
Definition string_min (default : string) (l : list string) : string :=
  match l with
  | [] => default
  | x :: r => fold_left (fun m y => if (y <? m)%string then y else m) r x
  end.

Definition string_max (default : string) (l : list string) : string :=
  match l with
  | [] => default
  | x :: r => fold_left (fun m y => if (m <? y)%string then y else m) r x
  end.

(** "Fix shifts that extend beyond business hours". *)
Fixpoint clip_to_close (close_time : string) (shifts : list ShiftTemplate)
    : outcome (list ShiftTemplate) :=
  match shifts with
  | [] => Returned []
  | shift :: rest =>
      if (close_time <? end_time shift)%string then
        start_hour <- hour_of (start_time shift) ;;
        end_hour <- hour_of close_time ;;
        rest' <- clip_to_close close_time rest ;;
        Returned (mkShift (name shift) (start_time shift) close_time
                          (Some (end_hour - start_hour)) (type shift)
                          (required_roles shift) (preferred_locations shift)
                          (is_active shift) :: rest')
      else
        rest' <- clip_to_close close_time rest ;;
        Returned (shift :: rest')
  end.

Definition emergency_shift (label ty emergency_start emergency_end : string)
    : outcome ShiftTemplate :=
  e <- hour_of emergency_end ;;
  s <- hour_of emergency_start ;;
  Returned (planned (label ++ " " ++ span emergency_start emergency_end)
                    emergency_start emergency_end (e - s) ty manager_and_employee).

(** The branch [if total_hours >= 6]: the coverage shifts, the manager
    shifts when manager coverage is required, the sequential manager shifts. *)
Definition draft_shifts (open_hour close_hour min_shift_hours max_shift_hours : Z)
    (manager_coverage_key : option bool) (r : nat) : outcome (list ShiftTemplate) :=
  let total_hours := close_hour - open_hour in
  drawn <- randint min_shift_hours max_shift_hours r ;;
  needed <- shifts_needed total_hours drawn ;;
  chosen <-
    (if 6 <? needed then
       found <- search_duration total_hours
                  (range min_shift_hours (max_shift_hours + 1)) ;;
       Returned (get found (drawn, needed))
     else Returned (drawn, needed)) ;;
  let optimal_shift_duration := fst chosen in
  let required_shifts := snd chosen in
  let shifts :=
    flat_map (coverage_shift open_hour close_hour min_shift_hours
                max_shift_hours optimal_shift_duration required_shifts)
             (range 0 required_shifts) in
  let require_manager_coverage := get manager_coverage_key true in
  let shifts :=
    if require_manager_coverage
    then shifts ++ manager_coverage_shifts open_hour close_hour
                     min_shift_hours max_shift_hours
    else shifts in
  let manager_shift_duration :=
    Z.min max_shift_hours (Z.max min_shift_hours 6) in
  manager_shifts <-
    (if total_hours <=? manager_shift_duration then
       Returned
         [planned ("Full Day Manager " ++ span (hh00 open_hour) (hh00 close_hour))
                  (hh00 open_hour) (hh00 close_hour) total_hours
                  "full_day_manager" manager_only]
     else
       sequential_manager_shifts (S (Z.to_nat total_hours)) open_hour
         close_hour min_shift_hours manager_shift_duration []) ;;
  Returned (shifts ++ manager_shifts).

(** From "Add full-day manager option" to the [return]: the full-day
    manager shift when it fits, the validation pass, the clipping of shifts
    that end after closing time, the emergency shifts. *)
Definition settle_shifts (open_time close_time : string)
    (open_hour close_hour min_shift_hours max_shift_hours : Z)
    (shifts : list ShiftTemplate) : outcome (list ShiftTemplate) :=
  let total_hours := close_hour - open_hour in
  let shifts :=
    if total_hours <=? max_shift_hours then
      shifts ++ [planned ("Full Day Manager " ++ span open_time close_time)
                         open_time close_time total_hours
                         "full_day_manager" manager_only]
    else shifts in
  shifts <- validated_shifts open_hour close_hour min_shift_hours
              max_shift_hours shifts ;;
  let coverage_start := string_min open_time (map start_time shifts) in
  let coverage_end := string_max close_time (map end_time shifts) in
  shifts <-
    (if (close_time <? coverage_end)%string
     then clip_to_close close_time shifts
     else Returned shifts) ;;
  if (open_time <? coverage_start)%string || (coverage_end <? close_time)%string
  then
    shifts <-
      (if (open_time <? coverage_start)%string then
         e <- emergency_shift "Emergency Opening" "emergency_opening"
                open_time coverage_start ;;
         Returned (e :: shifts)
       else Returned shifts) ;;
    (if (coverage_end <? close_time)%string then
       e <- emergency_shift "Emergency Closing" "emergency_closing"
              coverage_end close_time ;;
       Returned (shifts ++ [e])
     else Returned shifts)
  else Returned shifts.

(** [_create_business_coverage_plan].  [manager_coverage_key] is the value of
    [constraints.get("require_manager_coverage")], [r] the draw behind
    [random.randint].  [min_staff] and [max_staff] are accepted and unused,
    as in the source. *)
Definition _create_business_coverage_plan (operating_hours : list OperatingHours)
    (min_staff max_staff min_shift_hours max_shift_hours : Z)
    (manager_coverage_key : option bool) (r : nat) : outcome (list ShiftTemplate) :=
  match operating_hours with
  | [] => Returned []
  | first_hours :: _ =>
      let open_time := get (open_time first_hours) "09:00"%string in
      let close_time := get (close_time first_hours) "17:00"%string in
      open_hour <- hour_of open_time ;;
      close_hour <- hour_of close_time ;;
      let total_hours := close_hour - open_hour in
      shifts <-
        (if 6 <=? total_hours then
           draft_shifts open_hour close_hour min_shift_hours max_shift_hours
                        manager_coverage_key r
         else
           (* [elif not require_manager_coverage]: the name is bound only in
              the branch above *)
           Raised "UnboundLocalError") ;;
      settle_shifts open_time close_time open_hour close_hour min_shift_hours
                    max_shift_hours shifts
  end.

Definition oh_example (d : DayOfWeek) (opened : bool) (o c : string) (lo hi : Z)
    : OperatingHours :=
  mkOH d (Some opened) (Some o) (Some c) (Some lo) (Some hi).

(** ** Sorting

    [list.sort(key=...)] is stable: an insertion sort that keeps the order of
    equal keys.  [le a b] is "key of [a] <= key of [b]". *)

Section StableSort.
Context {A : Type} (le : A -> A -> bool).

Fixpoint insert_sorted (x : A) (l : list A) : list A :=
  match l with
  | [] => [x]
  | y :: r => if le x y then x :: y :: r else y :: insert_sorted x r
  end.

Definition stable_sort (l : list A) : list A :=
  fold_right insert_sorted [] l.
End StableSort.

(** ** The constraint normaliser ([_ensure_constraint_defaults])

    The function works on a shallow copy of the document: the list object
    under ["operating_hours"] is shared with the caller and is appended to
    and sorted in place.  The store holds the list objects. *)

Definition address : Type := nat.
Definition store : Type := list (list OperatingHours).
Definition ConstraintsRef : Type := Constraints_ address.

Definition read (st : store) (a : address) : list OperatingHours := nth a st [].

Fixpoint write (st : store) (a : address) (l : list OperatingHours) : store :=
  match st, a with
  | [], _ => []
  | _ :: rest, O => l :: rest
  | x :: rest, S a' => x :: write rest a' l
  end.

Definition alloc (st : store) (l : list OperatingHours) : store * address :=
  ((st ++ [l])%list, List.length st).

Definition with_operating_hours {A B : Type} (c : Constraints_ A) (oh : option B)
    : Constraints_ B :=
  mkConstraints (c_name c) oh (shift_templates c) (locations c) (departments c)
    (roles c) (skill_requirements c) (max_consecutive_days c)
    (min_rest_hours_between_shifts c) (max_hours_per_week c)
    (min_consecutive_hours_per_shift c) (max_consecutive_hours_per_shift c)
    (optimization_priority c) (require_manager_coverage c) (c_min_staff c)
    (c_max_staff c) (min_employees_per_day c) (max_employees_per_day c)
    (solver_time_limit c).

Definition with_shift_templates {A : Type} (c : Constraints_ A)
    (ts : list ShiftTemplate) : Constraints_ A :=
  mkConstraints (c_name c) (operating_hours c) (Some ts) (locations c) (departments c)
    (roles c) (skill_requirements c) (max_consecutive_days c)
    (min_rest_hours_between_shifts c) (max_hours_per_week c)
    (min_consecutive_hours_per_shift c) (max_consecutive_hours_per_shift c)
    (optimization_priority c) (require_manager_coverage c) (c_min_staff c)
    (c_max_staff c) (min_employees_per_day c) (max_employees_per_day c)
    (solver_time_limit c).

Definition with_places {A : Type} (c : Constraints_ A)
    (locs depts rls : option (list string)) : Constraints_ A :=
  mkConstraints (c_name c) (operating_hours c) (shift_templates c) locs depts
    rls (skill_requirements c) (max_consecutive_days c)
    (min_rest_hours_between_shifts c) (max_hours_per_week c)
    (min_consecutive_hours_per_shift c) (max_consecutive_hours_per_shift c)
    (optimization_priority c) (require_manager_coverage c) (c_min_staff c)
    (c_max_staff c) (min_employees_per_day c) (max_employees_per_day c)
    (solver_time_limit c).

(** [x if x else default] on a list-valued key. *)
Definition or_default (o : option (list string)) (default : list string)
    : option (list string) :=
  if nonempty (get o []) then o else Some default.

Definition closed_entry (lo hi : Z) (d : DayOfWeek) : OperatingHours :=
  mkOH d (Some false) (Some "09:00"%string) (Some "17:00"%string) (Some lo) (Some hi).

(** The days of [range(7)] that no entry of the list carries. *)
Definition missing_days (ohs : list OperatingHours) : list DayOfWeek :=
  filter (fun d => negb (existsb (fun oh => day_eqb (day_of_week oh) d) ohs)) range7.

Definition sort_by_day (ohs : list OperatingHours) : list OperatingHours :=
  stable_sort (fun a b => day_number (day_of_week a) <=? day_number (day_of_week b)) ohs.

Definition standard_shift : ShiftTemplate :=
  mkShift "Standard Shift" "09:00" "17:00" None None
          (Some [("general"%string, 1)]) (Some []) (Some true).

(** "Generate shift templates from operating hours if none exist", on the
    list read from the object under ["operating_hours"]. *)
Definition template_defaults {A : Type} (r : nat) (ohs : list OperatingHours)
    (enhanced : Constraints_ A) : outcome (Constraints_ A) :=
  let existing_shift_templates := get (shift_templates enhanced) [] in
  if negb (nonempty existing_shift_templates) && nonempty ohs then
    generated_templates <-
      _create_business_coverage_plan ohs
        (get (c_min_staff enhanced) 1) (get (c_max_staff enhanced) 8)
        (get (min_consecutive_hours_per_shift enhanced) 4)
        (get (max_consecutive_hours_per_shift enhanced) 12)
        (require_manager_coverage enhanced) r ;;
    Returned (if nonempty generated_templates
              then with_shift_templates enhanced generated_templates
              else enhanced)
  else if nonempty existing_shift_templates then Returned enhanced
  else Returned (with_shift_templates enhanced [standard_shift]).

(** The first completion: fewer than seven entries are completed with closed
    days and sorted by day. *)
Definition completed_first (ohs : list OperatingHours) : list OperatingHours :=
  if (List.length ohs <? 7)%nat
  then sort_by_day (ohs ++ map (closed_entry 0 0) (missing_days ohs))
  else ohs.

(** The second completion: the days still missing are appended, closed. *)
Definition completed_second (ohs : list OperatingHours) : list OperatingHours :=
  ohs ++ map (closed_entry 1 10) (missing_days ohs).

Definition _ensure_constraint_defaults (r : nat) (st : store)
    (constraints : ConstraintsRef) : outcome (store * ConstraintsRef) :=
  (* enhanced_constraints = constraints.copy() *)
  let enhanced := constraints in
  (* operating_hours = enhanced_constraints.get("operating_hours", []) *)
  let '(st, oh) :=
    match operating_hours enhanced with
    | Some a => (st, a)
    | None => alloc st []
    end in
  (* missing days are appended and the list is sorted: on the list object *)
  let st := write st oh (completed_first (read st oh)) in
  let enhanced := with_operating_hours enhanced (Some oh) in
  enhanced <- template_defaults r (read st oh) enhanced ;;
  let enhanced :=
    with_places enhanced
      (or_default (locations enhanced) ["Main Office"%string])
      (or_default (departments enhanced) ["Operations"%string])
      (or_default (roles enhanced) ["general"%string]) in
  (* operating_hours = enhanced_constraints.get("operating_hours", []) *)
  if nonempty (read st oh) then
    let st := write st oh (completed_second (read st oh)) in
    Returned (st, with_operating_hours enhanced (Some oh))
  else
    let '(st, fresh) := alloc st (map (closed_entry 1 10) range7) in
    Returned (st, with_operating_hours enhanced (Some fresh)).

(** A document by value: the list objects are read from the store. *)
Definition load (st : store) (c : ConstraintsRef) : Constraints :=
  with_operating_hours c (option_map (read st) (operating_hours c)).

(** A document given by value enters a fresh store. *)
Definition enter (c : Constraints) : store * ConstraintsRef :=
  match operating_hours c with
  | Some ohs => ([ohs], with_operating_hours c (Some O))
  | None => ([], with_operating_hours c None)
  end.

(** The value returned by the normaliser. *)
Definition normalized (r : nat) (c : Constraints) : outcome Constraints :=
  let '(st, cref) := enter c in
  out <- _ensure_constraint_defaults r st cref ;;
  Returned (load (fst out) (snd out)).

(** ** Employees *)

Record Availability : Type := mkAvail {
  dayOfWeek : option Z;
  isAvailable : option bool;
  startTime : option string;
  endTime : option string
}.

Record Employee : Type := mkEmployee {
  _id : string;
  isActive : option bool;
  anonymized : option bool;
  role : option string;
  department : option string;
  location : option string;
  skills : option (list string);
  availability : option (list Availability);
  firstName : option string;
  experience_months : option Z;
  hourlyRate : option Z;
  emp_roles : option (list string)
}.

(** A calendar date is its proleptic ordinal ([date.toordinal()]); the text
    [strftime("%Y-%m-%d")] of a date is represented by the same ordinal, the
    order and equality of the texts being those of the ordinals. *)
Definition date : Type := Z.

(** [date.weekday()]: Monday is 0. *)
Definition weekday (d : date) : Z := (d + 6) mod 7.

(** The constraint's day of the week, Sunday is 0. *)
Definition constraint_day (d : date) : Z := (weekday d + 1) mod 7.

Definition mem_string (s : string) (l : list string) : bool :=
  existsb (String.eqb s) l.

(** [all(skill in emp_skills for skill in required_skills)] *)
Definition has_all_skills (emp_skills required : list string) : bool :=
  forallb (fun skill => mem_string skill emp_skills) required.

Definition employee_active (emp : Employee) : bool := get (isActive emp) true.

(** [_check_employee_availability] *)
Definition _check_employee_availability (employee : Employee) (d : date)
    (start_ end_ : string) : bool :=
  let avail := get (availability employee) [] in
  if negb (nonempty avail) then true
  else
    let day_availability :=
      filter (fun av => match dayOfWeek av with
                        | Some n => n =? weekday d
                        | None => false
                        end) avail in
    existsb (fun av =>
      get (isAvailable av) false &&
      (let av_start := get (startTime av) "00:00"%string in
       let av_end := get (endTime av) "23:59"%string in
       (av_start <=? start_)%string && (start_ <=? av_end)%string &&
       (av_start <=? end_)%string && (end_ <=? av_end)%string)) day_availability.

(** [_is_employee_available_on_day] *)
Fixpoint available_on_day (prefs : list Availability) (day : Z) : bool :=
  match prefs with
  | [] => true
  | preference :: rest =>
      match dayOfWeek preference with
      | Some n => if n =? day then get (isAvailable preference) true
                  else available_on_day rest day
      | None => available_on_day rest day
      end
  end.

Definition _is_employee_available_on_day (employee : Employee) (day : Z) : bool :=
  available_on_day (get (availability employee) []) day.

(** ** The employee filter ([_filter_employees_by_constraints]) *)

Definition meets_any_skill_req (emp_skills : list string)
    (constraint_skills : list SkillRequirement) : bool :=
  existsb (fun skill_req =>
    let required := get (required_skills skill_req) [] in
    if nonempty required then has_all_skills emp_skills required else true)
    constraint_skills.

Definition passes_filter {OH : Type} (constraints : Constraints_ OH)
    (employee : Employee) : bool :=
  let constraint_roles := get (roles constraints) [] in
  let constraint_departments := get (departments constraints) [] in
  let constraint_skills := get (skill_requirements constraints) [] in
  if negb (get (isActive employee) true) || get (anonymized employee) false then false
  else if nonempty constraint_roles
          && negb (mem_string (get (role employee) ""%string) constraint_roles)
  then false
  else if nonempty constraint_departments
          && negb (mem_string (get (department employee) ""%string) constraint_departments)
  then false
  else if nonempty constraint_skills
          && negb (meets_any_skill_req (get (skills employee) []) constraint_skills)
  then false
  else true.

Definition _filter_employees_by_constraints {OH : Type} (employees : list Employee)
    (constraints : Constraints_ OH) : list Employee :=
  filter (passes_filter constraints) employees.

(** ** The conflict detector ([detect_scheduling_conflicts]) *)

Record Conflict : Type := mkConflict {
  conflict_type : string;
  conflict_day : option string;
  message : string;
  severity : string;
  affected_area : option string;
  impact : string
}.

(** A suggestion, without its descriptive texts. *)
Record Suggestion : Type := mkSuggestion {
  suggestion_type : string;
  category : string;
  suggestion_day : option string;
  priority : string;
  auto_fixable : bool;
  suggested_number : option Z;
  suggested_days : option (list string)
}.

Record ConflictReport : Type := mkReport {
  conflicts : list Conflict;
  suggestions : list Suggestion;
  conflict_count : Z;
  critical_count : Z;
  warning_count : Z;
  auto_fixable_count : Z;
  manual_suggestions_count : Z;
  can_proceed : bool;
  has_critical_conflicts : bool
}.

Definition len {A : Type} (l : list A) : Z := Z.of_nat (List.length l).

(** [", ".join(names)] *)
Fixpoint join_comma (names : list string) : string :=
  match names with
  | [] => ""
  | [x] => x
  | x :: rest => (x ++ ", " ++ join_comma rest)%string
  end.

Definition is_open_day (oh : OperatingHours) : bool := get (is_open oh) false.

(** What one check of the detector appends: conflicts and suggestions. *)
Definition finding : Type := (list Conflict * list Suggestion)%type.

Definition nothing : finding := ([], []).

(** The two entries recorded for every open day: insufficient staff and an
    inverted staff range. *)
Definition staffing_conflicts (total_employees : Z) (day_hours : OperatingHours)
    : finding :=
  let dn := day_name (day_of_week day_hours) in
  let lo := get (min_staff day_hours) 1 in
  let hi := get (max_staff day_hours) total_employees in
  let insufficient :=
    if total_employees <? lo then
      ([mkConflict "insufficient_staff" (Some dn)
          (dn ++ ": Requires " ++ str_of_Z lo ++ " staff but only "
              ++ str_of_Z total_employees ++ " employees available")
          "critical" (Some (dn ++ " Staffing")%string)
          ("Cannot meet minimum staffing requirement of " ++ str_of_Z lo ++ " employees.")],
       [mkSuggestion "reduce_min_staff" "auto_fix" (Some dn) "high" true
          (Some (Z.min total_employees (Z.max 1 (total_employees - 1)))) None])
    else nothing in
  let inverted :=
    if hi <? lo then
      ([mkConflict "invalid_staff_range" (Some dn)
          (dn ++ ": Minimum staff (" ++ str_of_Z lo ++ ") exceeds maximum staff ("
              ++ str_of_Z hi ++ ")")
          "critical" (Some (dn ++ " Configuration")%string)
          "Impossible constraint configuration prevents schedule generation."],
       [mkSuggestion "fix_staff_range" "auto_fix" (Some dn) "critical" true
          (Some (Z.max lo total_employees)) None])
    else nothing in
  ((fst insufficient ++ fst inverted)%list, (snd insufficient ++ snd inverted)%list).

(** [next((oh for oh in operating_hours if oh["day_of_week"] == day), None)] *)
Definition find_day (ohs : list OperatingHours) (day : Z) : option OperatingHours :=
  find (fun oh => day_number (day_of_week oh) =? day) ohs.

(** The dates from [start_date] to [end_date], both included. *)
Definition date_range (start_date end_date : date) : list date :=
  range start_date (end_date + 1).

Definition severity_is (s : string) (c : Conflict) : bool := String.eqb (severity c) s.

(** "No days are marked as open for business". *)
Definition no_days_finding (open_days : list OperatingHours) : finding :=
  if negb (nonempty open_days) then
    ([mkConflict "no_operating_days" None "No days are marked as open for business"
        "critical" (Some "Business Operations"%string)
        "Schedule generation is impossible without defined operating days."],
     [mkSuggestion "enable_business_days" "auto_fix" None "critical" true None
        (Some ["monday"; "tuesday"; "wednesday"; "thursday"; "friday"]%string)])
  else nothing.

(** Employees available on no open day: reported twice, both as warnings. *)
Definition unavailable_finding (open_days : list OperatingHours)
    (active_employees : list Employee) : finding :=
  let unavailable_employees :=
    if nonempty open_days then
      map (fun emp => get (firstName emp) "Unknown"%string)
        (filter (fun emp =>
           negb (existsb (fun day_hours =>
                   _is_employee_available_on_day emp (day_number (day_of_week day_hours)))
                 open_days)) active_employees)
    else [] in
  if nonempty unavailable_employees then
    let text := (str_of_Z (len unavailable_employees)
                 ++ " employee(s) have no availability during operating days: "
                 ++ join_comma unavailable_employees)%string in
    let reduces := "Reduces the pool of available staff, making it harder to meet scheduling requirements."%string in
    ([mkConflict "employee_availability_issue" None text "warning" None reduces;
      mkConflict "employee_unavailable" None text "warning"
        (Some "Employee Availability"%string) reduces],
     [mkSuggestion "review_employee_availability" "manual" None "medium" false None None;
      mkSuggestion "review_employee_availability" "manual_review" None "medium" false
        None None])
  else nothing.

(** The number of active employees with no open, available date in the range. *)
Definition availability_conflicts (ohs : list OperatingHours)
    (active_employees : list Employee) (dates : list date) : Z :=
  len (filter (fun employee =>
         negb (existsb (fun d =>
                 match find_day ohs (constraint_day d) with
                 | Some day_hours =>
                     is_open_day day_hours
                     && _check_employee_availability employee d "09:00" "17:00"
                 | None => false
                 end) dates)) active_employees).

Definition availability_finding (conflicts_found total_employees : Z) : finding :=
  if 0 <? conflicts_found then
    let critical := conflicts_found =? total_employees in
    ([mkConflict "availability_conflicts" None
        (str_of_Z conflicts_found
         ++ " employee(s) have no availability during operating days")
        (if critical then "critical" else "warning")
        (Some "Employee Availability"%string)
        ("Reduced scheduling flexibility affects " ++ str_of_Z conflicts_found
         ++ " employees.")],
     [if critical
      then mkSuggestion "update_availability" "manual" None "critical" false None None
      else mkSuggestion "review_availability" "manual" None "medium" false None None])
  else nothing.

Definition consecutive_finding (max_consecutive : Z) : finding :=
  if max_consecutive <? 2 then
    ([mkConflict "unrealistic_consecutive_limit" None
        ("Very restrictive consecutive days limit (" ++ str_of_Z max_consecutive
         ++ ") may prevent efficient scheduling")
        "warning" (Some "Work-Life Balance Rules"%string)
        "May result in fragmented schedules and scheduling difficulties."],
     [mkSuggestion "increase_consecutive_limit" "auto_fix" None "low" true (Some 3) None])
  else nothing.

Definition qualifications_finding (active_employees : list Employee) : finding :=
  let available_skills := flat_map (fun e => get (skills e) []) active_employees in
  let available_roles :=
    filter (fun r => negb (String.eqb r ""))
           (flat_map (fun e => match role e with Some r => [r] | None => [] end)
                     active_employees) in
  if negb (nonempty available_skills) && negb (nonempty available_roles) then
    ([mkConflict "no_employee_skills_roles" None
        "No skills or roles defined for employees" "warning"
        (Some "Employee Qualifications"%string)
        "May limit scheduling flexibility and shift assignments."],
     [mkSuggestion "define_employee_qualifications" "manual" None "medium" false
        None None])
  else nothing.

(** The findings of the detector, in the order the source appends them. *)
Definition findings (constraints : Constraints) (employees : list Employee)
    (start_date end_date : date) : list finding :=
  let ohs := get (operating_hours constraints) [] in
  let active_employees := filter employee_active employees in
  let total_employees := len active_employees in
  let open_days := filter is_open_day ohs in
  [no_days_finding open_days; unavailable_finding open_days active_employees]
  ++ map (staffing_conflicts total_employees) open_days
  ++ [availability_finding
        (availability_conflicts ohs active_employees (date_range start_date end_date))
        total_employees;
      consecutive_finding (get (max_consecutive_days constraints) 5);
      qualifications_finding active_employees].

Definition detect_scheduling_conflicts (constraints : Constraints)
    (employees : list Employee) (start_date end_date : date) : ConflictReport :=
  let parts := findings constraints employees start_date end_date in
  let all_conflicts := flat_map fst parts in
  let all_suggestions := flat_map snd parts in
  let critical_conflicts := filter (severity_is "critical") all_conflicts in
  let warning_conflicts := filter (severity_is "warning") all_conflicts in
  mkReport all_conflicts all_suggestions (len all_conflicts) (len critical_conflicts)
    (len warning_conflicts) (len (filter auto_fixable all_suggestions))
    (len (filter (fun s => negb (auto_fixable s)) all_suggestions))
    (len critical_conflicts =? 0) (0 <? len critical_conflicts).

(** ** The automatic resolver ([_resolve_scheduling_conflicts_automatically]) *)

Definition adjust_day (available_employees : Z) (day_hours : OperatingHours)
    : OperatingHours :=
  let current_min := get (min_staff day_hours) 1 in
  let current_max := get (max_staff day_hours) 10 in
  mkOH (day_of_week day_hours) (is_open day_hours) (open_time day_hours)
       (close_time day_hours)
       (if available_employees <? current_min
        then Some (Z.max 1 (available_employees - 1)) else min_staff day_hours)
       (if available_employees <? current_max
        then Some available_employees else max_staff day_hours).

Definition _adjust_staffing_requirements (constraints : Constraints)
    (employees : list Employee) : Constraints :=
  let available_employees := len (filter employee_active employees) in
  match operating_hours constraints with
  | Some ohs =>
      with_operating_hours constraints (Some (map (adjust_day available_employees) ohs))
  | None => constraints
  end.

Definition _adjust_availability_requirements (constraints : Constraints)
    (employees : list Employee) : Constraints :=
  let available_employees :=
    len (filter (fun emp => employee_active emp && nonempty (get (availability emp) []))
                employees) in
  if available_employees =? 0 then constraints
  else _adjust_staffing_requirements constraints employees.

Definition with_shift_hours (c : Constraints) (lo hi : option Z) : Constraints :=
  mkConstraints (c_name c) (operating_hours c) (shift_templates c) (locations c)
    (departments c) (roles c) (skill_requirements c) (max_consecutive_days c)
    (min_rest_hours_between_shifts c) (max_hours_per_week c) lo hi
    (optimization_priority c) (require_manager_coverage c) (c_min_staff c)
    (c_max_staff c) (min_employees_per_day c) (max_employees_per_day c)
    (solver_time_limit c).

Definition _adjust_shift_duration_constraints (constraints : Constraints)
    : outcome Constraints :=
  match get (operating_hours constraints) [] with
  | [] => Returned constraints
  | first_hours :: _ =>
      open_hour <- hour_of (get (open_time first_hours) "09:00"%string) ;;
      close_hour <- hour_of (get (close_time first_hours) "17:00"%string) ;;
      let total_hours := close_hour - open_hour in
      let current_min := get (min_consecutive_hours_per_shift constraints) 4 in
      let current_max := get (max_consecutive_hours_per_shift constraints) 12 in
      Returned (with_shift_hours constraints
        (if total_hours <? current_min then Some (Z.max 1 total_hours)
         else min_consecutive_hours_per_shift constraints)
        (if current_max <? total_hours then Some (Z.min total_hours 12)
         else max_consecutive_hours_per_shift constraints))
  end.

Definition is_manager (emp : Employee) : bool :=
  match role emp with
  | Some r => String.eqb r "manager" || String.eqb r "administrator"
  | None => false
  end.

Definition promote (emp : Employee) : Employee :=
  mkEmployee (_id emp) (isActive emp) (anonymized emp) (Some "manager"%string)
    (department emp) (location emp) (skills emp) (availability emp) (firstName emp)
    (experience_months emp) (hourlyRate emp) (emp_roles emp).

(** [_ensure_manager_coverage] leaves the constraints alone and rewrites the
    employee records in place: with no manager on the roster, every employee
    of more than twelve months becomes one. *)
Definition _ensure_manager_coverage (employees : list Employee) : list Employee :=
  if nonempty (filter is_manager employees) then employees
  else map (fun emp => if 12 <? get (experience_months emp) 0 then promote emp else emp)
           employees.

Fixpoint _resolve_scheduling_conflicts_automatically (constraints : Constraints)
    (employees : list Employee) (found : list Conflict)
    : outcome (Constraints * list Employee) :=
  match found with
  | [] => Returned (constraints, employees)
  | conflict :: rest =>
      let ty := conflict_type conflict in
      if String.eqb ty "insufficient_staff" then
        _resolve_scheduling_conflicts_automatically
          (_adjust_staffing_requirements constraints employees) employees rest
      else if String.eqb ty "no_availability" then
        _resolve_scheduling_conflicts_automatically
          (_adjust_availability_requirements constraints employees) employees rest
      else if String.eqb ty "shift_duration_conflict" then
        adjusted <- _adjust_shift_duration_constraints constraints ;;
        _resolve_scheduling_conflicts_automatically adjusted employees rest
      else if String.eqb ty "manager_coverage_gap" then
        _resolve_scheduling_conflicts_automatically constraints
          (_ensure_manager_coverage employees) rest
      else _resolve_scheduling_conflicts_automatically constraints employees rest
  end.

(** ** [validate_constraints] *)

Definition missing_fields (idx : Z) (oh : OperatingHours) : list string :=
  let missing (present : bool) (field : string) :=
    if present then []
    else [("Operating hours entry " ++ str_of_Z idx ++ " missing " ++ field)%string] in
  (missing (present (min_staff oh)) "min_staff"%string
   ++ missing (present (max_staff oh)) "max_staff"%string
   ++ missing (present (is_open oh)) "is_open"%string
   ++ (if get (max_staff oh) 0 <? get (min_staff oh) 0
       then [("Day " ++ str_of_Z idx ++ " has min_staff > max_staff")%string]
       else []))%list.

Fixpoint enumerate_from {A : Type} (i : Z) (l : list A) : list (Z * A) :=
  match l with
  | [] => []
  | x :: r => (i, x) :: enumerate_from (i + 1) r
  end.

Definition validate_constraints (constraints : Constraints) : list string :=
  let ohs := get (operating_hours constraints) [] in
  let hours_errors :=
    if negb (nonempty ohs) || negb (len ohs =? 7) then
      ["Operating hours must be defined for all 7 days of the week"%string]
    else
      ((if nonempty (missing_days ohs)
        then ["Operating hours must contain exactly one entry for each day (0-6)"%string]
        else [])
       ++ flat_map (fun p => missing_fields (fst p) (snd p)) (enumerate_from 0 ohs)
       ++ (if nonempty (filter is_open_day ohs) then []
           else ["At least one day must be open for operations"%string]))%list in
  (hours_errors ++
   (if get (max_employees_per_day constraints) 10 <? get (min_employees_per_day constraints) 1
    then ["Minimum employees per day cannot exceed maximum employees per day"%string]
    else []))%list.

(** ** [_relax_constraints] *)

Definition relax_day (oh : OperatingHours) : OperatingHours :=
  mkOH (day_of_week oh) (is_open oh) (open_time oh) (close_time oh)
       (match min_staff oh with
        | Some lo => if 1 <? lo then Some (lo - 1) else Some lo
        | None => None
        end)
       (max_staff oh).

Definition _relax_constraints (c : Constraints) : Constraints :=
  mkConstraints (c_name c)
    (Some (map relax_day (get (operating_hours c) [])))
    (shift_templates c) (locations c) (departments c) (roles c)
    (skill_requirements c)
    (Some (Z.min 7 (get (max_consecutive_days c) 6 + 1)))
    (Some (Z.max 8 (get (min_rest_hours_between_shifts c) 8 - 2)))
    (Some (get (max_hours_per_week c) (40 # 1) + (8 # 1))%Q)
    (min_consecutive_hours_per_shift c) (max_consecutive_hours_per_shift c)
    (optimization_priority c) (require_manager_coverage c) (c_min_staff c)
    (c_max_staff c)
    (Some (Z.max 1 (get (min_employees_per_day c) 1 - 1)))
    (Some (get (max_employees_per_day c) 10 + 2))
    (Some (Z.min 60 (get (solver_time_limit c) 30 * 2))).

(** ** Assignments and the per-run ledger *)

Record Assignment : Type := mkAssignment {
  employeeId : string;
  a_date : date;
  a_startTime : string;
  a_endTime : string;
  a_location : string;
  a_role : string;
  a_department : string;
  status : string;
  notes : string
}.

(** The four dictionaries [employee_shift_count], [employee_consecutive_days],
    [employee_last_work_day] and [employee_weekly_hours], keyed by employee
    identifier. *)
Record Ledger : Type := mkLedger {
  shift_count : Z;
  consecutive_days : Z;
  last_work_day : option date;
  weekly_hours : Q
}.

Definition ledgers : Type := list (string * Ledger).

Definition empty_ledger : Ledger := mkLedger 0 0 None 0%Q.

Fixpoint ledger_of (book : ledgers) (emp_id : string) : Ledger :=
  match book with
  | [] => empty_ledger
  | (k, v) :: rest => if String.eqb k emp_id then v else ledger_of rest emp_id
  end.

Fixpoint set_ledger (book : ledgers) (emp_id : string) (v : Ledger) : ledgers :=
  match book with
  | [] => [(emp_id, v)]
  | (k, old) :: rest =>
      if String.eqb k emp_id then (k, v) :: rest
      else (k, old) :: set_ledger rest emp_id v
  end.

Definition initial_ledgers (employees : list Employee) : ledgers :=
  fold_left (fun book emp => set_ledger book (_id emp) empty_ledger) employees [].

(** Equality of employee records ([==] on the dictionaries). *)
Definition option_eq_dec' {A : Type} (dec : forall x y : A, {x = y} + {x <> y})
    (a b : option A) : {a = b} + {a <> b}.
Proof. decide equality. Defined.

Definition Availability_eq_dec (a b : Availability) : {a = b} + {a <> b}.
Proof.
  decide equality;
    try (apply (option_eq_dec' string_dec) || apply (option_eq_dec' Z.eq_dec)
         || apply (option_eq_dec' bool_dec)).
Defined.

Definition Employee_eq_dec (a b : Employee) : {a = b} + {a <> b}.
Proof.
  decide equality;
    try (apply (option_eq_dec' (list_eq_dec string_dec))
         || apply (option_eq_dec' (list_eq_dec Availability_eq_dec))
         || apply (option_eq_dec' string_dec) || apply (option_eq_dec' Z.eq_dec)
         || apply (option_eq_dec' bool_dec) || apply string_dec).
Defined.

Definition same_employee (a b : Employee) : bool :=
  if Employee_eq_dec a b then true else false.

(** [emp in l] *)
Definition mem_employee (emp : Employee) (l : list Employee) : bool :=
  existsb (same_employee emp) l.

(** [l.remove(emp)]: the first equal element goes. *)
Fixpoint remove_first (emp : Employee) (l : list Employee) : list Employee :=
  match l with
  | [] => []
  | x :: rest => if same_employee emp x then rest else x :: remove_first emp rest
  end.

(** ** The fallback scheduler ([_basic_random_schedule]) *)

Definition lex (c rest : comparison) : comparison :=
  match c with
  | Eq => rest
  | _ => c
  end.

Definition not_gt (c : comparison) : bool :=
  match c with
  | Gt => false
  | _ => true
  end.

Definition emp_ledger (book : ledgers) (emp : Employee) : Ledger :=
  ledger_of book (_id emp).

(** The sort of the day's available employees by [optimization_priority]. *)
Definition sort_by_priority (optimization_priority : string) (book : ledgers)
    (available_employees : list Employee) : list Employee :=
  let count e := shift_count (emp_ledger book e) in
  if String.eqb optimization_priority "fairness" then
    stable_sort (fun a b => count a <=? count b) available_employees
  else if String.eqb optimization_priority "minimize_cost" then
    stable_sort (fun a b => get (hourlyRate a) 0 <=? get (hourlyRate b) 0)
                available_employees
  else if String.eqb optimization_priority "maximize_coverage" then
    let breadth e := len (get (skills e) []) + len (get (emp_roles e) []) in
    stable_sort (fun a b => breadth b <=? breadth a) available_employees
  else
    stable_sort (fun a b =>
      not_gt (lex (count a ?= count b)
             (lex (- len (get (availability a) []) ?= - len (get (availability b) []))
                  (get (experience_months a) 0 ?= get (experience_months b) 0))))
      available_employees.

(** The three workload keys shared by the manager sort and the candidate sort. *)
Definition workload_order (book : ledgers) (a b : Employee) : comparison :=
  let la := emp_ledger book a in
  let lb := emp_ledger book b in
  lex (shift_count la ?= shift_count lb)
      (lex (weekly_hours la ?= weekly_hours lb)%Q
           (consecutive_days la ?= consecutive_days lb)).

(** The constraint filter of the day: consecutive days, rest, weekly hours. *)
Definition within_limits (book : ledgers) (current_date : date)
    (max_consecutive_days min_rest_hours : Z) (max_hours_per_week : Q)
    (emp : Employee) : bool :=
  let l := emp_ledger book emp in
  if max_consecutive_days <=? consecutive_days l then false
  else if match last_work_day l with
          | Some last => current_date - last <? min_rest_hours / 24
          | None => false
          end then false
  else if Qle_bool max_hours_per_week (weekly_hours l) then false
  else true.

(** The day's pool: managers first, then the others.  The [else] that takes
    "all employees" as managers belongs to [if not managers]. *)
Definition manager_first_pool (book : ledgers) (min_staff : Z)
    (available_employees filtered_employees : list Employee) : list Employee :=
  let filtered_employees :=
    if len filtered_employees <? min_staff then available_employees
    else filtered_employees in
  let managers := filter is_manager filtered_employees in
  let other_employees := filter (fun e => negb (is_manager e)) filtered_employees in
  let managers :=
    if negb (nonempty managers) then
      let all_managers := filter is_manager available_employees in
      if nonempty all_managers then all_managers else managers
    else available_employees in
  let other_employees :=
    if len (managers ++ other_employees) <? min_staff then
      let remaining_employees :=
        filter (fun e => negb (mem_employee e (managers ++ other_employees)))
               available_employees in
      other_employees
        ++ firstn (Z.to_nat (min_staff - len (managers ++ other_employees)))
                  remaining_employees
    else other_employees in
  stable_sort (fun a b => not_gt (workload_order book a b)) managers ++ other_employees.

(** The templates built inside the day loop when the planner gave none. *)
Definition professional_templates (first_hours : OperatingHours)
    (locs : list string) : outcome (list ShiftTemplate) :=
  let open_time := get (open_time first_hours) "09:00"%string in
  let close_time := get (close_time first_hours) "17:00"%string in
  open_hour <- hour_of open_time ;;
  close_hour <- hour_of close_time ;;
  let total_hours := close_hour - open_hour in
  let shift nm s e needs :=
    mkShift nm s e None None (Some needs) (Some locs) (Some true) in
  if total_hours <=? 4 then
    Returned [shift ("Full Day Shift " ++ span open_time close_time)%string
                    open_time close_time manager_and_employee]
  else
    let mid_time := hh00 (open_hour + total_hours / 2) in
    Returned [shift ("Opening Shift " ++ span open_time mid_time)%string
                    open_time mid_time manager_and_employee;
              shift ("Closing Shift " ++ span mid_time close_time)%string
                    mid_time close_time manager_and_employee;
              shift ("Full Day Manager " ++ span open_time close_time)%string
                    open_time close_time manager_only].

(** The role list of a template, one entry per position. *)
Definition position_roles (shift_roles : list (string * Z)) : list string :=
  match flat_map (fun rc => repeat (fst rc) (Z.to_nat (snd rc))) shift_roles with
  | [] => ["general"%string]
  | l => l
  end.

Definition has_role (role_to_fill : string) (emp : Employee) : bool :=
  String.eqb (get (role emp) "general"%string) role_to_fill.

(** "Try skill-based matching": the first requirement for the role with a
    non-empty set of qualified employees. *)
Fixpoint skill_candidates (reqs : list SkillRequirement) (role_to_fill : string)
    (available_employees : list Employee) : list Employee :=
  match reqs with
  | [] => []
  | skill_req :: rest =>
      let for_role := match sr_role skill_req with
                      | Some r => String.eqb r role_to_fill
                      | None => false
                      end in
      let skill_cands :=
        filter (fun emp => has_all_skills (get (skills emp) [])
                                          (get (required_skills skill_req) []))
               available_employees in
      if for_role && nonempty skill_cands then skill_cands
      else skill_candidates rest role_to_fill available_employees
  end.

(** [shift_count * 2 + weekly_hours * 0.5 + consecutive_days * 1.5] *)
Definition fairness_score (book : ledgers) (emp : Employee) : Q :=
  let l := emp_ledger book emp in
  (inject_Z (shift_count l) * 2 + weekly_hours l * (1 # 2)
   + inject_Z (consecutive_days l) * (3 # 2))%Q.

Record Run : Type := mkRun {
  schedules : list Assignment;
  book : ledgers;
  rnd : oracle
}.

(** One turn of the assignment loop of a day: the employee and role chosen
    for [template], the new entry, the updated pool and ledger. *)
Definition assign_one (constraints : Constraints) (current_date : date)
    (template : ShiftTemplate) (scheduled_today : Z)
    (available_employees : list Employee) (run : Run)
    : outcome (list Employee * Run) :=
  let skill_reqs := get (skill_requirements constraints) [] in
  let roles_of_shift := position_roles (get (required_roles template)
                                            [("general"%string, 1)]) in
  let role_to_fill :=
    nth (Z.to_nat (scheduled_today mod len roles_of_shift)) roles_of_shift
        "general"%string in
  let role_candidates := filter (has_role role_to_fill) available_employees in
  let role_candidates :=
    if String.eqb role_to_fill "manager" && negb (nonempty role_candidates) then
      let manager_candidates := filter is_manager available_employees in
      if nonempty manager_candidates then manager_candidates else role_candidates
    else role_candidates in
  let role_candidates :=
    if negb (nonempty role_candidates) && negb (String.eqb role_to_fill "general") then
      skill_candidates skill_reqs role_to_fill available_employees
    else role_candidates in
  let '(role_candidates, role_to_fill) :=
    if negb (nonempty role_candidates) then (available_employees, "general"%string)
    else (role_candidates, role_to_fill) in
  let the_book := book run in
  let role_candidates :=
    stable_sort (fun a b =>
      not_gt (lex (workload_order the_book a b)
                  (- get (experience_months a) 0 ?= - get (experience_months b) 0)))
      role_candidates in
  let three_days_ago := current_date - 3 in
  let recent_shift_assignments :=
    map employeeId
        (filter (fun s => (three_days_ago <=? a_date s)
                          && String.eqb (a_role s) role_to_fill)
                (schedules run)) in
  let role_candidates :=
    if nonempty recent_shift_assignments && (2 <? len role_candidates) then
      let recent_employees := nodup string_dec recent_shift_assignments in
      if len recent_employees <? len role_candidates then
        filter (fun emp => negb (mem_string (_id emp) recent_employees)) role_candidates
      else role_candidates
    else role_candidates in
  let role_candidates :=
    if negb (nonempty role_candidates) then
      let same_role := filter (has_role role_to_fill) available_employees in
      if nonempty same_role then same_role else available_employees
    else role_candidates in
  (* the employee: a weighted draw among the fairer half, or the only one *)
  picked <-
    (match role_candidates with
     | [] => Raised "IndexError"
     | [only] => Returned (only, rnd run)
     | first :: _ =>
         (* [today_assigned_managers] is always empty: it compares the text
            of a date with a [datetime] *)
         let ranked :=
           stable_sort (fun a b => Qle_bool (fairness_score the_book a)
                                            (fairness_score the_book b))
                       role_candidates in
         let top_count := Nat.max 1 (List.length ranked / 2) in
         let '(r, rest) := draw (rnd run) in
         Returned (nth (r mod top_count) (firstn top_count ranked) first, rest)
     end) ;;
  let '(assigned_employee, rnd1) := picked in
  let constraint_locations := get (locations constraints) ["Main Office"%string] in
  let constraint_departments := get (departments constraints) ["Operations"%string] in
  located <-
    (let loc := get (location assigned_employee) ""%string in
     if String.eqb loc "" && nonempty constraint_locations then
       let '(r, rest) := draw rnd1 in
       l <- choice constraint_locations r ;; Returned (l, rest)
     else Returned (loc, rnd1)) ;;
  let '(assigned_location, rnd2) := located in
  placed <-
    (let dept := get (department assigned_employee) ""%string in
     if mem_string dept constraint_departments then Returned (dept, rnd2)
     else
       let '(r, rest) := draw rnd2 in
       d <- choice constraint_departments r ;; Returned (d, rest)) ;;
  let '(assigned_department, rnd3) := placed in
  let emp_id := _id assigned_employee in
  let schedule_entry :=
    mkAssignment emp_id current_date (start_time template) (end_time template)
      assigned_location role_to_fill assigned_department "scheduled"
      ("Constraint-enforcing fallback scheduler ("
       ++ nth (Z.to_nat (constraint_day current_date)) (map day_name range7) ""
       ++ ")")%string in
  let l := ledger_of the_book emp_id in
  let shift_duration :=
    calculate_shift_hours (PyStr (start_time template)) (PyStr (end_time template)) in
  let streak :=
    match last_work_day l with
    | Some last => if last =? current_date - 1 then consecutive_days l + 1 else 1
    | None => 1
    end in
  Returned (remove_first assigned_employee available_employees,
            mkRun (schedules run ++ [schedule_entry])
                  (set_ledger the_book emp_id
                     (mkLedger (shift_count l + 1) streak (Some current_date)
                               (weekly_hours l + shift_duration)%Q))
                  rnd3).

(** [while scheduled_today < employees_to_schedule and available_employees],
    [togo] being the turns left before the count is reached. *)
Fixpoint assign_day (constraints : Constraints) (current_date : date)
    (shift_templates : list ShiftTemplate) (togo : nat)
    (scheduled_today template_idx : Z) (available_employees : list Employee)
    (run : Run) : outcome Run :=
  match togo with
  | O => Returned run
  | S togo' =>
      if nonempty available_employees then
        let template_count := Z.max 1 (len shift_templates) in
        template <- lift_option "IndexError"
                      (nth_error shift_templates
                                 (Z.to_nat (template_idx mod template_count))) ;;
        next <- assign_one constraints current_date template scheduled_today
                  available_employees run ;;
        assign_day constraints current_date shift_templates togo'
                   (scheduled_today + 1) (template_idx + 1) (fst next) (snd next)
      else Returned run
  end.

(** "Validate manager coverage for the day": output only, but the hours are
    parsed. *)
Definition manager_coverage_report (constraints : Constraints)
    (day_hours : OperatingHours) (current_date : date) (made : list Assignment)
    : outcome unit :=
  let manager_schedules :=
    filter (fun s => (a_date s =? current_date)
                     && (String.eqb (a_role s) "manager"
                         || String.eqb (a_role s) "administrator")) made in
  if nonempty manager_schedules
     && get (require_manager_coverage constraints) true
     && is_open_day day_hours
  then
    _ <- (fix parse (l : list Assignment) : outcome unit :=
            match l with
            | [] => Returned tt
            | ms :: rest =>
                _ <- hour_of (a_startTime ms) ;;
                _ <- hour_of (a_endTime ms) ;;
                parse rest
            end) manager_schedules ;;
    _ <- hour_of (get (open_time day_hours) "09:00"%string) ;;
    _ <- hour_of (get (close_time day_hours) "17:00"%string) ;;
    Returned tt
  else Returned tt.

(** The body of [while current_date <= end_date] for one date.
    [first_min_staff] is [min_staff], read from the first operating-hours
    entry before the loop. *)
Definition schedule_day (employees : list Employee) (constraints : Constraints)
    (first_min_staff : Z) (current_date : date)
    (state : list ShiftTemplate * Run) : outcome (list ShiftTemplate * Run) :=
  let '(shift_templates, run) := state in
  let ohs := get (operating_hours constraints) [] in
  match find_day ohs (constraint_day current_date) with
  | None => Returned state
  | Some day_hours =>
      let min_staff_today := get (min_staff day_hours) 1 in
      let max_staff_today := get (max_staff day_hours) 10 in
      if negb (is_open_day day_hours) then Returned state
      else if min_staff_today <=? 0 then Returned state
      else
        let available_employees :=
          filter (fun emp => employee_active emp
                             && _check_employee_availability emp current_date
                                  "09:00" "17:00") employees in
        let employees_to_schedule :=
          if len available_employees <? min_staff_today then len available_employees
          else Z.min max_staff_today (Z.max min_staff_today (len available_employees)) in
        if employees_to_schedule <=? 0 then Returned state
        else
          let available_employees :=
            sort_by_priority
              (get (optimization_priority constraints) "balance_staffing"%string)
              (book run) available_employees in
          let filtered_employees :=
            filter (within_limits (book run) current_date
                      (get (max_consecutive_days constraints) 6)
                      (get (min_rest_hours_between_shifts constraints) 8)
                      (get (max_hours_per_week constraints) (40 # 1)))
                   available_employees in
          let available_employees :=
            manager_first_pool (book run) first_min_staff available_employees
                               filtered_employees in
          shift_templates <-
            (if nonempty shift_templates then Returned shift_templates
             else match ohs with
                  | [] => Returned []
                  | first_hours :: _ =>
                      professional_templates first_hours
                        (get (locations constraints) ["Main Office"%string])
                  end) ;;
          run <- assign_day constraints current_date shift_templates
                   (Z.to_nat employees_to_schedule) 0 0 available_employees run ;;
          _ <- manager_coverage_report constraints day_hours current_date
                 (schedules run) ;;
          Returned (shift_templates, run)
  end.

Fixpoint schedule_days (employees : list Employee) (constraints : Constraints)
    (first_min_staff : Z) (dates : list date) (state : list ShiftTemplate * Run)
    : outcome (list ShiftTemplate * Run) :=
  match dates with
  | [] => Returned state
  | current_date :: later =>
      state' <- schedule_day employees constraints first_min_staff current_date state ;;
      schedule_days employees constraints first_min_staff later state'
  end.

Definition _basic_random_schedule (employees : list Employee)
    (constraints : Constraints) (start_date end_date : date) (rnd : oracle)
    : outcome (list Assignment) :=
  match get (operating_hours constraints) [] with
  | [] => Returned []
  | first_hours :: _ =>
      let ohs := get (operating_hours constraints) [] in
      let '(r, rnd) := draw rnd in
      shift_templates <-
        _create_business_coverage_plan ohs
          (get (min_staff first_hours) 1) (get (max_staff first_hours) 10)
          (get (min_consecutive_hours_per_shift constraints) 4)
          (get (max_consecutive_hours_per_shift constraints) 12)
          (require_manager_coverage constraints) r ;;
      final <- schedule_days employees constraints (get (min_staff first_hours) 1)
                 (date_range start_date end_date)
                 (shift_templates, mkRun [] (initial_ledgers employees) rnd) ;;
      Returned (schedules (snd final))
  end.

(** ** The optimising scheduler ([_advanced_ortools_schedule])

    The CP-SAT solver is outside the repository.  Its answer is a parameter:
    an exception, a status other than optimal or feasible, or the values of
    the decision variables [(emp_idx, date_idx, shift_idx)] with the text of
    the objective value. *)

Inductive SolverAnswer : Type :=
| SolverRaised (exn : string)
| NoSolution
| Solution (value : nat -> nat -> nat -> bool) (objective : string).

Definition Solver : Type :=
  list Employee -> Constraints -> list date -> SolverAnswer.

(** Constraint 5 of the model, "maximum one shift per employee per day", over
    the decision variables of [n] shift templates. *)
Definition one_shift_per_day (value : nat -> nat -> nat -> bool) (n : nat) : Prop :=
  forall e d i j, (i < n)%nat -> (j < n)%nat ->
    value e d i = true -> value e d j = true -> i = j.

(** The sort key [(date, startTime, endTime, schedule.get("employeeName", ""))]:
    no entry carries ["employeeName"], the last component is always [""]. *)
Definition sort_key_order (a b : Assignment) : comparison :=
  lex (a_date a ?= a_date b)
      (lex (a_startTime a ?= a_startTime b)%string
           (lex (a_endTime a ?= a_endTime b)%string
                (String.compare "" ""))).

Definition sort_schedules (l : list Assignment) : list Assignment :=
  stable_sort (fun a b => not_gt (sort_key_order a b)) l.

Definition template_type_is (ty : string) (t : ShiftTemplate) : bool :=
  match type t with
  | Some x => String.eqb x ty
  | None => false
  end.

(** The templates the schedule is read back against: those within the
    duration bounds (or one default shift), then the fallback manager shifts
    for the missing types. *)
Definition templates_for_readback (constraints : Constraints) : list ShiftTemplate :=
  let lo := get (min_consecutive_hours_per_shift constraints) 4 in
  let hi := get (max_consecutive_hours_per_shift constraints) 12 in
  let valid_shift_templates :=
    filter (fun t =>
      let shift_hours :=
        calculate_shift_hours (PyStr (start_time t)) (PyStr (end_time t)) in
      template_type_is "full_day_manager" t
      || (Qle_bool (inject_Z lo) shift_hours && Qle_bool shift_hours (inject_Z hi)))
      (get (shift_templates constraints) []) in
  let valid_shift_templates :=
    if nonempty valid_shift_templates then valid_shift_templates
    else
      let target_hours := (lo + hi) / 2 in
      [mkShift ("Standard " ++ str_of_Z target_hours ++ "h Shift") (hh00 9)
               (hh00 (9 + target_hours)) None None (Some [("general"%string, 1)])
               (Some (get (locations constraints) ["Main Location"%string]))
               (Some true)] in
  let first_open_close :=
    match get (operating_hours constraints) [] with
    | [] => ("09:00"%string, "17:00"%string)
    | first_hours :: _ => (get (open_time first_hours) "09:00"%string,
                           get (close_time first_hours) "17:00"%string)
    end in
  let fallback_open_time := fst first_open_close in
  let fallback_close_time := snd first_open_close in
  let missing ty := negb (existsb (template_type_is ty) valid_shift_templates) in
  let manager nm s e ty :=
    mkShift nm s e None (Some ty) (Some manager_only) None (Some true) in
  valid_shift_templates
  ++ (if missing "opening_manager"%string
      then [manager ("Opening Manager " ++ span fallback_open_time "13:00")%string
                    fallback_open_time "13:00"%string "opening_manager"%string]
      else [])
  ++ (if missing "closing_manager"%string
      then [manager ("Closing Manager " ++ span "13:00" fallback_close_time)%string
                    "13:00"%string fallback_close_time "closing_manager"%string]
      else [])
  ++ (if missing "full_day_manager"%string
      then [manager ("Full Day Manager " ++ span fallback_open_time fallback_close_time)%string
                    fallback_open_time fallback_close_time "full_day_manager"%string]
      else []).

(** The role written on an optimiser assignment. *)
Definition readback_role (constraints : Constraints) (employee : Employee)
    (template : ShiftTemplate) : string :=
  let emp_role := get (role employee) "general"%string in
  let shift_required_roles :=
    map fst (get (required_roles template) [("general"%string, 1)]) in
  if mem_string emp_role shift_required_roles then emp_role
  else
    let by_skill :=
      find (fun skill_req =>
              mem_string (get (sr_role skill_req) ""%string) shift_required_roles
              && has_all_skills (get (skills employee) [])
                                (get (required_skills skill_req) []))
           (get (skill_requirements constraints) []) in
    let assigned_role :=
      match by_skill with
      | Some skill_req => get (sr_role skill_req) ""%string
      | None => "general"%string
      end in
    if String.eqb assigned_role "general" then
      match shift_required_roles with
      | [] => assigned_role
      | first :: _ => first
      end
    else assigned_role.

Fixpoint enumerate_nat {A : Type} (i : nat) (l : list A) : list (nat * A) :=
  match l with
  | [] => []
  | x :: r => (i, x) :: enumerate_nat (S i) r
  end.

(** The innermost read-back loop for one employee and one date, over the
    templates numbered from [k]: the triples whose decision variable exists
    ([shift_key in shifts]) and is true. *)
Definition picked (value : nat -> nat -> nat -> bool) (variables : nat)
    (e : nat * Employee) (d : nat * date) (k : nat) (templates : list ShiftTemplate)
    : list (Employee * date * ShiftTemplate) :=
  flat_map (fun t =>
    if (fst t <? variables)%nat && value (fst e) (fst d) (fst t)
    then [(snd e, snd d, snd t)] else [])
    (enumerate_nat k templates).

(** The triples of the three read-back loops, in loop order. *)
Definition chosen_triples (value : nat -> nat -> nat -> bool) (variables : nat)
    (employees : list Employee) (dates : list date) (templates : list ShiftTemplate)
    : list (Employee * date * ShiftTemplate) :=
  flat_map (fun e =>
    flat_map (fun d => picked value variables e d 0 templates)
      (enumerate_nat 0 dates))
    (enumerate_nat 0 employees).

Fixpoint read_back (constraints : Constraints) (objective : string)
    (triples : list (Employee * date * ShiftTemplate)) (rnd : oracle)
    : outcome (list Assignment) :=
  match triples with
  | [] => Returned []
  | (employee, d, template) :: rest =>
      let constraint_locations := get (locations constraints) ["Main Location"%string] in
      let constraint_departments := get (departments constraints) ["General"%string] in
      located <-
        (let loc := get (location employee) ""%string in
         if String.eqb loc "" && nonempty constraint_locations then
           let '(r, rnd') := draw rnd in
           l <- choice constraint_locations r ;; Returned (l, rnd')
         else Returned (loc, rnd)) ;;
      placed <-
        (let dept := get (department employee) ""%string in
         if mem_string dept constraint_departments then Returned (dept, snd located)
         else
           let '(r, rnd') := draw (snd located) in
           dp <- choice constraint_departments r ;; Returned (dp, rnd')) ;;
      others <- read_back constraints objective rest (snd placed) ;;
      Returned (mkAssignment (_id employee) d (start_time template) (end_time template)
                  (fst located) (readback_role constraints employee template)
                  (fst placed) "scheduled"
                  ("OR-Tools optimized with role enforcement (fairness score: "
                   ++ objective ++ ")")%string
                :: others)
  end.

Definition _advanced_ortools_schedule (solver : Solver) (employees : list Employee)
    (constraints : Constraints) (start_date end_date : date) (rnd : oracle)
    : outcome (list Assignment) :=
  let dates := date_range start_date end_date in
  match solver employees constraints dates with
  | SolverRaised exn => Raised exn
  | NoSolution => Returned []
  | Solution value objective =>
      made <- read_back constraints objective
                (chosen_triples value
                   (List.length (get (shift_templates constraints) []))
                   employees dates (templates_for_readback constraints))
                rnd ;;
      Returned (sort_schedules made)
  end.

(** ** [generate_schedule]

    What the call reads besides its arguments: whether the solver library
    could be imported ([_ORTOOLS_AVAILABLE]), the solver, the clock readings
    of the circuit breaker, and the random draws of each stage. *)

Record Environment : Type := mkEnv {
  ortools_available : bool;
  solver : Solver;
  gate_clock : Q;
  failure_clock : Q;
  normalizer_draw : nat;
  optimizer_draws : oracle;
  relaxed_draws : oracle;
  fallback_draws : oracle
}.

Inductive Strategy : Type := Optimizer | Fallback.

(** The outcome of the call, the module-level circuit breaker after it, and
    the scheduling strategies it invoked, in order. *)
Record Generation : Type := mkGeneration {
  returned : outcome (list Assignment);
  breaker : CircuitBreaker.t;
  invoked : list Strategy
}.

(** The [except Exception] handler of the optimiser attempt. *)
Definition after_optimizer_failure (env : Environment) (cb : CircuitBreaker.t)
    (employees : list Employee) (enhanced : Constraints) (start_date end_date : date)
    (tried : list Strategy) : Generation :=
  let cb := CircuitBreaker.record_failure (failure_clock env) cb in
  mkGeneration
    (match _basic_random_schedule employees enhanced start_date end_date
             (fallback_draws env) with
     | Returned made => Returned (sort_schedules made)
     | Raised _ => Returned []
     | Diverged => Diverged
     end)
    cb (tried ++ [Fallback]).

(** The detection and automatic resolution step of [generate_schedule]: the
    resolver runs when the detector counts a conflict. *)
Definition resolution (enhanced : Constraints) (employees : list Employee)
    (start_date end_date : date) : outcome (Constraints * list Employee) :=
  let conflict_analysis :=
    detect_scheduling_conflicts enhanced employees start_date end_date in
  if 0 <? conflict_count conflict_analysis
  then _resolve_scheduling_conflicts_automatically enhanced employees
         (conflicts conflict_analysis)
  else Returned (enhanced, employees).

(** The [try] block: the optimiser, once more on relaxed constraints, and
    the handler.  The compliance validation that follows a success sits in
    its own [try]/[except], returns a report that is only printed, and leaves
    the schedules alone. *)
Definition optimizer_attempt (env : Environment) (cb : CircuitBreaker.t)
    (employees : list Employee) (enhanced : Constraints) (start_date end_date : date)
    : Generation :=
  match _advanced_ortools_schedule (solver env) employees enhanced start_date
          end_date (optimizer_draws env) with
  | Diverged => mkGeneration Diverged cb [Optimizer]
  | Raised _ =>
      after_optimizer_failure env cb employees enhanced start_date end_date [Optimizer]
  | Returned (first :: more) =>
      mkGeneration (Returned (first :: more)) (CircuitBreaker.record_success cb)
                   [Optimizer]
  | Returned [] =>
      match _advanced_ortools_schedule (solver env) employees
              (_relax_constraints enhanced) start_date end_date (relaxed_draws env) with
      | Diverged => mkGeneration Diverged cb [Optimizer; Optimizer]
      | Returned (first :: more) =>
          mkGeneration (Returned (first :: more)) (CircuitBreaker.record_success cb)
                       [Optimizer; Optimizer]
      | _ =>
          after_optimizer_failure env cb employees enhanced start_date end_date
            [Optimizer; Optimizer]
      end
  end.

Definition generate_schedule (env : Environment) (cb : CircuitBreaker.t)
    (employees : list Employee) (constraints : Constraints)
    (start_date end_date : date) : Generation :=
  let constraint_filtered_employees :=
    _filter_employees_by_constraints employees constraints in
  if len constraint_filtered_employees =? 0 then mkGeneration (Returned []) cb []
  else
    (* "TEMPORARY: Reset circuit breaker for debugging" *)
    let cb :=
      match CircuitBreaker.state cb with
      | CircuitBreaker.OPEN => CircuitBreaker.reset_scheduler_circuit_breaker cb
      | _ => cb
      end in
    let stop {A : Type} (o : outcome A) : Generation :=
      mkGeneration (match o with
                    | Raised e => Raised e
                    | _ => Diverged
                    end) cb [] in
    match normalized (normalizer_draw env) constraints with
    | Returned enhanced_constraints =>
        match resolution enhanced_constraints constraint_filtered_employees
                start_date end_date with
        | Returned (enhanced_constraints, constraint_filtered_employees) =>
            match CircuitBreaker.can_execute (gate_clock env) cb with
            | Returned (allowed, cb) =>
                let fallback :=
                  mkGeneration
                    (_basic_random_schedule constraint_filtered_employees
                       enhanced_constraints start_date end_date (fallback_draws env))
                    cb [Fallback] in
                if negb allowed then fallback
                else if nonempty (validate_constraints enhanced_constraints) then fallback
                else if negb (ortools_available env) then fallback
                else optimizer_attempt env cb constraint_filtered_employees
                       enhanced_constraints start_date end_date
            | other => stop other
            end
        | other => stop other
        end
    | other => stop other
    end.

(** ** The compliance validation ([_validate_regulatory_compliance])

    It is called by [generate_schedule] on the schedules just generated,
    whose ["date"] is the text of [strftime("%Y-%m-%d")].  The difference
    [date - pattern["last_work_day"]] of two such texts is a [TypeError];
    the rest-hours check that follows has the same guard and is never
    reached. *)

(** A violation, with the measured value and the limit it is held against
    (the keys [weekly_hours]/[limit], [consecutive_days]/[limit],
    [shift_hours]/[minimum] or [maximum]). *)
Record Violation : Type := mkViolation {
  violation_type : string;
  employee_id : string;
  violation_date : option date;
  measured : Q;
  limit : Q;
  violation_severity : string
}.

Record WorkPattern : Type := mkPattern {
  pattern_consecutive_days : Z;
  pattern_weekly_hours : Q;
  pattern_last_work_day : option date;
  pattern_last_end_time : option string
}.

Definition initial_pattern : WorkPattern := mkPattern 0 0 None None.

(** [employee_work_patterns], a dict in insertion order. *)
Definition patterns : Type := list (string * WorkPattern).

Fixpoint pattern_of (d : patterns) (k : string) : option WorkPattern :=
  match d with
  | [] => None
  | (k', v) :: rest => if String.eqb k' k then Some v else pattern_of rest k
  end.

(** [d[k] = v]: in place when the key exists, else at the end. *)
Fixpoint set_pattern (d : patterns) (k : string) (v : WorkPattern) : patterns :=
  match d with
  | [] => [(k, v)]
  | (k', v') :: rest =>
      if String.eqb k' k then (k', v) :: rest else (k', v') :: set_pattern rest k v
  end.

Record ComplianceReport : Type := mkCompliance {
  is_compliant : bool;
  violation_count : Z;
  violations : list Violation;
  total_schedules : Z;
  summary_total_employees : Z;
  compliance_rate : Q
}.

(** One turn of the loop over the schedules. *)
Definition track_schedule (d : patterns) (schedule : Assignment) : outcome patterns :=
  let emp_id := employeeId schedule in
  let shift_hours :=
    calculate_shift_hours (PyStr (a_startTime schedule)) (PyStr (a_endTime schedule)) in
  let d := match pattern_of d emp_id with
           | Some _ => d
           | None => set_pattern d emp_id initial_pattern
           end in
  let pattern := get (pattern_of d emp_id) initial_pattern in
  match pattern_last_work_day pattern with
  | Some _ => Raised "TypeError"
  | None =>
      Returned (set_pattern d emp_id
                  (mkPattern 1 (pattern_weekly_hours pattern + shift_hours)%Q
                             (Some (a_date schedule)) (Some (a_endTime schedule))))
  end.

Fixpoint track_schedules (d : patterns) (schedules : list Assignment)
    : outcome patterns :=
  match schedules with
  | [] => Returned d
  | schedule :: rest =>
      d' <- track_schedule d schedule ;;
      track_schedules d' rest
  end.

(** The last loop: the duration of each shift against the two bounds. *)
Definition duration_violations (constraints : Constraints) (schedule : Assignment)
    : list Violation :=
  let min_shift_hours :=
    inject_Z (get (min_consecutive_hours_per_shift constraints) 4) in
  let max_shift_hours :=
    inject_Z (get (max_consecutive_hours_per_shift constraints) 12) in
  let start_time := a_startTime schedule in
  let end_time := a_endTime schedule in
  if negb (String.eqb start_time "") && negb (String.eqb end_time "") then
    let shift_hours := calculate_shift_hours (PyStr start_time) (PyStr end_time) in
    ((if negb (Qle_bool min_shift_hours shift_hours)
      then [mkViolation "shift_too_short" (employeeId schedule)
              (Some (a_date schedule)) shift_hours min_shift_hours "warning"]
      else [])
     ++ (if negb (Qle_bool shift_hours max_shift_hours)
         then [mkViolation "shift_too_long" (employeeId schedule)
                 (Some (a_date schedule)) shift_hours max_shift_hours "critical"]
         else []))%list
  else [].

Definition _validate_regulatory_compliance (schedules : list Assignment)
    (constraints : Constraints) (employees : list Employee)
    : outcome ComplianceReport :=
  if negb (nonempty schedules) then
    Returned (mkCompliance true 0 [] 0 (len employees) 100)
  else
    let employee_work_patterns :=
      fold_left (fun d emp => set_pattern d (_id emp) initial_pattern) employees [] in
    employee_work_patterns <- track_schedules employee_work_patterns schedules ;;
    let max_weekly_hours := get (max_hours_per_week constraints) (40 # 1) in
    let max_consecutive_days := get (max_consecutive_days constraints) 6 in
    let found :=
      (flat_map (fun item =>
         if negb (Qle_bool (pattern_weekly_hours (snd item)) max_weekly_hours)
         then [mkViolation "overtime_exceeded" (fst item) None
                 (pattern_weekly_hours (snd item)) max_weekly_hours "critical"]
         else []) employee_work_patterns
       ++ flat_map (fun item =>
            if max_consecutive_days <? pattern_consecutive_days (snd item)
            then [mkViolation "consecutive_days_exceeded" (fst item) None
                    (inject_Z (pattern_consecutive_days (snd item)))
                    (inject_Z max_consecutive_days) "warning"]
            else []) employee_work_patterns
       ++ flat_map (duration_violations constraints) schedules)%list in
    Returned
      (mkCompliance (len found =? 0) (len found) found (len schedules) (len employees)
         ((inject_Z (len schedules - len found) / inject_Z (len schedules))
          * inject_Z 100)%Q).

(** The employees seen so far are those with a last work day. *)
Definition worked (d : patterns) (k : string) : Prop :=
  exists v last, pattern_of d k = Some v /\ pattern_last_work_day v = Some last.

(** A pattern of at most one day in a row. *)
Definition at_most_one_day (v : WorkPattern) : Prop := pattern_consecutive_days v <= 1.

(** ** [apply_suggested_fixes]

    A suggestion holds the value its type reads: [suggested_number] is the
    number under ["suggested_min"] of a [reduce_min_staff], under
    ["suggested_max"] of a [fix_staff_range] and under ["suggested_value"]
    of an [increase_consecutive_limit]; [suggested_days] is the list under
    ["suggested_value"] of an [enable_business_days]. *)

Record AppliedFix : Type := mkFix {
  fix_type : string;
  description : string;
  fix_day : option string;
  old_value : option Z;
  new_value : option Z;
  enabled_days : option (list string);
  fix_priority : string
}.

(** The function returns the constraints themselves when the analysis holds
    no suggestion, and a dict of three keys otherwise. *)
Inductive FixResult : Type :=
| Unchanged (constraints : Constraints)
| Fixed (constraints : Constraints) (applied_fixes : list AppliedFix) (fix_count : Z).

Definition fixed_constraints (r : FixResult) : Constraints :=
  match r with
  | Unchanged c => c
  | Fixed c _ _ => c
  end.

Definition applied_fixes_of (r : FixResult) : list AppliedFix :=
  match r with
  | Unchanged _ => []
  | Fixed _ fixes _ => fixes
  end.

(** [priority_order.get(x.get("priority", "low"), 3)] *)
Definition priority_rank (p : string) : Z :=
  if String.eqb p "critical" then 0
  else if String.eqb p "high" then 1
  else if String.eqb p "medium" then 2
  else 3.

Definition ascii_lower (c : ascii) : ascii :=
  let n := nat_of_ascii c in
  if (65 <=? n)%nat && (n <=? 90)%nat then ascii_of_nat (n + 32) else c.

Fixpoint lower (s : string) : string :=
  match s with
  | EmptyString => EmptyString
  | String c r => String (ascii_lower c) (lower r)
  end.

(** [day_mapping.get(day_name.lower())]: the keys are the lower-case names
    of the days.  A name that is found is a way of writing a day's name in
    upper and lower case, and [day_name.title()] is then that day's name as
    [day_name] gives it. *)
Definition day_of_name (s : string) : option DayOfWeek :=
  find (fun d => String.eqb (lower (day_name d)) (lower s)) range7.

Definition for_day (suggestion : Suggestion) (oh : OperatingHours) : bool :=
  match suggestion_day suggestion with
  | Some dn => String.eqb (day_name (day_of_week oh)) dn
  | None => false
  end.

Definition with_min_staff (oh : OperatingHours) (v : Z) : OperatingHours :=
  mkOH (day_of_week oh) (is_open oh) (open_time oh) (close_time oh) (Some v)
       (max_staff oh).

Definition with_max_staff (oh : OperatingHours) (v : Z) : OperatingHours :=
  mkOH (day_of_week oh) (is_open oh) (open_time oh) (close_time oh) (min_staff oh)
       (Some v).

Definition opened (oh : OperatingHours) : OperatingHours :=
  mkOH (day_of_week oh) (Some true) (open_time oh) (close_time oh) (min_staff oh)
       (max_staff oh).

(** [day_hours["is_open"] = True] on the first entry of the day. *)
Fixpoint open_first (d : DayOfWeek) (ohs : list OperatingHours)
    : option (list OperatingHours) :=
  match ohs with
  | [] => None
  | oh :: rest =>
      if day_eqb (day_of_week oh) d then Some (opened oh :: rest)
      else option_map (cons oh) (open_first d rest)
  end.

(** The entry appended for a day without one; its keys ["start_time"] and
    ["end_time"] are not keys of an operating-hours entry. *)
Definition enabled_entry (d : DayOfWeek) : OperatingHours :=
  mkOH d (Some true) None None (Some 1) (Some 5).

Definition enable_day (ohs : list OperatingHours) (d : DayOfWeek)
    : list OperatingHours :=
  match open_first d ohs with
  | Some ohs' => ohs'
  | None => (ohs ++ [enabled_entry d])%list
  end.

(** The days of the suggested names that [day_mapping] knows. *)
Definition known_days (names : list string) : list DayOfWeek :=
  flat_map (fun nm => match day_of_name nm with
                      | Some d => [d]
                      | None => []
                      end) names.

Definition with_max_consecutive_days (c : Constraints) (v : Z) : Constraints :=
  mkConstraints (c_name c) (operating_hours c) (shift_templates c) (locations c)
    (departments c) (roles c) (skill_requirements c) (Some v)
    (min_rest_hours_between_shifts c) (max_hours_per_week c)
    (min_consecutive_hours_per_shift c) (max_consecutive_hours_per_shift c)
    (optimization_priority c) (require_manager_coverage c) (c_min_staff c)
    (c_max_staff c) (min_employees_per_day c) (max_employees_per_day c)
    (solver_time_limit c).

(** The loops over [fixed_constraints.get("operating_hours", [])] change
    the entries of the document's own list; without the key they run over a
    list that is dropped. *)
Definition on_operating_hours (c : Constraints)
    (f : list OperatingHours -> list OperatingHours) : Constraints :=
  match operating_hours c with
  | Some ohs => with_operating_hours c (Some (f ohs))
  | None => c
  end.

(** One turn of the loop over the suggestions. *)
Definition apply_fix (state : Constraints * list AppliedFix) (suggestion : Suggestion)
    : Constraints * list AppliedFix :=
  let '(fixed_constraints, applied_fixes) := state in
  let suggestion_type := suggestion_type suggestion in
  let operating_hours := get (operating_hours fixed_constraints) [] in
  if String.eqb suggestion_type "reduce_min_staff"
     && present (suggested_number suggestion) then
    let suggested_min := get (suggested_number suggestion) 0 in
    (on_operating_hours fixed_constraints
       (map (fun oh => if for_day suggestion oh then with_min_staff oh suggested_min
                       else oh)),
     (applied_fixes
      ++ map (fun oh =>
           let dn := day_name (day_of_week oh) in
           let old_min := get (min_staff oh) 1 in
           mkFix suggestion_type
             ("Reduced " ++ dn ++ " min staff from " ++ str_of_Z old_min ++ " to "
              ++ str_of_Z suggested_min)
             (Some dn) (Some old_min) (Some suggested_min) None (priority suggestion))
           (filter (for_day suggestion) operating_hours))%list)
  else if String.eqb suggestion_type "fix_staff_range"
          && present (suggested_number suggestion) then
    let suggested_max := get (suggested_number suggestion) 0 in
    (on_operating_hours fixed_constraints
       (map (fun oh => if for_day suggestion oh then with_max_staff oh suggested_max
                       else oh)),
     (applied_fixes
      ++ map (fun oh =>
           let dn := day_name (day_of_week oh) in
           let old_max := get (max_staff oh) 10 in
           mkFix suggestion_type
             ("Increased " ++ dn ++ " max staff from " ++ str_of_Z old_max ++ " to "
              ++ str_of_Z suggested_max)
             (Some dn) (Some old_max) (Some suggested_max) None (priority suggestion))
           (filter (for_day suggestion) operating_hours))%list)
  else if String.eqb suggestion_type "enable_business_days"
          && present (suggested_days suggestion) then
    let days := known_days (get (suggested_days suggestion) []) in
    let enabled_days := map day_name days in
    (on_operating_hours fixed_constraints (fun ohs => fold_left enable_day days ohs),
     (applied_fixes
      ++ (if nonempty enabled_days
          then [mkFix suggestion_type
                  ("Enabled operating days: " ++ join_comma enabled_days)
                  None None None (Some enabled_days) (priority suggestion)]
          else []))%list)
  else if String.eqb suggestion_type "increase_consecutive_limit"
          && present (suggested_number suggestion) then
    let old_value := get (max_consecutive_days fixed_constraints) 0 in
    let new_value := get (suggested_number suggestion) 0 in
    (with_max_consecutive_days fixed_constraints new_value,
     (applied_fixes
      ++ [mkFix suggestion_type
            ("Increased consecutive days limit from " ++ str_of_Z old_value ++ " to "
             ++ str_of_Z new_value)
            None (Some old_value) (Some new_value) None (priority suggestion)])%list)
  else state.

Definition apply_suggested_fixes (constraints : Constraints)
    (conflict_analysis : ConflictReport) : FixResult :=
  if negb (nonempty (suggestions conflict_analysis)) then Unchanged constraints
  else
    let auto_fixable_suggestions :=
      stable_sort (fun a b => priority_rank (priority a) <=? priority_rank (priority b))
        (filter auto_fixable (suggestions conflict_analysis)) in
    let '(fixed_constraints, applied_fixes) :=
      fold_left apply_fix auto_fixable_suggestions (constraints, []) in
    Fixed fixed_constraints applied_fixes (len applied_fixes).

(** What [apply_fix] does to one entry, to the consecutive-days limit, and
    the suggestions that enable days. *)
Definition fix_entry (oh : OperatingHours) (s : Suggestion) : OperatingHours :=
  if String.eqb (suggestion_type s) "reduce_min_staff" && present (suggested_number s)
  then if for_day s oh then with_min_staff oh (get (suggested_number s) 0) else oh
  else if String.eqb (suggestion_type s) "fix_staff_range"
          && present (suggested_number s)
  then if for_day s oh then with_max_staff oh (get (suggested_number s) 0) else oh
  else oh.

Definition enables_days (s : Suggestion) : bool :=
  String.eqb (suggestion_type s) "enable_business_days" && present (suggested_days s).

Definition fix_limit (v : option Z) (s : Suggestion) : option Z :=
  if String.eqb (suggestion_type s) "increase_consecutive_limit"
     && present (suggested_number s)
  then Some (get (suggested_number s) 0) else v.

(** The automatic suggestions the detector makes when some day is open,
    for the entries [ohs] and [total] active employees. *)
Definition detector_fix (ohs : list OperatingHours) (total : Z) (s : Suggestion) : Prop :=
  (suggestion_type s = "reduce_min_staff"%string
   /\ suggested_number s = Some (Z.min total (Z.max 1 (total - 1)))
   /\ exists oh, In oh ohs /\ is_open_day oh = true
                 /\ suggestion_day s = Some (day_name (day_of_week oh))
                 /\ total < get (min_staff oh) 1)
  \/ (suggestion_type s = "fix_staff_range"%string
      /\ exists oh, In oh ohs /\ is_open_day oh = true
                    /\ suggestion_day s = Some (day_name (day_of_week oh))
                    /\ suggested_number s = Some (Z.max (get (min_staff oh) 1) total)
                    /\ get (max_staff oh) total < get (min_staff oh) 1)
  \/ (suggestion_type s = "increase_consecutive_limit"%string
      /\ suggested_number s = Some 3).

(** An entry in the course of the fixes: the day and the opening flag of
    [oh], and each bound either that of [oh] or the suggested one. *)
Definition being_fixed (total : Z) (oh oh0 : OperatingHours) : Prop :=
  day_of_week oh0 = day_of_week oh /\ is_open oh0 = is_open oh
  /\ (min_staff oh0 = min_staff oh
      \/ (min_staff oh0 = Some (Z.min total (Z.max 1 (total - 1)))
          /\ total < get (min_staff oh) 1))
  /\ (max_staff oh0 = max_staff oh
      \/ (max_staff oh0 = Some (Z.max (get (min_staff oh) 1) total)
          /\ get (max_staff oh) total < get (min_staff oh) 1)).

(** ** [calculate_schedule_metrics]

    The schedules are those of the generator, which carry no
    ["validation"] key: the list of quality scores stays empty. *)

(** A coverage dict, in insertion order. *)
Definition coverage : Type := list (string * Z).

(** [d[k] = d.get(k, 0) + 1] *)
Fixpoint count_one (d : coverage) (k : string) : coverage :=
  match d with
  | [] => [(k, 0 + 1)]
  | (k', v) :: rest =>
      if String.eqb k' k then (k', v + 1) :: rest else (k', v) :: count_one rest k
  end.

Definition count_by (key : Assignment -> string) (schedules : list Assignment)
    : coverage :=
  fold_left (fun d schedule => count_one d (key schedule)) schedules [].

(** [max(values)] and [min(values)] of a list that is not empty. *)
Definition max_of (first : Z) (more : list Z) : Z := fold_left Z.max more first.
Definition min_of (first : Z) (more : list Z) : Z := fold_left Z.min more first.

Record Metrics : Type := mkMetrics {
  totalShifts : Z;
  totalHours : Q;
  averageHoursPerShift : option Q;
  averageHoursPerEmployee : Q;
  employeeCoverage : coverage;
  departmentCoverage : coverage;
  locationCoverage : coverage;
  fairnessScore : option Z;
  scheduleQualityScore : Q;
  employeeCount : option Z;
  departmentCount : option Z;
  locationCount : option Z
}.

Definition calculate_schedule_metrics (schedules : list Assignment) : Metrics :=
  if negb (nonempty schedules) then
    mkMetrics 0 0 None 0 [] [] [] None 0 None None None
  else
    let total_shifts := len schedules in
    let total_hours :=
      fold_left (fun total schedule =>
                   (total + calculate_shift_hours (PyStr (a_startTime schedule))
                                                  (PyStr (a_endTime schedule)))%Q)
                schedules 0%Q in
    let employee_coverage := count_by employeeId schedules in
    let department_coverage := count_by a_department schedules in
    let location_coverage := count_by a_location schedules in
    let shift_counts := map snd employee_coverage in
    let fairness_score :=
      match shift_counts with
      | first :: more => 100 - (max_of first more - min_of first more) * 10
      | [] => 100
      end in
    mkMetrics total_shifts total_hours
      (Some (if 0 <? total_shifts then total_hours / inject_Z total_shifts else 0)%Q)
      (if nonempty employee_coverage
       then total_hours / inject_Z (len employee_coverage) else 0)%Q
      employee_coverage department_coverage location_coverage
      (Some fairness_score) 0
      (Some (len employee_coverage)) (Some (len department_coverage))
      (Some (len location_coverage)).

(** The number of schedules whose key is [k]. *)
Definition entries_of (key : Assignment -> string) (k : string)
    (schedules : list Assignment) : Z :=
  len (filter (fun schedule => String.eqb (key schedule) k) schedules).

Definition sum_of (values : list Z) : Z := fold_right Z.add 0 values.

(** [d.get(k, 0)] *)
Fixpoint count_of (d : coverage) (k : string) : Z :=
  match d with
  | [] => 0
  | (k', v) :: rest => if String.eqb k' k then v else count_of rest k
  end.

(** A coverage dict in good order: no key twice, every count positive. *)
Definition tidy (d : coverage) : Prop :=
  NoDup (map fst d) /\ Forall (fun item => 0 < snd item) d.

(** ** Properties of schedules, and the data of the worked examples *)

(** No employee holds two assignments on one date. *)
Definition one_shift_a_day (l : list Assignment) : Prop :=
  forall i j a b, nth_error l i = Some a -> nth_error l j = Some b -> i <> j ->
    employeeId a = employeeId b -> a_date a <> a_date b.

(** The order (date, start time, end time, employee identifier). *)
Definition full_key_order (a b : Assignment) : comparison :=
  lex (a_date a ?= a_date b)
      (lex (a_startTime a ?= a_startTime b)%string
           (lex (a_endTime a ?= a_endTime b)%string
                (employeeId a ?= employeeId b)%string)).

Fixpoint sorted_by (order : Assignment -> Assignment -> comparison)
    (l : list Assignment) : bool :=
  match l with
  | [] => true
  | a :: rest =>
      match rest with
      | [] => true
      | b :: _ => not_gt (order a b) && sorted_by order rest
      end
  end.

(** A template lies inside the opening window and within the duration bounds. *)
Definition within_window_and_bounds (open_hour close_hour lo hi : Z)
    (t : ShiftTemplate) : Prop :=
  exists s e d,
    hour_of (start_time t) = Returned s /\ hour_of (end_time t) = Returned e /\
    duration t = Some d /\ open_hour <= s /\ e <= close_hour /\ lo <= d <= hi.

(** A shift the validation pass drops for being shorter than [lo]. *)
Definition too_short (lo : Z) (t : ShiftTemplate) : Prop :=
  exists s e d, hour_of (start_time t) = Returned s
                /\ hour_of (end_time t) = Returned e
                /\ duration t = Some d /\ d < lo.

Definition all_closed (ohs : list OperatingHours) : Prop :=
  forall oh, In oh ohs -> is_open_day oh = false.

(** A template whose times can be read back and whose [duration] is the
    difference of its hours. *)
Definition consistent (t : ShiftTemplate) : Prop :=
  exists s e, hour_of (start_time t) = Returned s
              /\ hour_of (end_time t) = Returned e
              /\ duration t = Some (e - s).

(** A consistent template whose start hour and end hour, the numbers before
    the colon, lie between [open_hour] and [close_hour], start hour not
    after end hour.  Minutes are not looked at. *)
Definition inside_hours (open_hour close_hour : Z) (t : ShiftTemplate) : Prop :=
  exists s e, hour_of (start_time t) = Returned s
              /\ hour_of (end_time t) = Returned e
              /\ duration t = Some (e - s)
              /\ open_hour <= s /\ s <= e /\ e <= close_hour.

(** The same, with the start hour strictly below the end hour. *)
Definition strictly_inside (open_hour close_hour : Z) (t : ShiftTemplate) : Prop :=
  exists s e, hour_of (start_time t) = Returned s
              /\ hour_of (end_time t) = Returned e
              /\ duration t = Some (e - s)
              /\ open_hour <= s /\ s < e /\ e <= close_hour.

(** What the fallback writes for the date [d]: an entry of that date, marked
    scheduled, for an employee of [pool], on the times of one of
    [templates]. *)
Definition booked_from (pool : list Employee) (templates : list ShiftTemplate)
    (d : date) (a : Assignment) : Prop :=
  a_date a = d /\ status a = "scheduled"%string
  /\ (exists emp, In emp pool /\ employeeId a = _id emp)
  /\ (exists t, In t templates /\ a_startTime a = start_time t
                /\ a_endTime a = end_time t).

(** The active employees whom [_check_employee_availability] admits on the
    date [d] from 09:00 to 17:00: the fallback's pool of the day. *)
Definition available_on (employees : list Employee) (d : date) : list Employee :=
  filter (fun emp => employee_active emp
                     && _check_employee_availability emp d "09:00" "17:00") employees.

(** An entry of the fallback as it should be: marked scheduled, on a date
    whose operating-hours entry is open with a positive minimum, for an
    active employee of the roster who is available that day, on the times
    of a template with the property [P]. *)
Definition soundly_booked (P : ShiftTemplate -> Prop) (employees : list Employee)
    (c : Constraints) (a : Assignment) : Prop :=
  status a = "scheduled"%string
  /\ (exists day_hours,
         find_day (get (operating_hours c) []) (constraint_day (a_date a))
         = Some day_hours
         /\ is_open_day day_hours = true /\ 0 < get (min_staff day_hours) 1)
  /\ (exists emp,
         In emp employees /\ employee_active emp = true
         /\ _check_employee_availability emp (a_date a) "09:00" "17:00" = true
         /\ employeeId a = _id emp)
  /\ (exists t, P t /\ a_startTime a = start_time t /\ a_endTime a = end_time t).

(** A template whose start hour and end hour, the numbers before the
    colon, can be read and lie between [open_hour] and [close_hour], start
    hour not after end hour.  Minutes are not looked at. *)
Definition within_hours (open_hour close_hour : Z) (t : ShiftTemplate) : Prop :=
  exists s e, hour_of (start_time t) = Returned s
              /\ hour_of (end_time t) = Returned e
              /\ open_hour <= s /\ s <= e /\ e <= close_hour.

(** A time as the planner and the fallback write it for a first entry whose
    times are [open_time] and [close_time]: an hour [f"{h:02d}:00"], or one
    of the two texts as it stands. *)
Definition clock_text (open_time close_time s : string) : Prop :=
  (exists h, s = hh00 h) \/ s = open_time \/ s = close_time.

Definition shaped (open_time close_time : string) (t : ShiftTemplate) : Prop :=
  clock_text open_time close_time (start_time t)
  /\ clock_text open_time close_time (end_time t).

(** Two texts that are [%H:%M] times of day, the first at or after
    [open_hour]:00, the hour of the first not above the hour of the second,
    the second no later than the minute [close_minute] of the day. *)
Definition clock_times (open_hour close_minute : Z) (st en : string) : Prop :=
  exists sh sm eh em,
    strptime_HM st = Some (sh, sm) /\ strptime_HM en = Some (eh, em)
    /\ open_hour <= sh /\ sh <= eh /\ 60 * eh + em <= close_minute.


(** An operating-hours entry that carries [min_staff], [max_staff] and
    [is_open], the minimum not above the maximum. *)
Definition well_staffed (oh : OperatingHours) : Prop :=
  present (min_staff oh) = true /\ present (max_staff oh) = true
  /\ present (is_open oh) = true
  /\ get (min_staff oh) 0 <= get (max_staff oh) 0.

(** An availability entry whose window holds both "09:00" and "17:00", the
    two times the fallback and the detector ask about. *)
Definition covers_office_hours (av : Availability) : bool :=
  let av_start := get (startTime av) "00:00"%string in
  let av_end := get (endTime av) "23:59"%string in
  (av_start <=? "09:00")%string && ("09:00" <=? av_end)%string &&
  (av_start <=? "17:00")%string && ("17:00" <=? av_end)%string.

(** The entries of a list that fall on the date [d]. *)
Definition on_date (d : date) (made : list Assignment) : list Assignment :=
  filter (fun a => a_date a =? d) made.

(** Who works, and when. *)
Definition worker_and_date (a : Assignment) : string * date :=
  (employeeId a, a_date a).

Definition triple_key (x : Employee * date * ShiftTemplate) : string * date :=
  (_id (fst (fst x)), snd (fst x)).

(** What an assignment is sorted by: date, start time, end time, employee. *)
Definition assignment_key (a : Assignment) : string * date * string * string :=
  (employeeId a, a_date a, a_startTime a, a_endTime a).

(** ** Conflict types, as the resolver reads them *)

(** The detector never reports one of the three conflict types that the
    resolver handles besides [insufficient_staff]. *)
Definition outside_detector (k : Conflict) : bool :=
  String.eqb (conflict_type k) "no_availability"
  || String.eqb (conflict_type k) "shift_duration_conflict"
  || String.eqb (conflict_type k) "manager_coverage_gap".

Definition is_shortfall (k : Conflict) : bool :=
  String.eqb (conflict_type k) "insufficient_staff".

Module Examples.

Definition emp (ident job : string) : Employee :=
  mkEmployee ident (Some true) None (Some job) (Some "Operations"%string)
    (Some "HQ"%string) None None (Some ident) None None None.

Definition every_day (opened : bool) (o c : string) (lo hi : Z)
    : list OperatingHours :=
  map (fun d => oh_example d opened o c lo hi) range7.

Definition weekdays_open (o c : string) (lo hi : Z) : list OperatingHours :=
  map (fun d => oh_example d (negb (day_eqb d Sunday || day_eqb d Saturday)) o c lo hi)
      range7.

(** A document with operating hours and shift-duration bounds only. *)
Definition doc (ohs : list OperatingHours) (lo hi : Z) : Constraints :=
  mkConstraints (Some "example"%string) (Some ohs) None None None None None None
    None None (Some lo) (Some hi) None None None None None None None.

Definition no_solution : Solver := fun _ _ _ => NoSolution.

(** The solver library is not installed. *)
Definition without_ortools (now : Q) : Environment :=
  mkEnv false no_solution now now 0 [] [] [].

(** 2024-01-01, a Monday. *)
Definition monday : date := 738886.

Definition roster4 : list Employee :=
  [emp "m" "manager"; emp "e" "employee"; emp "x" "cashier"; emp "y" "cashier"].

Definition roster3 : list Employee :=
  [emp "e1" "employee"; emp "m" "manager"; emp "e2" "employee"].

Definition roster2 : list Employee := [emp "a" "employee"; emp "b" "employee"].

(** Three failures in a row, at seconds 100, 101 and 102. *)
Definition tripped : CircuitBreaker.t :=
  CircuitBreaker.record_failures [100 # 1; 101 # 1; 102 # 1]%Q
    CircuitBreaker.scheduler_circuit_breaker.

(** An inactive employee and an anonymized one. *)
Definition retired : Employee :=
  mkEmployee "r" (Some false) None (Some "employee"%string) None None None None
    None None None None.

Definition erased : Employee :=
  mkEmployee "z" (Some true) (Some true) (Some "employee"%string) None None None
    None None None None None.

(** A single day, open 09:00 to 16:00. *)
Definition short_friday : list OperatingHours :=
  [oh_example Friday true "09:00" "16:00" 1 5].

Definition emergency_closing : ShiftTemplate :=
  planned "Emergency Closing (15:00-16:00)" "15:00" "16:00" 1 "emergency_closing"
          manager_and_employee.

(** A document whose operating hours hold Monday only, by value and by
    reference into a store that holds the list at address 0. *)
Definition monday_only : list OperatingHours :=
  [oh_example Monday true "09:00" "17:00" 1 2].

Definition monday_only_ref : ConstraintsRef :=
  with_operating_hours (doc monday_only 4 8) (Some O).


(** Weekdays open with a minimum of three staff. *)
Definition understaffed : Constraints :=
  doc (weekdays_open "09:00" "17:00" 3 5) 4 8.


(** Every day closed, with the hours "09:00" to "13:00" on each entry. *)
Definition closed_week : Constraints :=
  doc (every_day false "09:00" "13:00" 1 4) 4 8.

(** Every day open "08:00" to "20:00", shifts of exactly three hours. *)
Definition long_days : Constraints :=
  doc (every_day true "08:00" "20:00" 1 4) 3 3.

(** Weekdays open "09:00" to "17:00", shifts of exactly four hours. *)
Definition office_week : Constraints :=
  doc (weekdays_open "09:00" "17:00" 1 3) 4 4.

Definition two_managers : list Employee :=
  [emp "m1" "manager"; emp "m2" "manager"; emp "e" "employee"; emp "x" "cashier"].

Definition one_of_each : list Employee :=
  [emp "e" "employee"; emp "m" "manager"; emp "x" "cashier"].


Definition late_manager : list Employee :=
  [emp "e" "employee"; emp "z" "manager"; emp "a" "cashier"].

(** The solver library is installed and finds no solution. *)
Definition with_ortools : Environment :=
  mkEnv true no_solution 0 0 0 [] [] [].


(** Open every day from 08:00 to 13:59. *)
Definition long_morning_shop : Constraints :=
  doc (every_day true "08:00" "13:59" 1 2) 2 4.


(** A document with the three manager templates, a roster of three
    managers, and a solver answer that puts employee number [i] on date
    number [i], on the full-day template. *)
Definition manager_week : Constraints :=
  mkConstraints (Some "example"%string) (Some (weekdays_open "09:00" "17:00" 1 3))
    (Some [planned "Opening Manager" "09:00" "13:00" 4 "opening_manager" manager_only;
           planned "Closing Manager" "13:00" "17:00" 4 "closing_manager" manager_only;
           planned "Full Day Manager" "09:00" "17:00" 8 "full_day_manager" manager_only])
    None None None None None
    None None (Some 4) (Some 4) None None None None None None None.

Definition three_managers : list Employee :=
  [emp "m1" "manager"; emp "m2" "manager"; emp "m3" "manager"].

Definition diagonal : Solver :=
  fun _ _ _ => Solution (fun e d i => Nat.eqb i 2 && Nat.eqb e d) "0".

(** The same answer read from the last date backwards. *)
Definition antidiagonal : Solver :=
  fun _ _ _ => Solution (fun e d i => Nat.eqb i 2 && Nat.eqb (e + d) 2) "0".

(** An employee whose availability lists Monday only, numbered 1. *)
Definition mondays_only : Employee :=
  mkEmployee "p" (Some true) None (Some "employee"%string) None None None
    (Some [mkAvail (Some 1) (Some true) (Some "08:00"%string) (Some "18:00"%string)])
    None None None None.

(** One shift of two hours. *)
Definition brief_shift : list Assignment :=
  [mkAssignment "m" monday "09:00" "11:00" "HQ" "manager" "Operations" "scheduled"
     "Constraint-enforcing fallback scheduler (Monday)"].

(** A document without operating hours. *)
Definition no_hours : Constraints :=
  mkConstraints (Some "example"%string) None None None None None None None
    None None (Some 4) (Some 8) None None None None None None None.

(** Two shifts for one employee and one for another. *)
Definition uneven_shifts : list Assignment :=
  [mkAssignment "m" monday "09:00" "13:00" "HQ" "manager" "Operations" "scheduled" "";
   mkAssignment "e" monday "13:00" "17:00" "HQ" "employee" "Operations" "scheduled" "";
   mkAssignment "m" (monday + 1) "09:00" "13:00" "HQ" "manager" "Operations"
     "scheduled" ""].




End Examples.

(** * Theorems *)

(** ** The circuit breaker *)

Module BreakerFacts.
Import CircuitBreaker.

Lemma record_failures_count (times : list Q) (cb : t) :
  failure_count (record_failures times cb) = failure_count cb + len times.
Proof.
  revert cb. induction times as [|now more IH]; intros cb; unfold len; simpl.
  - lia.
  - unfold record_failures in IH. rewrite IH. unfold len. simpl failure_count. lia.
Qed.

Lemma record_failures_threshold (times : list Q) (cb : t) :
  failure_threshold (record_failures times cb) = failure_threshold cb.
Proof.
  revert cb. induction times as [|now more IH]; intros cb; simpl; auto.
  unfold record_failures in IH. now rewrite IH.
Qed.

(** Fewer than [failure_threshold] consecutive failures leave a fresh gate
    closed. *)
Lemma still_closed_below_threshold (F T : Z) (times : list Q) :
  len times < F -> state (record_failures times (init F T)) = CLOSED.
Proof.
  intros Hlt.
  assert (G : forall l cb, state cb = CLOSED ->
            failure_count cb + len l < failure_threshold cb ->
            state (record_failures l cb) = CLOSED).
  { induction l as [|now more IH]; intros cb Hc Hb; simpl; auto.
    apply IH.
    - simpl. unfold len in Hb. simpl List.length in Hb.
      destruct (failure_threshold cb <=? failure_count cb + 1) eqn:E; auto.
      apply Z.leb_le in E. lia.
    - simpl. unfold len in *. simpl List.length in Hb. lia. }
  apply G; simpl; auto.
Qed.

(** The failure that reaches [failure_threshold] opens the gate. *)
Lemma opens_at_threshold (F T : Z) (times : list Q) :
  1 <= F -> len times = F -> state (record_failures times (init F T)) = OPEN.
Proof.
  intros HF Hlen.
  destruct (rev times) as [|last_ before] eqn:Hrev.
  - apply (f_equal (@rev Q)) in Hrev. rewrite rev_involutive in Hrev. subst times.
    unfold len in Hlen. simpl in Hlen. lia.
  - apply (f_equal (@rev Q)) in Hrev. rewrite rev_involutive in Hrev. simpl in Hrev.
    subst times. unfold record_failures. rewrite fold_left_app. simpl.
    fold (record_failures (rev before) (init F T)).
    rewrite record_failures_threshold, record_failures_count. simpl.
    unfold len in *. rewrite length_app in Hlen. simpl in Hlen.
    match goal with
    | |- context [if ?c then _ else _] => destruct c eqn:E
    end; auto.
    apply Z.leb_gt in E. lia.
Qed.

(** A success while half-open closes the gate. *)
Lemma success_closes_half_open (cb : t) :
  state cb = HALF_OPEN -> state (record_success cb) = CLOSED.
Proof. reflexivity. Qed.

(** While open, consulting the gate before [recovery_timeout] has elapsed
    since the last failure refuses the optimiser and leaves the gate as it
    is. *)
Lemma consulted_before_timeout (cb : t) (now last : Q) :
  state cb = OPEN -> last_failure_time cb = Some last ->
  (now - last <= inject_Z (recovery_timeout cb))%Q ->
  can_execute now cb = Returned (false, cb).
Proof.
  intros Hs Hl Hle. unfold can_execute. rewrite Hs, Hl.
  apply Qle_bool_iff in Hle. now rewrite Hle.
Qed.

(** Past the timeout the gate goes half-open. *)
Lemma consulted_after_timeout (cb : t) (now last : Q) :
  state cb = OPEN -> last_failure_time cb = Some last ->
  (inject_Z (recovery_timeout cb) < now - last)%Q ->
  can_execute now cb = Returned (true, set_state HALF_OPEN cb).
Proof.
  intros Hs Hl Hlt. unfold can_execute. rewrite Hs, Hl.
  destruct (Qle_bool (now - last) (inject_Z (recovery_timeout cb))) eqn:E; auto.
  apply Qle_bool_iff in E. exfalso. apply (Qlt_not_le _ _ Hlt E).
Qed.

End BreakerFacts.

Module GateInGeneration.
Import CircuitBreaker.

Lemma after_failure_closed (env : Environment) (cb : t) employees enhanced s e tried :
  state cb = CLOSED -> failure_count cb = 0 -> 1 < failure_threshold cb ->
  state (breaker (after_optimizer_failure env cb employees enhanced s e tried)) = CLOSED.
Proof.
  intros Hs Hc HF. unfold after_optimizer_failure. simpl. rewrite Hc, Hs.
  destruct (failure_threshold cb <=? 0 + 1) eqn:E; auto.
  apply Z.leb_le in E. lia.
Qed.

Lemma attempt_closed (env : Environment) (cb : t) employees enhanced s e :
  state cb = CLOSED -> failure_count cb = 0 -> 1 < failure_threshold cb ->
  state (breaker (optimizer_attempt env cb employees enhanced s e)) = CLOSED.
Proof.
  intros Hs Hc HF. unfold optimizer_attempt.
  destruct (_advanced_ortools_schedule (solver env) employees enhanced s e
              (optimizer_draws env)) as [[|first more]|exn|]; simpl; auto.
  - destruct (_advanced_ortools_schedule (solver env) employees
                (_relax_constraints enhanced) s e (relaxed_draws env))
      as [[|first more]|exn|]; simpl; auto;
      match goal with
      | |- context [if ?c then _ else _] => destruct c eqn:E
      end; auto; apply Z.leb_le in E; lia.
  - rewrite Hc, Hs.
    destruct (failure_threshold cb <=? 0 + 1) eqn:E; auto.
    apply Z.leb_le in E; lia.
Qed.

(** C3, the part the code breaks: with a threshold above one, a generation
    call that finds the gate Open and a non-empty filtered roster leaves
    the gate Closed, whatever the clock says: the gate is reset before it
    is consulted, so the recovery timeout plays no part. *)
Theorem generation_resets_open_gate (env : Environment) (cb : t)
    (employees : list Employee) (constraints : Constraints) (s e : date) :
  state cb = OPEN ->
  _filter_employees_by_constraints employees constraints <> [] ->
  1 < failure_threshold cb ->
  state (breaker (generate_schedule env cb employees constraints s e)) = CLOSED.
Proof.
  intros Hopen Hroster HF. unfold generate_schedule.
  destruct (_filter_employees_by_constraints employees constraints)
    as [|worker others] eqn:Hf; [congruence|].
  replace (len (worker :: others) =? 0) with false
    by (symmetry; apply Z.eqb_neq; unfold len; simpl; lia).
  rewrite Hopen.
  destruct (normalized (normalizer_draw env) constraints) as [enhanced|exn|]; auto.
  match goal with
  | |- context [match ?resolved with Returned _ => _ | Raised _ => _ | Diverged => _ end] =>
      destruct resolved as [[enhanced' staff]|exn|]
  end; auto.
  cbn [can_execute reset_scheduler_circuit_breaker state].
  repeat match goal with
         | |- context [if ?c then _ else _] => destruct c
         end; auto.
  apply attempt_closed; auto.
Qed.

Lemma generation_resets_open_gate_witness :
  state Examples.tripped = OPEN
  /\ (exists last, last_failure_time Examples.tripped = Some last
                   /\ ((103 # 1) - last <= inject_Z (recovery_timeout Examples.tripped))%Q)
  /\ state (breaker (generate_schedule (Examples.without_ortools (103 # 1))
                       Examples.tripped Examples.roster2
                       (Examples.doc (Examples.weekdays_open "09:00" "17:00" 1 2) 4 8)
                       Examples.monday Examples.monday)) = CLOSED.
Proof.
  split; [reflexivity|]. split.
  - exists (102 # 1)%Q. split; [reflexivity|]. vm_compute. discriminate.
  - apply (generation_resets_open_gate (Examples.without_ortools (103 # 1))
             Examples.tripped Examples.roster2
             (Examples.doc (Examples.weekdays_open "09:00" "17:00" 1 2) 4 8)
             Examples.monday Examples.monday).
    + reflexivity.
    + vm_compute. discriminate.
    + vm_compute. reflexivity.
Defined.

End GateInGeneration.

(** ** The shift-hour calculator *)

Module ShiftHours.

Lemma digit_range (c : ascii) (d : Z) : digit_of c = Some d -> 0 <= d <= 9.
Proof.
  unfold digit_of.
  destruct ((48 <=? Z.of_nat (nat_of_ascii c)) && (Z.of_nat (nat_of_ascii c) <=? 57)) eqn:E;
    [|discriminate].
  apply andb_true_iff in E. destruct E as [E1 E2].
  apply Z.leb_le in E1. apply Z.leb_le in E2. intros H.
  assert (d = Z.of_nat (nat_of_ascii c) - 48) by congruence. lia.
Qed.

Lemma hour_field_range (cs : list ascii) (h : Z) :
  hour_field cs = Some h -> 0 <= h < 24.
Proof.
  destruct cs as [|d1 [|d2 [|d3 r]]]; cbn [hour_field]; try discriminate.
  - intros H. apply digit_range in H. lia.
  - destruct (digit_of d1) as [a|] eqn:Ea; [|discriminate].
    destruct (digit_of d2) as [b|] eqn:Eb; [|discriminate].
    destruct (10 * a + b <? 24) eqn:E; [|discriminate].
    apply Z.ltb_lt in E. apply digit_range in Ea. apply digit_range in Eb.
    intros H. assert (h = 10 * a + b) by congruence. lia.
Qed.

Lemma minute_field_range (cs : list ascii) (m : Z) :
  minute_field cs = Some m -> 0 <= m < 60.
Proof.
  destruct cs as [|d1 [|d2 [|d3 r]]]; cbn [minute_field]; try discriminate.
  - intros H. apply digit_range in H. lia.
  - destruct (digit_of d1) as [a|] eqn:Ea; [|discriminate].
    destruct (digit_of d2) as [b|] eqn:Eb; [|discriminate].
    destruct (a <? 6) eqn:E; [|discriminate].
    apply Z.ltb_lt in E. apply digit_range in Ea. apply digit_range in Eb.
    intros H. assert (m = 10 * a + b) by congruence. lia.
Qed.

Lemma strptime_range (s : string) (h m : Z) :
  strptime_HM s = Some (h, m) -> 0 <= h < 24 /\ 0 <= m < 60.
Proof.
  unfold strptime_HM.
  destruct (chars s) as [|c1 [|c2 rest]]; try discriminate.
  destruct (Ascii.eqb c2 colon).
  - destruct (hour_field [c1]) as [hh|] eqn:Eh; [|discriminate].
    destruct (minute_field rest) as [mm|] eqn:Em; [|discriminate].
    intros H. assert (hh = h /\ mm = m) as [<- <-] by (split; congruence).
    split; [eapply hour_field_range|eapply minute_field_range]; eauto.
  - destruct rest as [|c3 rest']; [discriminate|].
    destruct (Ascii.eqb c3 colon); [|discriminate].
    destruct (hour_field [c1; c2]) as [hh|] eqn:Eh; [|discriminate].
    destruct (minute_field rest') as [mm|] eqn:Em; [|discriminate].
    intros H. assert (hh = h /\ mm = m) as [<- <-] by (split; congruence).
    split; [eapply hour_field_range|eapply minute_field_range]; eauto.
Qed.

Lemma timedelta_seconds_nonneg (delta : Z) : 0 <= timedelta_seconds delta.
Proof.
  unfold timedelta_seconds, micros_per_day, micros_per_second.
  apply Z.div_pos; [|lia].
  apply Z.mod_pos_bound. lia.
Qed.

Lemma timedelta_seconds_exact (secs : Z) :
  0 <= secs < 86400 -> timedelta_seconds (secs * micros_per_second) = secs.
Proof.
  intros H. unfold timedelta_seconds, micros_per_day, micros_per_second.
  rewrite Z.mod_small by lia. apply Z.div_mul. lia.
Qed.

Lemma hours_nonneg (secs : Z) : 0 <= secs -> (0 <= inject_Z secs / inject_Z 3600)%Q.
Proof.
  intros H. unfold Qdiv, Qmult, Qinv, Qle, inject_Z. simpl. lia.
Qed.

(** The value on two parsed times. *)
Lemma on_parsed_times (s e : string) (hs ms he me : Z) :
  strptime_HM s = Some (hs, ms) -> strptime_HM e = Some (he, me) ->
  calculate_shift_hours (PyStr s) (PyStr e) =
    (inject_Z ((if 60 * he + me <? 60 * hs + ms then 1440 else 0)
               * 60 + (60 * he + me) * 60 - (60 * hs + ms) * 60)
     / inject_Z 3600)%Q.
Proof.
  intros Hs He. pose proof (strptime_range s hs ms Hs) as [Rh Rm].
  pose proof (strptime_range e he me He) as [Rh' Rm'].
  unfold calculate_shift_hours, calculate_shift_hours_on,
    calculate_shift_hours_try, to_datetime.
  rewrite Hs, He. cbn [lift_option bind py_lt].
  unfold datetime_of_HM. cbn [fst snd].
  assert (Hcmp : ((he * 3600 + me * 60) * micros_per_second
                  <? (hs * 3600 + ms * 60) * micros_per_second)
                 = (60 * he + me <? 60 * hs + ms)).
  { unfold micros_per_second.
    destruct (60 * he + me <? 60 * hs + ms) eqn:E.
    - apply Z.ltb_lt in E. apply Z.ltb_lt. lia.
    - apply Z.ltb_ge in E. apply Z.ltb_ge. lia. }
  rewrite Hcmp.
  destruct (60 * he + me <? 60 * hs + ms) eqn:E.
  - apply Z.ltb_lt in E. cbn [add_one_day].
    assert (Hfit : ((he * 3600 + me * 60) * micros_per_second + micros_per_day
                    <=? datetime_max) = true).
    { apply Z.leb_le. unfold datetime_max, micros_per_day, micros_per_second. lia. }
    rewrite Hfit. cbn [bind seconds_between].
    replace ((he * 3600 + me * 60) * micros_per_second + micros_per_day
             - (hs * 3600 + ms * 60) * micros_per_second)
      with ((1440 * 60 + (60 * he + me) * 60 - (60 * hs + ms) * 60) * micros_per_second)
      by (unfold micros_per_day, micros_per_second; lia).
    rewrite timedelta_seconds_exact by lia. reflexivity.
  - apply Z.ltb_ge in E. cbn [bind seconds_between].
    replace ((he * 3600 + me * 60) * micros_per_second
             - (hs * 3600 + ms * 60) * micros_per_second)
      with ((0 * 60 + (60 * he + me) * 60 - (60 * hs + ms) * 60) * micros_per_second)
      by (unfold micros_per_second; lia).
    rewrite timedelta_seconds_exact by lia. reflexivity.
Qed.

(** The conversion of an argument returns or raises. *)
Lemma to_datetime_comes_back (a : pyarg) :
  (exists o, to_datetime a = Returned o) \/ to_datetime a = Raised "ValueError".
Proof.
  destruct a as [s|o]; cbn [to_datetime]; [|left; eauto].
  destruct (strptime_HM s) as [hm|]; cbn [lift_option bind]; [left; eauto|now right].
Qed.

(** The [try] block returns a value that is not negative, or raises. *)
Lemma try_comes_back (a b : pyarg) :
  (exists h, calculate_shift_hours_try a b = Returned h /\ (0 <= h)%Q)
  \/ (exists e, calculate_shift_hours_try a b = Raised e).
Proof.
  unfold calculate_shift_hours_try.
  destruct (to_datetime_comes_back a) as [[x ->]| ->]; cbn [bind]; [|right; eauto].
  destruct (to_datetime_comes_back b) as [[y ->]| ->]; cbn [bind]; [|right; eauto].
  assert (Hsec : forall y', (exists h, (seconds <- seconds_between y' x ;;
                   Returned (inject_Z seconds / inject_Z 3600)%Q) = Returned h /\ (0 <= h)%Q)
                 \/ (exists e, (seconds <- seconds_between y' x ;;
                   Returned (inject_Z seconds / inject_Z 3600)%Q) = Raised e)).
  { intros y'. destruct y' as [d|d| |n], x as [d'|d'| |n']; cbn [seconds_between bind];
      try (right; eauto; fail).
    - left. eexists. split; [reflexivity|]. apply hours_nonneg, timedelta_seconds_nonneg.
    - destruct ((timedelta_min <=? d - d') && (d - d' <=? timedelta_max)); cbn [bind];
        [|right; eauto].
      left. eexists. split; [reflexivity|]. apply hours_nonneg, timedelta_seconds_nonneg. }
  destruct (py_lt y x) as [[|]|e|] eqn:Hlt; cbn [bind].
  - destruct y as [d|d| |n]; cbn [add_one_day bind].
    + destruct (d + micros_per_day <=? datetime_max); cbn [bind]; [apply Hsec|right; eauto].
    + destruct (d + micros_per_day <=? timedelta_max); cbn [bind]; [apply Hsec|right; eauto].
    + right; eauto.
    + right; eauto.
  - apply Hsec.
  - right; eauto.
  - destruct y, x; discriminate.
Qed.

(** On a stream that takes the message, the call returns, and what it
    returns is not negative: it is the value the scheduler works with. *)
Lemma returns_when_printed (stdout : Console) (a b : pyarg) :
  (forall e, stdout a b e = Returned tt) ->
  calculate_shift_hours_on stdout a b = Returned (calculate_shift_hours a b)
  /\ (0 <= calculate_shift_hours a b)%Q.
Proof.
  intros Hout. unfold calculate_shift_hours, calculate_shift_hours_on.
  destruct (try_comes_back a b) as [(h & -> & Hh)|(e & ->)].
  - split; [reflexivity|exact Hh].
  - rewrite Hout. cbn [bind utf8_stdout]. split; [reflexivity|apply Qle_refl].
Qed.


(** On two parsable times with the end before the start the value is 24
    hours minus the backward difference. *)
Lemma across_midnight (s e : string) (hs ms he me : Z) :
  strptime_HM s = Some (hs, ms) -> strptime_HM e = Some (he, me) ->
  60 * he + me < 60 * hs + ms ->
  (calculate_shift_hours (PyStr s) (PyStr e)
   == 24 - inject_Z ((60 * hs + ms) - (60 * he + me)) / 60)%Q.
Proof.
  intros Hs He Hlt.
  rewrite (on_parsed_times s e hs ms he me Hs He).
  apply Z.ltb_lt in Hlt. rewrite Hlt.
  generalize (60 * he + me), (60 * hs + ms). intros x y.
  unfold Qeq, Qdiv, Qminus, Qplus, Qmult, Qinv, Qopp, inject_Z.
  cbn -[Z.mul Z.add Z.sub Z.opp]. lia.
Qed.

(** Two [timedelta]s are taken as they are: from one hour to three hours
    the call returns 2.0, with nothing printed. *)
Lemma timedeltas_pass_through (stdout : Console) :
  calculate_shift_hours_on stdout
    (PyObj (Timedelta (3600 * micros_per_second)))
    (PyObj (Timedelta (3 * 3600 * micros_per_second)))
  = Returned (inject_Z 7200 / inject_Z 3600)%Q.
Proof. reflexivity. Qed.





End ShiftHours.

(** ** The employee filter *)

Module FilterFacts.

Lemma passes_filter_active {OH : Type} (constraints : Constraints_ OH) (emp : Employee) :
  passes_filter constraints emp = true ->
  get (isActive emp) true = true /\ get (anonymized emp) false = false.
Proof.
  unfold passes_filter.
  destruct (get (isActive emp) true); destruct (get (anonymized emp) false);
    simpl; try discriminate; auto.
Qed.

(** C9: no employee returned by the filter is inactive or anonymized; and
    when the filter returns nothing, [generate_schedule] returns the empty
    list, having invoked neither the optimiser nor the fallback (and it
    leaves the circuit breaker as it found it). *)
Theorem filter_excludes_and_short_circuits :
  (forall (employees : list Employee) (constraints : Constraints) (emp : Employee),
      In emp (_filter_employees_by_constraints employees constraints) ->
      get (isActive emp) true = true /\ get (anonymized emp) false = false)
  /\ (forall (env : Environment) (cb : CircuitBreaker.t) (employees : list Employee)
             (constraints : Constraints) (s e : date),
        _filter_employees_by_constraints employees constraints = [] ->
        generate_schedule env cb employees constraints s e
        = mkGeneration (Returned []) cb []).
Proof.
  split.
  - intros employees constraints emp Hin.
    unfold _filter_employees_by_constraints in Hin.
    apply filter_In in Hin. destruct Hin as [_ Hpass].
    now apply passes_filter_active in Hpass.
  - intros env cb employees constraints s e Hnone.
    unfold generate_schedule. rewrite Hnone. reflexivity.
Qed.

Lemma filter_excludes_and_short_circuits_witness :
  (In (Examples.emp "a" "employee")
      (_filter_employees_by_constraints
         [Examples.retired; Examples.emp "a" "employee"; Examples.erased]
         (Examples.doc (Examples.weekdays_open "09:00" "17:00" 1 2) 4 8))
   /\ get (isActive (Examples.emp "a" "employee")) true = true
   /\ get (anonymized (Examples.emp "a" "employee")) false = false)
  /\ _filter_employees_by_constraints [Examples.retired; Examples.erased]
       (Examples.doc (Examples.weekdays_open "09:00" "17:00" 1 2) 4 8) = []
  /\ generate_schedule (Examples.without_ortools 0) Examples.tripped [Examples.retired; Examples.erased]
       (Examples.doc (Examples.weekdays_open "09:00" "17:00" 1 2) 4 8)
       Examples.monday Examples.monday
     = mkGeneration (Returned []) Examples.tripped [].
Proof.
  split; [|split].
  - assert (Hin : In (Examples.emp "a" "employee")
              (_filter_employees_by_constraints
                 [Examples.retired; Examples.emp "a" "employee"; Examples.erased]
                 (Examples.doc (Examples.weekdays_open "09:00" "17:00" 1 2) 4 8)))
      by (vm_compute; left; reflexivity).
    split; [exact Hin|].
    exact (proj1 filter_excludes_and_short_circuits _ _ _ Hin).
  - reflexivity.
  - apply (proj2 filter_excludes_and_short_circuits). reflexivity.
Defined.

End FilterFacts.

(** ** The business coverage planner *)

Module PlannerFacts.

Lemma randint_point (lo : Z) (r : nat) : randint lo lo r = Returned lo.
Proof.
  unfold randint. rewrite Z.ltb_irrefl.
  replace (lo - lo + 1) with 1 by lia. rewrite Z.mod_1_r. f_equal. lia.
Qed.

(** With equal duration bounds the draw plays no part. *)
Lemma draw_irrelevant (ohs : list OperatingHours) (lo_staff hi_staff hours : Z)
    (key : option bool) (r : nat) :
  _create_business_coverage_plan ohs lo_staff hi_staff hours hours key r
  = _create_business_coverage_plan ohs lo_staff hi_staff hours hours key 0.
Proof.
  unfold _create_business_coverage_plan.
  destruct ohs as [|first_hours rest]; auto.
  destruct (hour_of (get (open_time first_hours) "09:00"%string)) as [o|exn|]; auto.
  destruct (hour_of (get (close_time first_hours) "17:00"%string)) as [c|exn|]; auto.
  cbn [bind]. unfold draft_shifts. now rewrite !randint_point.
Qed.

(** C4, at the input where the code breaks it: for a day open 09:00 to
    16:00 and shift durations bounded by 4 and 4 hours, the planner returns
    a list holding the template "Emergency Closing (15:00-16:00)", of
    duration 1, outside the bounds, whatever the random draw. *)
Theorem planner_emergency_shift_outside_bounds (r : nat) :
  exists shifts,
    _create_business_coverage_plan Examples.short_friday 1 5 4 4 None r = Returned shifts
    /\ In Examples.emergency_closing shifts
    /\ duration Examples.emergency_closing = Some 1
    /\ ~ within_window_and_bounds 9 16 4 4 Examples.emergency_closing.
Proof.
  rewrite draw_irrelevant.
  eexists. split; [vm_compute; reflexivity|].
  split; [simpl; auto 10|].
  split; [reflexivity|].
  intros (s & e & d & _ & _ & Hd & _ & _ & Hb).
  simpl in Hd. assert (d = 1) by congruence. lia.
Qed.

End PlannerFacts.

(** ** Text: formatting an hour and reading it back *)

Module TextFacts.

Lemma ltb_irrefl (s : string) : (s <? s)%string = false.
Proof.
  unfold String.ltb. pose proof (String.compare_antisym s s) as H.
  destruct (String.compare s s); simpl in H; auto; discriminate.
Qed.

Lemma append_empty (s : string) : (s ++ "")%string = s.
Proof. induction s; simpl; congruence. Qed.

Lemma before_colon_digits (d : Decimal.uint) (rest : string) :
  before_colon (NilEmpty.string_of_uint d ++ rest)
  = (NilEmpty.string_of_uint d ++ before_colon rest)%string.
Proof.
  induction d; simpl; auto; rewrite IHd; reflexivity.
Qed.

Lemma before_colon_number (z : Z) (tail : string) :
  before_colon (str_of_Z z ++ String colon tail) = str_of_Z z.
Proof.
  assert (G : forall d, before_colon (NilZero.string_of_uint d ++ String colon tail)
                        = NilZero.string_of_uint d).
  { intros d. destruct d; try reflexivity;
      unfold NilZero.string_of_uint; rewrite before_colon_digits;
      simpl; now rewrite append_empty. }
  unfold str_of_Z. destruct (Z.to_int z) as [d|d]; simpl.
  - apply G.
  - f_equal. apply G.
Qed.

Lemma int_of_printed (z : Z) : int_of_string (str_of_Z z) = Some z.
Proof.
  unfold str_of_Z.
  assert (Hnil : Z.to_int z <> Decimal.Pos Decimal.Nil
                 /\ Z.to_int z <> Decimal.Neg Decimal.Nil).
  { destruct z; simpl; split; try discriminate;
      intros H; injection H; apply DecimalPos.Unsigned.to_uint_nonnil. }
  destruct Hnil as [H1 H2].
  pose proof (NilZero.isi (Z.to_int z) H1 H2) as Hisi.
  unfold int_of_string.
  destruct (NilZero.string_of_int (Z.to_int z)) as [|c r] eqn:E.
  - simpl in Hisi. discriminate.
  - destruct (Ascii.eqb c "+") eqn:Ec.
    + apply Ascii.eqb_eq in Ec. subst c. simpl in Hisi.
      destruct (NilEmpty.uint_of_string r); simpl in Hisi; discriminate.
    + rewrite Hisi. simpl. f_equal. apply DecimalZ.of_to.
Qed.

Lemma int_of_padded (z : Z) : int_of_string (fmt02 z) = Some z.
Proof.
  unfold fmt02. destruct ((0 <=? z) && (z <? 10)) eqn:E.
  - apply andb_true_iff in E. destruct E as [E1 E2].
    apply Z.leb_le in E1. apply Z.ltb_lt in E2.
    assert (H : z = 0 \/ z = 1 \/ z = 2 \/ z = 3 \/ z = 4 \/ z = 5 \/ z = 6
                \/ z = 7 \/ z = 8 \/ z = 9) by lia.
    repeat (destruct H as [-> | H]; [reflexivity|]). subst z. reflexivity.
  - apply int_of_printed.
Qed.

Lemma before_colon_padded (z : Z) : before_colon (hh00 z) = fmt02 z.
Proof.
  unfold hh00, fmt02. destruct ((0 <=? z) && (z <? 10)).
  - change (before_colon (String "0" (str_of_Z z ++ ":00")) = String "0" (str_of_Z z)).
    simpl. f_equal. apply (before_colon_number z "00").
  - apply (before_colon_number z "00").
Qed.

(** The hour written by [f"{h:02d}:00"] reads back as [h]. *)
Lemma hour_of_hh00 (z : Z) : hour_of (hh00 z) = Returned z.
Proof.
  unfold hour_of. rewrite before_colon_padded, int_of_padded. reflexivity.
Qed.

Lemma digit_char (c : ascii) (d : Z) :
  digit_of c = Some d ->
  int_of_string (String c EmptyString) = Some d
  /\ Ascii.eqb c colon = false /\ Ascii.eqb c "+" = false /\ Ascii.eqb c "-" = false.
Proof.
  destruct c as [[] [] [] [] [] [] [] []]; cbn; try discriminate;
    intros [= <-]; repeat split; reflexivity.
Qed.

Lemma two_digits (c1 c2 : ascii) (a b : Z) :
  digit_of c1 = Some a -> digit_of c2 = Some b ->
  int_of_string (String c1 (String c2 EmptyString)) = Some (10 * a + b).
Proof.
  destruct c1 as [[] [] [] [] [] [] [] []]; cbn; try discriminate; intros [= <-];
    destruct c2 as [[] [] [] [] [] [] [] []]; cbn; try discriminate; intros [= <-];
    reflexivity.
Qed.

Lemma chars_inv (s : string) : forall l, chars s = l ->
  s = fold_right String EmptyString l.
Proof.
  induction s as [|c r IH]; intros l <-; cbn; [reflexivity|].
  f_equal. now apply IH.
Qed.

(** The hour that [strptime] reads is the one [int(t.split(":")[0])] reads. *)
Lemma hour_of_parsed (s : string) (h m : Z) :
  strptime_HM s = Some (h, m) -> hour_of s = Returned h.
Proof.
  unfold strptime_HM. intros H.
  destruct (chars s) as [|c1 [|c2 rest]] eqn:Hs; try discriminate.
  apply chars_inv in Hs. subst s.
  destruct (Ascii.eqb c2 colon) eqn:E2.
  - cbn [hour_field] in H.
    destruct (digit_of c1) as [a|] eqn:Ea; [|discriminate].
    destruct (minute_field rest); [|discriminate].
    injection H as <- _.
    destruct (digit_char c1 a Ea) as (Hi & Hc & _).
    unfold hour_of. cbn [fold_right before_colon]. rewrite Hc, E2.
    rewrite Hi. reflexivity.
  - destruct rest as [|c3 rest']; [discriminate|].
    destruct (Ascii.eqb c3 colon) eqn:E3; [|discriminate].
    cbn [hour_field] in H.
    destruct (digit_of c1) as [a|] eqn:Ea; [|discriminate].
    destruct (digit_of c2) as [b|] eqn:Eb; [|discriminate].
    destruct (10 * a + b <? 24); [|discriminate].
    destruct (minute_field rest'); [|discriminate].
    injection H as <- _.
    destruct (digit_char c1 a Ea) as (_ & Hc & _).
    unfold hour_of. cbn [fold_right before_colon]. rewrite Hc, E2, E3.
    rewrite (two_digits c1 c2 a b Ea Eb). reflexivity.
Qed.

(** An hour of the day written by [f"{h:02d}:00"] is a [%H:%M] time. *)
Lemma strptime_hh00 (h : Z) : 0 <= h <= 23 -> strptime_HM (hh00 h) = Some (h, 0).
Proof.
  intros H.
  assert (C : h = 0 \/ h = 1 \/ h = 2 \/ h = 3 \/ h = 4 \/ h = 5 \/ h = 6 \/ h = 7
              \/ h = 8 \/ h = 9 \/ h = 10 \/ h = 11 \/ h = 12 \/ h = 13 \/ h = 14
              \/ h = 15 \/ h = 16 \/ h = 17 \/ h = 18 \/ h = 19 \/ h = 20 \/ h = 21
              \/ h = 22 \/ h = 23) by lia.
  repeat (destruct C as [-> | C]; [reflexivity|]). subst h. reflexivity.
Qed.

End TextFacts.

(** ** When the planner returns nothing *)

Ltac decide_test :=
  match goal with
  | |- context [Z.ltb ?a ?b] =>
      first [rewrite (proj2 (Z.ltb_lt a b)) by lia
            | rewrite (proj2 (Z.ltb_ge a b)) by lia]
  | |- context [Z.leb ?a ?b] =>
      first [rewrite (proj2 (Z.leb_le a b)) by lia
            | rewrite (proj2 (Z.leb_gt a b)) by lia]
  | |- context [Z.eqb ?a ?b] =>
      first [rewrite (proj2 (Z.eqb_eq a b)) by lia
            | rewrite (proj2 (Z.eqb_neq a b)) by lia]
  end.

Module PlannerEmptiness.
Import TextFacts.

Lemma randint_range (lo hi : Z) (r : nat) (d : Z) :
  randint lo hi r = Returned d -> lo <= d <= hi.
Proof.
  unfold randint. destruct (hi <? lo) eqn:E; [discriminate|].
  apply Z.ltb_ge in E. intros H.
  assert (Hd : d = lo + Z.of_nat r mod (hi - lo + 1)) by congruence.
  pose proof (Z.mod_pos_bound (Z.of_nat r) (hi - lo + 1)). lia.
Qed.

Lemma randint_returns (lo hi : Z) (r : nat) :
  lo <= hi -> exists d, randint lo hi r = Returned d /\ lo <= d <= hi.
Proof.
  intros H. unfold randint. decide_test.
  eexists. split; [reflexivity|].
  pose proof (Z.mod_pos_bound (Z.of_nat r) (hi - lo + 1)). lia.
Qed.

Lemma range_cons (lo hi : Z) : lo < hi -> range lo hi = lo :: range (lo + 1) hi.
Proof.
  intros H. unfold range.
  replace (Z.to_nat (hi - lo)) with (S (Z.to_nat (hi - (lo + 1)))) by lia.
  cbn [seq map]. f_equal; [lia|].
  rewrite <- seq_shift, map_map. apply map_ext. intros k. lia.
Qed.

Lemma in_range (lo hi x : Z) : In x (range lo hi) -> lo <= x < hi.
Proof.
  unfold range. intros H. apply in_map_iff in H. destruct H as (k & <- & Hk).
  apply in_seq in Hk. lia.
Qed.

Lemma search_duration_found (total : Z) (candidates : list Z) (dur test : Z) :
  search_duration total candidates = Returned (Some (dur, test)) ->
  In dur candidates /\ 2 <= test.
Proof.
  induction candidates as [|x rest IH]; cbn [search_duration]; [discriminate|].
  unfold shifts_needed. destruct (x =? 0); [discriminate|]. cbn [bind].
  destruct (Z.max 2 (Z.quot total x + 1) <=? 6).
  - intros H. assert (x = dur /\ Z.max 2 (Z.quot total x + 1) = test) as [<- <-]
      by (split; congruence).
    split; [now left|lia].
  - intros H. destruct (IH H). split; [now right|assumption].
Qed.

(** What the validation pass keeps and drops. *)
Lemma validated_head_kept (o c lo hi : Z) (t : ShiftTemplate)
    (l k : list ShiftTemplate) :
  within_window_and_bounds o c lo hi t ->
  validated_shifts o c lo hi (t :: l) = Returned k ->
  exists k', k = t :: k'.
Proof.
  intros (s & e & d & Hs & He & Hd & H1 & H2 & H3 & H4).
  cbn [validated_shifts]. rewrite Hs, He, Hd. cbn [bind lift_option].
  destruct (validated_shifts o c lo hi l) as [kept|exn|]; cbn [bind]; try discriminate.
  repeat decide_test. cbn [andb]. intros H. exists kept. congruence.
Qed.

Lemma validated_all_short (o c lo hi : Z) (l : list ShiftTemplate) :
  Forall (too_short lo) l -> validated_shifts o c lo hi l = Returned [].
Proof.
  induction 1 as [|t rest (s & e & d & Hs & He & Hd & Hlt) _ IH];
    cbn [validated_shifts]; auto.
  rewrite Hs, He, Hd, IH. cbn [bind lift_option].
  replace (lo <=? d) with false by (symmetry; apply Z.leb_gt; lia).
  now rewrite andb_false_r.
Qed.

Lemma clip_keeps_head (ct : string) (t : ShiftTemplate) (l out : list ShiftTemplate) :
  clip_to_close ct (t :: l) = Returned out -> out <> [].
Proof.
  cbn [clip_to_close]. destruct (ct <? end_time t)%string.
  - destruct (hour_of (start_time t)); cbn [bind]; try discriminate.
    destruct (hour_of ct); cbn [bind]; try discriminate.
    destruct (clip_to_close ct l); cbn [bind]; try discriminate.
    intros H. assert (out = mkShift (name t) (start_time t) ct (Some (a0 - a))
                              (type t) (required_roles t) (preferred_locations t)
                              (is_active t) :: a1) by congruence.
    subst out. discriminate.
  - destruct (clip_to_close ct l); cbn [bind]; try discriminate.
    intros H. assert (out = t :: a) by congruence. subst out. discriminate.
Qed.

(** A draft that starts with a shift inside the window and the bounds does
    not settle to the empty list. *)
Lemma settle_nonempty (ot ct : string) (o c lo hi : Z) (t : ShiftTemplate)
    (l out : list ShiftTemplate) :
  within_window_and_bounds o c lo hi t ->
  settle_shifts ot ct o c lo hi (t :: l) = Returned out -> out <> [].
Proof.
  intros Hin. unfold settle_shifts.
  set (more := if c - o <=? hi then _ else _).
  assert (Hmore : exists l', more = t :: l').
  { subst more. destruct (c - o <=? hi); eexists; reflexivity. }
  destruct Hmore as (l' & ->).
  destruct (validated_shifts o c lo hi (t :: l')) as [kept|exn|] eqn:Hv;
    cbn [bind]; try discriminate.
  destruct (validated_head_kept _ _ _ _ _ _ _ Hin Hv) as (k' & ->).
  set (cs := string_min ot _). set (ce := string_max ct _).
  assert (Hclip : forall x, (if (ct <? ce)%string then clip_to_close ct (t :: k')
                             else Returned (t :: k')) = Returned x -> x <> []).
  { intros x. destruct (ct <? ce)%string.
    - apply clip_keeps_head.
    - intros H. assert (x = t :: k') by congruence. subst x. discriminate. }
  destruct (if (ct <? ce)%string then clip_to_close ct (t :: k')
            else Returned (t :: k')) as [clipped|exn|]; cbn [bind]; try discriminate.
  specialize (Hclip clipped eq_refl).
  destruct ((ot <? cs)%string || (ce <? ct)%string).
  - destruct (ot <? cs)%string.
    + destruct (emergency_shift "Emergency Opening" "emergency_opening" ot cs);
        cbn [bind]; try discriminate.
      destruct (ce <? ct)%string.
      * destruct (emergency_shift "Emergency Closing" "emergency_closing" ce ct);
          cbn [bind]; try discriminate.
        intros H. assert (out = (a :: clipped) ++ [a0])%list by congruence.
        subst out. discriminate.
      * intros H. assert (out = a :: clipped) by congruence. subst out. discriminate.
    + cbn [bind]. destruct (ce <? ct)%string.
      * destruct (emergency_shift "Emergency Closing" "emergency_closing" ce ct);
          cbn [bind]; try discriminate.
        intros H. assert (out = (clipped ++ [a])%list) by congruence.
        subst out. destruct clipped; discriminate.
      * intros H. assert (out = clipped) by congruence. now subst out.
  - intros H. assert (out = clipped) by congruence. now subst out.
Qed.

(** A draft of shifts that are all too short settles to the empty list,
    when the whole day is too short as well. *)
Lemma settle_all_short (ot ct : string) (o c lo hi : Z) (l : list ShiftTemplate) :
  hour_of ot = Returned o -> hour_of ct = Returned c -> c - o < lo ->
  Forall (too_short lo) l ->
  settle_shifts ot ct o c lo hi l = Returned [].
Proof.
  intros Ho Hc Hday Hall. unfold settle_shifts.
  rewrite validated_all_short.
  - cbn [bind map string_min string_max]. rewrite !ltb_irrefl. reflexivity.
  - destruct (c - o <=? hi); auto.
    apply Forall_app. split; auto. constructor; auto.
    exists o, c, (c - o). cbn. auto.
Qed.


Lemma coverage_shift_opening (o c lo hi d req : Z) :
  6 <= c - o -> lo <= c - o -> lo <= d <= hi -> 2 <= req ->
  exists t, coverage_shift o c lo hi d req 0 = [t]
            /\ within_window_and_bounds o c lo hi t.
Proof.
  intros Hday Hlo Hd Hreq. unfold coverage_shift.
  replace (o + 0 * d) with o by lia.
  destruct (c <? o + d) eqn:E.
  - apply Z.ltb_lt in E. cbv iota beta.
    repeat decide_test. cbn [orb andb].
    eexists. split; [reflexivity|].
    exists o, c, (c - o). cbn [start_time end_time duration planned].
    rewrite !hour_of_hh00. repeat split; auto; lia.
  - apply Z.ltb_ge in E.
    replace (0 =? req - 1) with false by (symmetry; apply Z.eqb_neq; lia).
    cbv iota beta. cbn [andb].
    repeat decide_test. cbn [orb andb].
    eexists. split; [reflexivity|].
    exists o, (o + d), d. cbn [start_time end_time duration planned].
    rewrite !hour_of_hh00. repeat split; auto; lia.
Qed.

(** When the day is at least as long as the shortest shift, the draft
    starts with the opening shift, inside the window and the bounds. *)
Lemma draft_head (o c lo hi : Z) (key : option bool) (r : nat)
    (shifts : list ShiftTemplate) :
  6 <= c - o -> lo <= c - o ->
  draft_shifts o c lo hi key r = Returned shifts ->
  exists t l, shifts = t :: l /\ within_window_and_bounds o c lo hi t.
Proof.
  intros Hday Hlo. unfold draft_shifts.
  destruct (randint lo hi r) as [d0|exn|] eqn:Hr; cbn [bind]; try discriminate.
  apply randint_range in Hr.
  unfold shifts_needed at 1. destruct (d0 =? 0); cbn [bind]; try discriminate.
  set (needed := Z.max 2 (Z.quot (c - o) d0 + 1)).
  assert (Hchosen : forall chosen,
            (if 6 <? needed
             then found <- search_duration (c - o) (range lo (hi + 1)) ;;
                  Returned (get found (d0, needed))
             else Returned (d0, needed)) = Returned chosen ->
            lo <= fst chosen <= hi /\ 2 <= snd chosen).
  { intros chosen. destruct (6 <? needed).
    - destruct (search_duration (c - o) (range lo (hi + 1))) as [[[dur test]|]|exn|]
        eqn:Hs; cbn [bind get]; try discriminate.
      + apply search_duration_found in Hs. destruct Hs as [Hin Ht].
        apply in_range in Hin. intros H.
        assert (chosen = (dur, test)) by congruence. subst chosen. cbn. lia.
      + intros H. assert (chosen = (d0, needed)) by congruence. subst chosen.
        cbn. subst needed. lia.
    - intros H. assert (chosen = (d0, needed)) by congruence. subst chosen.
      cbn. subst needed. lia. }
  destruct (if 6 <? needed then _ else _) as [chosen|exn|]; cbn [bind]; try discriminate.
  destruct (Hchosen chosen eq_refl) as [Hd Hreq].
  rewrite (range_cons 0 (snd chosen)) by lia. cbn [flat_map].
  destruct (coverage_shift_opening o c lo hi (fst chosen) (snd chosen) Hday Hlo Hd Hreq)
    as (t & -> & Hin).
  match goal with
  | |- context [bind ?m _] => destruct m as [managers|exn|]
  end; cbn [bind]; try discriminate.
  intros H. destruct (get key true).
  - eexists t, _. split; [|exact Hin].
    assert (Hs : shifts = ((([t] ++ flat_map (coverage_shift o c lo hi (fst chosen)
                                                (snd chosen))
                                       (range (0 + 1) (snd chosen)))
                             ++ manager_coverage_shifts o c lo hi) ++ managers)%list)
      by congruence.
    rewrite Hs. reflexivity.
  - eexists t, _. split; [|exact Hin].
    assert (Hs : shifts = (([t] ++ flat_map (coverage_shift o c lo hi (fst chosen)
                                               (snd chosen))
                                      (range (0 + 1) (snd chosen)))
                            ++ managers)%list)
      by congruence.
    rewrite Hs. reflexivity.
Qed.


Lemma short_planned (lo s e d : Z) (nm ty : string) (needs : list (string * Z)) :
  d < lo -> too_short lo (planned nm (hh00 s) (hh00 e) d ty needs).
Proof.
  intros H. exists s, e, d. cbn [start_time end_time duration planned].
  rewrite !hour_of_hh00. auto.
Qed.

Lemma manager_coverage_short (o c lo hi : Z) :
  c - o < lo -> Forall (too_short lo) (manager_coverage_shifts o c lo hi).
Proof.
  intros Hday. unfold manager_coverage_shifts.
  apply Forall_app; split; [|apply Forall_app; split];
    match goal with
    | |- Forall _ (if ?b then _ else _) => destruct b
    end; constructor; auto; apply short_planned; lia.
Qed.

(** When the day is shorter than the shortest shift, every shift of the
    draft is too short, whatever the draw. *)
Lemma draft_all_short (o c lo hi : Z) (key : option bool) (r : nat) :
  6 <= c - o -> c - o < lo -> lo <= hi ->
  exists shifts, draft_shifts o c lo hi key r = Returned shifts
                 /\ Forall (too_short lo) shifts.
Proof.
  intros Hday Hshort Hb. unfold draft_shifts.
  destruct (randint_returns lo hi r Hb) as (d & -> & Hd). cbn [bind].
  unfold shifts_needed.
  replace (d =? 0) with false by (symmetry; apply Z.eqb_neq; lia).
  cbn [bind]. rewrite Z.quot_small by lia.
  change (Z.max 2 (0 + 1)) with 2. change (6 <? 2) with false. cbn [bind fst snd].
  change (range 0 2) with [0; 1]. cbn [flat_map].
  assert (H0 : coverage_shift o c lo hi d 2 0 = []).
  { unfold coverage_shift. replace (o + 0 * d) with o by lia.
    repeat decide_test. cbv iota beta. repeat decide_test. reflexivity. }
  assert (H1 : coverage_shift o c lo hi d 2 1 = []).
  { unfold coverage_shift. replace (o + 1 * d) with (o + d) by lia.
    repeat decide_test. cbv iota beta. repeat decide_test. reflexivity. }
  rewrite H0, H1. cbn [app].
  replace (c - o <=? Z.min hi (Z.max lo 6)) with true
    by (symmetry; apply Z.leb_le; lia).
  cbn [bind app]. eexists. split; [reflexivity|].
  apply Forall_app. split.
  - destruct (get key true); [apply manager_coverage_short; lia|constructor].
  - constructor; auto. apply short_planned. lia.
Qed.

(** Whether the planner returns the empty list does not depend on the
    draw. *)
Lemma empty_for_every_draw (ohs : list OperatingHours) (lo_staff hi_staff lo hi : Z)
    (key : option bool) (r1 r2 : nat) :
  _create_business_coverage_plan ohs lo_staff hi_staff lo hi key r1 = Returned [] ->
  _create_business_coverage_plan ohs lo_staff hi_staff lo hi key r2 = Returned [].
Proof.
  unfold _create_business_coverage_plan.
  destruct ohs as [|first_hours rest]; auto.
  destruct (hour_of (get (open_time first_hours) "09:00"%string)) as [o|exn|] eqn:Ho;
    cbn [bind]; try discriminate.
  destruct (hour_of (get (close_time first_hours) "17:00"%string)) as [c|exn|] eqn:Hc;
    cbn [bind]; try discriminate.
  destruct (6 <=? c - o) eqn:Hday; cbn [bind]; try discriminate.
  apply Z.leb_le in Hday.
  destruct (draft_shifts o c lo hi key r1) as [shifts|exn|] eqn:Hdraft;
    cbn [bind]; try discriminate.
  intros Hsettle.
  assert (Hb : lo <= hi).
  { unfold draft_shifts in Hdraft.
    destruct (randint lo hi r1) as [d|exn|] eqn:Hr; cbn [bind] in Hdraft;
      try discriminate.
    apply randint_range in Hr. lia. }
  assert (Hshort : c - o < lo).
  { destruct (Z_lt_le_dec (c - o) lo) as [Hlt|Hge]; auto. exfalso.
    destruct (draft_head o c lo hi key r1 shifts Hday Hge Hdraft) as (t & l & -> & Hin).
    now apply (settle_nonempty _ _ _ _ _ _ _ _ _ Hin Hsettle). }
  destruct (draft_all_short o c lo hi key r2 Hday Hshort Hb) as (shifts2 & -> & Hall).
  cbn [bind]. now apply settle_all_short.
Qed.

(** The planner reads the first operating-hours entry only. *)
Lemma first_entry_only (first_hours : OperatingHours) (rest rest' : list OperatingHours)
    (lo_staff hi_staff lo hi : Z) (key : option bool) (r : nat) :
  _create_business_coverage_plan (first_hours :: rest) lo_staff hi_staff lo hi key r
  = _create_business_coverage_plan (first_hours :: rest') lo_staff hi_staff lo hi key r.
Proof. reflexivity. Qed.

End PlannerEmptiness.

(** ** The constraint normaliser *)

Module NormalizerFacts.
Import PlannerEmptiness.

Section Sorting.
Context {A : Type} (le : A -> A -> bool).

Lemma insert_sorted_in (x y : A) (l : list A) :
  In y (insert_sorted le x l) <-> y = x \/ In y l.
Proof.
  induction l as [|z r IH]; cbn [insert_sorted].
  - simpl. intuition.
  - destruct (le x z); simpl in *; intuition.
Qed.

Lemma stable_sort_in (y : A) (l : list A) : In y (stable_sort le l) <-> In y l.
Proof.
  induction l as [|x r IH]; cbn [stable_sort fold_right]; [reflexivity|].
  fold (stable_sort le r). rewrite insert_sorted_in, IH. simpl. intuition.
Qed.

Lemma insert_sorted_length (x : A) (l : list A) :
  List.length (insert_sorted le x l) = S (List.length l).
Proof.
  induction l as [|z r IH]; cbn [insert_sorted]; auto.
  destruct (le x z); simpl; auto.
Qed.

Lemma stable_sort_length (l : list A) :
  List.length (stable_sort le l) = List.length l.
Proof.
  induction l as [|x r IH]; cbn [stable_sort fold_right]; auto.
  fold (stable_sort le r). rewrite insert_sorted_length. simpl. auto.
Qed.
End Sorting.

Lemma existsb_same_members {A : Type} (f : A -> bool) (l l' : list A) :
  (forall x, In x l <-> In x l') -> existsb f l = existsb f l'.
Proof.
  intros H. destruct (existsb f l) eqn:E; destruct (existsb f l') eqn:E'; auto.
  - apply existsb_exists in E. destruct E as (x & Hin & Hx).
    assert (existsb f l' = true) by (apply existsb_exists; exists x; split; auto; now apply H).
    congruence.
  - apply existsb_exists in E'. destruct E' as (x & Hin & Hx).
    assert (existsb f l = true) by (apply existsb_exists; exists x; split; auto; now apply H).
    congruence.
Qed.

Lemma missing_days_same_members (l l' : list OperatingHours) :
  (forall x, In x l <-> In x l') -> missing_days l = missing_days l'.
Proof.
  intros H. unfold missing_days. apply filter_ext. intros d.
  f_equal. now apply existsb_same_members.
Qed.

Lemma missing_days_sorted (l : list OperatingHours) :
  missing_days (sort_by_day l) = missing_days l.
Proof.
  apply missing_days_same_members. intros x. apply stable_sort_in.
Qed.

Lemma day_eqb_eq (a b : DayOfWeek) : day_eqb a b = true <-> a = b.
Proof.
  unfold day_eqb. rewrite Z.eqb_eq. split; [|now intros ->].
  destruct a, b; simpl; intros H; try reflexivity; discriminate.
Qed.

Lemma in_range7 (d : DayOfWeek) : In d range7.
Proof. destruct d; simpl; auto 10. Qed.

Lemma has_day_iff (l : list OperatingHours) (d : DayOfWeek) :
  existsb (fun oh => day_eqb (day_of_week oh) d) l = true
  <-> In d (map day_of_week l).
Proof.
  rewrite existsb_exists, in_map_iff. split.
  - intros (oh & Hin & He). apply day_eqb_eq in He. eauto.
  - intros (oh & He & Hin). exists oh. split; auto. now apply day_eqb_eq.
Qed.

Lemma in_missing_days (l : list OperatingHours) (d : DayOfWeek) :
  In d (missing_days l) <-> ~ In d (map day_of_week l).
Proof.
  unfold missing_days. rewrite filter_In, <- has_day_iff.
  split.
  - intros [_ H] Hc. rewrite Hc in H. discriminate.
  - intros H. split; [apply in_range7|].
    destruct (existsb _ l); auto; now elim H.
Qed.

Lemma missing_days_none (l : list OperatingHours) :
  missing_days l = [] <-> (forall d, In d (map day_of_week l)).
Proof.
  split.
  - intros H d. destruct (in_dec DayOfWeek_eq_dec d (map day_of_week l))
      as [Hin|Hout]; auto.
    apply in_missing_days in Hout. rewrite H in Hout. destruct Hout.
  - intros H. destruct (missing_days l) as [|d r] eqn:E; auto.
    assert (Hd : In d (missing_days l)) by (rewrite E; now left).
    apply in_missing_days in Hd. elim Hd. apply H.
Qed.

(** Appending a closed entry for every missing day leaves no day missing. *)
Lemma missing_days_filled (lo hi : Z) (l : list OperatingHours) :
  missing_days (l ++ map (closed_entry lo hi) (missing_days l)) = [].
Proof.
  apply missing_days_none. intros d. rewrite map_app, in_app_iff, map_map.
  cbn [closed_entry day_of_week]. rewrite map_id.
  destruct (in_dec DayOfWeek_eq_dec d (map day_of_week l)) as [Hin|Hout]; auto.
  right. now apply in_missing_days.
Qed.

Lemma nodup_range7 : NoDup range7.
Proof.
  unfold range7. repeat constructor; simpl; intuition discriminate.
Qed.

(** A list that misses no day has at least seven entries. *)
Lemma seven_entries (l : list OperatingHours) :
  missing_days l = [] -> (7 <= List.length l)%nat.
Proof.
  intros H. rewrite <- (length_map day_of_week l).
  change 7%nat with (List.length range7).
  apply NoDup_incl_length; [apply nodup_range7|].
  intros d _. now apply missing_days_none.
Qed.

Lemma completed_first_none_missing (l : list OperatingHours) :
  (List.length l < 7)%nat -> missing_days (completed_first l) = [].
Proof.
  intros H. unfold completed_first.
  replace (List.length l <? 7)%nat with true by (symmetry; now apply Nat.ltb_lt).
  rewrite missing_days_sorted. apply missing_days_filled.
Qed.

Lemma completed_first_long (l : list OperatingHours) :
  (7 <= List.length (completed_first l))%nat.
Proof.
  unfold completed_first. destruct (List.length l <? 7)%nat eqn:E.
  - apply seven_entries. rewrite missing_days_sorted. apply missing_days_filled.
  - now apply Nat.ltb_ge in E.
Qed.

Lemma completed_first_nonempty (l : list OperatingHours) :
  nonempty (completed_first l) = true.
Proof.
  pose proof (completed_first_long l) as H.
  destruct (completed_first l); simpl in *; auto. lia.
Qed.

Lemma completed_second_none_missing (l : list OperatingHours) :
  missing_days (completed_second l) = [].
Proof. apply missing_days_filled. Qed.

(** A list that misses no day is left alone by both completions. *)
Lemma completed_first_fixed (l : list OperatingHours) :
  missing_days l = [] -> completed_first l = l.
Proof.
  intros H. unfold completed_first.
  replace (List.length l <? 7)%nat with false; auto.
  symmetry. apply Nat.ltb_ge. now apply seven_entries.
Qed.

Lemma completed_second_fixed (l : list OperatingHours) :
  missing_days l = [] -> completed_second l = l.
Proof.
  intros H. unfold completed_second. rewrite H. apply app_nil_r.
Qed.

Lemma sort_by_day_length (l : list OperatingHours) :
  List.length (sort_by_day l) = List.length l.
Proof. apply stable_sort_length. Qed.

Lemma completed_second_longer (l : list OperatingHours) :
  (List.length l <= List.length (completed_second l))%nat.
Proof. unfold completed_second. rewrite length_app. lia. Qed.

Lemma completed_grows (l : list OperatingHours) :
  missing_days l <> [] ->
  (List.length l < List.length (completed_second (completed_first l)))%nat.
Proof.
  intros H. unfold completed_first. destruct (List.length l <? 7)%nat eqn:E.
  - pose proof (completed_second_longer
                  (sort_by_day (l ++ map (closed_entry 0 0) (missing_days l)))) as G.
    rewrite sort_by_day_length, length_app, length_map in G.
    destruct (missing_days l); [congruence|]. cbn [List.length] in G. lia.
  - unfold completed_second. rewrite length_app, length_map.
    destruct (missing_days l); [congruence|]. cbn [List.length]. lia.
Qed.


(** *** The store *)

Lemma read_write_same (st : store) (a : address) (l : list OperatingHours) :
  (a < List.length st)%nat -> read (write st a l) a = l.
Proof.
  revert a. induction st as [|x rest IH]; intros a H; simpl in H; [lia|].
  destruct a as [|a']; [reflexivity|].
  unfold read in *. cbn [write nth]. apply IH. lia.
Qed.

Lemma write_length (st : store) (a : address) (l : list OperatingHours) :
  List.length (write st a l) = List.length st.
Proof.
  revert a. induction st as [|x rest IH]; intros [|a']; simpl; auto.
Qed.

Lemma template_defaults_oh {A B : Type} (r : nat) (l : list OperatingHours)
    (c : Constraints_ A) (x : option B) :
  template_defaults r l (with_operating_hours c x)
  = (c' <- template_defaults r l c ;; Returned (with_operating_hours c' x)).
Proof.
  unfold template_defaults. cbn [with_operating_hours shift_templates c_min_staff
    c_max_staff min_consecutive_hours_per_shift max_consecutive_hours_per_shift
    require_manager_coverage].
  destruct (negb (nonempty (get (shift_templates c) [])) && nonempty l).
  - destruct (_create_business_coverage_plan l _ _ _ _ _ r) as [g|exn|]; cbn [bind]; auto.
    destruct (nonempty g); reflexivity.
  - destruct (nonempty (get (shift_templates c) [])); reflexivity.
Qed.

(** What the call does to the list object the caller passed in. *)
Lemma effect_on_callers_list (r : nat) (st st' : store) (c c' : ConstraintsRef)
    (a : address) :
  operating_hours c = Some a -> (a < List.length st)%nat ->
  _ensure_constraint_defaults r st c = Returned (st', c') ->
  read st' a = completed_second (completed_first (read st a))
  /\ operating_hours c' = Some a.
Proof.
  intros Hkey Ha. unfold _ensure_constraint_defaults. rewrite Hkey.
  cbv beta iota zeta. rewrite read_write_same by assumption.
  destruct (template_defaults r (completed_first (read st a))
              (with_operating_hours c (Some a))) as [enhanced|exn|];
    cbn [bind]; try discriminate.
  rewrite completed_first_nonempty. intros H.
  assert (Hst : st' = write (write st a (completed_first (read st a))) a
                        (completed_second (completed_first (read st a))))
    by congruence.
  assert (Hc : c' = with_operating_hours
                      (with_places enhanced
                         (or_default (locations enhanced) ["Main Office"%string])
                         (or_default (departments enhanced) ["Operations"%string])
                         (or_default (roles enhanced) ["general"%string]))
                      (Some a)) by congruence.
  subst st' c'. split; [|reflexivity].
  apply read_write_same. now rewrite write_length.
Qed.

(** C7, where the code breaks it: when the list object under
    ["operating_hours"] misses a weekday, a call that returns has made the
    caller's own list longer: the input document is not left unchanged. *)
Theorem normalizer_extends_callers_list (r : nat) (st st' : store)
    (c c' : ConstraintsRef) (a : address) :
  operating_hours c = Some a -> (a < List.length st)%nat ->
  missing_days (read st a) <> [] ->
  _ensure_constraint_defaults r st c = Returned (st', c') ->
  (List.length (read st a) < List.length (read st' a))%nat.
Proof.
  intros Hkey Ha Hmiss Hrun.
  destruct (effect_on_callers_list r st st' c c' a Hkey Ha Hrun) as [-> _].
  now apply completed_grows.
Qed.

Lemma normalizer_extends_callers_list_witness :
  exists st' c',
    _ensure_constraint_defaults 0 [Examples.monday_only] Examples.monday_only_ref
      = Returned (st', c')
    /\ List.length (read [Examples.monday_only] O) = 1%nat
    /\ (List.length (read [Examples.monday_only] O) < List.length (read st' O))%nat.
Proof.
  eexists. eexists. split; [vm_compute; reflexivity|]. split; [reflexivity|].
  eapply normalizer_extends_callers_list
    with (r := 0%nat) (c := Examples.monday_only_ref).
  - reflexivity.
  - simpl. lia.
  - vm_compute. discriminate.
  - vm_compute. reflexivity.
Defined.


(** *** The value returned *)

Lemma normalized_value (r : nat) (c : Constraints) :
  normalized r c =
    (enhanced <- template_defaults r (completed_first (get (operating_hours c) [])) c ;;
     Returned
       (with_operating_hours
          (with_places enhanced
             (or_default (locations enhanced) ["Main Office"%string])
             (or_default (departments enhanced) ["Operations"%string])
             (or_default (roles enhanced) ["general"%string]))
          (Some (completed_second (completed_first (get (operating_hours c) [])))))).
Proof.
  unfold normalized, enter, _ensure_constraint_defaults.
  destruct (operating_hours c) as [ohs|] eqn:Hkey.
  - cbn [with_operating_hours operating_hours get]. cbv beta iota zeta.
    rewrite !read_write_same by (simpl; lia).
    change (read [ohs] O) with ohs.
    rewrite !template_defaults_oh.
    destruct (template_defaults r (completed_first ohs) c) as [enhanced|exn|];
      cbn [bind]; auto.
    rewrite completed_first_nonempty. cbn [bind fst snd]. unfold load.
    cbn [with_operating_hours with_places operating_hours option_map].
    rewrite read_write_same by (rewrite write_length; simpl; lia).
    reflexivity.
  - cbn [with_operating_hours operating_hours get alloc app List.length].
    cbv beta iota zeta.
    rewrite !read_write_same by (simpl; lia).
    change (read [[]] O) with (@nil OperatingHours).
    rewrite !template_defaults_oh.
    destruct (template_defaults r (completed_first []) c) as [enhanced|exn|];
      cbn [bind]; reflexivity.
Qed.

Lemma or_default_twice (o : option (list string)) (d : list string) :
  nonempty d = true -> or_default (or_default o d) d = or_default o d.
Proof.
  intros Hd. unfold or_default at 2 3.
  destruct (nonempty (get o [])) eqn:E.
  - unfold or_default. now rewrite E.
  - unfold or_default. cbn [get]. now rewrite Hd.
Qed.

Lemma nonempty_app_l {A : Type} (l l' : list A) :
  nonempty l = true -> exists x t, l = x :: t /\ (l ++ l')%list = x :: (t ++ l')%list.
Proof. destruct l as [|x t]; [discriminate|]. intros _. exists x, t. auto. Qed.

(** The template step finds nothing more to do on its own output, whatever
    the second draw, once the operating hours are complete. *)
Lemma template_defaults_settled (r1 r2 : nat) (l : list OperatingHours)
    (c enhanced : Constraints) (locs depts rls : option (list string))
    (oh : option (list OperatingHours)) :
  nonempty l = true ->
  template_defaults r1 l c = Returned enhanced ->
  template_defaults r2 (completed_second l)
    (with_operating_hours (with_places enhanced locs depts rls) oh)
  = Returned (with_operating_hours (with_places enhanced locs depts rls) oh).
Proof.
  intros Hl. unfold template_defaults.
  cbn [with_operating_hours with_places shift_templates c_min_staff c_max_staff
       min_consecutive_hours_per_shift max_consecutive_hours_per_shift
       require_manager_coverage].
  rewrite Hl, andb_true_r.
  destruct (nonempty (get (shift_templates c) [])) eqn:Hexisting; cbn [negb].
  - intros H. assert (enhanced = c) by congruence. subst enhanced.
    rewrite Hexisting. reflexivity.
  - destruct (_create_business_coverage_plan l (get (c_min_staff c) 1)
                (get (c_max_staff c) 8) (get (min_consecutive_hours_per_shift c) 4)
                (get (max_consecutive_hours_per_shift c) 12)
                (require_manager_coverage c) r1) as [g|exn|] eqn:Hplan;
      cbn [bind]; try discriminate.
    destruct (nonempty g) eqn:Hg.
    + intros H. assert (enhanced = with_shift_templates c g) by congruence.
      subst enhanced. cbn [with_shift_templates shift_templates get].
      rewrite Hg. reflexivity.
    + intros H. assert (enhanced = c) by congruence. subst enhanced.
      rewrite Hexisting. cbn [negb andb].
      destruct g; [|discriminate].
      destruct (nonempty_app_l l (map (closed_entry 1 10) (missing_days l)) Hl)
        as (x & t & Hx & Happ).
      unfold completed_second. rewrite Happ. cbn [nonempty].
      rewrite Hx in Hplan.
      rewrite (first_entry_only x (t ++ map (closed_entry 1 10) (missing_days l)) t).
      rewrite (empty_for_every_draw _ _ _ _ _ _ r1 r2 Hplan).
      reflexivity.
Qed.

(** C8: the normaliser is idempotent.  When a call returns the document
    [c1], a call on [c1] returns [c1] again, whatever the random draws of
    the two calls. *)
Theorem normalizer_idempotent (r1 r2 : nat) (c c1 : Constraints) :
  normalized r1 c = Returned c1 -> normalized r2 c1 = Returned c1.
Proof.
  rewrite (normalized_value r1 c).
  set (l1 := completed_first (get (operating_hours c) [])).
  destruct (template_defaults r1 l1 c) as [enhanced|exn|] eqn:Hfirst;
    cbn [bind]; try discriminate.
  intros H.
  assert (Hc1 : c1 = with_operating_hours
                       (with_places enhanced
                          (or_default (locations enhanced) ["Main Office"%string])
                          (or_default (departments enhanced) ["Operations"%string])
                          (or_default (roles enhanced) ["general"%string]))
                       (Some (completed_second l1))) by congruence.
  clear H. rewrite (normalized_value r2 c1). subst c1.
  cbn [with_operating_hours operating_hours get].
  rewrite (completed_first_fixed (completed_second l1))
    by apply completed_second_none_missing.
  rewrite (completed_second_fixed (completed_second l1))
    by apply completed_second_none_missing.
  rewrite (template_defaults_settled r1 r2 l1 c enhanced _ _ _ _
             (completed_first_nonempty _) Hfirst).
  cbn [bind with_operating_hours with_places locations departments roles].
  rewrite !or_default_twice by reflexivity. reflexivity.
Qed.

Lemma normalizer_idempotent_witness :
  exists c1,
    normalized 3 (Examples.doc Examples.monday_only 4 8) = Returned c1
    /\ normalized 5 c1 = Returned c1.
Proof.
  eexists. split; [vm_compute; reflexivity|].
  eapply normalizer_idempotent with (r1 := 3%nat)
                                    (c := Examples.doc Examples.monday_only 4 8).
  vm_compute. reflexivity.
Defined.

End NormalizerFacts.

(** ** The conflict detector and the automatic resolver *)

Module ResolverFacts.

Lemma detected_conflicts (c : Constraints) (emps : list Employee) (s e : date) :
  conflicts (detect_scheduling_conflicts c emps s e)
  = flat_map fst (findings c emps s e).
Proof. reflexivity. Qed.

Lemma critical_count_eq (c : Constraints) (emps : list Employee) (s e : date) :
  critical_count (detect_scheduling_conflicts c emps s e)
  = len (filter (severity_is "critical") (flat_map fst (findings c emps s e))).
Proof. reflexivity. Qed.

(** A property of every conflict of a report, finding by finding. *)
Lemma findings_all (P : Conflict -> Prop) (c : Constraints) (emps : list Employee)
    (s e : date) :
  Forall P (fst (no_days_finding (filter is_open_day (get (operating_hours c) [])))) ->
  Forall P (fst (unavailable_finding (filter is_open_day (get (operating_hours c) []))
                   (filter employee_active emps))) ->
  (forall day_hours,
      In day_hours (get (operating_hours c) []) -> is_open_day day_hours = true ->
      Forall P (fst (staffing_conflicts (len (filter employee_active emps)) day_hours))) ->
  Forall P (fst (availability_finding
                   (availability_conflicts (get (operating_hours c) [])
                      (filter employee_active emps) (date_range s e))
                   (len (filter employee_active emps)))) ->
  Forall P (fst (consecutive_finding (get (max_consecutive_days c) 5))) ->
  Forall P (fst (qualifications_finding (filter employee_active emps))) ->
  Forall P (conflicts (detect_scheduling_conflicts c emps s e)).
Proof.
  intros H1 H2 H3 H4 H5 H6. rewrite detected_conflicts. unfold findings.
  rewrite !flat_map_app. cbn [flat_map]. rewrite !app_nil_r.
  repeat (apply Forall_app; split); auto.
  apply Forall_forall. intros k Hk. apply in_flat_map in Hk.
  destruct Hk as (f & Hf & Hk). apply in_map_iff in Hf.
  destruct Hf as (dh & <- & Hdh). apply filter_In in Hdh. destruct Hdh as [Hin Hopen].
  specialize (H3 dh Hin Hopen). rewrite Forall_forall in H3. now apply H3.
Qed.

Ltac finding_cases :=
  repeat match goal with
         | |- context [if ?b then _ else _] => destruct b
         end;
  cbn [fst app nothing]; repeat constructor.

Lemma detector_types (c : Constraints) (emps : list Employee) (s e : date) :
  Forall (fun k => outside_detector k = false)
         (conflicts (detect_scheduling_conflicts c emps s e)).
Proof.
  apply findings_all; intros;
    try (unfold no_days_finding, unavailable_finding, staffing_conflicts,
           availability_finding, consecutive_finding, qualifications_finding;
         cbv zeta; finding_cases).
Qed.


Lemma adjust_day_twice (n : Z) (dh : OperatingHours) :
  adjust_day n (adjust_day n dh) = adjust_day n dh.
Proof.
  unfold adjust_day. cbn [day_of_week is_open open_time close_time min_staff max_staff].
  f_equal.
  - destruct (n <? get (min_staff dh) 1) eqn:E; cbn [get].
    + destruct (n <? Z.max 1 (n - 1)); reflexivity.
    + now rewrite E.
  - destruct (n <? get (max_staff dh) 10) eqn:E; cbn [get].
    + now rewrite Z.ltb_irrefl.
    + now rewrite E.
Qed.

Lemma adjust_twice (c : Constraints) (emps : list Employee) :
  _adjust_staffing_requirements (_adjust_staffing_requirements c emps) emps
  = _adjust_staffing_requirements c emps.
Proof.
  unfold _adjust_staffing_requirements.
  destruct (operating_hours c) as [ohs|] eqn:E.
  - cbn [with_operating_hours operating_hours]. rewrite map_map.
    unfold with_operating_hours. cbn. f_equal. f_equal.
    apply map_ext. intros dh. apply adjust_day_twice.
  - now rewrite E.
Qed.

(** On the conflicts of a report the resolver comes down to the staffing
    adjustment, applied when a shortfall was reported; the roster is left
    alone. *)
Lemma resolve_detected (found : list Conflict) (c : Constraints)
    (emps : list Employee) :
  Forall (fun k => outside_detector k = false) found ->
  _resolve_scheduling_conflicts_automatically c emps found
  = Returned (if existsb is_shortfall found
              then _adjust_staffing_requirements c emps else c, emps).
Proof.
  intros H. revert c. induction H as [|k rest Hk _ IH]; intros c; [reflexivity|].
  cbn [_resolve_scheduling_conflicts_automatically existsb].
  unfold outside_detector in Hk. apply orb_false_iff in Hk. destruct Hk as [Hk H3].
  apply orb_false_iff in Hk. destruct Hk as [H1 H2].
  unfold is_shortfall at 1.
  destruct (String.eqb (conflict_type k) "insufficient_staff").
  - rewrite IH. cbn [orb]. rewrite adjust_twice.
    destruct (existsb is_shortfall rest); reflexivity.
  - rewrite H1, H2, H3. cbn [orb]. apply IH.
Qed.

Lemma adjusted_hours (c : Constraints) (emps : list Employee) (ohs : list OperatingHours) :
  operating_hours c = Some ohs ->
  get (operating_hours (_adjust_staffing_requirements c emps)) []
  = map (adjust_day (len (filter employee_active emps))) ohs.
Proof.
  intros H. unfold _adjust_staffing_requirements. rewrite H. reflexivity.
Qed.

Lemma adjusted_rest (c : Constraints) (emps : list Employee) :
  max_consecutive_days (_adjust_staffing_requirements c emps) = max_consecutive_days c.
Proof.
  unfold _adjust_staffing_requirements. destruct (operating_hours c); reflexivity.
Qed.

Lemma is_open_adjusted (n : Z) (dh : OperatingHours) :
  is_open_day (adjust_day n dh) = is_open_day dh.
Proof. reflexivity. Qed.

Lemma find_day_adjusted (n : Z) (ohs : list OperatingHours) (d : Z) :
  find_day (map (adjust_day n) ohs) d = option_map (adjust_day n) (find_day ohs d).
Proof.
  unfold find_day. induction ohs as [|dh rest IH]; [reflexivity|].
  cbn [map find]. cbn [adjust_day day_of_week].
  destruct (day_number (day_of_week dh) =? d); [reflexivity|apply IH].
Qed.

(** A shortfall is reported, critical, for an open day whose minimum staff
    exceeds the number of active employees. *)
Lemma shortfall_reported (c : Constraints) (emps : list Employee) (s e : date)
    (dh : OperatingHours) :
  In dh (get (operating_hours c) []) -> is_open_day dh = true ->
  len (filter employee_active emps) < get (min_staff dh) 1 ->
  exists k, In k (conflicts (detect_scheduling_conflicts c emps s e))
            /\ conflict_type k = "insufficient_staff"%string
            /\ severity k = "critical"%string
            /\ conflict_day k = Some (day_name (day_of_week dh)).
Proof.
  intros Hin Hopen Hlt. rewrite detected_conflicts.
  pose (f := staffing_conflicts (len (filter employee_active emps)) dh).
  assert (Hf : In f (findings c emps s e)).
  { unfold findings. apply in_or_app. right. apply in_or_app. left.
    apply in_map. apply filter_In. auto. }
  assert (Hk : exists k, In k (fst f) /\ conflict_type k = "insufficient_staff"%string
                         /\ severity k = "critical"%string
                         /\ conflict_day k = Some (day_name (day_of_week dh))).
  { subst f. unfold staffing_conflicts. cbv zeta.
    replace (len (filter employee_active emps) <? get (min_staff dh) 1) with true
      by (symmetry; now apply Z.ltb_lt).
    cbn [fst app]. eexists. split; [left; reflexivity|]. cbn. auto. }
  destruct Hk as (k & Hk & Hrest). exists k. split; auto.
  apply in_flat_map. exists f. auto.
Qed.


Lemma adjusted_min_le (n : Z) (dh : OperatingHours) :
  1 <= n -> get (min_staff (adjust_day n dh)) 1 <= n.
Proof.
  intros Hn. unfold adjust_day. cbn [min_staff].
  destruct (n <? get (min_staff dh) 1) eqn:E; cbn [get].
  - lia.
  - now apply Z.ltb_ge in E.
Qed.

Lemma adjusted_range (n : Z) (dh : OperatingHours) :
  1 <= n -> get (min_staff dh) 1 <= get (max_staff dh) 10 ->
  get (min_staff (adjust_day n dh)) 1 <= get (max_staff (adjust_day n dh)) n.
Proof.
  intros Hn Hr. pose proof (adjusted_min_le n dh Hn) as Hm.
  unfold adjust_day in *. cbn [min_staff max_staff] in *.
  destruct (n <? get (max_staff dh) 10) eqn:E; cbn [get]; [assumption|].
  apply Z.ltb_ge in E.
  destruct (max_staff dh) as [m|]; cbn [get] in *; [|assumption].
  destruct (n <? get (min_staff dh) 1) eqn:E'; cbn [get] in *.
  - apply Z.ltb_lt in E'. lia.
  - assumption.
Qed.

Lemma filter_shorter {A : Type} (f : A -> bool) (l : list A) (x : A) :
  In x l -> f x = false -> len (filter f l) < len l.
Proof.
  unfold len. intros Hin Hx.
  induction l as [|y r IH]; [destruct Hin|].
  cbn [filter]. pose proof (filter_length_le f r) as Hle.
  destruct Hin as [->|Hin].
  - rewrite Hx. cbn [List.length]. lia.
  - specialize (IH Hin). destruct (f y); cbn [List.length]; lia.
Qed.

(** After the staffing adjustment no shortfall is left to report. *)
Lemma no_shortfall_left (c : Constraints) (emps : list Employee) (s e : date) :
  1 <= len (filter employee_active emps) ->
  Forall (fun k => is_shortfall k = false)
         (conflicts (detect_scheduling_conflicts
                       (_adjust_staffing_requirements c emps) emps s e)).
Proof.
  intros Hn. apply findings_all;
    try (unfold no_days_finding, unavailable_finding, availability_finding,
           consecutive_finding, qualifications_finding; cbv zeta; finding_cases).
  intros dh' Hin Hopen.
  assert (Hle : get (min_staff dh') 1 <= len (filter employee_active emps)).
  { unfold _adjust_staffing_requirements in Hin.
    destruct (operating_hours c) as [ohs|] eqn:E.
    - cbn [with_operating_hours operating_hours get] in Hin.
      apply in_map_iff in Hin. destruct Hin as (dh & <- & _).
      now apply adjusted_min_le.
    - rewrite E in Hin. destruct Hin. }
  unfold staffing_conflicts. cbv zeta.
  replace (len (filter employee_active emps) <? get (min_staff dh') 1) with false
    by (symmetry; now apply Z.ltb_ge).
  finding_cases.
Qed.

(** After the adjustment no critical conflict is left either, when every
    open day had its minimum staff within its maximum and an active
    employee is available on an open date of the range. *)
Lemma no_critical_left (c : Constraints) (emps : list Employee) (s e : date)
    (ohs : list OperatingHours) :
  operating_hours c = Some ohs ->
  1 <= len (filter employee_active emps) ->
  (exists dh, In dh ohs /\ is_open_day dh = true) ->
  (forall dh, In dh ohs -> is_open_day dh = true ->
              get (min_staff dh) 1 <= get (max_staff dh) 10) ->
  (exists emp day dh,
      In emp emps /\ employee_active emp = true /\ s <= day <= e
      /\ find_day ohs (constraint_day day) = Some dh /\ is_open_day dh = true
      /\ _check_employee_availability emp day "09:00" "17:00" = true) ->
  critical_count (detect_scheduling_conflicts
                    (_adjust_staffing_requirements c emps) emps s e) = 0.
Proof.
  intros Hkey Hn (dh0 & Hin0 & Hopen0) Hrange (emp & day & dh & He & Ha & Hd & Hf & Ho & Hav).
  rewrite critical_count_eq, <- detected_conflicts.
  set (n := len (filter employee_active emps)) in *.
  assert (Hall : Forall (fun k => severity_is "critical" k = false)
                   (conflicts (detect_scheduling_conflicts
                                 (_adjust_staffing_requirements c emps) emps s e))).
  { apply findings_all; rewrite ?(adjusted_hours c emps ohs Hkey), ?adjusted_rest;
      fold n.
    - unfold no_days_finding.
      assert (Hne : nonempty (filter is_open_day (map (adjust_day n) ohs)) = true).
      { assert (Hx : In (adjust_day n dh0) (filter is_open_day (map (adjust_day n) ohs))).
        { apply filter_In. split; [now apply in_map|assumption]. }
        destruct (filter is_open_day (map (adjust_day n) ohs)); [destruct Hx|reflexivity]. }
      rewrite Hne. constructor.
    - unfold unavailable_finding. cbv zeta. finding_cases.
    - intros dh' Hin Hopen. apply in_map_iff in Hin. destruct Hin as (d0 & <- & Hin).
      unfold staffing_conflicts. cbv zeta.
      replace (n <? get (min_staff (adjust_day n d0)) 1) with false
        by (symmetry; apply Z.ltb_ge; now apply adjusted_min_le).
      replace (get (max_staff (adjust_day n d0)) n <? get (min_staff (adjust_day n d0)) 1)
        with false
        by (symmetry; apply Z.ltb_ge; apply adjusted_range; auto).
      constructor.
    - unfold availability_finding. cbv zeta.
      assert (Hlt : availability_conflicts (map (adjust_day n) ohs)
                      (filter employee_active emps) (date_range s e) < n).
      { unfold availability_conflicts. apply filter_shorter with (x := emp).
        - apply filter_In. auto.
        - apply negb_false_iff. apply existsb_exists. exists day. split.
          + unfold date_range, range. apply in_map_iff.
            exists (Z.to_nat (day - s)). split; [lia|]. apply in_seq. lia.
          + rewrite find_day_adjusted, Hf. cbn [option_map].
            rewrite is_open_adjusted, Ho, Hav. reflexivity. }
      destruct (0 <? _); [|constructor].
      replace (availability_conflicts (map (adjust_day n) ohs)
                 (filter employee_active emps) (date_range s e) =? n) with false
        by (symmetry; apply Z.eqb_neq; lia).
      repeat constructor.
    - unfold consecutive_finding. finding_cases.
    - unfold qualifications_finding. cbv zeta. finding_cases. }
  assert (Hnil : forall l, Forall (fun k => severity_is "critical" k = false) l ->
                           filter (severity_is "critical") l = []).
  { induction 1 as [|k r Hk _ IH]; cbn [filter]; auto. now rewrite Hk. }
  now rewrite (Hnil _ Hall).
Qed.


(** C5, refuted as stated. On a document whose weekdays are open with
    min_staff 3 and a roster of two active employees, the resolver leaves
    Monday with min_staff 1, not 2. *)
Lemma resolver_sets_one_not_two :
  exists c',
    _resolve_scheduling_conflicts_automatically Examples.understaffed Examples.roster2
      (conflicts (detect_scheduling_conflicts Examples.understaffed Examples.roster2
                    Examples.monday Examples.monday))
    = Returned (c', Examples.roster2)
    /\ option_map min_staff (find_day (get (operating_hours c') []) (day_number Monday)) = Some (Some 1)
    /\ option_map min_staff (find_day (get (operating_hours c') []) (day_number Monday)) <> Some (Some 2).
Proof.
  eexists. split; [vm_compute; reflexivity|]. split; [reflexivity|discriminate].
Qed.

(** C5, amended. For a document with an open day whose min_staff is 3 and
    a roster with exactly two active employees: the detector reports a
    critical insufficient_staff conflict for that day; the resolver, run on
    the reported conflicts, returns the document with every day passed
    through [adjust_day 2], which sets that day's min_staff to
    max(1, 2 - 1) = 1; the detector reports no insufficient_staff conflict
    on the resolved document; and it reports no critical conflict at all
    when, in addition, every open day had its minimum staff within its
    maximum and some active employee is available on an open date of the
    range. *)
Theorem shortfall_resolved_to_one (c : Constraints) (emps : list Employee)
    (s e : date) (ohs : list OperatingHours) (dh : OperatingHours) :
  operating_hours c = Some ohs -> In dh ohs -> is_open_day dh = true ->
  min_staff dh = Some 3 ->
  len (filter employee_active emps) = 2 ->
  let c' := _adjust_staffing_requirements c emps in
  (exists k, In k (conflicts (detect_scheduling_conflicts c emps s e))
             /\ conflict_type k = "insufficient_staff"%string
             /\ severity k = "critical"%string
             /\ conflict_day k = Some (day_name (day_of_week dh)))
  /\ _resolve_scheduling_conflicts_automatically c emps
       (conflicts (detect_scheduling_conflicts c emps s e))
     = Returned (c', emps)
  /\ operating_hours c' = Some (map (adjust_day 2) ohs)
  /\ min_staff (adjust_day 2 dh) = Some 1
  /\ Forall (fun k => conflict_type k <> "insufficient_staff"%string)
        (conflicts (detect_scheduling_conflicts c' emps s e))
  /\ ((forall d, In d ohs -> is_open_day d = true ->
                 get (min_staff d) 1 <= get (max_staff d) 10) ->
      (exists emp day d,
          In emp emps /\ employee_active emp = true /\ s <= day <= e
          /\ find_day ohs (constraint_day day) = Some d /\ is_open_day d = true
          /\ _check_employee_availability emp day "09:00" "17:00" = true) ->
      critical_count (detect_scheduling_conflicts c' emps s e) = 0).
Proof.
  intros Hkey Hin Hopen Hmin Hn c'.
  assert (Hrep : exists k, In k (conflicts (detect_scheduling_conflicts c emps s e))
             /\ conflict_type k = "insufficient_staff"%string
             /\ severity k = "critical"%string
             /\ conflict_day k = Some (day_name (day_of_week dh))).
  { apply shortfall_reported; auto.
    - rewrite Hkey. exact Hin.
    - rewrite Hn, Hmin. cbn [get]. lia. }
  split; [exact Hrep|]. split; [|split; [|split; [|split]]].
  - rewrite resolve_detected by apply detector_types.
    destruct Hrep as (k & Hk & Ht & _).
    assert (Hex : existsb is_shortfall
                    (conflicts (detect_scheduling_conflicts c emps s e)) = true).
    { apply existsb_exists. exists k. split; [exact Hk|].
      unfold is_shortfall. rewrite Ht. reflexivity. }
    rewrite Hex. reflexivity.
  - subst c'. unfold _adjust_staffing_requirements. rewrite Hkey, Hn. reflexivity.
  - unfold adjust_day. cbn [min_staff]. rewrite Hmin. reflexivity.
  - assert (H1 : 1 <= len (filter employee_active emps)) by lia.
    pose proof (no_shortfall_left c emps s e H1) as Hno.
    eapply Forall_impl; [|exact Hno].
    intros k Hk Heq. unfold is_shortfall in Hk. rewrite Heq in Hk. discriminate.
  - intros Hrange Hav. apply no_critical_left with (ohs := ohs); auto.
    + lia.
    + exists dh. auto.
Qed.

Lemma shortfall_resolved_to_one_witness :
  critical_count (detect_scheduling_conflicts
                    (_adjust_staffing_requirements Examples.understaffed
                       Examples.roster2)
                    Examples.roster2 Examples.monday Examples.monday) = 0.
Proof.
  refine (proj2 (proj2 (proj2 (proj2 (proj2
    (shortfall_resolved_to_one Examples.understaffed Examples.roster2
       Examples.monday Examples.monday
       (Examples.weekdays_open "09:00" "17:00" 3 5)
       (oh_example Monday true "09:00" "17:00" 3 5)
       eq_refl _ eq_refl eq_refl eq_refl))))) _ _).
  - right. left. reflexivity.
  - intros d Hd _. vm_compute in Hd.
    repeat (destruct Hd as [<-|Hd]; [vm_compute; discriminate|]). destruct Hd.
  - exists (Examples.emp "a" "employee"), Examples.monday,
      (oh_example Monday true "09:00" "17:00" 3 5).
    repeat split; try reflexivity; try (left; reflexivity); unfold Examples.monday; lia.
Defined.

End ResolverFacts.

(** ** Generation without the solver library *)

Module GenerationFacts.
Import CircuitBreaker.

(** With equal duration bounds the normaliser does not depend on its draw. *)
Lemma normalized_draw (r : nat) (c : Constraints) (hours : Z) :
  min_consecutive_hours_per_shift c = Some hours ->
  max_consecutive_hours_per_shift c = Some hours ->
  normalized r c = normalized 0 c.
Proof.
  intros Hlo Hhi. unfold normalized, enter.
  destruct (operating_hours c) as [ohs|];
    unfold _ensure_constraint_defaults; cbn [operating_hours with_operating_hours alloc];
    unfold template_defaults;
    cbn [min_consecutive_hours_per_shift max_consecutive_hours_per_shift
         with_operating_hours shift_templates c_min_staff c_max_staff
         require_manager_coverage];
    rewrite Hlo, Hhi; cbn [get];
    match goal with
    | |- context [_create_business_coverage_plan ?o ?a ?b hours hours ?k r] =>
        rewrite (PlannerFacts.draw_irrelevant o a b hours k r)
    | _ => idtac
    end; reflexivity.
Qed.

(** Without the solver library a call whose normaliser and resolver return
    is answered by the fallback scheduler, whatever the gate's state. *)
Lemma generation_without_solver (env : Environment) (cb : t)
    (employees : list Employee) (constraints enhanced resolved : Constraints)
    (kept : list Employee) (s e : date) :
  ortools_available env = false ->
  _filter_employees_by_constraints employees constraints <> [] ->
  normalized (normalizer_draw env) constraints = Returned enhanced ->
  resolution enhanced (_filter_employees_by_constraints employees constraints) s e
  = Returned (resolved, kept) ->
  returned (generate_schedule env cb employees constraints s e)
  = _basic_random_schedule kept resolved s e (fallback_draws env).
Proof.
  intros Hno Hne Hnorm Hres. unfold generate_schedule.
  destruct (_filter_employees_by_constraints employees constraints) as [|emp rest] eqn:Hf;
    [now elim Hne|].
  replace (len (emp :: rest) =? 0) with false
    by (symmetry; apply Z.eqb_neq; unfold len; cbn [List.length]; lia).
  rewrite Hnorm, Hres.
  assert (Hgate : exists cb', can_execute (gate_clock env)
            match state cb with
            | OPEN => reset_scheduler_circuit_breaker cb
            | _ => cb
            end = Returned (true, cb')).
  { unfold can_execute. destruct (state cb) eqn:Hs; cbn [state reset_scheduler_circuit_breaker];
      rewrite ?Hs; eauto. }
  destruct Hgate as (cb' & ->). cbn [negb]. rewrite Hno. cbn [negb].
  destruct (nonempty (validate_constraints resolved)); reflexivity.
Qed.


(** With equal duration bounds the fallback spends its first draw on a
    choice among one. *)
Lemma fallback_first_draw (employees : list Employee) (c : Constraints)
    (s e : date) (rnd : oracle) (first_hours : OperatingHours)
    (rest : list OperatingHours) (hours : Z) :
  get (operating_hours c) [] = first_hours :: rest ->
  min_consecutive_hours_per_shift c = Some hours ->
  max_consecutive_hours_per_shift c = Some hours ->
  _basic_random_schedule employees c s e rnd
  = (shift_templates <-
       _create_business_coverage_plan (first_hours :: rest)
         (get (min_staff first_hours) 1) (get (max_staff first_hours) 10)
         hours hours (require_manager_coverage c) 0 ;;
     final <- schedule_days employees c (get (min_staff first_hours) 1)
                (date_range s e)
                (shift_templates,
                 mkRun [] (initial_ledgers employees) (snd (draw rnd))) ;;
     Returned (schedules (snd final))).
Proof.
  intros Hoh Hlo Hhi. unfold _basic_random_schedule. rewrite Hoh, Hlo, Hhi.
  cbn [get]. destruct (draw rnd) as [r rnd'] eqn:Hd. cbn [snd].
  now rewrite PlannerFacts.draw_irrelevant.
Qed.


Ltac evaluated t H :=
  let v := eval vm_compute in t in
  assert (H : t = v) by (vm_compute; reflexivity).

Ltac run_to_end :=
  match goal with
  | |- exists made, ?run = Returned made /\ _ =>
      let v := eval vm_compute in run in
      match v with
      | Returned ?l => exists l; split; [vm_compute; reflexivity|]
      end
  end.

(** C1, at an input where the fallback breaks it: without the solver
    library, for the roster "m1", "m2" (managers), "e" (employee), "x"
    (cashier), every day open 08:00 to 20:00 with up to four staff and
    three-hour shifts, one Monday yields four assignments of which the
    second and the fourth are both of "e" on that Monday, whatever the
    gate's state and the random draws. *)
Theorem fallback_books_employee_twice (env : Environment) (cb : t) :
  ortools_available env = false ->
  exists made,
    returned (generate_schedule env cb Examples.two_managers Examples.long_days
                Examples.monday Examples.monday) = Returned made
    /\ map assignment_key made
       = [("m1", Examples.monday, "08:00", "11:00");
          ("e", Examples.monday, "11:00", "14:00");
          ("m2", Examples.monday, "14:00", "17:00");
          ("e", Examples.monday, "17:00", "20:00")]%string
    /\ ~ one_shift_a_day made.
Proof.
  intros Hno.
  evaluated (normalized 0 Examples.long_days) Hnorm.
  rewrite <- (normalized_draw (normalizer_draw env) Examples.long_days 3 eq_refl eq_refl)
    in Hnorm.
  evaluated (_filter_employees_by_constraints Examples.two_managers Examples.long_days)
            Hkept.
  match type of Hnorm with
  | _ = Returned ?enhanced =>
      evaluated (resolution enhanced Examples.two_managers
                   Examples.monday Examples.monday) Hres
  end.
  rewrite <- Hkept in Hres at 1.
  match type of Hres with
  | _ = Returned (?resolved, ?kept) =>
      pose proof (generation_without_solver env cb Examples.two_managers
                    Examples.long_days _ resolved kept Examples.monday Examples.monday
                    Hno ltac:(rewrite Hkept; discriminate) Hnorm Hres) as Hgen
  end.
  rewrite Hgen.
  erewrite fallback_first_draw by (vm_compute; reflexivity).
  generalize (snd (draw (fallback_draws env))). intros rnd.
  destruct rnd as [|r0 [|r1 [|r2 rnd]]]; run_to_end;
    (split; [vm_compute; reflexivity|]);
    intros Hone;
    (apply (Hone 1%nat 3%nat _ _ eq_refl eq_refl);
     [discriminate|reflexivity|reflexivity]).
Qed.


Lemma fallback_books_employee_twice_witness :
  exists made,
    returned (generate_schedule (Examples.without_ortools 0) scheduler_circuit_breaker
                Examples.two_managers Examples.long_days
                Examples.monday Examples.monday) = Returned made
    /\ map assignment_key made
       = [("m1", Examples.monday, "08:00", "11:00");
          ("e", Examples.monday, "11:00", "14:00");
          ("m2", Examples.monday, "14:00", "17:00");
          ("e", Examples.monday, "17:00", "20:00")]%string
    /\ ~ one_shift_a_day made.
Proof.
  apply (fallback_books_employee_twice (Examples.without_ortools 0)
           scheduler_circuit_breaker).
  reflexivity.
Defined.

(** C6, at an input where the code breaks it: without the solver library
    the fallback's list is returned as built.  For the roster "e"
    (employee), "m" (manager), "x" (cashier), weekdays open 09:00 to 17:00
    and four-hour shifts, one Monday yields the 09:00 shift of "m", the
    13:00 shift of "e" and then the 09:00 shift of "x", whatever the gate's
    state and the random draws: not in the order of (date, start time, end
    time, employee identifier), nor in that of (date, start time). *)
Theorem fallback_result_unsorted (env : Environment) (cb : t) :
  ortools_available env = false ->
  exists made,
    returned (generate_schedule env cb Examples.one_of_each Examples.office_week
                Examples.monday Examples.monday) = Returned made
    /\ map assignment_key made
       = [("m", Examples.monday, "09:00", "13:00");
          ("e", Examples.monday, "13:00", "17:00");
          ("x", Examples.monday, "09:00", "13:00")]%string
    /\ sorted_by full_key_order made = false
    /\ sorted_by sort_key_order made = false.
Proof.
  intros Hno.
  evaluated (normalized 0 Examples.office_week) Hnorm.
  rewrite <- (normalized_draw (normalizer_draw env) Examples.office_week 4 eq_refl eq_refl)
    in Hnorm.
  evaluated (_filter_employees_by_constraints Examples.one_of_each Examples.office_week)
            Hkept.
  match type of Hnorm with
  | _ = Returned ?enhanced =>
      evaluated (resolution enhanced Examples.one_of_each
                   Examples.monday Examples.monday) Hres
  end.
  rewrite <- Hkept in Hres at 1.
  match type of Hres with
  | _ = Returned (?resolved, ?kept) =>
      pose proof (generation_without_solver env cb Examples.one_of_each
                    Examples.office_week _ resolved kept Examples.monday
                    Examples.monday
                    Hno ltac:(rewrite Hkept; discriminate) Hnorm Hres) as Hgen
  end.
  rewrite Hgen.
  erewrite fallback_first_draw by (vm_compute; reflexivity).
  generalize (snd (draw (fallback_draws env))). intros rnd.
  destruct rnd as [|r0 [|r1 [|r2 rnd]]]; run_to_end;
    (split; [vm_compute; reflexivity|]); split; vm_compute; reflexivity.
Qed.

Lemma fallback_result_unsorted_witness :
  exists made,
    returned (generate_schedule (Examples.without_ortools 0) scheduler_circuit_breaker
                Examples.one_of_each Examples.office_week
                Examples.monday Examples.monday) = Returned made
    /\ map assignment_key made
       = [("m", Examples.monday, "09:00", "13:00");
          ("e", Examples.monday, "13:00", "17:00");
          ("x", Examples.monday, "09:00", "13:00")]%string
    /\ sorted_by full_key_order made = false
    /\ sorted_by sort_key_order made = false.
Proof.
  apply (fallback_result_unsorted (Examples.without_ortools 0)
           scheduler_circuit_breaker).
  reflexivity.
Defined.

(** On the path that does sort, the key's last component is the absent
    [employeeName], the same text for every assignment: two assignments of
    one date and one shift keep the order they were made in.  When the
    solver finds no solution, "z" stays ahead of "a". *)
Lemma sorted_path_ignores_employee :
  exists made,
    returned (generate_schedule Examples.with_ortools scheduler_circuit_breaker
                Examples.late_manager Examples.office_week
                Examples.monday Examples.monday) = Returned made
    /\ map assignment_key made
       = [("z", Examples.monday, "09:00", "13:00");
          ("a", Examples.monday, "09:00", "13:00");
          ("e", Examples.monday, "13:00", "17:00")]%string
    /\ sorted_by sort_key_order made = true
    /\ sorted_by full_key_order made = false.
Proof.
  run_to_end. repeat split; vm_compute; reflexivity.
Qed.

(** A generation call whose normaliser raises, raises. *)
Lemma generation_normalizer_raises (env : Environment) (cb : t)
    (employees : list Employee) (constraints : Constraints) (s e : date)
    (exn : string) :
  _filter_employees_by_constraints employees constraints <> [] ->
  normalized (normalizer_draw env) constraints = Raised exn ->
  returned (generate_schedule env cb employees constraints s e) = Raised exn.
Proof.
  intros Hne Hnorm. unfold generate_schedule.
  destruct (_filter_employees_by_constraints employees constraints) as [|emp rest];
    [now elim Hne|].
  replace (len (emp :: rest) =? 0) with false
    by (symmetry; apply Z.eqb_neq; unfold len; cbn [List.length]; lia).
  rewrite Hnorm. reflexivity.
Qed.

(** The detector reports the critical conflict "No days are marked as open
    for business" on every document whose days are all closed. *)
Lemma no_open_days_reported (c : Constraints) (emps : list Employee) (s e : date) :
  all_closed (get (operating_hours c) []) ->
  exists k, In k (conflicts (detect_scheduling_conflicts c emps s e))
            /\ severity k = "critical"%string
            /\ message k = "No days are marked as open for business"%string.
Proof.
  intros Hall.
  assert (Hnone : filter is_open_day (get (operating_hours c) []) = []).
  { induction (get (operating_hours c) []) as [|oh rest IH]; [reflexivity|].
    cbn [filter]. rewrite (Hall oh (or_introl eq_refl)).
    apply IH. intros x Hx. apply Hall. now right. }
  rewrite ResolverFacts.detected_conflicts. unfold findings. rewrite Hnone.
  cbn [flat_map app no_days_finding nonempty negb fst].
  eexists. split; [left; reflexivity|]. split; reflexivity.
Qed.

(** C2, at an input where the code breaks it: every day is closed and the
    first entry's hours are 09:00 to 13:00.  The detector does report the
    critical conflict on this document, but a generation call for any
    roster with an employee who passes the filter, any dates, any gate and
    any environment raises UnboundLocalError: the normaliser is the first
    to ask the planner for shift templates. *)
Theorem closed_short_week_raises (env : Environment) (cb : t)
    (employees : list Employee) (s e : date) :
  _filter_employees_by_constraints employees Examples.closed_week <> [] ->
  all_closed (get (operating_hours Examples.closed_week) [])
  /\ (exists k,
        In k (conflicts (detect_scheduling_conflicts Examples.closed_week
                           employees s e))
        /\ severity k = "critical"%string
        /\ message k = "No days are marked as open for business"%string)
  /\ returned (generate_schedule env cb employees Examples.closed_week s e)
     = Raised "UnboundLocalError".
Proof.
  intros Hne.
  assert (Hall : all_closed (get (operating_hours Examples.closed_week) [])).
  { intros oh Hin. vm_compute in Hin.
    repeat (destruct Hin as [<-|Hin]; [reflexivity|]). destruct Hin. }
  split; [exact Hall|]. split; [now apply no_open_days_reported|].
  apply generation_normalizer_raises; [exact Hne|].
  generalize (normalizer_draw env). intros r. vm_compute. reflexivity.
Qed.

Lemma closed_short_week_raises_witness :
  returned (generate_schedule (Examples.without_ortools 0) scheduler_circuit_breaker
              Examples.roster4 Examples.closed_week Examples.monday Examples.monday)
  = Raised "UnboundLocalError".
Proof.
  refine (proj2 (proj2 (closed_short_week_raises (Examples.without_ortools 0)
                          scheduler_circuit_breaker Examples.roster4
                          Examples.monday Examples.monday _))).
  vm_compute. discriminate.
Defined.

(** With the first entry's hours 09:00 to 17:00 instead, the same call
    returns the empty list. *)
Lemma closed_long_week_empty :
  returned (generate_schedule (Examples.without_ortools 0) scheduler_circuit_breaker
              Examples.roster4
              (Examples.doc (Examples.every_day false "09:00" "17:00" 1 4) 4 8)
              Examples.monday Examples.monday)
  = Returned [].
Proof. vm_compute. reflexivity. Qed.

End GenerationFacts.

(** ** The optimiser's read-back *)

Module OptimizerFacts.

Lemma read_back_keys (c : Constraints) (objective : string)
    (triples : list (Employee * date * ShiftTemplate)) (rnd : oracle)
    (made : list Assignment) :
  read_back c objective triples rnd = Returned made ->
  map worker_and_date made = map triple_key triples.
Proof.
  revert rnd made. induction triples as [|[[employee d] template] rest IH];
    intros rnd made H; cbn [read_back] in H.
  - injection H as <-. reflexivity.
  - match type of H with
    | bind ?m _ = _ => destruct m as [located|exn|]; cbn [bind] in H; try discriminate
    end.
    match type of H with
    | bind ?m _ = _ => destruct m as [placed|exn|]; cbn [bind] in H; try discriminate
    end.
    destruct (read_back c objective rest (snd placed)) as [others|exn|] eqn:Hrest;
      cbn [bind] in H; try discriminate.
    injection H as <-. cbn [map]. rewrite (IH _ _ Hrest). reflexivity.
Qed.

Lemma insert_sorted_perm {A : Type} (le : A -> A -> bool) (x : A) (l : list A) :
  Permutation (insert_sorted le x l) (x :: l).
Proof.
  induction l as [|y r IH]; cbn [insert_sorted]; [reflexivity|].
  destruct (le x y); [reflexivity|].
  rewrite IH. apply perm_swap.
Qed.

Lemma stable_sort_perm {A : Type} (le : A -> A -> bool) (l : list A) :
  Permutation (stable_sort le l) l.
Proof.
  induction l as [|x r IH]; cbn [stable_sort fold_right]; [reflexivity|].
  fold (stable_sort le r). rewrite insert_sorted_perm. now constructor.
Qed.

(** Distinct (employee, date) pairs mean one shift a day. *)
Lemma one_shift_of_nodup (l : list Assignment) :
  NoDup (map worker_and_date l) -> one_shift_a_day l.
Proof.
  intros Hnd i j a b Hi Hj Hij Hid Hdate.
  rewrite NoDup_nth_error in Hnd. apply Hij. apply Hnd.
  - apply nth_error_Some. rewrite nth_error_map, Hi. discriminate.
  - rewrite !nth_error_map, Hi, Hj. cbn [option_map]. unfold worker_and_date.
    now rewrite Hid, Hdate.
Qed.


Section Chosen.
Variable value : nat -> nat -> nat -> bool.
Variable variables : nat.
Hypothesis one_a_day : one_shift_per_day value variables.

Lemma picked_at_most_one (e : nat * Employee) (d : nat * date) (k : nat)
    (templates : list ShiftTemplate) :
  map triple_key (picked value variables e d k templates) = []
  \/ (map triple_key (picked value variables e d k templates)
      = [(_id (snd e), snd d)]
      /\ exists i, (k <= i)%nat /\ (i < variables)%nat
                   /\ value (fst e) (fst d) i = true).
Proof.
  revert k. induction templates as [|t rest IH]; intros k; [now left|].
  unfold picked. cbn [enumerate_nat flat_map fst snd].
  fold (picked value variables e d (S k) rest).
  destruct ((k <? variables)%nat && value (fst e) (fst d) k) eqn:Hk.
  - apply andb_true_iff in Hk. destruct Hk as [Hlt Hv]. apply Nat.ltb_lt in Hlt.
    right. destruct (IH (S k)) as [Hnone|(_ & i & Hi & Hin & Hvi)].
    + cbn [app map]. rewrite Hnone. split; [reflexivity|]. exists k. auto.
    + pose proof (one_a_day (fst e) (fst d) k i Hlt Hin Hv Hvi). lia.
  - cbn [app]. destruct (IH (S k)) as [Hnone|(Hone & i & Hi & Hrest)]; [now left|].
    right. split; [exact Hone|]. exists i. split; [lia|exact Hrest].
Qed.

Lemma picked_on_dates (e : nat * Employee) (k : nat) (dates : list date)
    (templates : list ShiftTemplate) :
  NoDup dates ->
  let keys := map triple_key
                (flat_map (fun d => picked value variables e d 0 templates)
                   (enumerate_nat k dates)) in
  NoDup keys /\ forall x, In x keys -> fst x = _id (snd e) /\ In (snd x) dates.
Proof.
  intros Hnd. revert k. induction Hnd as [|d rest Hd Hrest IH]; intros k; cbn zeta.
  - split; [constructor|intros x []].
  - cbn [enumerate_nat flat_map]. rewrite map_app.
    destruct (IH (S k)) as [IHnd IHin].
    destruct (picked_at_most_one e (k, d) 0 templates) as [->|[-> _]]; cbn [app snd].
    + split; [exact IHnd|]. intros x Hx. destruct (IHin x Hx). split; [auto|now right].
    + split.
      * constructor; [|exact IHnd]. intros Hx. apply IHin in Hx. now destruct Hx.
      * intros x [<-|Hx]; [split; [reflexivity|now left]|].
        destruct (IHin x Hx). split; [auto|now right].
Qed.

Lemma chosen_keys (k : nat) (employees : list Employee) (dates : list date)
    (templates : list ShiftTemplate) :
  NoDup (map _id employees) -> NoDup dates ->
  let keys := map triple_key
                (flat_map (fun e =>
                   flat_map (fun d => picked value variables e d 0 templates)
                     (enumerate_nat 0 dates))
                   (enumerate_nat k employees)) in
  NoDup keys /\ forall x, In x keys -> In (fst x) (map _id employees).
Proof.
  intros Hids Hdates. revert k.
  induction employees as [|emp rest IH]; intros k; cbn zeta.
  - split; [constructor|intros x []].
  - cbn [enumerate_nat flat_map]. rewrite map_app.
    cbn [map] in Hids. inversion Hids as [|? ? Hfresh Hrest]; subst.
    destruct (IH Hrest (S k)) as [IHnd IHin].
    destruct (picked_on_dates (k, emp) 0 dates templates Hdates) as [Hnd Hin].
    split.
    + apply NoDup_app; [exact Hnd|exact IHnd|].
      intros x Hx Hx'. apply Hin in Hx. destruct Hx as [Hx _]. apply IHin in Hx'.
      cbn [snd] in Hx. rewrite Hx in Hx'. now apply Hfresh.
    + intros x Hx. apply in_app_or in Hx. destruct Hx as [Hx|Hx].
      * apply Hin in Hx. destruct Hx as [Hx _]. left. now rewrite Hx.
      * right. now apply IHin.
Qed.

Lemma chosen_triples_nodup (employees : list Employee) (dates : list date)
    (templates : list ShiftTemplate) :
  NoDup (map _id employees) -> NoDup dates ->
  NoDup (map triple_key (chosen_triples value variables employees dates templates)).
Proof.
  intros Hids Hdates. exact (proj1 (chosen_keys 0 employees dates templates Hids Hdates)).
Qed.

End Chosen.

Lemma date_range_nodup (s e : date) : NoDup (date_range s e).
Proof.
  unfold date_range, range.
  apply Finite.Injective_map_NoDup; [|apply seq_NoDup].
  intros a b H. lia.
Qed.

(** On the optimiser's path no employee holds two assignments on one date,
    when the employees' identifiers are distinct and the solver's answer
    satisfies constraint 5 of the model it was given. *)
Lemma optimizer_one_shift_a_day (solver : Solver) (employees : list Employee)
    (c : Constraints) (s e : date) (rnd : oracle) (value : nat -> nat -> nat -> bool)
    (objective : string) (made : list Assignment) :
  NoDup (map _id employees) ->
  solver employees c (date_range s e) = Solution value objective ->
  one_shift_per_day value (List.length (get (shift_templates c) [])) ->
  _advanced_ortools_schedule solver employees c s e rnd = Returned made ->
  one_shift_a_day made.
Proof.
  intros Hids Hsolved Hone Hrun. unfold _advanced_ortools_schedule in Hrun.
  rewrite Hsolved in Hrun.
  match type of Hrun with
  | bind ?m _ = _ => destruct m as [read|exn|] eqn:Hread; cbn [bind] in Hrun;
                     try discriminate
  end.
  injection Hrun as <-. apply one_shift_of_nodup.
  apply (Permutation_NoDup (l := map worker_and_date read)).
  - apply Permutation_map. symmetry. apply stable_sort_perm.
  - rewrite (read_back_keys _ _ _ _ _ Hread).
    apply chosen_triples_nodup; [exact Hone|exact Hids|apply date_range_nodup].
Qed.

End OptimizerFacts.

(** ** The circuit breaker over a whole cycle *)

Module BreakerLifecycle.
Import CircuitBreaker.

Lemma failures_from (F : Z) (times : list Q) (cb : t) :
  failure_threshold cb = F ->
  state cb = (if F <=? failure_count cb then OPEN else CLOSED) ->
  state (record_failures times cb)
  = (if F <=? failure_count cb + len times then OPEN else CLOSED).
Proof.
  revert cb. induction times as [|now more IH]; intros cb HF Hs.
  - unfold len. cbn [record_failures fold_left List.length]. now rewrite Z.add_0_r.
  - unfold record_failures. cbn [fold_left]. fold (record_failures more (record_failure now cb)).
    rewrite IH.
    + cbn [record_failure failure_count]. unfold len. cbn [List.length].
      replace (failure_count cb + 1 + Z.of_nat (List.length more))
        with (failure_count cb + Z.of_nat (S (List.length more))) by lia.
      reflexivity.
    + exact HF.
    + cbn [record_failure failure_count state failure_threshold]. rewrite HF, Hs.
      destruct (F <=? failure_count cb + 1) eqn:E; [reflexivity|].
      destruct (F <=? failure_count cb) eqn:E'; [|reflexivity].
      apply Z.leb_le in E'. apply Z.leb_gt in E. lia.
Qed.

(** Consecutive failures open a fresh breaker exactly when their number
    reaches the threshold, and it stays open under further failures. *)
Theorem failures_open_from_threshold (F T : Z) (times : list Q) :
  1 <= F ->
  state (record_failures times (init F T))
  = (if F <=? len times then OPEN else CLOSED).
Proof.
  intros HF. rewrite (failures_from F times (init F T)).
  - reflexivity.
  - reflexivity.
  - cbn [init failure_count state].
    replace (F <=? 0) with false by (symmetry; apply Z.leb_gt; lia). reflexivity.
Qed.

Lemma failures_open_from_threshold_witness :
  state (record_failures [1 # 1; 2 # 1]%Q (init 3 60)) = CLOSED
  /\ state (record_failures [1 # 1; 2 # 1; 3 # 1; 4 # 1]%Q (init 3 60)) = OPEN.
Proof.
  split.
  - exact (failures_open_from_threshold 3 60 [1 # 1; 2 # 1]%Q ltac:(lia)).
  - exact (failures_open_from_threshold 3 60 [1 # 1; 2 # 1; 3 # 1; 4 # 1]%Q ltac:(lia)).
Defined.

Lemma last_failure_recorded (before : list Q) (last : Q) (cb : t) :
  last_failure_time (record_failures (before ++ [last]) cb) = Some last.
Proof.
  unfold record_failures. rewrite fold_left_app. reflexivity.
Qed.

Lemma failures_keep_timeout (times : list Q) (cb : t) :
  recovery_timeout (record_failures times cb) = recovery_timeout cb.
Proof.
  revert cb. induction times as [|now more IH]; intros cb; [reflexivity|].
  unfold record_failures in *. cbn [fold_left]. now rewrite IH.
Qed.

(** The whole cycle of a breaker tripped by [F] failures, the last at [last]:
    until [T] seconds have passed it refuses and stays as it is; afterwards it
    lets one call through half-open; a success then closes it with the count
    back at zero, so that it takes [F] failures again to open it. *)
Theorem tripped_breaker_cycle (F T : Z) (before more : list Q) (last now : Q) :
  1 <= F -> len (before ++ [last]) = F ->
  let tripped := record_failures (before ++ [last]) (init F T) in
  state tripped = OPEN
  /\ ((now - last <= inject_Z T)%Q -> can_execute now tripped = Returned (false, tripped))
  /\ ((inject_Z T < now - last)%Q ->
      can_execute now tripped = Returned (true, set_state HALF_OPEN tripped)
      /\ state (record_success (set_state HALF_OPEN tripped)) = CLOSED
      /\ failure_count (record_success (set_state HALF_OPEN tripped)) = 0
      /\ state (record_failures more (record_success (set_state HALF_OPEN tripped)))
         = (if F <=? len more then OPEN else CLOSED)).
Proof.
  intros HF Hlen tripped.
  assert (Hopen : state tripped = OPEN).
  { unfold tripped. rewrite (failures_from F (before ++ [last]) (init F T)).
    - cbn [init failure_count]. rewrite Z.add_0_l, Hlen, Z.leb_refl. reflexivity.
    - reflexivity.
    - cbn [init failure_count state].
      replace (F <=? 0) with false by (symmetry; apply Z.leb_gt; lia). reflexivity. }
  assert (Hlast : last_failure_time tripped = Some last)
    by apply last_failure_recorded.
  assert (HT : recovery_timeout tripped = T) by apply failures_keep_timeout.
  split; [exact Hopen|]. split.
  - intros Hle. apply (BreakerFacts.consulted_before_timeout tripped now last Hopen Hlast).
    now rewrite HT.
  - intros Hlt. split.
    + apply (BreakerFacts.consulted_after_timeout tripped now last Hopen Hlast).
      now rewrite HT.
    + split; [reflexivity|]. split; [reflexivity|].
      rewrite (failures_from F more).
      * reflexivity.
      * cbn [record_success set_state failure_threshold]. unfold tripped.
        apply BreakerFacts.record_failures_threshold.
      * cbn [record_success failure_count state].
        replace (F <=? 0) with false by (symmetry; apply Z.leb_gt; lia). reflexivity.
Qed.

Lemma tripped_breaker_cycle_witness :
  can_execute (150 # 1) Examples.tripped = Returned (false, Examples.tripped)
  /\ can_execute (163 # 1) Examples.tripped
     = Returned (true, set_state HALF_OPEN Examples.tripped).
Proof.
  pose proof (tripped_breaker_cycle 3 60 [100 # 1; 101 # 1]%Q [] (102 # 1) (150 # 1)
                ltac:(lia) eq_refl) as H1.
  pose proof (tripped_breaker_cycle 3 60 [100 # 1; 101 # 1]%Q [] (102 # 1) (163 # 1)
                ltac:(lia) eq_refl) as H2.
  cbv zeta in H1, H2.
  split.
  - apply (proj1 (proj2 H1)). vm_compute. discriminate.
  - apply (proj1 (proj2 (proj2 H2) ltac:(reflexivity))).
Defined.

End BreakerLifecycle.

(** ** Shift hours forwards and backwards *)

Module ShiftHoursFacts.

(** Minutes since midnight of a parsed time. *)
Lemma hours_of_minutes (s e : string) (hs ms he me : Z) :
  strptime_HM s = Some (hs, ms) -> strptime_HM e = Some (he, me) ->
  exists minutes,
    0 <= minutes < 1440
    /\ minutes = (if 60 * he + me <? 60 * hs + ms then 1440 else 0)
                 + (60 * he + me) - (60 * hs + ms)
    /\ (calculate_shift_hours (PyStr s) (PyStr e) == inject_Z minutes / inject_Z 60)%Q.
Proof.
  intros Hs He.
  pose proof (ShiftHours.strptime_range s hs ms Hs) as [Rh Rm].
  pose proof (ShiftHours.strptime_range e he me He) as [Rh' Rm'].
  rewrite (ShiftHours.on_parsed_times s e hs ms he me Hs He).
  eexists. split; [|split; [reflexivity|]].
  - destruct (60 * he + me <? 60 * hs + ms) eqn:E;
      [apply Z.ltb_lt in E|apply Z.ltb_ge in E]; lia.
  - match goal with
    | |- (inject_Z ?a / _ == inject_Z ?m / _)%Q =>
        replace a with (m * 60) by lia; generalize m
    end.
    intros k. unfold Qeq, Qdiv, Qmult, Qinv, inject_Z. cbn [Qnum Qden Z.sgn Z.mul].
    cbn. lia.
Qed.

(** On two parsable times the result is below 24 hours; it is 0 exactly when
    the two are the same time of day; and otherwise the hours from the first
    to the second and from the second to the first add up to 24. *)
Theorem shift_hours_round_the_clock (s e : string) (hs ms he me : Z) :
  strptime_HM s = Some (hs, ms) -> strptime_HM e = Some (he, me) ->
  (0 <= calculate_shift_hours (PyStr s) (PyStr e) < 24)%Q
  /\ ((calculate_shift_hours (PyStr s) (PyStr e) == 0)%Q <-> (hs = he /\ ms = me))
  /\ ((hs, ms) <> (he, me) ->
      (calculate_shift_hours (PyStr s) (PyStr e)
       + calculate_shift_hours (PyStr e) (PyStr s) == 24)%Q).
Proof.
  intros Hs He.
  pose proof (ShiftHours.strptime_range s hs ms Hs) as [Rh Rm].
  pose proof (ShiftHours.strptime_range e he me He) as [Rh' Rm'].
  destruct (hours_of_minutes s e hs ms he me Hs He) as (m & Rm1 & Em & Hm).
  destruct (hours_of_minutes e s he me hs ms He Hs) as (m' & Rm2 & Em' & Hm').
  assert (Q1 : forall k, (inject_Z k / inject_Z 60 == k # 60)%Q).
  { intros k. unfold Qeq, Qdiv, Qmult, Qinv, inject_Z. cbn. lia. }
  rewrite Q1 in Hm, Hm'.
  split; [|split].
  - rewrite Hm. unfold Qle, Qlt. cbn. lia.
  - rewrite Hm. unfold Qeq. cbn. split.
    + intros H0. assert (m = 0) by lia. subst m.
      destruct (60 * he + me <? 60 * hs + ms) eqn:E;
        [apply Z.ltb_lt in E|apply Z.ltb_ge in E]; lia.
    + intros [-> ->]. rewrite Z.ltb_irrefl in Em. lia.
  - intros Hne. rewrite Hm, Hm'.
    assert (Hsum : m + m' = 1440).
    { assert (60 * he + me <> 60 * hs + ms).
      { intros Heq. apply Hne. f_equal; lia. }
      destruct (60 * he + me <? 60 * hs + ms) eqn:E;
        [apply Z.ltb_lt in E|apply Z.ltb_ge in E];
        destruct (60 * hs + ms <? 60 * he + me) eqn:E';
        [apply Z.ltb_lt in E'|apply Z.ltb_ge in E'|apply Z.ltb_lt in E'|apply Z.ltb_ge in E'];
        lia. }
    unfold Qeq, Qplus. cbn. lia.
Qed.

Lemma shift_hours_round_the_clock_witness :
  (calculate_shift_hours (PyStr "22:00") (PyStr "06:00")
   + calculate_shift_hours (PyStr "06:00") (PyStr "22:00") == 24)%Q.
Proof.
  apply (proj2 (proj2 (shift_hours_round_the_clock "22:00" "06:00" 22 0 6 0
                         eq_refl eq_refl))).
  discriminate.
Defined.

End ShiftHoursFacts.

(** ** The planner on a day of six hours or more *)

Module PlannerTotality.
Import PlannerEmptiness.

Lemma planned_consistent (nm ty : string) (needs : list (string * Z)) (s e : Z) :
  consistent (planned nm (hh00 s) (hh00 e) (e - s) ty needs).
Proof.
  exists s, e. cbn [planned start_time end_time duration].
  rewrite !TextFacts.hour_of_hh00. auto.
Qed.

Lemma planned_consistent' (nm ty : string) (needs : list (string * Z)) (s e d : Z) :
  d = e - s -> consistent (planned nm (hh00 s) (hh00 e) d ty needs).
Proof. intros ->. apply planned_consistent. Qed.

Lemma coverage_shift_consistent (o c lo hi d req i : Z) :
  Forall consistent (coverage_shift o c lo hi d req i).
Proof.
  unfold coverage_shift. cbv zeta.
  repeat match goal with
         | |- context [if ?b then _ else _] => destruct b
         | |- Forall _ (match ?x with Some _ => _ | None => _ end) => destruct x
         end;
    repeat constructor; apply planned_consistent'; lia.
Qed.

Lemma manager_coverage_consistent (o c lo hi : Z) :
  Forall consistent (manager_coverage_shifts o c lo hi).
Proof.
  unfold manager_coverage_shifts. cbv zeta.
  repeat match goal with
         | |- context [if ?b then _ else _] => destruct b
         end;
    cbn [app]; repeat constructor; apply planned_consistent'; lia.
Qed.

Lemma extend_last_consistent (c : Z) (l : list ShiftTemplate) :
  Forall consistent l ->
  exists out, extend_last c l = Returned out /\ Forall consistent out.
Proof.
  intros Hl. unfold extend_last.
  destruct (rev l) as [|last_shift earlier] eqn:Hrev; [eexists; split; eauto|].
  assert (Hall : Forall consistent (last_shift :: earlier)).
  { rewrite <- Hrev. now apply Forall_rev. }
  inversion Hall as [|? ? (s & e & Hs & He & Hd) Hearlier]; subst.
  rewrite Hs. cbn [bind]. eexists. split; [reflexivity|].
  apply Forall_app. split; [now apply Forall_rev|].
  constructor; [|constructor].
  exists s, c. cbn [start_time end_time duration]. rewrite TextFacts.hour_of_hh00. auto.
Qed.

Lemma sequential_consistent (fuel : nat) (cur c lo msd : Z) (acc : list ShiftTemplate) :
  1 <= lo -> (Z.to_nat (c - cur) < fuel)%nat -> Forall consistent acc ->
  exists out, sequential_manager_shifts fuel cur c lo msd acc = Returned out
              /\ Forall consistent out.
Proof.
  intros Hlo. revert cur acc.
  induction fuel as [|fuel IH]; intros cur acc Hfuel Hacc; [lia|].
  cbn [sequential_manager_shifts].
  destruct (cur <? c) eqn:Hcur; [|eexists; split; eauto].
  apply Z.ltb_lt in Hcur.
  destruct (lo <=? Z.min (cur + msd) c - cur) eqn:Hstep.
  - apply Z.leb_le in Hstep. apply IH.
    + lia.
    + apply Forall_app. split; [exact Hacc|].
      constructor; [|constructor]. apply planned_consistent.
  - now apply extend_last_consistent.
Qed.

Lemma search_duration_returns (total : Z) (candidates : list Z) :
  Forall (fun d => d <> 0) candidates ->
  exists found, search_duration total candidates = Returned found.
Proof.
  induction 1 as [|d rest Hd _ IH]; cbn [search_duration]; [eauto|].
  unfold shifts_needed. replace (d =? 0) with false by (symmetry; now apply Z.eqb_neq).
  cbn [bind]. destruct (_ <=? 6); eauto.
Qed.

Lemma draft_consistent (o c lo hi : Z) (key : option bool) (r : nat) :
  1 <= lo <= hi ->
  exists shifts, draft_shifts o c lo hi key r = Returned shifts
                 /\ Forall consistent shifts.
Proof.
  intros [Hlo Hhi]. unfold draft_shifts. cbv zeta.
  destruct (randint_returns lo hi r Hhi) as (drawn & -> & Hdrawn). cbn [bind].
  unfold shifts_needed at 1.
  replace (drawn =? 0) with false by (symmetry; apply Z.eqb_neq; lia). cbn [bind].
  set (needed := Z.max 2 (Z.quot (c - o) drawn + 1)).
  assert (Hchosen : exists chosen,
    (if 6 <? needed
     then found <- search_duration (c - o) (range lo (hi + 1)) ;;
          Returned (get found (drawn, needed))
     else Returned (drawn, needed)) = Returned chosen).
  { destruct (6 <? needed); [|eauto].
    destruct (search_duration_returns (c - o) (range lo (hi + 1))) as (found & ->).
    - apply Forall_forall. intros d Hd. apply in_range in Hd. lia.
    - cbn [bind]. eauto. }
  destruct Hchosen as ([dur req] & ->). cbn [bind fst snd].
  set (covering := flat_map (coverage_shift o c lo hi dur req) (range 0 req)).
  assert (Hcov : Forall consistent covering).
  { apply Forall_flat_map. apply Forall_forall. intros i _.
    apply coverage_shift_consistent. }
  set (shifts := if get key true
                 then covering ++ manager_coverage_shifts o c lo hi else covering).
  assert (Hshifts : Forall consistent shifts).
  { subst shifts. destruct (get key true); [|exact Hcov].
    apply Forall_app. split; [exact Hcov|apply manager_coverage_consistent]. }
  assert (Hman : exists manager_shifts,
    (if c - o <=? Z.min hi (Z.max lo 6)
     then Returned
            [planned ("Full Day Manager " ++ span (hh00 o) (hh00 c))
                     (hh00 o) (hh00 c) (c - o) "full_day_manager" manager_only]
     else sequential_manager_shifts (S (Z.to_nat (c - o))) o c lo
            (Z.min hi (Z.max lo 6)) []) = Returned manager_shifts
    /\ Forall consistent manager_shifts).
  { destruct (c - o <=? Z.min hi (Z.max lo 6)).
    - eexists. split; [reflexivity|]. constructor; [|constructor].
      apply planned_consistent.
    - apply sequential_consistent; [exact Hlo|lia|constructor]. }
  destruct Hman as (manager_shifts & -> & Hm). cbn [bind].
  eexists. split; [reflexivity|]. apply Forall_app. auto.
Qed.


Lemma validated_strictly_inside (o c lo hi : Z) (l : list ShiftTemplate) :
  1 <= lo -> Forall consistent l ->
  exists kept, validated_shifts o c lo hi l = Returned kept
               /\ Forall (strictly_inside o c) kept.
Proof.
  intros Hlo. induction 1 as [|t rest (s & e & Hs & He & Hd) _ (kept & IH & Hkept)];
    cbn [validated_shifts]; [eauto|].
  rewrite Hs, He, Hd, IH. cbn [bind lift_option].
  destruct ((o <=? s) && (e <=? c) && (lo <=? e - s) && (e - s <=? hi)) eqn:Hok;
    [|eauto].
  apply andb_true_iff in Hok. destruct Hok as [Hok _].
  apply andb_true_iff in Hok. destruct Hok as [Hok H3].
  apply andb_true_iff in Hok. destruct Hok as [H1 H2].
  apply Z.leb_le in H1, H2, H3.
  eexists. split; [reflexivity|]. constructor; [|exact Hkept].
  exists s, e. repeat split; auto; lia.
Qed.

Lemma string_min_in (default : string) (l : list string) :
  l <> [] -> In (string_min default l) l.
Proof.
  destruct l as [|x r]; [congruence|]. intros _. cbn [string_min].
  assert (G : forall r m, In (fold_left (fun m y => if (y <? m)%string then y else m) r m)
                             (m :: r)).
  { clear. induction r as [|y r IH]; intros m; cbn [fold_left]; [now left|].
    destruct (IH (if (y <? m)%string then y else m)) as [H|H].
    - destruct (y <? m)%string; rewrite <- H; [right; now left|now left].
    - right. now right. }
  apply G.
Qed.

Lemma string_max_in (default : string) (l : list string) :
  l <> [] -> In (string_max default l) l.
Proof.
  destruct l as [|x r]; [congruence|]. intros _. cbn [string_max].
  assert (G : forall r m, In (fold_left (fun m y => if (m <? y)%string then y else m) r m)
                             (m :: r)).
  { clear. induction r as [|y r IH]; intros m; cbn [fold_left]; [now left|].
    destruct (IH (if (m <? y)%string then y else m)) as [H|H].
    - destruct (m <? y)%string; rewrite <- H; [right; now left|now left].
    - right. now right. }
  apply G.
Qed.

Lemma strictly_inside_weaken (o c : Z) (t : ShiftTemplate) :
  strictly_inside o c t -> inside_hours o c t.
Proof.
  intros (s & e & Hs & He & Hd & H1 & H2 & H3). exists s, e. repeat split; auto; lia.
Qed.

Lemma clip_inside (o c : Z) (ct : string) (l : list ShiftTemplate) :
  hour_of ct = Returned c -> Forall (strictly_inside o c) l ->
  exists out, clip_to_close ct l = Returned out /\ Forall (inside_hours o c) out.
Proof.
  intros Hc. induction 1 as [|t rest Ht _ (out & IH & Hout)];
    cbn [clip_to_close]; [eauto|].
  destruct Ht as (s & e & Hs & He & Hd & H1 & H2 & H3).
  destruct (ct <? end_time t)%string.
  - rewrite Hs, Hc, IH. cbn [bind]. eexists. split; [reflexivity|].
    constructor; [|exact Hout].
    exists s, c. cbn [start_time end_time duration]. repeat split; auto; lia.
  - rewrite IH. cbn [bind]. eexists. split; [reflexivity|].
    constructor; [|exact Hout].
    exists s, e. repeat split; auto; lia.
Qed.

Lemma emergency_inside (o c x y : Z) (label ty a b : string) :
  hour_of a = Returned x -> hour_of b = Returned y -> o <= x -> x <= y -> y <= c ->
  exists t, emergency_shift label ty a b = Returned t /\ inside_hours o c t.
Proof.
  intros Ha Hb H1 H2 H3. unfold emergency_shift. rewrite Ha, Hb. cbn [bind].
  eexists. split; [reflexivity|].
  exists x, y. cbn [planned start_time end_time duration]. repeat split; auto.
Qed.

Lemma settle_inside (ot ct : string) (o c lo hi : Z) (l : list ShiftTemplate) :
  hour_of ot = Returned o -> hour_of ct = Returned c -> o <= c -> 1 <= lo ->
  Forall consistent l ->
  exists out, settle_shifts ot ct o c lo hi l = Returned out
              /\ Forall (inside_hours o c) out.
Proof.
  intros Ho Hc Hoc Hlo Hl. unfold settle_shifts. cbv zeta.
  set (all := if c - o <=? hi
              then l ++ [planned ("Full Day Manager " ++ span ot ct) ot ct (c - o)
                                 "full_day_manager" manager_only]
              else l).
  assert (Hall : Forall consistent all).
  { subst all. destruct (c - o <=? hi); [|exact Hl].
    apply Forall_app. split; [exact Hl|]. constructor; [|constructor].
    exists o, c. cbn [planned start_time end_time duration]. auto. }
  destruct (validated_strictly_inside o c lo hi all Hlo Hall) as (kept & -> & Hkept).
  cbn [bind].
  set (coverage_start := string_min ot (map start_time kept)).
  set (coverage_end := string_max ct (map end_time kept)).
  assert (Hstart : (ot <? coverage_start)%string = true ->
                   exists y, hour_of coverage_start = Returned y /\ o <= y <= c).
  { intros Hlt. destruct kept as [|k0 more] eqn:Hk.
    - subst coverage_start. cbn [map string_min] in Hlt.
      now rewrite TextFacts.ltb_irrefl in Hlt.
    - assert (Hin : In coverage_start (map start_time (k0 :: more)))
        by (apply string_min_in; discriminate).
      apply in_map_iff in Hin. destruct Hin as (t & Ht & Hint).
      rewrite Forall_forall in Hkept.
      destruct (Hkept t Hint) as (s & e & Hs & He & Hd & H1 & H2 & H3).
      exists s. rewrite <- Ht. split; [exact Hs|lia]. }
  assert (Hend : (coverage_end <? ct)%string = true ->
                 exists x, hour_of coverage_end = Returned x /\ o <= x <= c).
  { intros Hlt. destruct kept as [|k0 more] eqn:Hk.
    - subst coverage_end. cbn [map string_max] in Hlt.
      now rewrite TextFacts.ltb_irrefl in Hlt.
    - assert (Hin : In coverage_end (map end_time (k0 :: more)))
        by (apply string_max_in; discriminate).
      apply in_map_iff in Hin. destruct Hin as (t & Ht & Hint).
      rewrite Forall_forall in Hkept.
      destruct (Hkept t Hint) as (s & e & Hs & He & Hd & H1 & H2 & H3).
      exists e. rewrite <- Ht. split; [exact He|lia]. }
  assert (Hclip : exists clipped,
    (if (ct <? coverage_end)%string then clip_to_close ct kept else Returned kept)
    = Returned clipped /\ Forall (inside_hours o c) clipped).
  { destruct (ct <? coverage_end)%string.
    - now apply clip_inside.
    - eexists. split; [reflexivity|].
      eapply Forall_impl; [|exact Hkept]. apply strictly_inside_weaken. }
  destruct Hclip as (clipped & -> & Hclipped). cbn [bind].
  destruct (ot <? coverage_start)%string eqn:E1;
    destruct (coverage_end <? ct)%string eqn:E2; cbn [orb].
  - destruct (Hstart eq_refl) as (y & Hy & Ry).
    destruct (Hend eq_refl) as (x & Hx & Rx).
    destruct (emergency_inside o c o y "Emergency Opening" "emergency_opening"
                ot coverage_start Ho Hy) as (t1 & -> & Ht1); try lia.
    cbn [bind].
    destruct (emergency_inside o c x c "Emergency Closing" "emergency_closing"
                coverage_end ct Hx Hc) as (t2 & -> & Ht2); try lia.
    cbn [bind]. eexists. split; [reflexivity|].
    apply Forall_app. split; [constructor; auto|constructor; auto].
  - destruct (Hstart eq_refl) as (y & Hy & Ry).
    destruct (emergency_inside o c o y "Emergency Opening" "emergency_opening"
                ot coverage_start Ho Hy) as (t1 & -> & Ht1); try lia.
    cbn [bind]. eexists. split; [reflexivity|]. constructor; auto.
  - destruct (Hend eq_refl) as (x & Hx & Rx).
    destruct (emergency_inside o c x c "Emergency Closing" "emergency_closing"
                coverage_end ct Hx Hc) as (t2 & -> & Ht2); try lia.
    cbn [bind]. eexists. split; [reflexivity|].
    apply Forall_app. split; [auto|constructor; auto].
  - eexists. split; [reflexivity|exact Hclipped].
Qed.

Section Texts.
Variables ot ct : string.

Lemma hh00_text (h : Z) : clock_text ot ct (hh00 h).
Proof. left. eauto. Qed.

Lemma planned_shaped (nm ty : string) (needs : list (string * Z)) (s e d : Z) :
  shaped ot ct (planned nm (hh00 s) (hh00 e) d ty needs).
Proof. split; apply hh00_text. Qed.

Lemma coverage_shift_shaped (o c lo hi d req i : Z) :
  Forall (shaped ot ct) (coverage_shift o c lo hi d req i).
Proof.
  unfold coverage_shift. cbv zeta.
  repeat match goal with
         | |- context [if ?b then _ else _] => destruct b
         | |- Forall _ (match ?x with Some _ => _ | None => _ end) => destruct x
         end;
    repeat (apply Forall_cons || apply Forall_nil); apply planned_shaped.
Qed.

Lemma manager_coverage_shaped (o c lo hi : Z) :
  Forall (shaped ot ct) (manager_coverage_shifts o c lo hi).
Proof.
  unfold manager_coverage_shifts. cbv zeta.
  repeat match goal with
         | |- context [if ?b then _ else _] => destruct b
         end;
    cbn [app]; repeat (apply Forall_cons || apply Forall_nil); apply planned_shaped.
Qed.

Lemma extend_last_shaped (c : Z) (l out : list ShiftTemplate) :
  Forall (shaped ot ct) l -> extend_last c l = Returned out ->
  Forall (shaped ot ct) out.
Proof.
  intros Hl. unfold extend_last.
  destruct (rev l) as [|last_shift earlier] eqn:Hrev; [intros [= <-]; constructor|].
  assert (Hall : Forall (shaped ot ct) (last_shift :: earlier)).
  { rewrite <- Hrev. now apply Forall_rev. }
  inversion Hall as [|? ? [Hs _] Hearlier]; subst.
  destruct (hour_of (start_time last_shift)); cbn [bind]; try discriminate.
  intros [= <-]. apply Forall_app. split; [now apply Forall_rev|].
  constructor; [|constructor].
  split; cbn [start_time end_time]; [exact Hs|apply hh00_text].
Qed.

Lemma sequential_shaped (fuel : nat) (cur c lo msd : Z) (acc out : list ShiftTemplate) :
  Forall (shaped ot ct) acc ->
  sequential_manager_shifts fuel cur c lo msd acc = Returned out ->
  Forall (shaped ot ct) out.
Proof.
  revert cur acc. induction fuel as [|fuel IH]; intros cur acc Hacc;
    cbn [sequential_manager_shifts]; [discriminate|].
  destruct (cur <? c); [|now intros [= <-]].
  destruct (lo <=? Z.min (cur + msd) c - cur).
  - apply IH. apply Forall_app. split; [exact Hacc|].
    constructor; [|constructor]. apply planned_shaped.
  - now apply extend_last_shaped.
Qed.

Lemma draft_shaped (o c lo hi : Z) (key : option bool) (r : nat)
    (shifts : list ShiftTemplate) :
  draft_shifts o c lo hi key r = Returned shifts -> Forall (shaped ot ct) shifts.
Proof.
  unfold draft_shifts. cbv zeta. intros H.
  destruct (randint lo hi r) as [drawn|?|]; cbn [bind] in H; try discriminate.
  destruct (shifts_needed (c - o) drawn) as [needed|?|]; cbn [bind] in H;
    try discriminate.
  match type of H with
  | bind ?m _ = _ => destruct m as [[dur req]|?|]; cbn [bind fst snd] in H;
                     try discriminate
  end.
  match type of H with
  | bind ?m _ = _ => destruct m as [manager_shifts|?|] eqn:Hm; cbn [bind] in H;
                     try discriminate
  end.
  injection H as <-.
  apply Forall_app. split.
  - assert (Hcov : Forall (shaped ot ct)
                     (flat_map (coverage_shift o c lo hi dur req) (range 0 req))).
    { apply Forall_flat_map. apply Forall_forall. intros i _.
      apply coverage_shift_shaped. }
    destruct (get key true); [|exact Hcov].
    apply Forall_app. split; [exact Hcov|apply manager_coverage_shaped].
  - destruct (c - o <=? Z.min hi (Z.max lo 6)).
    + injection Hm as <-. constructor; [|constructor]. apply planned_shaped.
    + eapply sequential_shaped; [|exact Hm]. constructor.
Qed.

Lemma validated_kept (P : ShiftTemplate -> Prop) (o c lo hi : Z)
    (l kept : list ShiftTemplate) :
  Forall P l -> validated_shifts o c lo hi l = Returned kept -> Forall P kept.
Proof.
  intros Hl. revert kept. induction Hl as [|t rest Ht _ IH]; intros kept;
    cbn [validated_shifts]; [now intros [= <-]|].
  destruct (hour_of (start_time t)); cbn [bind]; try discriminate.
  destruct (hour_of (end_time t)); cbn [bind]; try discriminate.
  destruct (duration t); cbn [bind lift_option]; try discriminate.
  destruct (validated_shifts o c lo hi rest) as [kept'|?|]; cbn [bind];
    try discriminate.
  destruct (_ && _); intros [= <-]; [constructor|]; auto.
Qed.

Lemma clip_shaped (l out : list ShiftTemplate) :
  Forall (shaped ot ct) l -> clip_to_close ct l = Returned out ->
  Forall (shaped ot ct) out.
Proof.
  intros Hl. revert out. induction Hl as [|t rest [Hs He] _ IH]; intros out;
    cbn [clip_to_close]; [now intros [= <-]|].
  destruct (ct <? end_time t)%string.
  - destruct (hour_of (start_time t)); cbn [bind]; try discriminate.
    destruct (hour_of ct); cbn [bind]; try discriminate.
    destruct (clip_to_close ct rest) as [rest'|?|]; cbn [bind]; try discriminate.
    intros [= <-]. constructor; [|auto].
    split; cbn [start_time end_time]; [exact Hs|right; now right].
  - destruct (clip_to_close ct rest) as [rest'|?|]; cbn [bind]; try discriminate.
    intros [= <-]. constructor; [split|]; auto.
Qed.

Lemma emergency_shaped (label ty a b : string) (t : ShiftTemplate) :
  clock_text ot ct a -> clock_text ot ct b ->
  emergency_shift label ty a b = Returned t -> shaped ot ct t.
Proof.
  intros Ha Hb. unfold emergency_shift.
  destruct (hour_of b); cbn [bind]; try discriminate.
  destruct (hour_of a); cbn [bind]; try discriminate.
  intros [= <-]. split; assumption.
Qed.

Lemma string_min_text (l : list ShiftTemplate) :
  Forall (shaped ot ct) l -> clock_text ot ct (string_min ot (map start_time l)).
Proof.
  intros Hl. destruct l as [|k more]; [right; now left|].
  assert (Hin : In (string_min ot (map start_time (k :: more)))
                   (map start_time (k :: more)))
    by (apply string_min_in; discriminate).
  apply in_map_iff in Hin. destruct Hin as (t & <- & Ht).
  rewrite Forall_forall in Hl. apply (Hl t Ht).
Qed.

Lemma string_max_text (l : list ShiftTemplate) :
  Forall (shaped ot ct) l -> clock_text ot ct (string_max ct (map end_time l)).
Proof.
  intros Hl. destruct l as [|k more]; [right; now right|].
  assert (Hin : In (string_max ct (map end_time (k :: more)))
                   (map end_time (k :: more)))
    by (apply string_max_in; discriminate).
  apply in_map_iff in Hin. destruct Hin as (t & <- & Ht).
  rewrite Forall_forall in Hl. apply (Hl t Ht).
Qed.

Lemma settle_shaped (o c lo hi : Z) (l out : list ShiftTemplate) :
  Forall (shaped ot ct) l ->
  settle_shifts ot ct o c lo hi l = Returned out -> Forall (shaped ot ct) out.
Proof.
  intros Hl. unfold settle_shifts. cbv zeta.
  set (all := if c - o <=? hi
              then l ++ [planned ("Full Day Manager " ++ span ot ct) ot ct (c - o)
                                 "full_day_manager" manager_only]
              else l).
  assert (Hall : Forall (shaped ot ct) all).
  { subst all. destruct (c - o <=? hi); [|exact Hl].
    apply Forall_app. split; [exact Hl|]. constructor; [|constructor].
    split; cbn [planned start_time end_time]; [right; now left|right; now right]. }
  destruct (validated_shifts o c lo hi all) as [kept|?|] eqn:Hk; cbn [bind];
    try discriminate.
  pose proof (validated_kept _ _ _ _ _ _ _ Hall Hk) as Hkept.
  pose proof (string_min_text kept Hkept) as Hmin.
  pose proof (string_max_text kept Hkept) as Hmax.
  set (coverage_start := string_min ot (map start_time kept)) in *.
  set (coverage_end := string_max ct (map end_time kept)) in *.
  assert (Hot : clock_text ot ct ot) by (right; now left).
  assert (Hct : clock_text ot ct ct) by (right; now right).
  intros H.
  match type of H with
  | bind ?m _ = _ => destruct m as [clipped|?|] eqn:Hclip; cbn [bind] in H;
                     try discriminate
  end.
  assert (Hclipped : Forall (shaped ot ct) clipped).
  { destruct (ct <? coverage_end)%string.
    - now apply (clip_shaped kept).
    - now injection Hclip as <-. }
  destruct ((ot <? coverage_start)%string || (coverage_end <? ct)%string);
    [|now injection H as <-].
  match type of H with
  | bind ?m _ = _ => destruct m as [opened|?|] eqn:Hopen; cbn [bind] in H;
                     try discriminate
  end.
  assert (Hopened : Forall (shaped ot ct) opened).
  { destruct (ot <? coverage_start)%string.
    - destruct (emergency_shift "Emergency Opening" "emergency_opening" ot
                  coverage_start) as [e1|?|] eqn:He1; cbn [bind] in Hopen;
        try discriminate.
      injection Hopen as <-. constructor; [|exact Hclipped].
      now apply (emergency_shaped _ _ _ _ _ Hot Hmin He1).
    - now injection Hopen as <-. }
  destruct (coverage_end <? ct)%string; [|now injection H as <-].
  destruct (emergency_shift "Emergency Closing" "emergency_closing" coverage_end
              ct) as [e2|?|] eqn:He2; cbn [bind] in H; try discriminate.
  injection H as <-. apply Forall_app. split; [exact Hopened|].
  constructor; [|constructor].
  now apply (emergency_shaped _ _ _ _ _ Hmax Hct He2).
Qed.

End Texts.

(** Every time the planner writes is an hour [f"{h:02d}:00"], or the
    [open_time] or the [close_time] of the first entry as it stands. *)
Lemma planner_shaped (first_hours : OperatingHours) (rest : list OperatingHours)
    (lo_staff hi_staff lo hi : Z) (key : option bool) (r : nat)
    (shifts : list ShiftTemplate) :
  _create_business_coverage_plan (first_hours :: rest) lo_staff hi_staff lo hi key r
  = Returned shifts ->
  Forall (shaped (get (open_time first_hours) "09:00"%string)
                 (get (close_time first_hours) "17:00"%string)) shifts.
Proof.
  unfold _create_business_coverage_plan. cbv zeta. intros H.
  destruct (hour_of (get (open_time first_hours) "09:00"%string)) as [o|?|];
    cbn [bind] in H; try discriminate.
  destruct (hour_of (get (close_time first_hours) "17:00"%string)) as [c|?|];
    cbn [bind] in H; try discriminate.
  match type of H with
  | bind ?m _ = _ => destruct m as [drafted|?|] eqn:Hd; cbn [bind] in H;
                     try discriminate
  end.
  eapply settle_shaped; [|exact H].
  destruct (6 <=? c - o); [|discriminate].
  now apply (draft_shaped _ _ _ _ _ _ _ _ _ Hd).
Qed.

(** From hours to the clock.  Two texts of the planner's making whose hours
    lie within the open and the close hour are [%H:%M] times, the second no
    later than the close time. *)
Lemma clock_of_hours (ot ct : string) (o mo c mc : Z) (st en : string) (s e : Z) :
  strptime_HM ot = Some (o, mo) -> strptime_HM ct = Some (c, mc) -> o < c ->
  hour_of st = Returned s -> hour_of en = Returned e ->
  o <= s -> s <= e -> e <= c ->
  clock_text ot ct st -> clock_text ot ct en ->
  exists sm em, strptime_HM st = Some (s, sm) /\ strptime_HM en = Some (e, em)
                /\ 60 * e + em <= 60 * c + mc.
Proof.
  intros Hot Hct Hoc Hs He H1 H2 H3 Ss Se.
  pose proof (ShiftHours.strptime_range _ _ _ Hot) as [Ro Rmo].
  pose proof (ShiftHours.strptime_range _ _ _ Hct) as [Rc Rmc].
  assert (Pstart : exists sm, strptime_HM st = Some (s, sm)).
  { destruct Ss as [[h Eh]|[Eo|Ec]]; subst st.
    - rewrite TextFacts.hour_of_hh00 in Hs. injection Hs as ->.
      exists 0. apply TextFacts.strptime_hh00. lia.
    - rewrite (TextFacts.hour_of_parsed _ _ _ Hot) in Hs. injection Hs as <-. eauto.
    - rewrite (TextFacts.hour_of_parsed _ _ _ Hct) in Hs. injection Hs as <-. eauto. }
  assert (Pend : exists em, strptime_HM en = Some (e, em)
                            /\ 60 * e + em <= 60 * c + mc).
  { destruct Se as [[h Eh]|[Eo|Ec]]; subst en.
    - rewrite TextFacts.hour_of_hh00 in He. injection He as ->.
      exists 0. split; [apply TextFacts.strptime_hh00|]; lia.
    - rewrite (TextFacts.hour_of_parsed _ _ _ Hot) in He. injection He as <-.
      exists mo. split; [exact Hot|lia].
    - rewrite (TextFacts.hour_of_parsed _ _ _ Hct) in He. injection He as <-.
      exists mc. split; [exact Hct|lia]. }
  destruct Pstart as (sm & Ps). destruct Pend as (em & Pe & Hle).
  exists sm, em. auto.
Qed.


Lemma planner_inside (first_hours : OperatingHours)
    (rest : list OperatingHours) (lo_staff hi_staff lo hi o c : Z)
    (key : option bool) (r : nat) :
  hour_of (get (open_time first_hours) "09:00"%string) = Returned o ->
  hour_of (get (close_time first_hours) "17:00"%string) = Returned c ->
  6 <= c - o -> 1 <= lo <= hi ->
  exists shifts,
    _create_business_coverage_plan (first_hours :: rest) lo_staff hi_staff lo hi key r
    = Returned shifts
    /\ Forall (inside_hours o c) shifts.
Proof.
  intros Ho Hc Hlong Hb. unfold _create_business_coverage_plan. cbv zeta.
  rewrite Ho, Hc. cbn [bind].
  replace (6 <=? c - o) with true by (symmetry; now apply Z.leb_le).
  destruct (draft_consistent o c lo hi key r Hb) as (shifts & -> & Hshifts).
  cbn [bind]. apply settle_inside; auto; lia.
Qed.




End PlannerTotality.

(** ** A first entry shorter than six hours *)

Module ShortDayFacts.

Lemma planner_raises_on_short_day (first_hours : OperatingHours)
    (rest : list OperatingHours) (lo_staff hi_staff lo hi o c : Z)
    (key : option bool) (r : nat) :
  hour_of (get (open_time first_hours) "09:00"%string) = Returned o ->
  hour_of (get (close_time first_hours) "17:00"%string) = Returned c ->
  c - o < 6 ->
  _create_business_coverage_plan (first_hours :: rest) lo_staff hi_staff lo hi key r
  = Raised "UnboundLocalError".
Proof.
  intros Ho Hc Hshort. unfold _create_business_coverage_plan. cbv zeta.
  rewrite Ho, Hc. cbn [bind].
  replace (6 <=? c - o) with false by (symmetry; apply Z.leb_gt; lia).
  reflexivity.
Qed.

Lemma normalizer_raises_on_short_day (r : nat) (constraints : Constraints)
    (first_hours : OperatingHours) (rest : list OperatingHours) (o c : Z) :
  operating_hours constraints = Some (first_hours :: rest) ->
  (7 <= List.length (first_hours :: rest))%nat ->
  get (shift_templates constraints) [] = [] ->
  hour_of (get (open_time first_hours) "09:00"%string) = Returned o ->
  hour_of (get (close_time first_hours) "17:00"%string) = Returned c ->
  c - o < 6 ->
  normalized r constraints = Raised "UnboundLocalError".
Proof.
  intros Hoh Hlen Hnone Ho Hc Hshort.
  unfold normalized, enter. rewrite Hoh.
  unfold _ensure_constraint_defaults.
  cbn [with_operating_hours operating_hours read write nth].
  unfold completed_first.
  replace (List.length (first_hours :: rest) <? 7)%nat with false
    by (symmetry; apply Nat.ltb_ge; exact Hlen).
  unfold template_defaults.
  cbn [with_operating_hours shift_templates]. rewrite Hnone.
  cbn [nonempty negb andb].
  rewrite (planner_raises_on_short_day first_hours rest _ _ _ _ o c _ r Ho Hc Hshort).
  reflexivity.
Qed.

(** A generation call raises UnboundLocalError, whatever the roster (with an
    employee who passes the filter), the dates, the gate and the environment,
    for every document without shift templates whose operating-hours list has
    seven entries or more, the close hour of the first of them being less
    than six above its open hour.  The two hours are the numbers before the
    colon of [close_time] and [open_time], which is all the planner reads of
    them: minutes play no part, and the condition is not the span on the
    clock. *)
Theorem generation_raises_on_short_first_day (env : Environment)
    (cb : CircuitBreaker.t) (employees : list Employee) (constraints : Constraints)
    (s e : date) (first_hours : OperatingHours) (rest : list OperatingHours)
    (o c : Z) :
  _filter_employees_by_constraints employees constraints <> [] ->
  operating_hours constraints = Some (first_hours :: rest) ->
  (7 <= List.length (first_hours :: rest))%nat ->
  get (shift_templates constraints) [] = [] ->
  hour_of (get (open_time first_hours) "09:00"%string) = Returned o ->
  hour_of (get (close_time first_hours) "17:00"%string) = Returned c ->
  c - o < 6 ->
  returned (generate_schedule env cb employees constraints s e)
  = Raised "UnboundLocalError".
Proof.
  intros Hne Hoh Hlen Hnone Ho Hc Hshort.
  apply GenerationFacts.generation_normalizer_raises; [exact Hne|].
  now apply (normalizer_raises_on_short_day _ constraints first_hours rest o c).
Qed.

Lemma generation_raises_on_short_first_day_witness :
  returned (generate_schedule Examples.with_ortools CircuitBreaker.scheduler_circuit_breaker
              Examples.roster2 Examples.long_morning_shop Examples.monday
              Examples.monday)
  = Raised "UnboundLocalError".
Proof.
  apply (generation_raises_on_short_first_day Examples.with_ortools
           CircuitBreaker.scheduler_circuit_breaker Examples.roster2
           Examples.long_morning_shop Examples.monday Examples.monday
           (oh_example Sunday true "08:00" "13:59" 1 2)
           (map (fun d => oh_example d true "08:00" "13:59" 1 2)
                [Monday; Tuesday; Wednesday; Thursday; Friday; Saturday])
           8 13);
    try reflexivity; try (vm_compute; discriminate); try (cbn; lia).
Defined.

End ShortDayFacts.

(** ** What the normaliser returns *)

Module NormalizerCoverage.
Import NormalizerFacts.

Lemma in_completed_first (l : list OperatingHours) (oh : OperatingHours) :
  In oh (completed_first l)
  <-> In oh l \/ ((List.length l < 7)%nat
                  /\ In oh (map (closed_entry 0 0) (missing_days l))).
Proof.
  unfold completed_first. destruct (List.length l <? 7)%nat eqn:E.
  - apply Nat.ltb_lt in E. unfold sort_by_day. rewrite stable_sort_in, in_app_iff.
    tauto.
  - apply Nat.ltb_ge in E. split; [tauto|]. intros [H|[H _]]; [exact H|lia].
Qed.

Lemma closed_entry_closed (lo hi : Z) (days : list DayOfWeek) (oh : OperatingHours) :
  In oh (map (closed_entry lo hi) days) -> is_open oh = Some false.
Proof.
  intros H. apply in_map_iff in H. destruct H as (d & <- & _). reflexivity.
Qed.

(** The document returned by the normaliser has an operating-hours entry
    for every day of the week; every entry of the input is in it as it was;
    and every entry that was not in the input is a closed day. *)
Theorem normalized_covers_the_week (r : nat) (c c1 : Constraints) :
  normalized r c = Returned c1 ->
  exists ohs1,
    operating_hours c1 = Some ohs1
    /\ (forall d, In d (map day_of_week ohs1))
    /\ (forall oh, In oh (get (operating_hours c) []) -> In oh ohs1)
    /\ (forall oh, In oh ohs1 ->
                   In oh (get (operating_hours c) []) \/ is_open oh = Some false).
Proof.
  rewrite normalized_value.
  destruct (template_defaults r (completed_first (get (operating_hours c) [])) c)
    as [enhanced|exn|]; cbn [bind]; try discriminate.
  intros H. injection H as <-.
  set (l := get (operating_hours c) []).
  exists (completed_second (completed_first l)).
  split; [reflexivity|]. split; [|split].
  - apply missing_days_none. apply completed_second_none_missing.
  - intros oh Hin. unfold completed_second. apply in_or_app. left.
    apply in_completed_first. now left.
  - intros oh Hin. unfold completed_second in Hin. apply in_app_or in Hin.
    destruct Hin as [Hin|Hin].
    + apply in_completed_first in Hin. destruct Hin as [Hin|[_ Hin]]; [now left|].
      right. now apply closed_entry_closed in Hin.
    + right. now apply closed_entry_closed in Hin.
Qed.

Lemma normalized_covers_the_week_witness :
  exists c1 ohs1,
    normalized 0 (Examples.doc Examples.monday_only 4 8) = Returned c1
    /\ operating_hours c1 = Some ohs1
    /\ (forall d, In d (map day_of_week ohs1)).
Proof.
  destruct (normalized 0 (Examples.doc Examples.monday_only 4 8)) as [c1|exn|] eqn:E;
    try (vm_compute in E; discriminate).
  destruct (normalized_covers_the_week 0 _ c1 E) as (ohs1 & H1 & H2 & _).
  exists c1, ohs1. auto.
Defined.

Lemma or_default_nonempty (o : option (list string)) (d : list string) :
  nonempty d = true -> nonempty (get (or_default o d) []) = true.
Proof.
  intros Hd. unfold or_default. destruct (nonempty (get o [])) eqn:E; auto.
Qed.

(** The document returned by the normaliser names at least one location,
    one department and one role; and the shift templates, locations,
    departments and roles of a document that had some come back as they
    were. *)
Theorem normalized_fills_defaults (r : nat) (c c1 : Constraints) :
  normalized r c = Returned c1 ->
  nonempty (get (locations c1) []) = true
  /\ nonempty (get (departments c1) []) = true
  /\ nonempty (get (roles c1) []) = true
  /\ (nonempty (get (shift_templates c) []) = true ->
      shift_templates c1 = shift_templates c)
  /\ (nonempty (get (locations c) []) = true -> locations c1 = locations c)
  /\ (nonempty (get (departments c) []) = true -> departments c1 = departments c)
  /\ (nonempty (get (roles c) []) = true -> roles c1 = roles c).
Proof.
  rewrite normalized_value.
  destruct (template_defaults r (completed_first (get (operating_hours c) [])) c)
    as [enhanced|exn|] eqn:Ht; cbn [bind]; try discriminate.
  intros H. injection H as <-.
  cbn [with_operating_hours with_places locations departments roles shift_templates].
  assert (Hsame : locations enhanced = locations c
                  /\ departments enhanced = departments c
                  /\ roles enhanced = roles c
                  /\ (nonempty (get (shift_templates c) []) = true ->
                      shift_templates enhanced = shift_templates c)).
  { unfold template_defaults in Ht.
    destruct (nonempty (get (shift_templates c) [])) eqn:Hex; cbn [negb andb] in Ht.
    - injection Ht as <-. auto.
    - destruct (nonempty (completed_first (get (operating_hours c) []))).
      + match type of Ht with
        | bind ?m _ = _ => destruct m as [generated|exn|]; cbn [bind] in Ht;
                           try discriminate
        end.
        injection Ht as <-. destruct (nonempty generated); repeat split; auto;
          discriminate.
      + injection Ht as <-. repeat split; auto; discriminate. }
  destruct Hsame as (Hl & Hd & Hr & Hs). rewrite Hl, Hd, Hr.
  repeat split; try (apply or_default_nonempty; reflexivity); auto;
    intros Hne; unfold or_default; now rewrite Hne.
Qed.

Lemma normalized_fills_defaults_witness :
  exists c1,
    normalized 0 (Examples.doc Examples.monday_only 4 8) = Returned c1
    /\ nonempty (get (locations c1) []) = true.
Proof.
  destruct (normalized 0 (Examples.doc Examples.monday_only 4 8)) as [c1|exn|] eqn:E;
    try (vm_compute in E; discriminate).
  exists c1. split; [reflexivity|].
  exact (proj1 (normalized_fills_defaults 0 _ c1 E)).
Defined.

End NormalizerCoverage.

(** ** The detector's report *)

Module DetectorFacts.
Import ResolverFacts.

Lemma in_conflicts_iff (c : Constraints) (emps : list Employee) (s e : date)
    (k : Conflict) :
  In k (conflicts (detect_scheduling_conflicts c emps s e))
  <-> In k (fst (no_days_finding (filter is_open_day (get (operating_hours c) []))))
      \/ In k (fst (unavailable_finding (filter is_open_day (get (operating_hours c) []))
                      (filter employee_active emps)))
      \/ (exists day_hours,
             In day_hours (get (operating_hours c) []) /\ is_open_day day_hours = true
             /\ In k (fst (staffing_conflicts (len (filter employee_active emps))
                             day_hours)))
      \/ In k (fst (availability_finding
                      (availability_conflicts (get (operating_hours c) [])
                         (filter employee_active emps) (date_range s e))
                      (len (filter employee_active emps))))
      \/ In k (fst (consecutive_finding (get (max_consecutive_days c) 5)))
      \/ In k (fst (qualifications_finding (filter employee_active emps))).
Proof.
  rewrite detected_conflicts. unfold findings. cbv zeta.
  rewrite !flat_map_app. cbn [flat_map]. rewrite !app_nil_r, !in_app_iff.
  assert (Hmid : In k (flat_map fst
                         (map (staffing_conflicts (len (filter employee_active emps)))
                              (filter is_open_day (get (operating_hours c) []))))
                 <-> exists day_hours,
                       In day_hours (get (operating_hours c) [])
                       /\ is_open_day day_hours = true
                       /\ In k (fst (staffing_conflicts
                                       (len (filter employee_active emps)) day_hours))).
  { rewrite in_flat_map. split.
    - intros (f & Hf & Hk). apply in_map_iff in Hf. destruct Hf as (dh & <- & Hdh).
      apply filter_In in Hdh. destruct Hdh. eauto.
    - intros (dh & Hin & Hopen & Hk). eexists. split; [|exact Hk].
      apply in_map. apply filter_In. auto. }
  rewrite Hmid. tauto.
Qed.

Lemma severity_of_findings (c : Constraints) (emps : list Employee) (s e : date) :
  Forall (fun k => severity k = "critical"%string \/ severity k = "warning"%string)
         (conflicts (detect_scheduling_conflicts c emps s e)).
Proof.
  apply findings_all; intros;
    unfold no_days_finding, unavailable_finding, staffing_conflicts,
      availability_finding, consecutive_finding, qualifications_finding;
    cbv zeta;
    repeat match goal with
           | |- context [if ?b then _ else _] => destruct b
           end;
    cbn [fst app nothing];
    repeat (apply Forall_cons || apply Forall_nil); cbn [severity]; auto.
Qed.

Lemma two_way_count {A : Type} (p q : A -> bool) (l : list A) :
  Forall (fun x => q x = negb (p x)) l ->
  len (filter p l) + len (filter q l) = len l.
Proof.
  unfold len. induction 1 as [|x r Hx _ IH]; [reflexivity|].
  cbn [filter]. rewrite Hx. destruct (p x); cbn [negb List.length]; lia.
Qed.

(** The counts of a report add up: [conflict_count] is the number of
    conflicts listed, every conflict is either critical or a warning, so
    [critical_count + warning_count = conflict_count]; the two suggestion
    counts add up to the number of suggestions; and [can_proceed] says that
    the critical count is zero, [has_critical_conflicts] the opposite. *)
Theorem report_counts_add_up (c : Constraints) (emps : list Employee) (s e : date) :
  let report := detect_scheduling_conflicts c emps s e in
  conflict_count report = len (conflicts report)
  /\ critical_count report + warning_count report = conflict_count report
  /\ auto_fixable_count report + manual_suggestions_count report
     = len (suggestions report)
  /\ (can_proceed report = true <-> critical_count report = 0)
  /\ has_critical_conflicts report = negb (can_proceed report).
Proof.
  cbv zeta. split; [reflexivity|]. split; [|split; [|split]].
  - unfold detect_scheduling_conflicts.
    cbn [critical_count warning_count conflict_count].
    apply two_way_count.
    pose proof (severity_of_findings c emps s e) as H.
    rewrite detected_conflicts in H.
    eapply Forall_impl; [|exact H].
    intros k [Hk|Hk]; unfold severity_is; rewrite Hk; reflexivity.
  - unfold detect_scheduling_conflicts.
    cbn [auto_fixable_count manual_suggestions_count suggestions].
    apply two_way_count. apply Forall_forall. reflexivity.
  - unfold detect_scheduling_conflicts. cbn [can_proceed critical_count].
    apply Z.eqb_eq.
  - unfold detect_scheduling_conflicts. cbn [can_proceed has_critical_conflicts].
    set (n := len _). assert (0 <= n) by (unfold n, len; lia).
    destruct (n =? 0) eqn:E; [apply Z.eqb_eq in E|apply Z.eqb_neq in E]; cbn [negb].
    + apply Z.ltb_ge. lia.
    + apply Z.ltb_lt. lia.
Qed.

(** An insufficient_staff conflict is reported exactly when some open day
    asks for more staff than there are active employees. *)
Lemma insufficient_staff_iff (c : Constraints) (emps : list Employee) (s e : date) :
  (exists k, In k (conflicts (detect_scheduling_conflicts c emps s e))
             /\ conflict_type k = "insufficient_staff"%string)
  <-> (exists day_hours,
          In day_hours (get (operating_hours c) []) /\ is_open_day day_hours = true
          /\ len (filter employee_active emps) < get (min_staff day_hours) 1).
Proof.
  split.
  - intros (k & Hk & Hty). apply in_conflicts_iff in Hk.
    destruct Hk as [Hk|[Hk|[(dh & Hin & Hopen & Hk)|[Hk|[Hk|Hk]]]]].
    + unfold no_days_finding in Hk. destruct (negb _); cbn in Hk;
        [destruct Hk as [<-|[]]; discriminate|destruct Hk].
    + unfold unavailable_finding in Hk. cbv zeta in Hk.
      destruct (nonempty _); cbn in Hk; [|destruct Hk].
      destruct Hk as [<-|[<-|[]]]; discriminate.
    + exists dh. split; [exact Hin|]. split; [exact Hopen|].
      unfold staffing_conflicts in Hk. cbv zeta in Hk.
      destruct (len (filter employee_active emps) <? get (min_staff dh) 1) eqn:E.
      * now apply Z.ltb_lt in E.
      * exfalso. cbn [fst nothing app] in Hk.
        destruct (_ <? _) in Hk; cbn in Hk; [|destruct Hk].
        destruct Hk as [<-|[]]. discriminate.
    + unfold availability_finding in Hk. destruct (0 <? _); cbn in Hk; [|destruct Hk].
      destruct Hk as [<-|[]]. discriminate.
    + unfold consecutive_finding in Hk. destruct (_ <? 2); cbn in Hk; [|destruct Hk].
      destruct Hk as [<-|[]]. discriminate.
    + unfold qualifications_finding in Hk. cbv zeta in Hk.
      destruct (_ && _); cbn in Hk; [|destruct Hk].
      destruct Hk as [<-|[]]. discriminate.
  - intros (dh & Hin & Hopen & Hlt).
    destruct (shortfall_reported c emps s e dh Hin Hopen Hlt) as (k & Hk & Hty & _).
    eauto.
Qed.


Lemma in_date_range (s e d : date) : In d (date_range s e) <-> s <= d <= e.
Proof.
  unfold date_range, range. rewrite in_map_iff. split.
  - intros (k & <- & Hk). apply in_seq in Hk. lia.
  - intros Hd. exists (Z.to_nat (d - s)). split; [lia|]. apply in_seq. lia.
Qed.

Lemma filter_all_or_missing {A : Type} (f : A -> bool) (l : list A) :
  len (filter f l) = len l \/ exists x, In x l /\ f x = false.
Proof.
  unfold len. induction l as [|x r IH]; [now left|].
  cbn [filter]. destruct (f x) eqn:Hx.
  - destruct IH as [IH|(y & Hy & Hfy)].
    + left. cbn [List.length]. lia.
    + right. exists y. split; [now right|exact Hfy].
  - right. exists x. split; [now left|exact Hx].
Qed.

Lemma none_critical_iff (l : list Conflict) :
  len (filter (severity_is "critical") l) = 0
  <-> forall k, In k l -> severity k <> "critical"%string.
Proof.
  unfold len. induction l as [|k r IH]; [split; [intros _ ? []|reflexivity]|].
  cbn [filter]. unfold severity_is at 1.
  destruct (String.eqb (severity k) "critical") eqn:E.
  - split; [cbn [List.length]; lia|].
    intros H. exfalso. apply (H k (or_introl eq_refl)). now apply String.eqb_eq.
  - rewrite IH. apply String.eqb_neq in E. split.
    + intros H x [<-|Hx]; auto.
    + intros H x Hx. apply H. now right.
Qed.

(** The detector lets generation proceed (no critical conflict) exactly when
    some day is open, every open day asks for no more staff than there are
    active employees and than its own maximum (the headcount, when it names
    none), and, unless there is no active employee at all, one of them is
    available from 09:00 to 17:00 on an open date of the range. *)
Theorem can_proceed_iff (c : Constraints) (emps : list Employee) (s e : date) :
  let ohs := get (operating_hours c) [] in
  let n := len (filter employee_active emps) in
  can_proceed (detect_scheduling_conflicts c emps s e) = true
  <-> (exists day_hours, In day_hours ohs /\ is_open_day day_hours = true)
      /\ (forall day_hours, In day_hours ohs -> is_open_day day_hours = true ->
             get (min_staff day_hours) 1 <= n
             /\ get (min_staff day_hours) 1 <= get (max_staff day_hours) n)
      /\ (n = 0
          \/ exists emp d day_hours,
               In emp emps /\ employee_active emp = true /\ s <= d <= e
               /\ find_day ohs (constraint_day d) = Some day_hours
               /\ is_open_day day_hours = true
               /\ _check_employee_availability emp d "09:00" "17:00" = true).
Proof.
  cbv zeta.
  set (ohs := get (operating_hours c) []).
  set (n := len (filter employee_active emps)).
  unfold detect_scheduling_conflicts. cbn [can_proceed].
  fold (conflicts (detect_scheduling_conflicts c emps s e)).
  rewrite Z.eqb_eq.
  change (flat_map fst (findings c emps s e))
    with (conflicts (detect_scheduling_conflicts c emps s e)).
  rewrite none_critical_iff.
  set (cf := availability_conflicts ohs (filter employee_active emps) (date_range s e)).
  assert (Hcf : 0 <= cf <= n).
  { unfold cf, availability_conflicts, n, len.
    pose proof (filter_length_le
                  (fun employee =>
                     negb (existsb (fun d =>
                             match find_day ohs (constraint_day d) with
                             | Some day_hours =>
                                 is_open_day day_hours
                                 && _check_employee_availability employee d "09:00" "17:00"
                             | None => false
                             end) (date_range s e)))
                  (filter employee_active emps)). lia. }
  assert (Havail : cf < n
                   <-> exists emp d day_hours,
                         In emp emps /\ employee_active emp = true /\ s <= d <= e
                         /\ find_day ohs (constraint_day d) = Some day_hours
                         /\ is_open_day day_hours = true
                         /\ _check_employee_availability emp d "09:00" "17:00" = true).
  { split.
    - intros Hlt. unfold cf, availability_conflicts in Hlt.
      match type of Hlt with
      | len (filter ?f ?l) < _ => destruct (filter_all_or_missing f l) as [Hall|Hx]
      end; [unfold n in Hlt; lia|].
      destruct Hx as (emp & Hemp & Hsome). apply negb_false_iff in Hsome.
      apply existsb_exists in Hsome. destruct Hsome as (d & Hd & Hok).
      apply filter_In in Hemp. destruct Hemp as [Hin Hact].
      destruct (find_day ohs (constraint_day d)) as [dh|] eqn:Hf; [|discriminate].
      apply andb_true_iff in Hok. destruct Hok as [Ho Hc].
      exists emp, d, dh. apply in_date_range in Hd. auto 10.
    - intros (emp & d & dh & Hin & Hact & Hd & Hf & Ho & Hc).
      unfold cf, availability_conflicts, n.
      apply filter_shorter with (x := emp).
      + apply filter_In. auto.
      + apply negb_false_iff. apply existsb_exists. exists d.
        split; [now apply in_date_range|]. now rewrite Hf, Ho, Hc. }
  split.
  - intros Hnone.
    assert (Hnot : forall k, In k (conflicts (detect_scheduling_conflicts c emps s e)) ->
                             severity k = "critical"%string -> False)
      by (intros k Hk Hs; exact (Hnone k Hk Hs)).
    split; [|split].
    + destruct (filter is_open_day ohs) as [|dh more] eqn:Hopen.
      * exfalso. eapply Hnot.
        -- apply in_conflicts_iff. left. fold ohs. rewrite Hopen.
           cbn [no_days_finding nonempty negb fst]. left. reflexivity.
        -- reflexivity.
      * assert (Hin : In dh (filter is_open_day ohs)) by (rewrite Hopen; now left).
        apply filter_In in Hin. exists dh. exact Hin.
    + intros dh Hin Hopen.
      destruct (n <? get (min_staff dh) 1) eqn:E1.
      * exfalso. eapply Hnot.
        -- apply in_conflicts_iff. right. right. left. exists dh.
           split; [exact Hin|]. split; [exact Hopen|].
           unfold staffing_conflicts. cbv zeta. fold n. rewrite E1.
           cbn [fst app]. left. reflexivity.
        -- reflexivity.
      * destruct (get (max_staff dh) n <? get (min_staff dh) 1) eqn:E2.
        -- exfalso. eapply Hnot.
           ++ apply in_conflicts_iff. right. right. left. exists dh.
              split; [exact Hin|]. split; [exact Hopen|].
              unfold staffing_conflicts. cbv zeta. fold n. rewrite E1, E2.
              cbn [fst app nothing]. left. reflexivity.
           ++ reflexivity.
        -- apply Z.ltb_ge in E1, E2. lia.
    + destruct (Z.eq_dec n 0) as [Hn|Hn]; [now left|]. right.
      apply Havail.
      destruct (Z.eq_dec cf n) as [Heq|Hneq]; [|lia].
      exfalso. eapply Hnot.
      * apply in_conflicts_iff. do 3 right. left. fold ohs n cf.
        unfold availability_finding.
        replace (0 <? cf) with true by (symmetry; apply Z.ltb_lt; lia).
        cbn [fst]. left. reflexivity.
      * cbn [severity]. rewrite Heq, Z.eqb_refl. reflexivity.
  - intros ((dh0 & Hin0 & Hopen0) & Hstaff & Hav) k Hk Hs.
    apply in_conflicts_iff in Hk. fold ohs n cf in Hk.
    destruct Hk as [Hk|[Hk|[(dh & Hin & Hopen & Hk)|[Hk|[Hk|Hk]]]]].
    + assert (Hne : nonempty (filter is_open_day ohs) = true).
      { assert (Hx : In dh0 (filter is_open_day ohs)) by (apply filter_In; auto).
        destruct (filter is_open_day ohs); [destruct Hx|reflexivity]. }
      unfold no_days_finding in Hk. rewrite Hne in Hk. destruct Hk.
    + unfold unavailable_finding in Hk. cbv zeta in Hk.
      destruct (nonempty (if nonempty (filter is_open_day ohs) then _ else _));
        cbn in Hk; [|destruct Hk].
      destruct Hk as [<-|[<-|[]]]; discriminate.
    + destruct (Hstaff dh Hin Hopen) as [H1 H2].
      unfold staffing_conflicts in Hk. cbv zeta in Hk.
      replace (n <? get (min_staff dh) 1) with false in Hk
        by (symmetry; apply Z.ltb_ge; lia).
      replace (get (max_staff dh) n <? get (min_staff dh) 1) with false in Hk
        by (symmetry; apply Z.ltb_ge; lia).
      destruct Hk.
    + unfold availability_finding in Hk.
      destruct (0 <? cf) eqn:Epos; cbn [fst nothing] in Hk; [|destruct Hk].
      apply Z.ltb_lt in Epos.
      assert (Hlt : cf < n).
      { destruct Hav as [Hn|Hex]; [lia|now apply Havail]. }
      destruct Hk as [<-|[]]. cbn [severity] in Hs.
      replace (cf =? n) with false in Hs by (symmetry; apply Z.eqb_neq; lia).
      discriminate.
    + unfold consecutive_finding in Hk. destruct (_ <? 2); cbn in Hk; [|destruct Hk].
      destruct Hk as [<-|[]]. discriminate.
    + unfold qualifications_finding in Hk. cbv zeta in Hk.
      destruct (_ && _); cbn in Hk; [|destruct Hk].
      destruct Hk as [<-|[]]. discriminate.
Qed.

End DetectorFacts.

(** ** What the automatic resolution changes *)

Module ResolutionFacts.
Import ResolverFacts.

Lemma existsb_shortfall_iff (found : list Conflict) :
  existsb is_shortfall found = true
  <-> exists k, In k found /\ conflict_type k = "insufficient_staff"%string.
Proof.
  rewrite existsb_exists. unfold is_shortfall. split.
  - intros (k & Hk & Hty). apply String.eqb_eq in Hty. eauto.
  - intros (k & Hk & Hty). exists k. split; [exact Hk|]. now apply String.eqb_eq.
Qed.

(** The detection-and-resolution step of a generation call always returns,
    never changes the roster, and changes the document in one case only:
    when some open day asks for more staff than there are active employees,
    the document comes back with its staffing adjusted; otherwise it comes
    back as it was. *)
Theorem resolution_adjusts_staffing_only (c : Constraints) (emps : list Employee)
    (s e : date) :
  let short :=
    exists day_hours,
      In day_hours (get (operating_hours c) []) /\ is_open_day day_hours = true
      /\ len (filter employee_active emps) < get (min_staff day_hours) 1 in
  (short -> resolution c emps s e
            = Returned (_adjust_staffing_requirements c emps, emps))
  /\ (~ short -> resolution c emps s e = Returned (c, emps)).
Proof.
  cbv zeta. unfold resolution. cbv zeta.
  rewrite (resolve_detected _ c emps (detector_types c emps s e)).
  split.
  - intros Hshort. apply DetectorFacts.insufficient_staff_iff with (s := s) (e := e)
      in Hshort.
    destruct Hshort as (k & Hk & Hty).
    assert (Hpos : 0 < conflict_count (detect_scheduling_conflicts c emps s e)).
    { change (conflict_count (detect_scheduling_conflicts c emps s e))
        with (len (conflicts (detect_scheduling_conflicts c emps s e))).
      unfold len. destruct (conflicts (detect_scheduling_conflicts c emps s e));
        [destruct Hk|cbn [List.length]; lia]. }
    replace (0 <? conflict_count (detect_scheduling_conflicts c emps s e)) with true
      by (symmetry; now apply Z.ltb_lt).
    replace (existsb is_shortfall (conflicts (detect_scheduling_conflicts c emps s e)))
      with true by (symmetry; apply existsb_shortfall_iff; eauto).
    reflexivity.
  - intros Hnot.
    destruct (existsb is_shortfall (conflicts (detect_scheduling_conflicts c emps s e)))
      eqn:E.
    + exfalso. apply Hnot. apply existsb_shortfall_iff in E.
      now apply DetectorFacts.insufficient_staff_iff in E.
    + destruct (0 <? _); reflexivity.
Qed.

Lemma adjust_day_bounds (n : Z) (dh : OperatingHours) :
  get (min_staff (adjust_day n dh)) 1 <= Z.max 1 n
  /\ get (max_staff (adjust_day n dh)) 10 <= Z.max n (get (max_staff dh) 10)
  /\ (get (max_staff (adjust_day n dh)) 10 <= n \/ n < 0).
Proof.
  unfold adjust_day. cbn [min_staff max_staff].
  destruct (n <? get (min_staff dh) 1) eqn:E1; destruct (n <? get (max_staff dh) 10) eqn:E2;
    cbn [get];
    try apply Z.ltb_lt in E1; try apply Z.ltb_ge in E1;
    try apply Z.ltb_lt in E2; try apply Z.ltb_ge in E2; lia.
Qed.

(** The staffing adjustment keeps the entries of the document in place, each
    with its day, its opening flag and its times; afterwards no entry asks
    for a minimum above max(1, n) or allows a maximum above n, [n] being the
    number of active employees; the other keys of the document are left
    alone; and adjusting a second time changes nothing. *)
Theorem staffing_adjustment_fits_headcount (c : Constraints) (emps : list Employee)
    (ohs : list OperatingHours) :
  operating_hours c = Some ohs ->
  let n := len (filter employee_active emps) in
  let c' := _adjust_staffing_requirements c emps in
  exists ohs',
    operating_hours c' = Some ohs'
    /\ map day_of_week ohs' = map day_of_week ohs
    /\ map is_open ohs' = map is_open ohs
    /\ map open_time ohs' = map open_time ohs
    /\ map close_time ohs' = map close_time ohs
    /\ (forall day_hours, In day_hours ohs' ->
          get (min_staff day_hours) 1 <= Z.max 1 n
          /\ get (max_staff day_hours) 10 <= n)
    /\ with_operating_hours c' (operating_hours c) = c
    /\ _adjust_staffing_requirements c' emps = c'.
Proof.
  intros Hkey. cbv zeta.
  assert (Hc' : _adjust_staffing_requirements c emps
                = with_operating_hours c
                    (Some (map (adjust_day (len (filter employee_active emps))) ohs))).
  { unfold _adjust_staffing_requirements. now rewrite Hkey. }
  exists (map (adjust_day (len (filter employee_active emps))) ohs).
  split; [now rewrite Hc'|].
  rewrite !map_map. cbn [adjust_day day_of_week is_open open_time close_time].
  repeat split; try reflexivity.
  - apply in_map_iff in H. destruct H as (dh & <- & _).
    apply (adjust_day_bounds _ dh).
  - apply in_map_iff in H. destruct H as (dh & <- & _).
    destruct (adjust_day_bounds (len (filter employee_active emps)) dh) as (_ & _ & [H|H]);
      [exact H|unfold len in H; lia].
  - rewrite Hc'. destruct c. cbn in *. now rewrite Hkey.
  - apply adjust_twice.
Qed.

Lemma staffing_adjustment_fits_headcount_witness :
  exists ohs',
    operating_hours (_adjust_staffing_requirements Examples.understaffed Examples.roster2)
    = Some ohs'
    /\ forall day_hours, In day_hours ohs' -> get (max_staff day_hours) 10 <= 2.
Proof.
  destruct (staffing_adjustment_fits_headcount Examples.understaffed Examples.roster2
              _ eq_refl) as (ohs' & H1 & _ & _ & _ & _ & H6 & _).
  exists ohs'. split; [exact H1|]. intros dh Hin. exact (proj2 (H6 dh Hin)).
Defined.

End ResolutionFacts.
(** ** What the fallback scheduler writes *)

Module FallbackSoundness.
Import NormalizerFacts.

Lemma skill_candidates_incl (reqs : list SkillRequirement) (role_to_fill : string)
    (pool : list Employee) :
  incl (skill_candidates reqs role_to_fill pool) pool.
Proof.
  induction reqs as [|q rest IH]; cbn [skill_candidates]; [intros x []|].
  destruct (_ && _); [|exact IH].
  intros x Hx. apply filter_In in Hx. tauto.
Qed.

Lemma filter_incl' {A : Type} (f : A -> bool) (l : list A) : incl (filter f l) l.
Proof. intros x Hx. apply filter_In in Hx. tauto. Qed.

Lemma firstn_incl {A : Type} (n : nat) (l : list A) : incl (firstn n l) l.
Proof.
  intros x Hx. rewrite <- (firstn_skipn n l). apply in_or_app. now left.
Qed.

Lemma stable_sort_incl {A : Type} (le : A -> A -> bool) (l : list A) :
  incl (stable_sort le l) l.
Proof. intros x Hx. now apply stable_sort_in in Hx. Qed.

(** One turn of the assignment loop books an employee of the pool, once, on
    the current date and on the template's times, and takes the employee's
    first occurrence out of the pool. *)
Lemma assign_one_spec (c : Constraints) (d : date) (t : ShiftTemplate) (k : Z)
    (pool pool' : list Employee) (run run' : Run) :
  assign_one c d t k pool run = Returned (pool', run') ->
  exists emp entry,
    In emp pool /\ pool' = remove_first emp pool
    /\ schedules run' = (schedules run ++ [entry])%list
    /\ employeeId entry = _id emp /\ a_date entry = d
    /\ a_startTime entry = start_time t /\ a_endTime entry = end_time t
    /\ status entry = "scheduled"%string.
Proof.
  intros H. unfold assign_one in H. cbv zeta in H.
  set (role0 := nth _ _ "general"%string) in H.
  set (rc0 := filter (has_role role0) pool) in H.
  set (rc1 := if (role0 =? "manager")%string && negb (nonempty rc0)
              then _ else rc0) in H.
  set (rc2 := if negb (nonempty rc1) && _ then _ else rc1) in H.
  assert (I2 : incl rc2 pool).
  { subst rc2 rc1 rc0.
    repeat match goal with
           | |- incl (if ?b then _ else _) _ => destruct b
           end;
      try apply skill_candidates_incl; apply filter_incl'. }
  clearbody rc2. clear rc1 rc0.
  set (pr := if negb (nonempty rc2) then _ else _) in H.
  assert (I3 : incl (fst pr) pool).
  { subst pr. destruct (negb (nonempty rc2)); cbn [fst]; auto using incl_refl. }
  clearbody pr. destruct pr as [rc3 role1]. cbn [fst] in I3. cbv beta iota in H.
  set (rc4 := stable_sort _ rc3) in H.
  assert (I4 : incl rc4 pool).
  { intros x Hx. apply I3. now apply stable_sort_incl in Hx. }
  clearbody rc4.
  set (rc5 := if _ && (2 <? len rc4) then _ else rc4) in H.
  assert (I5 : incl rc5 pool).
  { subst rc5.
    repeat match goal with
           | |- incl (if ?b then _ else _) _ => destruct b
           end; auto.
    intros x Hx. apply I4. now apply filter_incl' in Hx. }
  clearbody rc5.
  set (rc6 := if negb (nonempty rc5) then _ else rc5) in H.
  assert (I6 : incl rc6 pool).
  { subst rc6.
    repeat match goal with
           | |- incl (if ?b then _ else _) _ => destruct b
           end; auto using incl_refl, filter_incl'. }
  clearbody rc6.
  assert (Hdone : forall emp rnd1,
            In emp pool ->
            (let '(assigned_employee, rnd1) := (emp, rnd1) in
             located <-
               (let loc := get (location assigned_employee) ""%string in
                if String.eqb loc "" && nonempty (get (locations c) ["Main Office"%string])
                then let '(r, rest) := draw rnd1 in
                     l <- choice (get (locations c) ["Main Office"%string]) r ;;
                     Returned (l, rest)
                else Returned (loc, rnd1)) ;;
             let '(assigned_location, rnd2) := located in
             placed <-
               (let dept := get (department assigned_employee) ""%string in
                if mem_string dept (get (departments c) ["Operations"%string])
                then Returned (dept, rnd2)
                else let '(r, rest) := draw rnd2 in
                     dp <- choice (get (departments c) ["Operations"%string]) r ;;
                     Returned (dp, rest)) ;;
             let '(assigned_department, rnd3) := placed in
             Returned
               (remove_first assigned_employee pool,
                mkRun
                  (schedules run ++
                   [mkAssignment (_id assigned_employee) d (start_time t) (end_time t)
                      assigned_location role1 assigned_department "scheduled"
                      ("Constraint-enforcing fallback scheduler ("
                       ++ nth (Z.to_nat (constraint_day d)) (map day_name range7) ""
                       ++ ")")%string])
                  (set_ledger (book run) (_id assigned_employee)
                     (mkLedger
                        (shift_count (ledger_of (book run) (_id assigned_employee)) + 1)
                        match last_work_day (ledger_of (book run) (_id assigned_employee))
                        with
                        | Some last =>
                            if last =? d - 1
                            then consecutive_days
                                   (ledger_of (book run) (_id assigned_employee)) + 1
                            else 1
                        | None => 1
                        end (Some d)
                        (weekly_hours (ledger_of (book run) (_id assigned_employee))
                         + calculate_shift_hours (PyStr (start_time t))
                             (PyStr (end_time t)))%Q))
                  rnd3)) = Returned (pool', run') ->
            exists emp entry,
              In emp pool /\ pool' = remove_first emp pool
              /\ schedules run' = (schedules run ++ [entry])%list
              /\ employeeId entry = _id emp /\ a_date entry = d
              /\ a_startTime entry = start_time t /\ a_endTime entry = end_time t
              /\ status entry = "scheduled"%string).
  { intros emp rnd1 Hin Hrun. cbv beta iota zeta in Hrun.
    match type of Hrun with
    | bind ?m _ = _ => destruct m as [[loc rnd2]|exn|]; cbn [bind] in Hrun;
                       try discriminate
    end.
    match type of Hrun with
    | bind ?m _ = _ => destruct m as [[dept rnd3]|exn|]; cbn [bind] in Hrun;
                       try discriminate
    end.
    injection Hrun as <- <-.
    eexists. eexists. split; [exact Hin|]. split; [reflexivity|].
    cbn [schedules]. split; [reflexivity|]. cbn. auto 10. }
  destruct rc6 as [|first [|second more]]; cbn [bind] in H; [discriminate| |].
  - apply (Hdone first (rnd run)); [apply I6; now left|exact H].
  - destruct (draw (rnd run)) as [r rest]. cbn [bind] in H.
    match type of H with
    | context [remove_first (nth ?n ?l ?dflt) pool] =>
        apply (Hdone (nth n l dflt) rest); [|exact H];
        destruct (nth_in_or_default n l dflt) as [Hin | ->]
    end.
    + apply I6. apply firstn_incl in Hin. now apply stable_sort_incl in Hin.
    + apply I6. now left.
Qed.

Lemma remove_first_incl (emp : Employee) (l : list Employee) :
  incl (remove_first emp l) l.
Proof.
  induction l as [|x r IH]; cbn [remove_first]; [apply incl_refl|].
  destruct (same_employee emp x).
  - apply incl_tl, incl_refl.
  - intros y [<-|Hy]; [now left|right; now apply IH].
Qed.

Lemma booked_from_wider (pool pool' : list Employee) (templates : list ShiftTemplate)
    (d : date) (a : Assignment) :
  incl pool pool' -> booked_from pool templates d a -> booked_from pool' templates d a.
Proof.
  intros Hincl (H1 & H2 & (emp & Hemp & Hid) & H4).
  repeat split; auto. exists emp. auto.
Qed.

(** The assignment loop of a day adds at most [togo] entries, each booked
    from the pool on the current date. *)
Lemma assign_day_spec (c : Constraints) (d : date) (templates : list ShiftTemplate)
    (togo : nat) (k idx : Z) (pool : list Employee) (run run' : Run) :
  assign_day c d templates togo k idx pool run = Returned run' ->
  exists new,
    schedules run' = (schedules run ++ new)%list
    /\ (List.length new <= togo)%nat
    /\ Forall (booked_from pool templates d) new.
Proof.
  revert k idx pool run.
  induction togo as [|togo IH]; intros k idx pool run H; cbn [assign_day] in H.
  - injection H as <-. exists []. rewrite app_nil_r.
    split; [reflexivity|]. split; [cbn; lia|constructor].
  - destruct (nonempty pool).
    + destruct (nth_error templates _) as [t|] eqn:Ht; cbn [lift_option bind] in H;
        [|discriminate].
      destruct (assign_one c d t k pool run) as [[pool1 run1]|exn|] eqn:Hone;
        cbn [bind fst snd] in H; try discriminate.
      apply assign_one_spec in Hone.
      destruct Hone as (emp & entry & Hin & -> & Hs & Hid & Hd & Hst & Hen & Hstat).
      apply IH in H. destruct H as (new & Hnew & Hlen & Hall).
      exists (entry :: new). split; [|split].
      * rewrite Hnew, Hs, <- app_assoc. reflexivity.
      * cbn [List.length]. lia.
      * constructor.
        -- split; [exact Hd|]. split; [exact Hstat|]. split.
           ++ exists emp. auto.
           ++ exists t. split; [now apply nth_error_In in Ht|auto].
        -- eapply Forall_impl; [|exact Hall].
           intros a. apply booked_from_wider. apply remove_first_incl.
    + injection H as <-. exists []. rewrite app_nil_r.
      split; [reflexivity|]. split; [cbn; lia|constructor].
Qed.

Lemma manager_first_pool_incl (book : ledgers) (fm : Z)
    (available filtered : list Employee) :
  incl filtered available ->
  incl (manager_first_pool book fm available filtered) available.
Proof.
  intros Hf. unfold manager_first_pool. cbv zeta.
  set (kept := if len filtered <? fm then available else filtered).
  assert (Hk : incl kept available).
  { subst kept. destruct (_ <? _); auto using incl_refl. }
  clearbody kept.
  set (managers := if negb (nonempty (filter is_manager kept)) then _ else available).
  assert (Hm : incl managers available).
  { subst managers.
    repeat match goal with
           | |- incl (if ?b then _ else _) _ => destruct b
           end; auto using incl_refl, filter_incl'.
    intros x Hx. apply Hk. now apply filter_incl' in Hx. }
  clearbody managers.
  intros x Hx. apply in_app_or in Hx. destruct Hx as [Hx|Hx].
  - apply Hm. now apply stable_sort_incl in Hx.
  - destruct (len (managers ++ filter (fun e => negb (is_manager e)) kept) <? fm).
    + apply in_app_or in Hx. destruct Hx as [Hx|Hx].
      * apply Hk. now apply filter_incl' in Hx.
      * apply firstn_incl in Hx. now apply filter_incl' in Hx.
    + apply Hk. now apply filter_incl' in Hx.
Qed.


(** One date of the day loop: nothing is added unless the date's entry is
    open with a positive minimum; what is added is booked from the
    employees available that day, is no more than they are, and no more
    than the day's maximum when that is not below its minimum.  [P] is a
    property of the planner's templates that the templates built inside the
    loop share. *)
Lemma schedule_day_spec (P : ShiftTemplate -> Prop) (employees : list Employee)
    (c : Constraints) (fm : Z) (d : date) (templates templates' : list ShiftTemplate)
    (run run' : Run) :
  Forall P templates ->
  (forall first_hours rest ts,
      get (operating_hours c) [] = first_hours :: rest ->
      professional_templates first_hours
        (get (locations c) ["Main Office"%string]) = Returned ts ->
      Forall P ts) ->
  schedule_day employees c fm d (templates, run) = Returned (templates', run') ->
  Forall P templates'
  /\ exists new,
      schedules run' = (schedules run ++ new)%list
      /\ (new = []
          \/ exists day_hours,
               find_day (get (operating_hours c) []) (constraint_day d) = Some day_hours
               /\ is_open_day day_hours = true
               /\ 0 < get (min_staff day_hours) 1
               /\ len new <= len (available_on employees d)
               /\ (get (min_staff day_hours) 1 <= get (max_staff day_hours) 10 ->
                   len new <= get (max_staff day_hours) 10)
               /\ Forall (booked_from (available_on employees d) templates' d) new).
Proof.
  intros HP Hprof H. unfold schedule_day in H. cbv zeta in H.
  assert (Hnone : Returned (templates, run) = Returned (templates', run') ->
            Forall P templates'
            /\ exists new,
                schedules run' = (schedules run ++ new)%list
                /\ (new = []
                    \/ exists day_hours,
                         find_day (get (operating_hours c) []) (constraint_day d)
                         = Some day_hours
                         /\ is_open_day day_hours = true
                         /\ 0 < get (min_staff day_hours) 1
                         /\ len new <= len (available_on employees d)
                         /\ (get (min_staff day_hours) 1 <= get (max_staff day_hours) 10 ->
                             len new <= get (max_staff day_hours) 10)
                         /\ Forall (booked_from (available_on employees d) templates' d)
                                   new)).
  { intros Heq. injection Heq as <- <-. split; [exact HP|].
    exists []. rewrite app_nil_r. auto. }
  destruct (find_day (get (operating_hours c) []) (constraint_day d)) as [dh|] eqn:Hf;
    [|now apply Hnone].
  destruct (negb (is_open_day dh)) eqn:Hopen; [now apply Hnone|].
  destruct (get (min_staff dh) 1 <=? 0) eqn:Hmin; [now apply Hnone|].
  fold (available_on employees d) in H.
  set (avail := available_on employees d) in *.
  set (ets := if len avail <? get (min_staff dh) 1 then len avail
              else Z.min (get (max_staff dh) 10) (Z.max (get (min_staff dh) 1) (len avail)))
    in H.
  destruct (ets <=? 0) eqn:Hets; [now apply Hnone|]. clear Hnone.
  match type of H with
  | bind ?m _ = _ => destruct m as [ts|exn|] eqn:Hts; cbn [bind] in H; try discriminate
  end.
  assert (HPts : Forall P ts).
  { destruct (nonempty templates).
    - injection Hts as <-. exact HP.
    - destruct (get (operating_hours c) []) as [|first_hours rest] eqn:Hohs.
      + injection Hts as <-. constructor.
      + now apply (Hprof first_hours rest ts). }
  match type of H with
  | bind (assign_day _ _ _ _ _ _ ?pool _) _ = _ =>
      set (the_pool := pool) in H;
      assert (Hpool : incl the_pool avail)
  end.
  { subst the_pool. intros x Hx. apply manager_first_pool_incl in Hx.
    - unfold sort_by_priority in Hx.
      repeat match type of Hx with
             | In _ (if ?b then _ else _) => destruct b
             end; now apply stable_sort_incl in Hx.
    - apply filter_incl'. }
  clearbody the_pool.
  destruct (assign_day c d ts (Z.to_nat ets) 0 0 the_pool run) as [run1|exn|] eqn:Hday;
    cbn [bind] in H; try discriminate.
  match type of H with
  | bind ?m _ = _ => destruct m as [[]|exn|]; cbn [bind] in H; try discriminate
  end.
  injection H as <- <-. split; [exact HPts|].
  apply assign_day_spec in Hday. destruct Hday as (new & Hnew & Hlen & Hall).
  exists new. split; [exact Hnew|]. right. exists dh.
  apply negb_false_iff in Hopen. apply Z.leb_gt in Hmin. apply Z.leb_gt in Hets.
  assert (Hlen' : len new <= ets) by (unfold len; lia).
  split; [reflexivity|]. split; [exact Hopen|]. split; [exact Hmin|].
  split; [|split].
  - subst ets. destruct (len avail <? get (min_staff dh) 1) eqn:E; [lia|].
    apply Z.ltb_ge in E. lia.
  - intros Hrange. subst ets. destruct (len avail <? get (min_staff dh) 1) eqn:E.
    + apply Z.ltb_lt in E. lia.
    + lia.
  - eapply Forall_impl; [|exact Hall]. intros a. now apply booked_from_wider.
Qed.

Lemma booked_is_sound (P : ShiftTemplate -> Prop) (employees : list Employee)
    (c : Constraints) (d : date) (day_hours : OperatingHours)
    (templates : list ShiftTemplate) (a : Assignment) :
  Forall P templates ->
  find_day (get (operating_hours c) []) (constraint_day d) = Some day_hours ->
  is_open_day day_hours = true -> 0 < get (min_staff day_hours) 1 ->
  booked_from (available_on employees d) templates d a ->
  a_date a = d /\ soundly_booked P employees c a.
Proof.
  intros HP Hf Hopen Hmin (Hd & Hstat & (emp & Hemp & Hid) & (t & Ht & Hs & He)).
  split; [exact Hd|]. unfold soundly_booked. rewrite Hd.
  split; [exact Hstat|]. split; [exists day_hours; auto|]. split.
  - unfold available_on in Hemp. apply filter_In in Hemp.
    destruct Hemp as [Hin Hok]. apply andb_true_iff in Hok.
    exists emp. tauto.
  - exists t. split; [|auto]. rewrite Forall_forall in HP. now apply HP.
Qed.

Lemma on_date_app (d : date) (l1 l2 : list Assignment) :
  on_date d (l1 ++ l2) = (on_date d l1 ++ on_date d l2)%list.
Proof. apply filter_app. Qed.

Lemma on_date_elsewhere (d : date) (l : list Assignment) :
  Forall (fun a => a_date a <> d) l -> on_date d l = [].
Proof.
  induction 1 as [|a l Ha _ IH]; [reflexivity|].
  cbn [on_date filter]. fold (on_date d l). rewrite IH.
  replace (a_date a =? d) with false by (symmetry; now apply Z.eqb_neq).
  reflexivity.
Qed.

Lemma on_date_shorter (d : date) (l : list Assignment) : len (on_date d l) <= len l.
Proof.
  unfold len, on_date. pose proof (filter_length_le (fun a => a_date a =? d) l). lia.
Qed.

(** The day loop over a list of dates without repetition. *)
Lemma schedule_days_spec (P : ShiftTemplate -> Prop) (employees : list Employee)
    (c : Constraints) (fm : Z) (dates : list date) :
  (forall first_hours rest ts,
      get (operating_hours c) [] = first_hours :: rest ->
      professional_templates first_hours
        (get (locations c) ["Main Office"%string]) = Returned ts ->
      Forall P ts) ->
  NoDup dates ->
  forall (templates templates' : list ShiftTemplate) (run run' : Run),
  Forall P templates ->
  schedule_days employees c fm dates (templates, run) = Returned (templates', run') ->
  exists new,
    schedules run' = (schedules run ++ new)%list
    /\ Forall (fun a => In (a_date a) dates /\ soundly_booked P employees c a) new
    /\ forall d,
         len (on_date d new) <= len (available_on employees d)
         /\ forall day_hours,
              find_day (get (operating_hours c) []) (constraint_day d) = Some day_hours ->
              get (min_staff day_hours) 1 <= get (max_staff day_hours) 10 ->
              len (on_date d new) <= Z.max 0 (get (max_staff day_hours) 10).
Proof.
  intros Hprof. induction dates as [|d0 later IH]; intros Hnd templates templates' run run' HP H;
    cbn [schedule_days] in H.
  - injection H as <- <-. exists []. rewrite app_nil_r.
    split; [reflexivity|]. split; [constructor|].
    intros d. cbn. split; [unfold len; lia|]. intros. lia.
  - destruct (schedule_day employees c fm d0 (templates, run)) as [[ts1 run1]|exn|] eqn:Hday;
      cbn [bind] in H; try discriminate.
    apply (schedule_day_spec P) in Hday; auto.
    destruct Hday as (HP1 & new0 & Hnew0 & Hcase).
    inversion Hnd as [|x l Hnotin Hnd']; subst.
    apply IH in H; auto. destruct H as (new1 & Hnew1 & Hall1 & Hcount1).
    exists (new0 ++ new1)%list. split; [|split].
    + rewrite Hnew1, Hnew0, <- app_assoc. reflexivity.
    + apply Forall_app. split.
      * destruct Hcase as [->|(dh & Hf & Hopen & Hmin & _ & _ & Hall0)]; [constructor|].
        eapply Forall_impl; [|exact Hall0]. intros a Ha.
        destruct (booked_is_sound P employees c d0 dh ts1 a HP1 Hf Hopen Hmin Ha)
          as [Hd Hs].
        split; [left; now rewrite Hd|exact Hs].
      * eapply Forall_impl; [|exact Hall1]. intros a [Hin Hs].
        split; [now right|exact Hs].
    + intros d. rewrite on_date_app.
      destruct (Z.eq_dec d d0) as [->|Hne].
      * rewrite (on_date_elsewhere d0 new1).
        2:{ eapply Forall_impl; [|exact Hall1]. intros a [Hin _] Heq.
            apply Hnotin. now rewrite <- Heq. }
        rewrite app_nil_r.
        destruct Hcase as [->|(dh & Hf & Hopen & Hmin & Hav & Hmax & Hall0)].
        -- cbn. split; [unfold len; lia|]. intros. lia.
        -- pose proof (on_date_shorter d0 new0) as Hshort.
           split; [lia|]. intros dh' Hf' Hrange.
           rewrite Hf in Hf'. injection Hf' as <-. specialize (Hmax Hrange). lia.
      * rewrite (on_date_elsewhere d new0); [exact (Hcount1 d)|].
        destruct Hcase as [->|(dh & _ & _ & _ & _ & _ & Hall0)]; [constructor|].
        eapply Forall_impl; [|exact Hall0]. intros a (Hd & _) Heq.
        apply Hne. now rewrite <- Heq, Hd.
Qed.

(** The fallback as a whole, for templates with the property [P]. *)
Lemma fallback_spec (P : ShiftTemplate -> Prop) (employees : list Employee)
    (c : Constraints) (s e : date) (rnd : oracle) (made : list Assignment) :
  (forall first_hours rest ts,
      get (operating_hours c) [] = first_hours :: rest ->
      professional_templates first_hours
        (get (locations c) ["Main Office"%string]) = Returned ts ->
      Forall P ts) ->
  (forall first_hours rest r ts,
      get (operating_hours c) [] = first_hours :: rest ->
      _create_business_coverage_plan (first_hours :: rest)
        (get (min_staff first_hours) 1) (get (max_staff first_hours) 10)
        (get (min_consecutive_hours_per_shift c) 4)
        (get (max_consecutive_hours_per_shift c) 12)
        (require_manager_coverage c) r = Returned ts ->
      Forall P ts) ->
  _basic_random_schedule employees c s e rnd = Returned made ->
  Forall (fun a => s <= a_date a <= e /\ soundly_booked P employees c a) made
  /\ forall d,
       len (on_date d made) <= len (available_on employees d)
       /\ forall day_hours,
            find_day (get (operating_hours c) []) (constraint_day d) = Some day_hours ->
            get (min_staff day_hours) 1 <= get (max_staff day_hours) 10 ->
            len (on_date d made) <= Z.max 0 (get (max_staff day_hours) 10).
Proof.
  intros Hprof Hplan H. unfold _basic_random_schedule in H.
  destruct (get (operating_hours c) []) as [|first_hours rest] eqn:Hohs.
  - injection H as <-. split; [constructor|]. intros d. cbn.
    split; [unfold len; lia|]. intros. lia.
  - cbv zeta in H. destruct (draw rnd) as [r rnd1].
    match type of H with
    | bind ?m _ = _ => destruct m as [ts|exn|] eqn:Hts; cbn [bind] in H; try discriminate
    end.
    match type of H with
    | bind ?m _ = _ => destruct m as [[ts' run']|exn|] eqn:Hdays; cbn [bind] in H;
                       try discriminate
    end.
    injection H as <-. cbn [snd].
    apply (schedule_days_spec P) in Hdays.
    + destruct Hdays as (new & Hnew & Hall & Hcount). cbn [schedules app] in Hnew.
      rewrite Hnew. rewrite <- Hohs. split; [|exact Hcount].
      eapply Forall_impl; [|exact Hall]. intros a [Hin Hs].
      apply DetectorFacts.in_date_range in Hin. auto.
    + rewrite Hohs. exact Hprof.
    + apply OptimizerFacts.date_range_nodup.
    + apply (Hplan first_hours rest r ts); auto.
Qed.

Lemma planner_returned_long_day (first_hours : OperatingHours)
    (rest : list OperatingHours) (lo_staff hi_staff lo hi : Z)
    (key : option bool) (r : nat) (ts : list ShiftTemplate) :
  _create_business_coverage_plan (first_hours :: rest) lo_staff hi_staff lo hi key r
  = Returned ts ->
  exists o cl,
    hour_of (get (open_time first_hours) "09:00"%string) = Returned o
    /\ hour_of (get (close_time first_hours) "17:00"%string) = Returned cl
    /\ 6 <= cl - o.
Proof.
  intros H.
  destruct (hour_of (get (open_time first_hours) "09:00"%string)) as [o|exn|] eqn:Ho;
    try (unfold _create_business_coverage_plan in H; cbv zeta in H;
         rewrite Ho in H; discriminate).
  destruct (hour_of (get (close_time first_hours) "17:00"%string)) as [cl|exn|] eqn:Hc;
    try (unfold _create_business_coverage_plan in H; cbv zeta in H;
         rewrite Ho, Hc in H; discriminate).
  exists o, cl. split; [reflexivity|]. split; [reflexivity|].
  destruct (Z_lt_le_dec (cl - o) 6) as [Hshort|Hlong]; [|exact Hlong].
  rewrite (ShortDayFacts.planner_raises_on_short_day first_hours rest lo_staff hi_staff
             lo hi o cl key r Ho Hc Hshort) in H.
  discriminate.
Qed.

Lemma professional_within (first_hours : OperatingHours) (locs : list string)
    (o cl : Z) (ts : list ShiftTemplate) :
  hour_of (get (open_time first_hours) "09:00"%string) = Returned o ->
  hour_of (get (close_time first_hours) "17:00"%string) = Returned cl ->
  6 <= cl - o ->
  professional_templates first_hours locs = Returned ts ->
  Forall (within_hours o cl) ts.
Proof.
  intros Ho Hc Hlong H. unfold professional_templates in H. cbv zeta in H.
  rewrite Ho, Hc in H. cbn [bind] in H.
  replace (cl - o <=? 4) with false in H by (symmetry; apply Z.leb_gt; lia).
  injection H as <-.
  assert (Hmid : o <= o + (cl - o) / 2 <= cl).
  { pose proof (Z.div_pos (cl - o) 2 ltac:(lia) ltac:(lia)).
    assert ((cl - o) / 2 <= cl - o) by (apply Z.div_le_upper_bound; lia). lia. }
  repeat constructor; unfold within_hours; cbn [start_time end_time].
  - exists o, (o + (cl - o) / 2). rewrite TextFacts.hour_of_hh00. repeat split; auto; lia.
  - exists (o + (cl - o) / 2), cl. rewrite TextFacts.hour_of_hh00. repeat split; auto; lia.
  - exists o, cl. repeat split; auto; lia.
Qed.

(** Whatever the fallback returns, each entry is marked scheduled, lies on a
    date of the requested range whose weekday has an operating-hours entry
    that is open with a positive [min_staff], and is for an active employee
    of the roster whom [_check_employee_availability] admits on that date
    from 09:00 to 17:00. *)
Theorem fallback_books_open_days_and_available_staff (employees : list Employee)
    (c : Constraints) (s e : date) (rnd : oracle) (made : list Assignment) :
  _basic_random_schedule employees c s e rnd = Returned made ->
  forall a, In a made ->
    s <= a_date a <= e
    /\ status a = "scheduled"%string
    /\ (exists day_hours,
           find_day (get (operating_hours c) []) (constraint_day (a_date a))
           = Some day_hours
           /\ is_open_day day_hours = true /\ 0 < get (min_staff day_hours) 1)
    /\ (exists emp,
           In emp employees /\ employee_active emp = true
           /\ _check_employee_availability emp (a_date a) "09:00" "17:00" = true
           /\ employeeId a = _id emp).
Proof.
  intros H a Ha.
  destruct (fallback_spec (fun _ => True) employees c s e rnd made) as [Hall _].
  - intros. apply Forall_forall. auto.
  - intros. apply Forall_forall. auto.
  - exact H.
  - rewrite Forall_forall in Hall. destruct (Hall a Ha) as (Hd & Hstat & Hday & Hemp & _).
    auto.
Qed.

Lemma fallback_books_open_days_and_available_staff_witness :
  exists made,
    _basic_random_schedule Examples.one_of_each Examples.office_week
      Examples.monday (Examples.monday + 6) [] = Returned made
    /\ made <> []
    /\ forall a, In a made ->
         Examples.monday <= a_date a <= Examples.monday + 6
         /\ status a = "scheduled"%string
         /\ (exists day_hours,
                find_day (get (operating_hours Examples.office_week) [])
                  (constraint_day (a_date a)) = Some day_hours
                /\ is_open_day day_hours = true /\ 0 < get (min_staff day_hours) 1)
         /\ (exists emp,
                In emp Examples.one_of_each /\ employee_active emp = true
                /\ _check_employee_availability emp (a_date a) "09:00" "17:00" = true
                /\ employeeId a = _id emp).
Proof.
  eexists. split; [vm_compute; reflexivity|]. split; [discriminate|].
  apply (fallback_books_open_days_and_available_staff Examples.one_of_each
           Examples.office_week Examples.monday (Examples.monday + 6) []).
  vm_compute. reflexivity.
Defined.

(** Whatever the fallback returns, the entries of any one date are no more
    than the active employees available that date, and no more than the
    [max_staff] of the date's operating-hours entry (default 10) when that
    is not below the entry's [min_staff] (default 1). *)
Theorem fallback_headcount_bounded (employees : list Employee)
    (c : Constraints) (s e : date) (rnd : oracle) (made : list Assignment) :
  _basic_random_schedule employees c s e rnd = Returned made ->
  forall d,
    len (on_date d made) <= len (available_on employees d)
    /\ forall day_hours,
         find_day (get (operating_hours c) []) (constraint_day d) = Some day_hours ->
         get (min_staff day_hours) 1 <= get (max_staff day_hours) 10 ->
         len (on_date d made) <= Z.max 0 (get (max_staff day_hours) 10).
Proof.
  intros H.
  destruct (fallback_spec (fun _ => True) employees c s e rnd made) as [_ Hcount].
  - intros. apply Forall_forall. auto.
  - intros. apply Forall_forall. auto.
  - exact H.
  - exact Hcount.
Qed.

Lemma fallback_headcount_bounded_witness :
  exists made,
    _basic_random_schedule Examples.one_of_each Examples.office_week
      Examples.monday (Examples.monday + 6) [] = Returned made
    /\ made <> []
    /\ forall d,
         len (on_date d made) <= len (available_on Examples.one_of_each d)
         /\ forall day_hours,
              find_day (get (operating_hours Examples.office_week) []) (constraint_day d)
              = Some day_hours ->
              get (min_staff day_hours) 1 <= get (max_staff day_hours) 10 ->
              len (on_date d made) <= Z.max 0 (get (max_staff day_hours) 10).
Proof.
  eexists. split; [vm_compute; reflexivity|]. split; [discriminate|].
  apply (fallback_headcount_bounded Examples.one_of_each
           Examples.office_week Examples.monday (Examples.monday + 6) []).
  vm_compute. reflexivity.
Defined.

Lemma professional_shaped (first_hours : OperatingHours) (locs : list string)
    (ts : list ShiftTemplate) :
  professional_templates first_hours locs = Returned ts ->
  Forall (shaped (get (open_time first_hours) "09:00"%string)
                 (get (close_time first_hours) "17:00"%string)) ts.
Proof.
  unfold professional_templates. cbv zeta.
  destruct (hour_of (get (open_time first_hours) "09:00"%string)) as [o|?|];
    cbn [bind]; try discriminate.
  destruct (hour_of (get (close_time first_hours) "17:00"%string)) as [cl|?|];
    cbn [bind]; try discriminate.
  assert (Hot : forall s, clock_text s (get (close_time first_hours) "17:00"%string) s)
    by (intros s; right; now left).
  assert (Hct : forall s, clock_text (get (open_time first_hours) "09:00"%string) s s)
    by (intros s; right; now right).
  assert (Hh : forall a b h, clock_text a b (hh00 h)) by (intros a b h; left; eauto).
  destruct (cl - o <=? 4); intros [= <-];
    repeat (apply Forall_cons || apply Forall_nil);
    split; cbn [start_time end_time]; auto.
Qed.

(** When the duration bounds satisfy [1 <= min <= max] and the fallback
    returns, the close hour of the first operating-hours entry is six or
    more above its open hour, the hours being the numbers before the colon,
    and of every entry of the schedule, on whatever date, the start hour and
    the end hour lie between those two hours, start hour not after end
    hour: the hours of the other days are not used.  When [open_time] and
    [close_time] of the first entry are [%H:%M] times, so are the times of
    every entry, and every entry ends no later than that [close_time], to
    the minute; it starts at or after the open hour on the clock, which is
    earlier than [open_time] when [open_time] has minutes. *)
Theorem fallback_times_within_first_entry (employees : list Employee)
    (c : Constraints) (s e : date) (rnd : oracle) (made : list Assignment)
    (first_hours : OperatingHours) (rest : list OperatingHours) :
  get (operating_hours c) [] = first_hours :: rest ->
  1 <= get (min_consecutive_hours_per_shift c) 4
    <= get (max_consecutive_hours_per_shift c) 12 ->
  _basic_random_schedule employees c s e rnd = Returned made ->
  exists o cl,
    hour_of (get (open_time first_hours) "09:00"%string) = Returned o
    /\ hour_of (get (close_time first_hours) "17:00"%string) = Returned cl
    /\ 6 <= cl - o
    /\ (forall a, In a made ->
          exists x y, hour_of (a_startTime a) = Returned x
                      /\ hour_of (a_endTime a) = Returned y
                      /\ o <= x /\ x <= y /\ y <= cl)
    /\ (forall mo mc,
          strptime_HM (get (open_time first_hours) "09:00"%string) = Some (o, mo) ->
          strptime_HM (get (close_time first_hours) "17:00"%string) = Some (cl, mc) ->
          forall a, In a made ->
            clock_times o (60 * cl + mc) (a_startTime a) (a_endTime a)).
Proof.
  intros Hohs Hb H.
  assert (Hplan : exists r ts,
             _create_business_coverage_plan (first_hours :: rest)
               (get (min_staff first_hours) 1) (get (max_staff first_hours) 10)
               (get (min_consecutive_hours_per_shift c) 4)
               (get (max_consecutive_hours_per_shift c) 12)
               (require_manager_coverage c) r = Returned ts).
  { unfold _basic_random_schedule in H. rewrite Hohs in H. cbv zeta in H.
    destruct (draw rnd) as [r rnd1]. exists r.
    match type of H with
    | bind ?m _ = _ => destruct m as [ts|exn|]; cbn [bind] in H; try discriminate
    end.
    exists ts. reflexivity. }
  destruct Hplan as (r & ts & Hts).
  destruct (planner_returned_long_day _ _ _ _ _ _ _ _ _ Hts) as (o & cl & Ho & Hc & Hlong).
  exists o, cl. split; [exact Ho|]. split; [exact Hc|]. split; [exact Hlong|].
  set (ot := get (open_time first_hours) "09:00"%string) in *.
  set (ct := get (close_time first_hours) "17:00"%string) in *.
  destruct (fallback_spec (fun t => within_hours o cl t /\ shaped ot ct t)
              employees c s e rnd made) as [Hall _].
  - intros fh rs ts' Heq Hp. rewrite Hohs in Heq. injection Heq as <- <-.
    pose proof (professional_within first_hours _ o cl ts' Ho Hc Hlong Hp) as H1.
    pose proof (professional_shaped first_hours _ ts' Hp) as H2.
    rewrite Forall_forall in *. intros t Ht. split; [now apply H1|now apply H2].
  - intros fh rs r' ts' Heq Hp. rewrite Hohs in Heq. injection Heq as <- <-.
    destruct (PlannerTotality.planner_inside first_hours rest
                (get (min_staff first_hours) 1) (get (max_staff first_hours) 10)
                (get (min_consecutive_hours_per_shift c) 4)
                (get (max_consecutive_hours_per_shift c) 12) o cl
                (require_manager_coverage c) r' Ho Hc Hlong Hb) as (ts2 & Hts2 & Hin).
    pose proof (PlannerTotality.planner_shaped _ _ _ _ _ _ _ _ _ Hp) as H2.
    rewrite Hp in Hts2. injection Hts2 as <-.
    rewrite Forall_forall in *. intros t Ht. split; [|now apply H2].
    destruct (Hin t Ht) as (x & y & Hx & Hy & _ & Hrange). exists x, y. auto.
  - exact H.
  - rewrite Forall_forall in Hall. split.
    + intros a Ha.
      destruct (Hall a Ha)
        as (_ & _ & _ & _ & t & ((x & y & Hx & Hy & Hr) & _) & Hs & He).
      exists x, y. rewrite Hs, He. auto.
    + intros mo mc Hot Hct a Ha.
      destruct (Hall a Ha)
        as (_ & _ & _ & _ & t & ((x & y & Hx & Hy & H1 & H2 & H3) & [Ss Se]) & Hs & He).
      destruct (PlannerTotality.clock_of_hours ot ct o mo cl mc _ _ x y Hot Hct
                  ltac:(lia) Hx Hy H1 H2 H3 Ss Se) as (sm & em & Ps & Pe & Hle).
      exists x, sm, y, em. rewrite Hs, He. auto.
Qed.

Lemma fallback_times_within_first_entry_witness :
  exists made,
    _basic_random_schedule Examples.one_of_each Examples.office_week
      Examples.monday (Examples.monday + 6) [] = Returned made
    /\ made <> []
    /\ exists o cl,
         hour_of "09:00" = Returned o /\ hour_of "17:00" = Returned cl
         /\ 6 <= cl - o
         /\ (forall a, In a made ->
               exists x y, hour_of (a_startTime a) = Returned x
                           /\ hour_of (a_endTime a) = Returned y
                           /\ o <= x /\ x <= y /\ y <= cl)
         /\ (forall mo mc,
               strptime_HM "09:00" = Some (o, mo) ->
               strptime_HM "17:00" = Some (cl, mc) ->
               forall a, In a made ->
                 clock_times o (60 * cl + mc) (a_startTime a) (a_endTime a)).
Proof.
  eexists. split; [vm_compute; reflexivity|]. split; [discriminate|].
  refine (fallback_times_within_first_entry Examples.one_of_each
            Examples.office_week Examples.monday (Examples.monday + 6) [] _
            (hd (oh_example Sunday false "09:00" "17:00" 1 3)
                (get (operating_hours Examples.office_week) []))
            (tl (get (operating_hours Examples.office_week) [])) _ _ _).
  - vm_compute. reflexivity.
  - vm_compute. split; discriminate.
  - vm_compute. reflexivity.
Defined.

End FallbackSoundness.

(** ** What the optimiser's read-back writes *)

Module ReadBackFacts.

Section SortedInsertion.
Variable order : Assignment -> Assignment -> comparison.
Hypothesis order_antisym : forall a b, order b a = CompOpp (order a b).

Lemma insert_keeps_sorted (x : Assignment) (l : list Assignment) :
  sorted_by order l = true ->
  sorted_by order (insert_sorted (fun a b => not_gt (order a b)) x l) = true.
Proof.
  induction l as [|y r IH]; intros Hs; [reflexivity|].
  cbn [insert_sorted]. destruct (not_gt (order x y)) eqn:Hxy.
  - change (not_gt (order x y) && sorted_by order (y :: r) = true).
    now rewrite Hxy, Hs.
  - assert (Hyx : not_gt (order y x) = true).
    { rewrite order_antisym. destruct (order x y); try discriminate. reflexivity. }
    assert (Hr : sorted_by order r = true).
    { destruct r as [|z r']; [reflexivity|].
      cbn [sorted_by] in Hs. apply andb_true_iff in Hs. tauto. }
    specialize (IH Hr).
    destruct r as [|z r'].
    + cbn [insert_sorted sorted_by]. now rewrite Hyx.
    + cbn [insert_sorted] in *. destruct (not_gt (order x z)).
      * change (not_gt (order y x) && sorted_by order (x :: z :: r') = true).
        now rewrite Hyx, IH.
      * cbn [sorted_by] in Hs. apply andb_true_iff in Hs. destruct Hs as [Hyz _].
        change (not_gt (order y z)
                && sorted_by order
                     (z :: insert_sorted (fun a b => not_gt (order a b)) x r') = true).
        now rewrite Hyz, IH.
Qed.

Lemma stable_sort_sorted (l : list Assignment) :
  sorted_by order (stable_sort (fun a b => not_gt (order a b)) l) = true.
Proof.
  induction l as [|x r IH]; [reflexivity|].
  cbn [stable_sort fold_right]. fold (stable_sort (fun a b => not_gt (order a b)) r).
  now apply insert_keeps_sorted.
Qed.

End SortedInsertion.

Lemma lex_antisym (c1 c2 d1 d2 : comparison) :
  d1 = CompOpp c1 -> d2 = CompOpp c2 -> lex d1 d2 = CompOpp (lex c1 c2).
Proof. intros -> ->. now destruct c1. Qed.

Lemma sort_key_order_antisym (a b : Assignment) :
  sort_key_order b a = CompOpp (sort_key_order a b).
Proof.
  unfold sort_key_order.
  repeat apply lex_antisym;
    try apply Z.compare_antisym; apply String.compare_antisym.
Qed.

Lemma sort_schedules_sorted (l : list Assignment) :
  sorted_by sort_key_order (sort_schedules l) = true.
Proof. apply stable_sort_sorted. exact sort_key_order_antisym. Qed.

Lemma sort_schedules_in (a : Assignment) (l : list Assignment) :
  In a (sort_schedules l) <-> In a l.
Proof. apply NormalizerFacts.stable_sort_in. Qed.

Lemma in_enumerate_nat {A : Type} (k : nat) (l : list A) (x : nat * A) :
  In x (enumerate_nat k l) -> In (snd x) l.
Proof.
  revert k. induction l as [|y r IH]; intros k; cbn [enumerate_nat]; [intros []|].
  intros [<-|Hx]; [now left|right; now apply (IH (S k))].
Qed.

Lemma in_chosen_triples (value : nat -> nat -> nat -> bool) (variables : nat)
    (employees : list Employee) (dates : list date) (templates : list ShiftTemplate)
    (x : Employee * date * ShiftTemplate) :
  In x (chosen_triples value variables employees dates templates) ->
  In (fst (fst x)) employees /\ In (snd (fst x)) dates /\ In (snd x) templates.
Proof.
  unfold chosen_triples, picked. intros H.
  apply in_flat_map in H. destruct H as (e & He & H).
  apply in_flat_map in H. destruct H as (d & Hd & H).
  apply in_flat_map in H. destruct H as (t & Ht & H).
  destruct (_ && _); [|destruct H].
  destruct H as [<-|[]]. cbn [fst snd].
  apply in_enumerate_nat in He, Hd, Ht. auto.
Qed.

Lemma read_back_entries (c : Constraints) (objective : string)
    (triples : list (Employee * date * ShiftTemplate)) (rnd : oracle)
    (made : list Assignment) :
  read_back c objective triples rnd = Returned made ->
  forall a, In a made ->
    status a = "scheduled"%string
    /\ exists x, In x triples
                 /\ employeeId a = _id (fst (fst x)) /\ a_date a = snd (fst x)
                 /\ a_startTime a = start_time (snd x)
                 /\ a_endTime a = end_time (snd x).
Proof.
  revert rnd made. induction triples as [|[[employee d] template] rest IH];
    intros rnd made H a Ha; cbn [read_back] in H.
  - injection H as <-. destruct Ha.
  - match type of H with
    | bind ?m _ = _ => destruct m as [located|exn|]; cbn [bind] in H; try discriminate
    end.
    match type of H with
    | bind ?m _ = _ => destruct m as [placed|exn|]; cbn [bind] in H; try discriminate
    end.
    destruct (read_back c objective rest (snd placed)) as [others|exn|] eqn:Hrest;
      cbn [bind] in H; try discriminate.
    injection H as <-. destruct Ha as [<-|Ha].
    + cbn. split; [reflexivity|]. exists (employee, d, template). cbn. auto 6.
    + destruct (IH _ _ Hrest a Ha) as (Hstat & x & Hx & Hrem).
      split; [exact Hstat|]. exists x. split; [now right|exact Hrem].
Qed.

Lemma optimizer_spec (solver : Solver)
    (employees : list Employee) (c : Constraints) (s e : date) (rnd : oracle)
    (made : list Assignment) :
  _advanced_ortools_schedule solver employees c s e rnd = Returned made ->
  sorted_by sort_key_order made = true
  /\ forall a, In a made ->
       s <= a_date a <= e
       /\ status a = "scheduled"%string
       /\ (exists emp, In emp employees /\ employeeId a = _id emp)
       /\ (exists t, In t (templates_for_readback c)
                     /\ a_startTime a = start_time t /\ a_endTime a = end_time t).
Proof.
  intros H. unfold _advanced_ortools_schedule in H. cbv zeta in H.
  destruct (solver employees c (date_range s e)) as [exn| |value objective];
    [discriminate| |].
  - injection H as <-. split; [reflexivity|intros a []].
  - match type of H with
    | bind ?m _ = _ => destruct m as [read|exn|] eqn:Hread; cbn [bind] in H;
                       try discriminate
    end.
    injection H as <-. split; [apply sort_schedules_sorted|].
    intros a Ha. apply (proj1 (sort_schedules_in _ _)) in Ha.
    destruct (read_back_entries _ _ _ _ _ Hread a Ha)
      as (Hstat & x & Hx & Hid & Hd & Hst & Hen).
    apply in_chosen_triples in Hx. destruct Hx as (Hemp & Hdate & Ht).
    apply DetectorFacts.in_date_range in Hdate.
    split; [now rewrite Hd|]. split; [exact Hstat|]. split.
    + exists (fst (fst x)). auto.
    + exists (snd x). auto.
Qed.

(** Whatever the solver answers, a schedule returned by the optimiser is
    sorted by (date, start time, end time), and each entry is marked
    scheduled, lies on a date of the requested range, is for an employee of
    the roster, and carries the times of one of the templates the schedule
    is read back against. *)
Theorem optimizer_result_sorted_from_inputs (solver : Solver)
    (employees : list Employee) (c : Constraints) (s e : date) (rnd : oracle)
    (made : list Assignment) :
  _advanced_ortools_schedule solver employees c s e rnd = Returned made ->
  sorted_by sort_key_order made = true
  /\ forall a, In a made ->
       s <= a_date a <= e
       /\ status a = "scheduled"%string
       /\ (exists emp, In emp employees /\ employeeId a = _id emp)
       /\ (exists t, In t (templates_for_readback c)
                     /\ a_startTime a = start_time t /\ a_endTime a = end_time t).
Proof. apply optimizer_spec. Qed.

Lemma optimizer_result_sorted_from_inputs_witness :
  exists made,
    _advanced_ortools_schedule Examples.antidiagonal Examples.three_managers
      Examples.manager_week Examples.monday (Examples.monday + 2) [] = Returned made
    /\ map assignment_key made
       = [("m3", Examples.monday, "09:00", "17:00");
          ("m2", Examples.monday + 1, "09:00", "17:00");
          ("m1", Examples.monday + 2, "09:00", "17:00")]%string
    /\ sorted_by sort_key_order made = true
    /\ forall a, In a made ->
         Examples.monday <= a_date a <= Examples.monday + 2
         /\ status a = "scheduled"%string
         /\ (exists emp, In emp Examples.three_managers /\ employeeId a = _id emp)
         /\ (exists t, In t (templates_for_readback Examples.manager_week)
                       /\ a_startTime a = start_time t /\ a_endTime a = end_time t).
Proof.
  eexists. split; [vm_compute; reflexivity|]. split; [vm_compute; reflexivity|].
  apply (optimizer_result_sorted_from_inputs Examples.antidiagonal Examples.three_managers
           Examples.manager_week Examples.monday (Examples.monday + 2) []).
  vm_compute. reflexivity.
Defined.

(** On the optimiser's path no employee holds two entries on one date,
    provided the employees' identifiers are distinct and the solver's
    answer respects "maximum one shift per employee per day" over the
    decision variables of the document's shift templates. *)
Theorem optimizer_never_double_books (solver : Solver) (employees : list Employee)
    (c : Constraints) (s e : date) (rnd : oracle) (value : nat -> nat -> nat -> bool)
    (objective : string) (made : list Assignment) :
  NoDup (map _id employees) ->
  solver employees c (date_range s e) = Solution value objective ->
  one_shift_per_day value (List.length (get (shift_templates c) [])) ->
  _advanced_ortools_schedule solver employees c s e rnd = Returned made ->
  one_shift_a_day made.
Proof.
  intros Hids Hsolved Hone Hrun.
  exact (OptimizerFacts.optimizer_one_shift_a_day solver employees c s e rnd value
           objective made Hids Hsolved Hone Hrun).
Qed.

Lemma optimizer_never_double_books_witness :
  exists made,
    _advanced_ortools_schedule Examples.diagonal Examples.three_managers
      Examples.manager_week Examples.monday (Examples.monday + 2) [] = Returned made
    /\ List.length made = 3%nat
    /\ one_shift_a_day made.
Proof.
  eexists. split; [vm_compute; reflexivity|]. split; [reflexivity|].
  refine (optimizer_never_double_books Examples.diagonal Examples.three_managers
            Examples.manager_week Examples.monday (Examples.monday + 2) []
            (fun e d i => Nat.eqb i 2 && Nat.eqb e d) "0" _ _ _ _ _).
  - vm_compute. repeat constructor; cbn; intuition discriminate.
  - reflexivity.
  - intros e d i j _ _ Hi Hj.
    apply andb_true_iff in Hi, Hj. destruct Hi as [Hi _], Hj as [Hj _].
    apply Nat.eqb_eq in Hi, Hj. now subst.
  - vm_compute. reflexivity.
Defined.

End ReadBackFacts.

(** ** What a generation call returns, on every path *)

Module GenerationSoundness.

Lemma resolution_keeps_roster (c : Constraints) (emps : list Employee) (s e : date) :
  exists c', resolution c emps s e = Returned (c', emps).
Proof.
  unfold resolution. cbv zeta.
  rewrite (ResolverFacts.resolve_detected _ c emps (ResolverFacts.detector_types c emps s e)).
  destruct (0 <? _); eauto.
Qed.

Lemma fallback_entries (employees : list Employee) (c : Constraints) (s e : date)
    (rnd : oracle) (made : list Assignment) :
  _basic_random_schedule employees c s e rnd = Returned made ->
  forall a, In a made ->
    s <= a_date a <= e /\ status a = "scheduled"%string
    /\ exists emp, In emp employees /\ employeeId a = _id emp.
Proof.
  intros H a Ha.
  destruct (FallbackSoundness.fallback_spec (fun _ => True) employees c s e rnd made)
    as [Hall _].
  - intros. apply Forall_forall. auto.
  - intros. apply Forall_forall. auto.
  - exact H.
  - rewrite Forall_forall in Hall.
    destruct (Hall a Ha) as (Hd & Hstat & _ & (emp & Hin & _ & _ & Hid) & _).
    eauto.
Qed.

Lemma optimizer_entries (solver : Solver) (employees : list Employee) (c : Constraints)
    (s e : date) (rnd : oracle) (made : list Assignment) :
  _advanced_ortools_schedule solver employees c s e rnd = Returned made ->
  forall a, In a made ->
    s <= a_date a <= e /\ status a = "scheduled"%string
    /\ exists emp, In emp employees /\ employeeId a = _id emp.
Proof.
  intros H a Ha.
  destruct (ReadBackFacts.optimizer_spec solver employees c s e rnd made H) as [_ Hall].
  destruct (Hall a Ha) as (Hd & Hstat & Hemp & _). auto.
Qed.

Lemma handler_entries (env : Environment) (cb : CircuitBreaker.t)
    (employees : list Employee) (c : Constraints) (s e : date) (tried : list Strategy)
    (made : list Assignment) :
  returned (after_optimizer_failure env cb employees c s e tried) = Returned made ->
  forall a, In a made ->
    s <= a_date a <= e /\ status a = "scheduled"%string
    /\ exists emp, In emp employees /\ employeeId a = _id emp.
Proof.
  unfold after_optimizer_failure. cbn [returned]. intros H a Ha.
  destruct (_basic_random_schedule employees c s e (fallback_draws env))
    as [base|exn|] eqn:Hbase; try discriminate.
  - injection H as <-. apply (proj1 (ReadBackFacts.sort_schedules_in _ _)) in Ha.
    exact (fallback_entries _ _ _ _ _ _ Hbase a Ha).
  - injection H as <-. destruct Ha.
Qed.

Lemma attempt_entries (env : Environment) (cb : CircuitBreaker.t)
    (employees : list Employee) (c : Constraints) (s e : date)
    (made : list Assignment) :
  returned (optimizer_attempt env cb employees c s e) = Returned made ->
  forall a, In a made ->
    s <= a_date a <= e /\ status a = "scheduled"%string
    /\ exists emp, In emp employees /\ employeeId a = _id emp.
Proof.
  unfold optimizer_attempt. intros H.
  destruct (_advanced_ortools_schedule (solver env) employees c s e (optimizer_draws env))
    as [[|first more]|exn|] eqn:Hfirst.
  - destruct (_advanced_ortools_schedule (solver env) employees (_relax_constraints c)
                s e (relaxed_draws env)) as [[|first more]|exn|] eqn:Hsecond.
    + exact (handler_entries _ _ _ _ _ _ _ _ H).
    + cbn [returned] in H. injection H as <-.
      exact (optimizer_entries _ _ _ _ _ _ _ Hsecond).
    + exact (handler_entries _ _ _ _ _ _ _ _ H).
    + discriminate.
  - cbn [returned] in H. injection H as <-.
    exact (optimizer_entries _ _ _ _ _ _ _ Hfirst).
  - exact (handler_entries _ _ _ _ _ _ _ _ H).
  - discriminate.
Qed.

(** Whichever path a generation call takes (fallback, optimiser, optimiser
    on relaxed constraints, or the handler after a failure), every entry it
    returns is marked scheduled, lies on a date of the requested range, and
    is for an employee of the roster who passes the employee filter: active,
    not anonymized, and within the roles, departments and skill requirements
    the document lists. *)
Theorem generation_books_filtered_roster_in_range (env : Environment)
    (cb : CircuitBreaker.t) (employees : list Employee) (c : Constraints)
    (s e : date) (made : list Assignment) :
  returned (generate_schedule env cb employees c s e) = Returned made ->
  forall a, In a made ->
    s <= a_date a <= e
    /\ status a = "scheduled"%string
    /\ exists emp,
         In emp employees /\ passes_filter c emp = true
         /\ get (isActive emp) true = true /\ get (anonymized emp) false = false
         /\ employeeId a = _id emp.
Proof.
  intros H a Ha.
  assert (Hkept : s <= a_date a <= e /\ status a = "scheduled"%string
                  /\ exists emp, In emp (_filter_employees_by_constraints employees c)
                                 /\ employeeId a = _id emp).
  { unfold generate_schedule in H. cbv zeta in H.
    destruct (len (_filter_employees_by_constraints employees c) =? 0).
    { cbn [returned] in H. injection H as <-. destruct Ha. }
    destruct (normalized (normalizer_draw env) c) as [enhanced|exn|];
      try (cbn [returned] in H; discriminate).
    destruct (resolution_keeps_roster enhanced
                (_filter_employees_by_constraints employees c) s e) as [c' Hres].
    rewrite Hres in H.
    match type of H with
    | context [CircuitBreaker.can_execute ?now ?b] =>
        destruct (CircuitBreaker.can_execute now b) as [[allowed cb']|exn|];
          try (cbn [returned] in H; discriminate)
    end.
    destruct (negb allowed);
      [cbn [returned] in H; exact (fallback_entries _ _ _ _ _ _ H a Ha)|].
    destruct (nonempty (validate_constraints c'));
      [cbn [returned] in H; exact (fallback_entries _ _ _ _ _ _ H a Ha)|].
    destruct (negb (ortools_available env));
      [cbn [returned] in H; exact (fallback_entries _ _ _ _ _ _ H a Ha)|].
    exact (attempt_entries _ _ _ _ _ _ _ H a Ha). }
  destruct Hkept as (Hd & Hstat & emp & Hin & Hid).
  split; [exact Hd|]. split; [exact Hstat|]. exists emp.
  unfold _filter_employees_by_constraints in Hin. apply filter_In in Hin.
  destruct Hin as [Hin Hpass].
  destruct (FilterFacts.passes_filter_active c emp Hpass) as [Hact Hanon].
  auto 6.
Qed.

Lemma generation_books_filtered_roster_in_range_witness :
  exists made,
    returned (generate_schedule (Examples.without_ortools 0)
                CircuitBreaker.scheduler_circuit_breaker
                (Examples.retired :: Examples.one_of_each) Examples.office_week
                Examples.monday (Examples.monday + 6)) = Returned made
    /\ made <> []
    /\ forall a, In a made ->
         Examples.monday <= a_date a <= Examples.monday + 6
         /\ status a = "scheduled"%string
         /\ exists emp,
              In emp (Examples.retired :: Examples.one_of_each)
              /\ passes_filter Examples.office_week emp = true
              /\ get (isActive emp) true = true /\ get (anonymized emp) false = false
              /\ employeeId a = _id emp.
Proof.
  eexists. split; [vm_compute; reflexivity|]. split; [discriminate|].
  apply (generation_books_filtered_roster_in_range (Examples.without_ortools 0)
           CircuitBreaker.scheduler_circuit_breaker
           (Examples.retired :: Examples.one_of_each) Examples.office_week
           Examples.monday (Examples.monday + 6)).
  vm_compute. reflexivity.
Defined.

End GenerationSoundness.

(** ** Documents that pass validation *)

Module ValidationFacts.
Import NormalizerFacts.

Lemma missing_fields_none (idx : Z) (oh : OperatingHours) :
  missing_fields idx oh = [] <-> well_staffed oh.
Proof.
  unfold missing_fields, well_staffed. cbv zeta.
  destruct (present (min_staff oh)), (present (max_staff oh)), (present (is_open oh));
    cbn [app];
    destruct (get (max_staff oh) 0 <? get (min_staff oh) 0) eqn:E;
    try apply Z.ltb_lt in E; try apply Z.ltb_ge in E;
    split; try discriminate; try (intros (? & ? & ? & ?); (discriminate || lia));
    intros _; repeat split; lia.
Qed.

Lemma all_fields_iff (i : Z) (l : list OperatingHours) :
  flat_map (fun p => missing_fields (fst p) (snd p)) (enumerate_from i l) = []
  <-> Forall well_staffed l.
Proof.
  revert i. induction l as [|oh r IH]; intros i; cbn [enumerate_from flat_map fst snd].
  - split; [constructor|reflexivity].
  - split.
    + intros H. apply app_eq_nil in H. destruct H as [H1 H2].
      constructor; [now apply missing_fields_none in H1|now apply IH in H2].
    + intros H. inversion H as [|? ? Hoh Hr]; subst.
      apply (proj2 (missing_fields_none i oh)) in Hoh. apply (proj2 (IH (i + 1))) in Hr.
      now rewrite Hoh, Hr.
Qed.

Lemma range7_nodup : NoDup range7.
Proof. repeat constructor; cbn; intuition discriminate. Qed.

Lemma every_day_once (l : list OperatingHours) :
  (negb (nonempty l) || negb (len l =? 7) = false /\ missing_days l = [])
  <-> Permutation range7 (map day_of_week l).
Proof.
  split.
  - intros [Hlen Hall]. apply orb_false_iff in Hlen. destruct Hlen as [_ Hlen].
    apply negb_false_iff, Z.eqb_eq in Hlen.
    apply NoDup_Permutation_bis; [apply range7_nodup| |].
    + rewrite length_map. unfold len in Hlen. cbn [range7 List.length]. lia.
    + intros d _. now apply missing_days_none.
  - intros Hperm. pose proof (Permutation_length Hperm) as Hlen.
    rewrite length_map in Hlen. cbn [range7 List.length] in Hlen. split.
    + destruct l as [|x r]; [discriminate|]. unfold len. rewrite <- Hlen. reflexivity.
    + apply missing_days_none. intros d. apply (Permutation_in d Hperm).
      destruct d; cbn; tauto.
Qed.

Lemma validation_iff (c : Constraints) :
  validate_constraints c = []
  <-> Permutation range7 (map day_of_week (get (operating_hours c) []))
      /\ Forall well_staffed (get (operating_hours c) [])
      /\ (exists oh, In oh (get (operating_hours c) []) /\ is_open_day oh = true)
      /\ get (min_employees_per_day c) 1 <= get (max_employees_per_day c) 10.
Proof.
  unfold validate_constraints. cbv zeta.
  set (ohs := get (operating_hours c) []).
  rewrite <- every_day_once, <- all_fields_iff with (i := 0).
  destruct (negb (nonempty ohs) || negb (len ohs =? 7)) eqn:Hseven.
  - split; [discriminate|]. intros [[Hno _] _]. discriminate.
  - assert (Hopen : nonempty (filter is_open_day ohs) = true
                    <-> exists oh, In oh ohs /\ is_open_day oh = true).
    { split.
      - destruct (filter is_open_day ohs) as [|oh r] eqn:E; [discriminate|].
        intros _. exists oh. apply filter_In. rewrite E. now left.
      - intros (oh & Hoh). apply filter_In in Hoh.
        destruct (filter is_open_day ohs); [destruct Hoh|reflexivity]. }
    rewrite <- Hopen.
    destruct (get (max_employees_per_day c) 10 <? get (min_employees_per_day c) 1) eqn:E;
      [apply Z.ltb_lt in E|apply Z.ltb_ge in E].
    + split; [intros H; apply app_eq_nil in H; destruct H; discriminate|lia].
    + rewrite app_nil_r. split.
      * intros H. apply app_eq_nil in H. destruct H as [H1 H].
        apply app_eq_nil in H. destruct H as [H2 H3].
        split; [split; [reflexivity|]|].
        -- destruct (missing_days ohs); [reflexivity|discriminate].
        -- split; [exact H2|]. split; [|exact E].
           destruct (nonempty (filter is_open_day ohs)); [reflexivity|discriminate].
      * intros ([_ Hdays] & Hfields & Hsome & _).
        rewrite Hdays, Hfields, Hsome. reflexivity.
Qed.

(** A document passes validation exactly when its operating hours hold
    each of the seven days once, every entry carries [min_staff],
    [max_staff] and [is_open] with the minimum not above the maximum, some
    entry is open, and [min_employees_per_day] (default 1) is not above
    [max_employees_per_day] (default 10).  Shift templates, locations,
    departments and roles play no part. *)
Theorem validation_passes_iff (c : Constraints) :
  validate_constraints c = []
  <-> Permutation range7 (map day_of_week (get (operating_hours c) []))
      /\ Forall well_staffed (get (operating_hours c) [])
      /\ (exists oh, In oh (get (operating_hours c) []) /\ is_open_day oh = true)
      /\ get (min_employees_per_day c) 1 <= get (max_employees_per_day c) 10.
Proof. apply validation_iff. Qed.

End ValidationFacts.

(** ** The two availability checks *)

Module AvailabilityFacts.

Lemma weekday_of_next (d : date) : weekday (d + 1) = constraint_day d.
Proof.
  unfold constraint_day, weekday. rewrite Z.add_mod_idemp_l by lia.
  f_equal. lia.
Qed.

Lemma on_day_reads_entry (avail : list Availability) (av : Availability) (k : Z) :
  In av avail -> dayOfWeek av = Some k ->
  (forall x, In x avail -> dayOfWeek x = Some k -> x = av) ->
  available_on_day avail k = get (isAvailable av) true.
Proof.
  intros Hin Hday Honly. induction avail as [|x r IH]; [destruct Hin|].
  cbn [available_on_day].
  destruct (dayOfWeek x) as [n|] eqn:Hx.
  - destruct (n =? k) eqn:E.
    + apply Z.eqb_eq in E. subst n.
      rewrite (Honly x (or_introl eq_refl) Hx). reflexivity.
    + destruct Hin as [->|Hin].
      * rewrite Hday in Hx. injection Hx as ->. rewrite Z.eqb_refl in E. discriminate.
      * apply IH; [exact Hin|]. intros y Hy. apply Honly. now right.
  - destruct Hin as [->|Hin]; [congruence|].
    apply IH; [exact Hin|]. intros y Hy. apply Honly. now right.
Qed.

Lemma check_reads_entry (avail : list Availability) (av : Availability) (k : Z)
    (g : Availability -> bool) :
  In av avail -> dayOfWeek av = Some k ->
  (forall x, In x avail -> dayOfWeek x = Some k -> x = av) ->
  existsb g (filter (fun x => match dayOfWeek x with
                              | Some n => n =? k
                              | None => false
                              end) avail) = g av.
Proof.
  intros Hin Hday Honly. destruct (g av) eqn:Hg.
  - apply existsb_exists. exists av. split; [|exact Hg].
    apply filter_In. split; [exact Hin|]. rewrite Hday. apply Z.eqb_refl.
  - destruct (existsb g _) eqn:E; [|reflexivity].
    apply existsb_exists in E. destruct E as (x & Hx & Hgx).
    apply filter_In in Hx. destruct Hx as [Hx Hk].
    destruct (dayOfWeek x) as [n|] eqn:Hn; [|discriminate].
    apply Z.eqb_eq in Hk. subst n. rewrite (Honly x Hx Hn) in Hgx. congruence.
Qed.

(** The two availability checks read the [dayOfWeek] numbers a day apart.
    When an employee's availability holds one entry numbered like the
    operating-hours day of a date [d] (Sunday is 0), stating whether the
    employee is available, with a window that holds 09:00 and 17:00, then
    [_is_employee_available_on_day] answers with that entry for the day of
    [d], and [_check_employee_availability] answers with it for the date
    after [d]. *)
Theorem availability_checks_a_day_apart (emp : Employee) (avail : list Availability)
    (av : Availability) (b : bool) (d : date) :
  availability emp = Some avail -> In av avail ->
  dayOfWeek av = Some (constraint_day d) ->
  (forall x, In x avail -> dayOfWeek x = Some (constraint_day d) -> x = av) ->
  isAvailable av = Some b -> covers_office_hours av = true ->
  _is_employee_available_on_day emp (constraint_day d) = b
  /\ _check_employee_availability emp (d + 1) "09:00" "17:00" = b.
Proof.
  intros Hav Hin Hday Honly Hb Hwin. split.
  - unfold _is_employee_available_on_day. rewrite Hav. cbn [get].
    rewrite (on_day_reads_entry avail av _ Hin Hday Honly), Hb. reflexivity.
  - unfold _check_employee_availability. cbv zeta. rewrite Hav. cbn [get].
    destruct avail as [|x r]; [destruct Hin|]. cbn [nonempty negb].
    rewrite weekday_of_next.
    rewrite (check_reads_entry (x :: r) av _ _ Hin Hday Honly).
    rewrite Hb. cbn [get]. unfold covers_office_hours in Hwin. cbv zeta in Hwin.
    rewrite Hwin. apply andb_true_r.
Qed.

Lemma availability_checks_a_day_apart_witness :
  (_is_employee_available_on_day Examples.mondays_only (constraint_day Examples.monday)
   = true
   /\ _check_employee_availability Examples.mondays_only (Examples.monday + 1)
        "09:00" "17:00" = true)
  /\ constraint_day Examples.monday = 1
  /\ _check_employee_availability Examples.mondays_only Examples.monday
       "09:00" "17:00" = false.
Proof.
  split; [|split; reflexivity].
  refine (availability_checks_a_day_apart Examples.mondays_only _
            (mkAvail (Some 1) (Some true) (Some "08:00"%string) (Some "18:00"%string))
            true Examples.monday eq_refl _ eq_refl _ eq_refl eq_refl).
  - left. reflexivity.
  - intros x [<-|[]] _. reflexivity.
Defined.

End AvailabilityFacts.

(** ** The compliance validation *)

Module ComplianceFacts.

Lemma pattern_of_set (d : patterns) (k k' : string) (v : WorkPattern) :
  pattern_of (set_pattern d k v) k'
  = if String.eqb k k' then Some v else pattern_of d k'.
Proof.
  induction d as [|[k0 v0] rest IH]; cbn [set_pattern pattern_of].
  - reflexivity.
  - destruct (String.eqb k0 k) eqn:E0; cbn [pattern_of].
    + apply String.eqb_eq in E0. subst k0.
      destruct (String.eqb k k'); reflexivity.
    + destruct (String.eqb k0 k') eqn:E1; [|exact IH].
      apply String.eqb_eq in E1. subst k0. now rewrite String.eqb_sym, E0.
Qed.

Lemma track_schedule_raises (d : patterns) (a : Assignment) :
  worked d (employeeId a) -> track_schedule d a = Raised "TypeError".
Proof.
  intros (v & last & Hv & Hlast). unfold track_schedule. cbv zeta.
  rewrite Hv. cbv beta iota. rewrite Hv. cbn [get]. now rewrite Hlast.
Qed.

Lemma track_schedule_returns (d : patterns) (a : Assignment) :
  ~ worked d (employeeId a) ->
  exists d', track_schedule d a = Returned d'
             /\ forall k, worked d' k <-> k = employeeId a \/ worked d k.
Proof.
  intros Hnot. unfold track_schedule. cbv zeta.
  set (d1 := match pattern_of d (employeeId a) with
             | Some _ => d
             | None => set_pattern d (employeeId a) initial_pattern
             end).
  assert (H1 : forall k, worked d1 k <-> worked d k).
  { subst d1. destruct (pattern_of d (employeeId a)) eqn:E; [reflexivity|].
    intros k. unfold worked. setoid_rewrite pattern_of_set.
    destruct (String.eqb (employeeId a) k) eqn:Ek.
    - apply String.eqb_eq in Ek. subst k. rewrite E. split.
      + intros (v & last & Hv & Hlast). injection Hv as <-. discriminate.
      + intros (v & last & Hv & _). discriminate.
    - reflexivity. }
  destruct (pattern_last_work_day (get (pattern_of d1 (employeeId a)) initial_pattern))
    as [last|] eqn:Hlast.
  - exfalso. apply Hnot. apply H1.
    destruct (pattern_of d1 (employeeId a)) as [v|] eqn:Hv; [|discriminate].
    exists v, last. auto.
  - eexists. split; [reflexivity|].
    intros k. unfold worked at 1. setoid_rewrite pattern_of_set.
    destruct (String.eqb (employeeId a) k) eqn:Ek.
    + apply String.eqb_eq in Ek. subst k. split; [now left|].
      intros _. eexists. exists (a_date a). split; reflexivity.
    + rewrite <- H1. split; [now right|].
      intros [->|H]; [now rewrite String.eqb_refl in Ek|exact H].
Qed.

Lemma track_schedules_outcome (schedules : list Assignment) (d : patterns) :
  (NoDup (map employeeId schedules)
   /\ (forall a, In a schedules -> ~ worked d (employeeId a)) ->
   exists d', track_schedules d schedules = Returned d')
  /\ (~ (NoDup (map employeeId schedules)
         /\ forall a, In a schedules -> ~ worked d (employeeId a)) ->
      track_schedules d schedules = Raised "TypeError").
Proof.
  revert d. induction schedules as [|a rest IH]; intros d; cbn [track_schedules map].
  - split; [eauto|]. intros H. exfalso. apply H. split; [constructor|intros a []].
  - assert (Hdec : worked d (employeeId a) \/ ~ worked d (employeeId a)).
    { unfold worked. destruct (pattern_of d (employeeId a)) as [v|]; [|right].
      - destruct (pattern_last_work_day v) as [last|] eqn:E; [left; eauto|right].
        intros (v' & last & Hv & Hl). congruence.
      - intros (v' & last & Hv & _). discriminate. }
    destruct Hdec as [Hw|Hnw].
    + rewrite (track_schedule_raises d a Hw). cbn [bind]. split; [|reflexivity].
      intros [_ Hfresh]. exfalso. apply (Hfresh a); [now left|exact Hw].
    + destruct (track_schedule_returns d a Hnw) as (d' & -> & Hd'). cbn [bind].
      destruct (IH d') as [IHok IHbad]. split.
      * intros [Hnd Hfresh]. inversion Hnd as [|? ? Hnotin Hnd']; subst.
        apply IHok. split; [exact Hnd'|].
        intros b Hb Hwb. apply Hd' in Hwb. destruct Hwb as [Heq|Hwb].
        -- apply Hnotin. rewrite <- Heq. now apply in_map.
        -- apply (Hfresh b); [now right|exact Hwb].
      * intros Hbad. apply IHbad. intros [Hnd' Hfresh']. apply Hbad. split.
        -- constructor; [|exact Hnd']. intros Hin. apply in_map_iff in Hin.
           destruct Hin as (b & Hid & Hb). apply (Hfresh' b Hb). apply Hd'. now left.
        -- intros b [<-|Hb]; [exact Hnw|].
           intros Hwb. apply (Hfresh' b Hb). apply Hd'. now right.
Qed.

Lemma initial_patterns_unworked (employees : list Employee) (k : string) :
  ~ worked (fold_left (fun d emp => set_pattern d (_id emp) initial_pattern)
              employees []) k.
Proof.
  assert (H : forall d, ~ worked d k ->
            ~ worked (fold_left (fun d emp => set_pattern d (_id emp) initial_pattern)
                        employees d) k).
  { induction employees as [|emp rest IH]; intros d Hd; cbn [fold_left]; [exact Hd|].
    apply IH. intros (v & last & Hv & Hlast). rewrite pattern_of_set in Hv.
    destruct (String.eqb (_id emp) k).
    - injection Hv as <-. discriminate.
    - apply Hd. exists v, last. auto. }
  apply H. intros (v & last & Hv & _). discriminate.
Qed.

(** The compliance validation returns a report exactly for the schedules in
    which no employee occurs twice; on every other schedule it raises
    [TypeError], from the difference of two date texts. *)
Theorem compliance_check_needs_single_entries (schedules : list Assignment)
    (c : Constraints) (employees : list Employee) :
  (NoDup (map employeeId schedules) ->
   exists report, _validate_regulatory_compliance schedules c employees = Returned report)
  /\ (~ NoDup (map employeeId schedules) ->
      _validate_regulatory_compliance schedules c employees = Raised "TypeError").
Proof.
  unfold _validate_regulatory_compliance.
  destruct schedules as [|a rest]; cbn [nonempty negb].
  - split; [eauto|]. intros H. exfalso. apply H. constructor.
  - cbv zeta.
    set (d0 := fold_left (fun d emp => set_pattern d (_id emp) initial_pattern)
                 employees []).
    destruct (track_schedules_outcome (a :: rest) d0) as [Hok Hbad]. split.
    + intros Hnd. destruct Hok as (d' & ->).
      * split; [exact Hnd|]. intros b _. apply initial_patterns_unworked.
      * cbn [bind]. eauto.
    + intros Hnd. rewrite Hbad; [reflexivity|]. intros [H _]. now apply Hnd.
Qed.

Lemma set_pattern_all (P : WorkPattern -> Prop) (d : patterns) (k : string)
    (v : WorkPattern) :
  Forall (fun item => P (snd item)) d -> P v ->
  Forall (fun item => P (snd item)) (set_pattern d k v).
Proof.
  intros Hd Hv. induction Hd as [|[k0 v0] rest H0 Hrest IH]; cbn [set_pattern].
  - repeat constructor. exact Hv.
  - destruct (String.eqb k0 k); constructor; auto.
Qed.

Lemma pattern_of_all (P : WorkPattern -> Prop) (d : patterns) (k : string)
    (v : WorkPattern) :
  Forall (fun item => P (snd item)) d -> pattern_of d k = Some v -> P v.
Proof.
  intros Hd. induction Hd as [|[k0 v0] rest H0 Hrest IH]; cbn [pattern_of];
    [discriminate|].
  destruct (String.eqb k0 k); [|exact IH]. intros H. injection H as <-. exact H0.
Qed.

Lemma track_schedules_one_day (schedules : list Assignment) (d d' : patterns) :
  Forall (fun item => at_most_one_day (snd item)) d ->
  track_schedules d schedules = Returned d' ->
  Forall (fun item => at_most_one_day (snd item)) d'.
Proof.
  revert d. induction schedules as [|a rest IH]; intros d Hd H; cbn [track_schedules] in H.
  - injection H as <-. exact Hd.
  - destruct (track_schedule d a) as [d1|exn|] eqn:Hone; cbn [bind] in H;
      try discriminate.
    apply (IH d1); [|exact H].
    unfold track_schedule in Hone. cbv zeta in Hone.
    match type of Hone with
    | match pattern_last_work_day ?p with _ => _ end = _ =>
        destruct (pattern_last_work_day p); [discriminate|]
    end.
    injection Hone as <-.
    apply set_pattern_all; [|unfold at_most_one_day; cbn; lia].
    destruct (pattern_of d (employeeId a)); [exact Hd|].
    apply set_pattern_all; [exact Hd|unfold at_most_one_day; cbn; lia].
Qed.

Lemma initial_patterns_one_day (employees : list Employee) :
  Forall (fun item => at_most_one_day (snd item))
    (fold_left (fun d emp => set_pattern d (_id emp) initial_pattern) employees []).
Proof.
  assert (H : forall d, Forall (fun item => at_most_one_day (snd item)) d ->
            Forall (fun item => at_most_one_day (snd item))
              (fold_left (fun d emp => set_pattern d (_id emp) initial_pattern)
                 employees d)).
  { induction employees as [|emp rest IH]; intros d Hd; cbn [fold_left]; [exact Hd|].
    apply IH. apply set_pattern_all; [exact Hd|unfold at_most_one_day; cbn; lia]. }
  apply H. constructor.
Qed.

(** A report of the compliance validation never holds a violation of the
    rest hours, nor, when [max_consecutive_days] (default 6) is 1 or more,
    of the consecutive days: its violations are of overtime and of shift
    length only, and it is compliant exactly when it holds none. *)
Theorem compliance_report_of_hours_only (schedules : list Assignment)
    (c : Constraints) (employees : list Employee) (report : ComplianceReport) :
  1 <= get (max_consecutive_days c) 6 ->
  _validate_regulatory_compliance schedules c employees = Returned report ->
  Forall (fun v => violation_type v = "overtime_exceeded"%string
                   \/ violation_type v = "shift_too_short"%string
                   \/ violation_type v = "shift_too_long"%string) (violations report)
  /\ violation_count report = len (violations report)
  /\ (is_compliant report = true <-> violations report = []).
Proof.
  intros Hmax H. unfold _validate_regulatory_compliance in H.
  destruct (negb (nonempty schedules)).
  { injection H as <-. cbn. split; [constructor|]. split; [reflexivity|tauto]. }
  cbv zeta in H.
  destruct (track_schedules _ schedules) as [d|exn|] eqn:Hd; cbn [bind] in H;
    try discriminate.
  apply track_schedules_one_day in Hd; [|apply initial_patterns_one_day].
  injection H as <-. cbn [violations violation_count is_compliant].
  split; [|split; [reflexivity|]].
  - repeat rewrite Forall_app. split; [|split].
    + apply Forall_flat_map. apply Forall_forall. intros item _.
      destruct (negb _); repeat constructor.
    + apply Forall_flat_map. rewrite Forall_forall in Hd |- *. intros item Hitem.
      specialize (Hd item Hitem). unfold at_most_one_day in Hd.
      replace (get (max_consecutive_days c) 6 <? pattern_consecutive_days (snd item))
        with false by (symmetry; apply Z.ltb_ge; lia).
      constructor.
    + apply Forall_flat_map. apply Forall_forall. intros a _.
      unfold duration_violations. cbv zeta.
      destruct (_ && _); [|constructor].
      apply Forall_app.
      split; destruct (negb _);
        repeat (apply Forall_cons || apply Forall_nil); cbn [violation_type]; auto.
  - match goal with
    | |- (len ?l =? 0) = true <-> _ => destruct l; cbn; [tauto|]
    end.
    split; discriminate.
Qed.

Lemma compliance_report_of_hours_only_witness :
  exists report,
    _validate_regulatory_compliance Examples.brief_shift
      Examples.office_week Examples.one_of_each = Returned report
    /\ map violation_type (violations report) = ["shift_too_short"%string]
    /\ Forall (fun v => violation_type v = "overtime_exceeded"%string
                        \/ violation_type v = "shift_too_short"%string
                        \/ violation_type v = "shift_too_long"%string)
              (violations report)
    /\ violation_count report = len (violations report)
    /\ (is_compliant report = true <-> violations report = []).
Proof.
  eexists. split; [vm_compute; reflexivity|]. split; [reflexivity|].
  apply (compliance_report_of_hours_only Examples.brief_shift Examples.office_week
           Examples.one_of_each).
  - vm_compute. discriminate.
  - vm_compute. reflexivity.
Defined.

End ComplianceFacts.

(** ** Applying the detector's suggestions *)

Module FixFacts.
Import NormalizerFacts.

Lemma apply_fix_step (st : Constraints * list AppliedFix) (s : Suggestion) :
  enables_days s = false ->
  operating_hours (fst (apply_fix st s))
  = option_map (map (fun oh => fix_entry oh s)) (operating_hours (fst st))
  /\ max_consecutive_days (fst (apply_fix st s))
     = fix_limit (max_consecutive_days (fst st)) s.
Proof.
  destruct st as [c fx]. unfold apply_fix, fix_entry, fix_limit, enables_days.
  cbv zeta. cbn [fst].
  destruct (String.eqb_spec (suggestion_type s) "reduce_min_staff") as [E1|E1];
    destruct (String.eqb_spec (suggestion_type s) "fix_staff_range") as [E2|E2];
    destruct (String.eqb_spec (suggestion_type s) "enable_business_days") as [E3|E3];
    destruct (String.eqb_spec (suggestion_type s) "increase_consecutive_limit")
      as [E4|E4];
    try (rewrite E1 in *; discriminate); try (rewrite E2 in *; discriminate);
    try (rewrite E3 in *; discriminate);
    cbn [andb]; intros Hen; try rewrite Hen;
    destruct (present (suggested_number s)); cbn [fst];
    unfold on_operating_hours; destruct (operating_hours c) as [ohs|] eqn:Hohs;
    cbn [option_map with_operating_hours with_max_consecutive_days operating_hours
         max_consecutive_days];
    rewrite ?Hohs; cbn [option_map]; rewrite ?map_id; auto.
Qed.

Lemma fold_fix_entry_map (l : list Suggestion) (ohs : list OperatingHours) :
  fold_left (fun hs s => map (fun oh => fix_entry oh s) hs) l ohs
  = map (fun oh => fold_left fix_entry l oh) ohs.
Proof.
  revert ohs. induction l as [|s rest IH]; intros ohs; cbn [fold_left].
  - now rewrite map_id.
  - rewrite IH, map_map. reflexivity.
Qed.

Lemma apply_fixes_fields (l : list Suggestion) (st : Constraints * list AppliedFix) :
  Forall (fun s => enables_days s = false) l ->
  operating_hours (fst (fold_left apply_fix l st))
  = option_map (map (fun oh => fold_left fix_entry l oh)) (operating_hours (fst st))
  /\ max_consecutive_days (fst (fold_left apply_fix l st))
     = fold_left fix_limit l (max_consecutive_days (fst st)).
Proof.
  intros H. revert st. induction H as [|s rest Hs _ IH]; intros st; cbn [fold_left].
  - split; [|reflexivity]. destruct (operating_hours (fst st)); cbn [option_map];
      [now rewrite map_id|reflexivity].
  - destruct (IH (apply_fix st s)) as [-> ->].
    destruct (apply_fix_step st s Hs) as [-> ->]. split; [|reflexivity].
    destruct (operating_hours (fst st)); cbn [option_map]; [|reflexivity].
    now rewrite map_map.
Qed.

Lemma fixed_by_fold (c : Constraints) (r : ConflictReport) :
  fixed_constraints (apply_suggested_fixes c r)
  = fst (fold_left apply_fix
           (stable_sort (fun a b => priority_rank (priority a) <=? priority_rank (priority b))
              (filter auto_fixable (suggestions r)))
           (c, [])).
Proof.
  unfold apply_suggested_fixes. destruct (suggestions r) as [|s rest]; [reflexivity|].
  cbn [nonempty negb]. cbv zeta.
  destruct (fold_left apply_fix _ (c, [])) as [fixed applied]. reflexivity.
Qed.

Lemma day_name_inj (a b : DayOfWeek) : day_name a = day_name b -> a = b.
Proof. destruct a, b; intros H; try reflexivity; discriminate. Qed.

Lemma same_day_same_entry (ohs : list OperatingHours) (a b : OperatingHours) :
  NoDup (map day_of_week ohs) -> In a ohs -> In b ohs ->
  day_of_week a = day_of_week b -> a = b.
Proof.
  induction ohs as [|x r IH]; intros Hnd Ha Hb Hday; [destruct Ha|].
  cbn [map] in Hnd. inversion Hnd as [|? ? Hnotin Hnd']; subst.
  destruct Ha as [<-|Ha], Hb as [<-|Hb]; auto.
  - exfalso. apply Hnotin. rewrite Hday. now apply in_map.
  - exfalso. apply Hnotin. rewrite <- Hday. now apply in_map.
Qed.

Lemma for_day_iff (s : Suggestion) (oh : OperatingHours) :
  for_day s oh = true <-> suggestion_day s = Some (day_name (day_of_week oh)).
Proof.
  unfold for_day. destruct (suggestion_day s) as [dn|]; [|split; discriminate].
  rewrite String.eqb_eq. split; [now intros ->|]. intros H. now injection H as ->.
Qed.

Section OneEntry.
Variable ohs : list OperatingHours.
Variable total : Z.
Variable oh : OperatingHours.
Hypothesis days_once : NoDup (map day_of_week ohs).
Hypothesis oh_listed : In oh ohs.

Lemma suggested_for (s : Suggestion) (oh0 o : OperatingHours) :
  day_of_week oh0 = day_of_week oh -> for_day s oh0 = true -> In o ohs ->
  suggestion_day s = Some (day_name (day_of_week o)) -> o = oh.
Proof.
  intros Hday Hfor Ho Hs. apply for_day_iff in Hfor. rewrite Hday, Hs in Hfor.
  injection Hfor as Hfor. apply day_name_inj in Hfor.
  now apply (same_day_same_entry ohs).
Qed.

Lemma fix_entry_keeps (s : Suggestion) (oh0 : OperatingHours) :
  detector_fix ohs total s -> being_fixed total oh oh0 ->
  being_fixed total oh (fix_entry oh0 s).
Proof.
  intros Hs (Hday & Hopen & Hmin & Hmax). unfold fix_entry.
  destruct Hs as [(Hty & Hnum & o & Ho & _ & Hsday & Hshort)
                 |[(Hty & o & Ho & _ & Hsday & Hnum & Hinv)|(Hty & Hnum)]];
    rewrite Hty, Hnum; cbn [String.eqb Ascii.eqb Bool.eqb andb present get].
  - destruct (for_day s oh0) eqn:Hfor; [|repeat split; auto].
    rewrite (suggested_for s oh0 o Hday Hfor Ho Hsday) in Hshort.
    unfold with_min_staff. repeat split; cbn; auto.
  - destruct (for_day s oh0) eqn:Hfor; [|repeat split; auto].
    pose proof (suggested_for s oh0 o Hday Hfor Ho Hsday) as ->.
    unfold with_max_staff. repeat split; cbn; auto.
  - repeat split; auto.
Qed.

Lemma fold_fix_entry_keeps (l : list Suggestion) (oh0 : OperatingHours) :
  Forall (detector_fix ohs total) l -> being_fixed total oh oh0 ->
  being_fixed total oh (fold_left fix_entry l oh0).
Proof.
  intros H. revert oh0. induction H as [|s rest Hs _ IH]; intros oh0 H0; cbn [fold_left];
    [exact H0|].
  apply IH. now apply fix_entry_keeps.
Qed.

Lemma fix_entry_min_stays (s : Suggestion) (oh0 : OperatingHours) :
  detector_fix ohs total s ->
  min_staff oh0 = Some (Z.min total (Z.max 1 (total - 1))) ->
  min_staff (fix_entry oh0 s) = Some (Z.min total (Z.max 1 (total - 1))).
Proof.
  intros Hs Hmin. unfold fix_entry.
  destruct Hs as [(Hty & Hnum & _)|[(Hty & o & _ & _ & _ & Hnum & _)|(Hty & Hnum)]];
    rewrite Hty, Hnum; cbn [String.eqb Ascii.eqb Bool.eqb andb present get];
    try destruct (for_day s oh0); auto.
Qed.

Lemma fix_entry_max_stays (s : Suggestion) (oh0 : OperatingHours) :
  detector_fix ohs total s -> day_of_week oh0 = day_of_week oh ->
  max_staff oh0 = Some (Z.max (get (min_staff oh) 1) total) ->
  max_staff (fix_entry oh0 s) = Some (Z.max (get (min_staff oh) 1) total).
Proof.
  intros Hs Hday Hmax. unfold fix_entry.
  destruct Hs as [(Hty & Hnum & _)|[(Hty & o & Ho & _ & Hsday & Hnum & _)|(Hty & Hnum)]];
    rewrite Hty, Hnum; cbn [String.eqb Ascii.eqb Bool.eqb andb present get];
    try (destruct (for_day s oh0); auto; fail).
  destruct (for_day s oh0) eqn:Hfor; [|exact Hmax].
  pose proof (suggested_for s oh0 o Hday Hfor Ho Hsday) as ->. reflexivity.
Qed.

Lemma fix_entry_day (s : Suggestion) (oh0 : OperatingHours) :
  day_of_week (fix_entry oh0 s) = day_of_week oh0.
Proof.
  unfold fix_entry.
  repeat match goal with
         | |- context [if ?b then _ else _] => destruct b
         end; reflexivity.
Qed.

Lemma fold_min_stays (l : list Suggestion) (oh0 : OperatingHours) :
  Forall (detector_fix ohs total) l ->
  min_staff oh0 = Some (Z.min total (Z.max 1 (total - 1))) ->
  min_staff (fold_left fix_entry l oh0) = Some (Z.min total (Z.max 1 (total - 1))).
Proof.
  intros H. revert oh0. induction H as [|s rest Hs _ IH]; intros oh0 H0; cbn [fold_left];
    [exact H0|].
  apply IH. now apply fix_entry_min_stays.
Qed.

Lemma fold_max_stays (l : list Suggestion) (oh0 : OperatingHours) :
  Forall (detector_fix ohs total) l -> day_of_week oh0 = day_of_week oh ->
  max_staff oh0 = Some (Z.max (get (min_staff oh) 1) total) ->
  max_staff (fold_left fix_entry l oh0) = Some (Z.max (get (min_staff oh) 1) total).
Proof.
  intros H. revert oh0. induction H as [|s rest Hs _ IH]; intros oh0 Hd H0;
    cbn [fold_left]; [exact H0|].
  apply IH; [now rewrite fix_entry_day|now apply fix_entry_max_stays].
Qed.

(** The entry after all the fixes. *)
Lemma entry_fixed (l : list Suggestion) :
  Forall (detector_fix ohs total) l ->
  (total < get (min_staff oh) 1 ->
   exists s, In s l /\ suggestion_type s = "reduce_min_staff"%string
             /\ suggestion_day s = Some (day_name (day_of_week oh))) ->
  (get (max_staff oh) total < get (min_staff oh) 1 ->
   exists s, In s l /\ suggestion_type s = "fix_staff_range"%string
             /\ suggestion_day s = Some (day_name (day_of_week oh))) ->
  let oh' := fold_left fix_entry l oh in
  day_of_week oh' = day_of_week oh /\ is_open oh' = is_open oh
  /\ get (min_staff oh') 1 <= total
  /\ get (min_staff oh') 1 <= get (max_staff oh') total.
Proof.
  intros Hl Hreduce Hfix oh'.
  assert (H0 : being_fixed total oh oh) by (repeat split; auto).
  pose proof (fold_fix_entry_keeps l oh Hl H0) as (Hday & Hopen & Hmin & Hmax).
  fold oh' in Hday, Hopen, Hmin, Hmax.
  split; [exact Hday|]. split; [exact Hopen|].
  assert (Hmin' : total < get (min_staff oh) 1 ->
                  min_staff oh' = Some (Z.min total (Z.max 1 (total - 1)))).
  { intros Hshort. destruct (Hreduce Hshort) as (s & Hs & Hty & Hsday).
    apply in_split in Hs. destruct Hs as (l1 & l2 & ->).
    apply Forall_app in Hl. destruct Hl as [Hl1 Hl2].
    inversion Hl2 as [|? ? Hs Hl2']; subst.
    subst oh'. rewrite fold_left_app. cbn [fold_left].
    apply fold_min_stays; [exact Hl2'|].
    pose proof (fold_fix_entry_keeps l1 oh Hl1 H0) as (Hd1 & _).
    set (mid := fold_left fix_entry l1 oh) in *. clearbody mid.
    unfold fix_entry.
    destruct Hs as [(_ & Hnum & _)|[(Hty' & _)|(Hty' & _)]]; try congruence.
    rewrite Hty, Hnum. cbn [String.eqb Ascii.eqb Bool.eqb andb present get].
    replace (for_day s mid) with true; [reflexivity|].
    symmetry. apply for_day_iff. now rewrite Hd1. }
  assert (Hmax' : get (max_staff oh) total < get (min_staff oh) 1 ->
                  max_staff oh' = Some (Z.max (get (min_staff oh) 1) total)).
  { intros Hinv. destruct (Hfix Hinv) as (s & Hs & Hty & Hsday).
    apply in_split in Hs. destruct Hs as (l1 & l2 & ->).
    apply Forall_app in Hl. destruct Hl as [Hl1 Hl2].
    inversion Hl2 as [|? ? Hs Hl2']; subst.
    subst oh'. rewrite fold_left_app. cbn [fold_left].
    pose proof (fold_fix_entry_keeps l1 oh Hl1 H0) as (Hd1 & _).
    set (mid := fold_left fix_entry l1 oh) in *. clearbody mid.
    apply fold_max_stays; [exact Hl2'|now rewrite fix_entry_day|].
    unfold fix_entry.
    destruct Hs as [(Hty' & _)|[(_ & o & Ho & _ & Hoday & Hnum & _)|(Hty' & _)]];
      try congruence.
    rewrite Hty, Hnum. cbn [String.eqb Ascii.eqb Bool.eqb andb present get].
    assert (Hfor : for_day s mid = true)
      by (apply for_day_iff; now rewrite Hd1).
    rewrite Hfor.
    pose proof (suggested_for s _ o Hd1 Hfor Ho Hoday) as ->. reflexivity. }
  destruct (Z_lt_le_dec total (get (min_staff oh) 1)) as [Hshort|Hok];
    destruct (Z_lt_le_dec (get (max_staff oh) total) (get (min_staff oh) 1))
      as [Hinv|Hfine].
  - rewrite (Hmin' Hshort), (Hmax' Hinv). cbn [get]. lia.
  - rewrite (Hmin' Hshort). cbn [get].
    destruct Hmax as [->|[_ Hinv]]; lia.
  - rewrite (Hmax' Hinv). cbn [get].
    destruct Hmin as [->|[_ Hshort]]; lia.
  - destruct Hmin as [->|[_ Hshort]]; [|lia].
    destruct Hmax as [->|[_ Hinv]]; lia.
Qed.

End OneEntry.

Lemma suggestions_all (P : Suggestion -> Prop) (c : Constraints) (emps : list Employee)
    (s e : date) :
  Forall P (snd (no_days_finding (filter is_open_day (get (operating_hours c) [])))) ->
  Forall P (snd (unavailable_finding (filter is_open_day (get (operating_hours c) []))
                   (filter employee_active emps))) ->
  (forall day_hours,
      In day_hours (get (operating_hours c) []) -> is_open_day day_hours = true ->
      Forall P (snd (staffing_conflicts (len (filter employee_active emps)) day_hours))) ->
  Forall P (snd (availability_finding
                   (availability_conflicts (get (operating_hours c) [])
                      (filter employee_active emps) (date_range s e))
                   (len (filter employee_active emps)))) ->
  Forall P (snd (consecutive_finding (get (max_consecutive_days c) 5))) ->
  Forall P (snd (qualifications_finding (filter employee_active emps))) ->
  Forall P (suggestions (detect_scheduling_conflicts c emps s e)).
Proof.
  intros H1 H2 H3 H4 H5 H6.
  change (suggestions (detect_scheduling_conflicts c emps s e))
    with (flat_map snd (findings c emps s e)).
  unfold findings. cbv zeta.
  rewrite !flat_map_app. cbn [flat_map]. rewrite !app_nil_r.
  repeat (apply Forall_app; split); auto.
  apply Forall_forall. intros k Hk. apply in_flat_map in Hk.
  destruct Hk as (f & Hf & Hk). apply in_map_iff in Hf.
  destruct Hf as (dh & <- & Hdh). apply filter_In in Hdh. destruct Hdh as [Hin Hopen].
  specialize (H3 dh Hin Hopen). rewrite Forall_forall in H3. now apply H3.
Qed.

Lemma staffing_suggested (c : Constraints) (emps : list Employee) (s e : date)
    (dh : OperatingHours) (x : Suggestion) :
  In dh (get (operating_hours c) []) -> is_open_day dh = true ->
  In x (snd (staffing_conflicts (len (filter employee_active emps)) dh)) ->
  In x (suggestions (detect_scheduling_conflicts c emps s e)).
Proof.
  intros Hin Hopen Hx.
  change (suggestions (detect_scheduling_conflicts c emps s e))
    with (flat_map snd (findings c emps s e)).
  apply in_flat_map. exists (staffing_conflicts (len (filter employee_active emps)) dh).
  split; [|exact Hx]. unfold findings. cbv zeta.
  apply in_or_app. right. apply in_or_app. left.
  apply in_map. apply filter_In. auto.
Qed.

Lemma limit_suggested (c : Constraints) (emps : list Employee) (s e : date)
    (x : Suggestion) :
  In x (snd (consecutive_finding (get (max_consecutive_days c) 5))) ->
  In x (suggestions (detect_scheduling_conflicts c emps s e)).
Proof.
  intros Hx.
  change (suggestions (detect_scheduling_conflicts c emps s e))
    with (flat_map snd (findings c emps s e)).
  apply in_flat_map. exists (consecutive_finding (get (max_consecutive_days c) 5)).
  split; [|exact Hx]. unfold findings. cbv zeta.
  apply in_or_app. right. apply in_or_app. right. right. now left.
Qed.

Lemma auto_suggestions_are_fixes (c : Constraints) (emps : list Employee) (s e : date) :
  (exists oh, In oh (get (operating_hours c) []) /\ is_open_day oh = true) ->
  Forall (fun x => auto_fixable x = true ->
                   detector_fix (get (operating_hours c) [])
                     (len (filter employee_active emps)) x)
         (suggestions (detect_scheduling_conflicts c emps s e)).
Proof.
  intros (oh & Hoh & Hopen). apply suggestions_all.
  - unfold no_days_finding.
    destruct (filter is_open_day (get (operating_hours c) [])) eqn:E;
      [|constructor].
    assert (Hin : In oh (filter is_open_day (get (operating_hours c) [])))
      by (apply filter_In; auto).
    rewrite E in Hin. destruct Hin.
  - unfold unavailable_finding. cbv zeta.
    destruct (nonempty _); cbn [snd nothing];
      repeat (apply Forall_cons || apply Forall_nil); discriminate.
  - intros dh Hdh Hdopen. unfold staffing_conflicts. cbv zeta.
    destruct (len (filter employee_active emps) <? get (min_staff dh) 1) eqn:E1;
      destruct (get (max_staff dh) (len (filter employee_active emps))
                <? get (min_staff dh) 1) eqn:E2;
      cbn [fst snd app nothing];
      try apply Z.ltb_lt in E1; try apply Z.ltb_lt in E2;
      repeat (apply Forall_cons || apply Forall_nil); intros _.
    + left. cbn. split; [reflexivity|]. split; [reflexivity|]. exists dh. auto.
    + right. left. cbn. split; [reflexivity|]. exists dh. auto.
    + left. cbn. split; [reflexivity|]. split; [reflexivity|]. exists dh. auto.
    + right. left. cbn. split; [reflexivity|]. exists dh. auto.
  - unfold availability_finding. cbv zeta.
    destruct (0 <? _); [|constructor].
    destruct (_ =? _); cbn [snd];
      repeat (apply Forall_cons || apply Forall_nil); discriminate.
  - unfold consecutive_finding. destruct (_ <? 2); cbn [snd nothing];
      repeat (apply Forall_cons || apply Forall_nil).
    intros _. right. right. cbn. auto.
  - unfold qualifications_finding. cbv zeta.
    destruct (_ && _); cbn [snd nothing];
      repeat (apply Forall_cons || apply Forall_nil); discriminate.
Qed.

Lemma fix_not_enabling (ohs : list OperatingHours) (total : Z) (x : Suggestion) :
  detector_fix ohs total x -> enables_days x = false.
Proof.
  unfold enables_days.
  intros [(Hty & _)|[(Hty & _)|(Hty & _)]]; now rewrite Hty.
Qed.

Lemma fold_limit (ohs : list OperatingHours) (total : Z) (l : list Suggestion)
    (v : option Z) :
  Forall (detector_fix ohs total) l ->
  fold_left fix_limit l v = v \/ fold_left fix_limit l v = Some 3.
Proof.
  intros H. revert v. induction H as [|x rest Hx _ IH]; intros v; cbn [fold_left];
    [now left|].
  destruct (IH (fix_limit v x)) as [-> | ->]; [|now right].
  unfold fix_limit.
  destruct Hx as [(Hty & _)|[(Hty & _)|(Hty & Hnum)]]; rewrite Hty; cbn; auto.
  rewrite Hnum. cbn. now right.
Qed.

Lemma fold_limit_raised (ohs : list OperatingHours) (total : Z) (l : list Suggestion)
    (v : option Z) (x : Suggestion) :
  Forall (detector_fix ohs total) l -> In x l ->
  suggestion_type x = "increase_consecutive_limit"%string ->
  fold_left fix_limit l v = Some 3.
Proof.
  intros Hl Hx Hty. apply in_split in Hx. destruct Hx as (l1 & l2 & ->).
  apply Forall_app in Hl. destruct Hl as [_ Hl2].
  inversion Hl2 as [|? ? Hfix Hl2']; subst.
  rewrite fold_left_app. cbn [fold_left].
  assert (Hnow : fix_limit (fold_left fix_limit l1 v) x = Some 3).
  { unfold fix_limit.
    destruct Hfix as [(Hty' & _)|[(Hty' & _)|(_ & Hnum)]]; try congruence.
    rewrite Hty, Hnum. reflexivity. }
  rewrite Hnow.
  destruct (fold_limit ohs total l2 (Some 3) Hl2') as [-> | ->]; reflexivity.
Qed.

(** When every day has one entry at most and some day is open, one round of
    the automatic fixes settles what the detector can fix: run again on the
    fixed document, the detector offers no automatic suggestion and reports
    no shortage of staff, no inverted staff range, no consecutive-days
    limit and no lack of open days. *)
Theorem one_round_of_fixes_settles_staffing (c : Constraints) (emps : list Employee)
    (s e : date) :
  NoDup (map day_of_week (get (operating_hours c) [])) ->
  (exists oh, In oh (get (operating_hours c) []) /\ is_open_day oh = true) ->
  let fixed :=
    fixed_constraints
      (apply_suggested_fixes c (detect_scheduling_conflicts c emps s e)) in
  let again := detect_scheduling_conflicts fixed emps s e in
  auto_fixable_count again = 0
  /\ Forall (fun k => conflict_type k <> "insufficient_staff"%string
                      /\ conflict_type k <> "invalid_staff_range"%string
                      /\ conflict_type k <> "unrealistic_consecutive_limit"%string
                      /\ conflict_type k <> "no_operating_days"%string)
            (conflicts again).
Proof.
  intros Hnd Hsome. cbv zeta. rewrite fixed_by_fold.
  set (total := len (filter employee_active emps)).
  set (l := stable_sort _ _).
  assert (Hl : Forall (detector_fix (get (operating_hours c) []) total) l).
  { apply Forall_forall. intros x Hx. subst l. apply stable_sort_in in Hx.
    apply filter_In in Hx. destruct Hx as [Hx Hauto].
    pose proof (auto_suggestions_are_fixes c emps s e Hsome) as Hall.
    rewrite Forall_forall in Hall. now apply Hall. }
  assert (Hin : forall x, In x (suggestions (detect_scheduling_conflicts c emps s e)) ->
                          auto_fixable x = true -> In x l).
  { intros x Hx Hauto. subst l. apply stable_sort_in. apply filter_In. auto. }
  destruct (apply_fixes_fields l (c, [])) as [Hhours Hlimit].
  { eapply Forall_impl; [|exact Hl]. intros x. apply fix_not_enabling. }
  cbn [fst] in Hhours, Hlimit.
  set (fixed := fst (fold_left apply_fix l (c, []))) in *.
  destruct (operating_hours c) as [ohs|] eqn:Hohs;
    [|destruct Hsome as (oh & [] & _)].
  cbn [get option_map] in *.
  assert (Hget : get (operating_hours fixed) []
                 = map (fun oh => fold_left fix_entry l oh) ohs)
    by now rewrite Hhours.
  assert (Hentry : forall oh, In oh ohs -> is_open_day oh = true ->
            let oh' := fold_left fix_entry l oh in
            day_of_week oh' = day_of_week oh /\ is_open oh' = is_open oh
            /\ get (min_staff oh') 1 <= total
            /\ get (min_staff oh') 1 <= get (max_staff oh') total).
  { intros oh Hoh Hopen. apply (entry_fixed ohs total oh Hnd Hoh l Hl).
    - intros Hshort.
      exists (mkSuggestion "reduce_min_staff" "auto_fix"
                (Some (day_name (day_of_week oh))) "high" true
                (Some (Z.min total (Z.max 1 (total - 1)))) None).
      split; [|split; reflexivity]. apply Hin; [|reflexivity].
      apply (staffing_suggested c emps s e oh); [now rewrite Hohs|exact Hopen|].
      unfold staffing_conflicts. cbv zeta. fold total.
      replace (total <? get (min_staff oh) 1) with true
        by (symmetry; now apply Z.ltb_lt).
      cbn [fst snd app]. now left.
    - intros Hinv.
      exists (mkSuggestion "fix_staff_range" "auto_fix"
                (Some (day_name (day_of_week oh))) "critical" true
                (Some (Z.max (get (min_staff oh) 1) total)) None).
      split; [|split; reflexivity]. apply Hin; [|reflexivity].
      apply (staffing_suggested c emps s e oh); [now rewrite Hohs|exact Hopen|].
      unfold staffing_conflicts. cbv zeta. fold total.
      replace (get (max_staff oh) total <? get (min_staff oh) 1) with true
        by (symmetry; now apply Z.ltb_lt).
      cbn [fst snd]. apply in_or_app. right. now left. }
  assert (F1 : no_days_finding (filter is_open_day (get (operating_hours fixed) []))
               = nothing).
  { rewrite Hget. destruct Hsome as (oh & Hoh & Hopen).
    unfold no_days_finding.
    destruct (filter is_open_day (map (fun oh => fold_left fix_entry l oh) ohs)) eqn:E;
      [|reflexivity].
    assert (Hx : In (fold_left fix_entry l oh)
                   (filter is_open_day (map (fun oh => fold_left fix_entry l oh) ohs))).
    { apply filter_In. split; [now apply in_map|].
      destruct (Hentry oh Hoh Hopen) as (_ & Ho & _). unfold is_open_day in *.
      now rewrite Ho. }
    rewrite E in Hx. destruct Hx. }
  assert (F2 : forall dh, In dh (get (operating_hours fixed) []) ->
                          is_open_day dh = true ->
                          staffing_conflicts total dh = nothing).
  { intros dh Hdh Hopen. rewrite Hget in Hdh. apply in_map_iff in Hdh.
    destruct Hdh as (oh & <- & Hoh).
    assert (Hopen0 : is_open_day oh = true).
    { assert (H0 : being_fixed total oh oh) by (repeat split; auto).
      destruct (fold_fix_entry_keeps ohs total oh Hnd Hoh l (fold_left fix_entry [] oh)
                  Hl H0) as (_ & Ho & _).
      unfold is_open_day in *. now rewrite <- Ho. }
    destruct (Hentry oh Hoh Hopen0) as (_ & _ & Hlo & Hhi).
    unfold staffing_conflicts. cbv zeta.
    replace (total <? _) with false by (symmetry; apply Z.ltb_ge; lia).
    replace (_ <? _) with false by (symmetry; apply Z.ltb_ge; lia).
    reflexivity. }
  assert (F3 : consecutive_finding (get (max_consecutive_days fixed) 5) = nothing).
  { unfold consecutive_finding. rewrite Hlimit.
    destruct (Z_lt_le_dec (get (max_consecutive_days c) 5) 2) as [Hlow|Hfine].
    - rewrite (fold_limit_raised _ total l _
                 (mkSuggestion "increase_consecutive_limit" "auto_fix" None "low" true
                    (Some 3) None) Hl); [reflexivity| |reflexivity].
      apply Hin; [|reflexivity]. apply limit_suggested.
      unfold consecutive_finding.
      replace (_ <? 2) with true by (symmetry; now apply Z.ltb_lt).
      now left.
    - destruct (fold_limit _ total l (max_consecutive_days c) Hl) as [-> | ->];
        [|reflexivity].
      replace (_ <? 2) with false by (symmetry; apply Z.ltb_ge; lia).
      reflexivity. }
  split.
  - change (len (filter auto_fixable
                   (suggestions (detect_scheduling_conflicts fixed emps s e))) = 0).
    assert (Hnone : Forall (fun x => auto_fixable x = false)
                      (suggestions (detect_scheduling_conflicts fixed emps s e))).
    { apply suggestions_all.
      - rewrite F1. constructor.
      - unfold unavailable_finding. cbv zeta.
        destruct (nonempty _); repeat constructor.
      - intros dh Hdh Hopen. fold total. rewrite (F2 dh Hdh Hopen). constructor.
      - unfold availability_finding. cbv zeta.
        destruct (0 <? _); [|constructor].
        destruct (_ =? _); repeat constructor.
      - rewrite F3. constructor.
      - unfold qualifications_finding. cbv zeta.
        destruct (_ && _); repeat constructor. }
    induction Hnone as [|x rest Hx _ IH]; [reflexivity|].
    cbn [filter]. now rewrite Hx.
  - apply ResolverFacts.findings_all.
    + rewrite F1. constructor.
    + unfold unavailable_finding. cbv zeta.
      destruct (nonempty _); repeat constructor; cbn; discriminate.
    + intros dh Hdh Hopen. fold total. rewrite (F2 dh Hdh Hopen). constructor.
    + unfold availability_finding. cbv zeta.
      destruct (0 <? _); [|constructor].
      repeat constructor; cbn; discriminate.
    + rewrite F3. constructor.
    + unfold qualifications_finding. cbv zeta.
      destruct (_ && _); repeat constructor; cbn; discriminate.
Qed.

Lemma one_round_of_fixes_settles_staffing_witness :
  critical_count (detect_scheduling_conflicts Examples.understaffed Examples.roster2
                    Examples.monday (Examples.monday + 6)) = 5
  /\ let fixed :=
       fixed_constraints
         (apply_suggested_fixes Examples.understaffed
            (detect_scheduling_conflicts Examples.understaffed Examples.roster2
               Examples.monday (Examples.monday + 6))) in
     let again :=
       detect_scheduling_conflicts fixed Examples.roster2
         Examples.monday (Examples.monday + 6) in
     auto_fixable_count again = 0
     /\ Forall (fun k => conflict_type k <> "insufficient_staff"%string
                         /\ conflict_type k <> "invalid_staff_range"%string
                         /\ conflict_type k <> "unrealistic_consecutive_limit"%string
                         /\ conflict_type k <> "no_operating_days"%string)
               (conflicts again).
Proof.
  split; [vm_compute; reflexivity|].
  apply (one_round_of_fixes_settles_staffing Examples.understaffed Examples.roster2
           Examples.monday (Examples.monday + 6)).
  - vm_compute. repeat constructor; cbn; intuition discriminate.
  - exists (oh_example Monday true "09:00" "17:00" 3 5). split; [|reflexivity].
    vm_compute. right. left. reflexivity.
Defined.

End FixFacts.

(** ** Enabling days on a document without operating hours *)

Module EnableFacts.

(** On a document without the key ["operating_hours"], the detector reports
    that no day is open and suggests to enable Monday to Friday;
    [apply_suggested_fixes] then records the fix as applied, with the five
    days, but the document it returns still has no operating hours, and the
    detector reports the same critical conflict on it. *)
Theorem enabling_days_without_hours_changes_nothing (c : Constraints)
    (emps : list Employee) (s e : date) :
  operating_hours c = None ->
  let result := apply_suggested_fixes c (detect_scheduling_conflicts c emps s e) in
  (exists applied,
      In applied (applied_fixes_of result)
      /\ fix_type applied = "enable_business_days"%string
      /\ enabled_days applied
         = Some ["Monday"; "Tuesday"; "Wednesday"; "Thursday"; "Friday"]%string)
  /\ operating_hours (fixed_constraints result) = None
  /\ can_proceed (detect_scheduling_conflicts (fixed_constraints result) emps s e)
     = false.
Proof.
  intros Hohs. cbv zeta.
  assert (Hstill : forall c', operating_hours c' = None ->
            can_proceed (detect_scheduling_conflicts c' emps s e) = false).
  { intros c' Hc'. unfold detect_scheduling_conflicts, findings. cbv zeta.
    rewrite Hc'. cbn [get filter map app flat_map fst snd no_days_finding nonempty negb
                      can_proceed severity_is severity String.eqb Ascii.eqb Bool.eqb].
    unfold len. cbn [List.length]. rewrite Nat2Z.inj_succ.
    apply Z.eqb_neq. lia. }
  assert (Hshape : exists c' fixes n,
            apply_suggested_fixes c (detect_scheduling_conflicts c emps s e)
            = Fixed c' fixes n
            /\ operating_hours c' = None
            /\ exists applied,
                 In applied fixes
                 /\ fix_type applied = "enable_business_days"%string
                 /\ enabled_days applied
                    = Some ["Monday"; "Tuesday"; "Wednesday"; "Thursday";
                            "Friday"]%string).
  { unfold apply_suggested_fixes, detect_scheduling_conflicts, findings. cbv zeta.
    rewrite Hohs.
    cbn [get filter map app flat_map fst snd no_days_finding nonempty negb suggestions
         unavailable_finding nothing auto_fixable].
    set (more := (snd (availability_finding _ _) ++ _)%list).
    assert (Hmore : filter auto_fixable more = []
                    \/ filter auto_fixable more
                       = [mkSuggestion "increase_consecutive_limit" "auto_fix" None
                            "low" true (Some 3) None]).
    { subst more. rewrite !filter_app.
      unfold availability_finding, consecutive_finding, qualifications_finding.
      cbv zeta.
      repeat match goal with
             | |- context [if ?b then _ else _] => destruct b
             end; cbn; auto. }
    clearbody more.
    destruct Hmore as [-> | ->];
      cbn [stable_sort fold_right insert_sorted priority priority_rank String.eqb
           Ascii.eqb Bool.eqb Z.leb Z.compare fold_left];
      unfold apply_fix; cbv zeta;
      cbn [suggestion_type suggested_number suggested_days present String.eqb Ascii.eqb
           Bool.eqb andb get priority];
      unfold on_operating_hours; rewrite Hohs; cbn [app];
      eexists; eexists; eexists; (split; [reflexivity|]);
      (split; [exact Hohs|]);
      eexists; (split; [left; reflexivity|]); split; vm_compute; reflexivity. }
  destruct Hshape as (c' & fixes & n & -> & Hc' & Hfix).
  cbn [applied_fixes_of fixed_constraints].
  split; [exact Hfix|]. split; [exact Hc'|now apply Hstill].
Qed.

Lemma enabling_days_without_hours_changes_nothing_witness :
  (exists applied,
      In applied
         (applied_fixes_of
            (apply_suggested_fixes Examples.no_hours
               (detect_scheduling_conflicts Examples.no_hours Examples.roster2
                  Examples.monday Examples.monday)))
      /\ fix_type applied = "enable_business_days"%string
      /\ enabled_days applied
         = Some ["Monday"; "Tuesday"; "Wednesday"; "Thursday"; "Friday"]%string)
  /\ operating_hours
       (fixed_constraints
          (apply_suggested_fixes Examples.no_hours
             (detect_scheduling_conflicts Examples.no_hours Examples.roster2
                Examples.monday Examples.monday))) = None
  /\ can_proceed
       (detect_scheduling_conflicts
          (fixed_constraints
             (apply_suggested_fixes Examples.no_hours
                (detect_scheduling_conflicts Examples.no_hours Examples.roster2
                   Examples.monday Examples.monday)))
          Examples.roster2 Examples.monday Examples.monday) = false.
Proof.
  apply (enabling_days_without_hours_changes_nothing Examples.no_hours
           Examples.roster2 Examples.monday Examples.monday).
  reflexivity.
Defined.

End EnableFacts.

(** ** The metrics of a schedule *)

Module MetricsFacts.

Lemma count_of_one (d : coverage) (k0 k : string) :
  count_of (count_one d k0) k = count_of d k + (if String.eqb k0 k then 1 else 0).
Proof.
  induction d as [|[k' v] rest IH]; cbn [count_one count_of].
  - destruct (String.eqb k0 k); lia.
  - destruct (String.eqb_spec k' k0) as [->|Hne]; cbn [count_of].
    + destruct (String.eqb k0 k); lia.
    + destruct (String.eqb_spec k' k) as [->|Hne'].
      * destruct (String.eqb_spec k0 k) as [->|_]; [now elim Hne|lia].
      * exact IH.
Qed.

Lemma keys_of_one (d : coverage) (k0 : string) :
  map fst (count_one d k0)
  = if existsb (String.eqb k0) (map fst d) then map fst d
    else (map fst d ++ [k0])%list.
Proof.
  induction d as [|[k' v] rest IH]; cbn [count_one map fst existsb app]; [reflexivity|].
  rewrite (String.eqb_sym k0 k').
  destruct (String.eqb k' k0); cbn [orb map fst]; [reflexivity|].
  rewrite IH. destruct (existsb _ _); reflexivity.
Qed.

Lemma sum_of_one (d : coverage) (k0 : string) :
  sum_of (map snd (count_one d k0)) = sum_of (map snd d) + 1.
Proof.
  induction d as [|[k' v] rest IH]; cbn [count_one map snd sum_of fold_right]; [lia|].
  destruct (String.eqb k' k0); cbn [map snd sum_of fold_right].
  - lia.
  - fold (sum_of (map snd (count_one rest k0))). fold (sum_of (map snd rest)). lia.
Qed.

Lemma positive_one (d : coverage) (k0 : string) :
  Forall (fun item => 0 < snd item) d ->
  Forall (fun item => 0 < snd item) (count_one d k0).
Proof.
  induction 1 as [|[k' v] rest Hv Hrest IH]; cbn [count_one].
  - repeat constructor.
  - cbn [snd] in Hv. destruct (String.eqb k' k0); constructor; cbn [snd]; auto; lia.
Qed.

Lemma tidy_one (d : coverage) (k0 : string) : tidy d -> tidy (count_one d k0).
Proof.
  intros [Hnd Hpos]. split; [|now apply positive_one].
  rewrite keys_of_one. destruct (existsb (String.eqb k0) (map fst d)) eqn:E; [exact Hnd|].
  apply NoDup_app; [exact Hnd|repeat constructor; intros []|].
  intros x Hx [<-|[]].
  assert (Hex : existsb (String.eqb k0) (map fst d) = true).
  { apply existsb_exists. exists k0. split; [exact Hx|apply String.eqb_refl]. }
  congruence.
Qed.

Lemma tidy_lookup (d : coverage) (k : string) (n : Z) :
  tidy d -> (In (k, n) d <-> 0 < n /\ n = count_of d k).
Proof.
  intros [Hnd Hpos]. induction d as [|[k' v] rest IH]; cbn [count_of].
  - split; [intros []|lia].
  - cbn [map fst] in Hnd. inversion Hnd as [|? ? Hfresh Hnd']; subst.
    inversion Hpos as [|? ? Hv Hpos']; subst. cbn [snd] in Hv.
    destruct (String.eqb_spec k' k) as [->|Hne].
    + split.
      * intros [Heq|Hin]; [injection Heq as <-; lia|].
        exfalso. apply Hfresh. apply in_map_iff. exists (k, n). auto.
      * intros [_ ->]. now left.
    + rewrite <- (IH Hnd' Hpos'). split.
      * intros [Heq|Hin]; [injection Heq as -> _; now elim Hne|exact Hin].
      * intros Hin. now right.
Qed.

Lemma entries_of_snoc (key : Assignment -> string) (k : string)
    (done : list Assignment) (a : Assignment) :
  entries_of key k (done ++ [a])
  = entries_of key k done + (if String.eqb (key a) k then 1 else 0).
Proof.
  unfold entries_of, len. rewrite filter_app, length_app. cbn [filter].
  destruct (String.eqb (key a) k); cbn [List.length]; lia.
Qed.

Lemma count_by_spec (key : Assignment -> string) (l : list Assignment) :
  tidy (count_by key l)
  /\ (forall k, count_of (count_by key l) k = entries_of key k l)
  /\ sum_of (map snd (count_by key l)) = len l.
Proof.
  unfold count_by.
  assert (H : forall (todo done : list Assignment) (d : coverage),
            tidy d /\ (forall k, count_of d k = entries_of key k done)
            /\ sum_of (map snd d) = len done ->
            let d' := fold_left (fun d a => count_one d (key a)) todo d in
            tidy d' /\ (forall k, count_of d' k = entries_of key k (done ++ todo))
            /\ sum_of (map snd d') = len (done ++ todo)).
  { induction todo as [|a rest IH]; intros done d (Ht & Hc & Hs); cbn [fold_left].
    - rewrite app_nil_r. auto.
    - replace (done ++ a :: rest)%list with ((done ++ [a]) ++ rest)%list
        by (rewrite <- app_assoc; reflexivity).
      apply IH. split; [now apply tidy_one|]. split.
      + intros k. rewrite count_of_one, entries_of_snoc, Hc. reflexivity.
      + rewrite sum_of_one, Hs. unfold len. rewrite length_app. cbn [List.length]. lia. }
  apply (H l [] []). split; [split; constructor|]. split; reflexivity.
Qed.

Lemma coverage_entries (key : Assignment -> string) (l : list Assignment)
    (k : string) (n : Z) :
  In (k, n) (count_by key l) <-> 0 < n /\ n = entries_of key k l.
Proof.
  destruct (count_by_spec key l) as (Ht & Hc & _).
  rewrite (tidy_lookup _ k n Ht), Hc. reflexivity.
Qed.

(** The three coverage dicts of the metrics count the schedules: a key is
    listed once, with the number of schedules that carry it, which is never
    zero, and the counts of each dict add up to [totalShifts], the number
    of schedules. *)
Theorem metrics_coverage_counts (schedules : list Assignment) :
  let m := calculate_schedule_metrics schedules in
  totalShifts m = len schedules
  /\ (forall k n, In (k, n) (employeeCoverage m)
                 <-> 0 < n /\ n = entries_of employeeId k schedules)
  /\ (forall k n, In (k, n) (departmentCoverage m)
                 <-> 0 < n /\ n = entries_of a_department k schedules)
  /\ (forall k n, In (k, n) (locationCoverage m)
                 <-> 0 < n /\ n = entries_of a_location k schedules)
  /\ NoDup (map fst (employeeCoverage m))
  /\ NoDup (map fst (departmentCoverage m))
  /\ NoDup (map fst (locationCoverage m))
  /\ sum_of (map snd (employeeCoverage m)) = len schedules
  /\ sum_of (map snd (departmentCoverage m)) = len schedules
  /\ sum_of (map snd (locationCoverage m)) = len schedules.
Proof.
  cbv zeta. unfold calculate_schedule_metrics.
  destruct schedules as [|a rest]; cbn [nonempty negb].
  - cbn. repeat split; try constructor; try (intros []); lia.
  - cbv zeta.
    cbn [totalShifts employeeCoverage departmentCoverage locationCoverage].
    destruct (count_by_spec employeeId (a :: rest)) as ([He _] & _ & Hes).
    destruct (count_by_spec a_department (a :: rest)) as ([Hd _] & _ & Hds).
    destruct (count_by_spec a_location (a :: rest)) as ([Hl _] & _ & Hls).
    split; [reflexivity|].
    split; [intros k n; apply coverage_entries|].
    split; [intros k n; apply coverage_entries|].
    split; [intros k n; apply coverage_entries|].
    auto 10.
Qed.

Lemma max_of_spec (more : list Z) (first : Z) :
  (forall x, In x (first :: more) -> x <= max_of first more)
  /\ In (max_of first more) (first :: more).
Proof.
  unfold max_of. revert first. induction more as [|y rest IH]; intros first;
    cbn [fold_left].
  - split; [intros x [<-|[]]; lia|now left].
  - destruct (IH (Z.max first y)) as [Hle Hin]. split.
    + intros x [<-|[<-|Hx]].
      * specialize (Hle (Z.max first y) (or_introl eq_refl)). lia.
      * specialize (Hle (Z.max first y) (or_introl eq_refl)). lia.
      * apply Hle. now right.
    + destruct Hin as [Heq|Hin]; [|right; now right].
      rewrite <- Heq. destruct (Z.max_spec first y) as [[_ ->]|[_ ->]]; cbn; auto.
Qed.

Lemma min_of_spec (more : list Z) (first : Z) :
  (forall x, In x (first :: more) -> min_of first more <= x)
  /\ In (min_of first more) (first :: more).
Proof.
  unfold min_of. revert first. induction more as [|y rest IH]; intros first;
    cbn [fold_left].
  - split; [intros x [<-|[]]; lia|now left].
  - destruct (IH (Z.min first y)) as [Hle Hin]. split.
    + intros x [<-|[<-|Hx]].
      * specialize (Hle (Z.min first y) (or_introl eq_refl)). lia.
      * specialize (Hle (Z.min first y) (or_introl eq_refl)). lia.
      * apply Hle. now right.
    + destruct Hin as [Heq|Hin]; [|right; now right].
      rewrite <- Heq. destruct (Z.min_spec first y) as [[_ ->]|[_ ->]]; cbn; auto.
Qed.

Lemma entries_positive (key : Assignment -> string) (l : list Assignment) (k : string) :
  0 < entries_of key k l <-> exists a, In a l /\ key a = k.
Proof.
  unfold entries_of, len. split.
  - destruct (filter _ l) as [|a rest] eqn:E; [cbn; lia|]. intros _.
    assert (Ha : In a (filter (fun schedule => String.eqb (key schedule) k) l))
      by (rewrite E; now left).
    apply filter_In in Ha. destruct Ha as [Ha Hk]. apply String.eqb_eq in Hk. eauto.
  - intros (a & Ha & Hk).
    assert (Hin : In a (filter (fun schedule => String.eqb (key schedule) k) l)).
    { apply filter_In. split; [exact Ha|]. now apply String.eqb_eq. }
    destruct (filter _ l); [destruct Hin|cbn [List.length]; lia].
Qed.

(** The fairness score of a schedule that is not empty is 100 less ten
    times the difference between the largest and the smallest number of
    shifts of an employee who has any: never above 100, and 100 exactly when
    all the employees of the schedule have the same number of shifts.
    Employees without a shift do not count. *)
Theorem metrics_fairness_score (schedules : list Assignment) :
  schedules <> [] ->
  let shifts a := entries_of employeeId (employeeId a) schedules in
  exists f,
    fairnessScore (calculate_schedule_metrics schedules) = Some f
    /\ f <= 100
    /\ (forall a b, In a schedules -> In b schedules ->
                    f <= 100 - 10 * (shifts a - shifts b))
    /\ (f = 100 <-> forall a b, In a schedules -> In b schedules ->
                                shifts a = shifts b).
Proof.
  intros Hne. cbv zeta. unfold calculate_schedule_metrics.
  destruct schedules as [|a0 rest]; [now elim Hne|]. cbn [nonempty negb]. cbv zeta.
  cbn [fairnessScore].
  set (l := a0 :: rest) in *.
  assert (Hval : forall v, In v (map snd (count_by employeeId l))
                           <-> exists a, In a l /\ v = entries_of employeeId (employeeId a) l).
  { intros v. rewrite in_map_iff. split.
    - intros ([k n] & <- & Hin). cbn [snd].
      apply coverage_entries in Hin. destruct Hin as [Hpos ->].
      apply entries_positive in Hpos. destruct Hpos as (a & Ha & <-). eauto.
    - intros (a & Ha & ->). exists (employeeId a, entries_of employeeId (employeeId a) l).
      split; [reflexivity|]. apply coverage_entries. split; [|reflexivity].
      apply entries_positive. eauto. }
  destruct (map snd (count_by employeeId l)) as [|first more] eqn:E.
  { exfalso. destruct (proj2 (Hval (entries_of employeeId (employeeId a0) l))).
    exists a0. split; [now left|reflexivity]. }
  destruct (max_of_spec more first) as [Hmax Hmax_in].
  destruct (min_of_spec more first) as [Hmin Hmin_in].
  eexists. split; [reflexivity|].
  pose proof (Hmax first (or_introl eq_refl)). pose proof (Hmin first (or_introl eq_refl)).
  split; [lia|]. split.
  - intros a b Ha Hb.
    assert (In (entries_of employeeId (employeeId a) l) (first :: more))
      by (apply Hval; eauto).
    assert (In (entries_of employeeId (employeeId b) l) (first :: more))
      by (apply Hval; eauto).
    pose proof (Hmax _ H1). pose proof (Hmin _ H2). lia.
  - split.
    + intros Hf a b Ha Hb.
      assert (Ha' : In (entries_of employeeId (employeeId a) l) (first :: more))
        by (apply Hval; eauto).
      assert (Hb' : In (entries_of employeeId (employeeId b) l) (first :: more))
        by (apply Hval; eauto).
      pose proof (Hmax _ Ha'). pose proof (Hmin _ Ha').
      pose proof (Hmax _ Hb'). pose proof (Hmin _ Hb'). lia.
    + intros Hall. apply Hval in Hmax_in, Hmin_in.
      destruct Hmax_in as (a & Ha & Hmaxa), Hmin_in as (b & Hb & Hminb).
      rewrite Hmaxa, Hminb, (Hall a b Ha Hb). lia.
Qed.

Lemma metrics_fairness_score_witness :
  exists f,
    fairnessScore (calculate_schedule_metrics Examples.uneven_shifts) = Some f
    /\ f <= 100
    /\ (forall a b, In a Examples.uneven_shifts -> In b Examples.uneven_shifts ->
                    f <= 100 - 10 * (entries_of employeeId (employeeId a)
                                       Examples.uneven_shifts
                                     - entries_of employeeId (employeeId b)
                                         Examples.uneven_shifts))
    /\ (f = 100 <-> forall a b, In a Examples.uneven_shifts ->
                                In b Examples.uneven_shifts ->
                                entries_of employeeId (employeeId a)
                                  Examples.uneven_shifts
                                = entries_of employeeId (employeeId b)
                                    Examples.uneven_shifts).
Proof.
  apply (metrics_fairness_score Examples.uneven_shifts). discriminate.
Defined.

End MetricsFacts.

(** ** Availability in the fallback *)

Module AvailabilityInFallback.

Lemma admitted_on_listed_day (emp : Employee) (avail : list Availability) (d : date) :
  availability emp = Some avail -> avail <> [] ->
  _check_employee_availability emp d "09:00" "17:00" = true ->
  exists av, In av avail /\ dayOfWeek av = Some (weekday d).
Proof.
  intros Hav Hne H. unfold _check_employee_availability in H. cbv zeta in H.
  rewrite Hav in H. cbn [get] in H.
  destruct avail as [|x r]; [now elim Hne|]. cbn [nonempty negb] in H.
  apply existsb_exists in H. destruct H as (av & Hin & _).
  apply filter_In in Hin. destruct Hin as [Hin Hday].
  exists av. split; [exact Hin|].
  destruct (dayOfWeek av) as [n|]; [|discriminate].
  apply Z.eqb_eq in Hday. now subst n.
Qed.

(** An employee whose availability entries all carry the number [k] is
    booked by the fallback only on dates whose operating-hours day is
    [k + 1] (modulo 7): an entry numbered 1, Monday for the operating hours
    and the detector, makes the employee work on Tuesdays.  The employee's
    identifier is taken to be theirs alone. *)
Theorem fallback_books_the_day_after (employees : list Employee) (c : Constraints)
    (s e : date) (rnd : oracle) (made : list Assignment) (emp : Employee)
    (avail : list Availability) (k : Z) :
  In emp employees ->
  (forall other, In other employees -> _id other = _id emp -> other = emp) ->
  availability emp = Some avail -> avail <> [] ->
  Forall (fun av => dayOfWeek av = Some k) avail ->
  _basic_random_schedule employees c s e rnd = Returned made ->
  forall a, In a made -> employeeId a = _id emp ->
    constraint_day (a_date a) = (k + 1) mod 7.
Proof.
  intros Hemp Honly Hav Hne Hall H a Ha Hid.
  destruct (FallbackSoundness.fallback_spec (fun _ => True) employees c s e rnd made)
    as [Hsound _].
  - intros. apply Forall_forall. auto.
  - intros. apply Forall_forall. auto.
  - exact H.
  - rewrite Forall_forall in Hsound.
    destruct (Hsound a Ha) as (_ & _ & _ & (emp' & Hin' & _ & Hcheck & Hid') & _).
    rewrite Hid in Hid'. rewrite (Honly emp' Hin' (eq_sym Hid')) in Hcheck.
    destruct (admitted_on_listed_day emp avail (a_date a) Hav Hne Hcheck)
      as (av & Hin & Hday).
    rewrite Forall_forall in Hall. rewrite (Hall av Hin) in Hday.
    injection Hday as ->. reflexivity.
Qed.

Lemma fallback_books_the_day_after_witness :
  exists made,
    _basic_random_schedule (Examples.mondays_only :: Examples.one_of_each)
      Examples.office_week Examples.monday (Examples.monday + 6) [] = Returned made
    /\ (exists a, In a made /\ employeeId a = "p"%string
                  /\ a_date a = Examples.monday + 1)
    /\ forall a, In a made -> employeeId a = _id Examples.mondays_only ->
         constraint_day (a_date a) = (1 + 1) mod 7.
Proof.
  eexists. split; [vm_compute; reflexivity|]. split.
  - eexists. split; [do 4 right; left; reflexivity|]. split; reflexivity.
  - refine (fallback_books_the_day_after (Examples.mondays_only :: Examples.one_of_each)
              Examples.office_week Examples.monday (Examples.monday + 6) [] _
              Examples.mondays_only
              [mkAvail (Some 1) (Some true) (Some "08:00"%string) (Some "18:00"%string)]
              1 _ _ eq_refl _ _ _).
    + left. reflexivity.
    + intros other [<-|[<-|[<-|[<-|[]]]]]; intros Hid; try reflexivity;
        vm_compute in Hid; discriminate.
    + discriminate.
    + repeat constructor.
    + vm_compute. reflexivity.
Defined.

End AvailabilityInFallback.

(** ** Enabling days on a document whose days are all closed *)

Module EnableHours.

Lemma find_day_opened (d : DayOfWeek) (ohs : list OperatingHours) :
  match find_day ohs (day_number d) with
  | None => open_first d ohs = None
  | Some oh =>
      exists ohs', open_first d ohs = Some ohs'
                   /\ forall k, find_day ohs' k
                                = if k =? day_number d then Some (opened oh)
                                  else find_day ohs k
  end.
Proof.
  unfold find_day. induction ohs as [|x r IH]; cbn [find open_first]; [reflexivity|].
  unfold day_eqb.
  destruct (day_number (day_of_week x) =? day_number d) eqn:E.
  - eexists. split; [reflexivity|]. intros k. cbn [find opened day_of_week].
    apply Z.eqb_eq in E. rewrite E, (Z.eqb_sym (day_number d) k).
    destruct (k =? day_number d); reflexivity.
  - destruct (find _ r) as [oh|].
    + destruct IH as (ohs' & -> & Hfind). eexists. split; [reflexivity|].
      intros k. cbn [find]. rewrite Hfind.
      destruct (day_number (day_of_week x) =? k) eqn:Ek; [|reflexivity].
      apply Z.eqb_eq in Ek. subst k. now rewrite E.
    + now rewrite IH.
Qed.

Lemma find_day_appended (d : DayOfWeek) (ohs : list OperatingHours) (k : Z) :
  find_day (ohs ++ [enabled_entry d]) k
  = match find_day ohs k with
    | Some oh => Some oh
    | None => if k =? day_number d then Some (enabled_entry d) else None
    end.
Proof.
  unfold find_day. induction ohs as [|x r IH]; cbn [app find].
  - cbn [enabled_entry day_of_week]. now rewrite (Z.eqb_sym (day_number d) k).
  - destruct (day_number (day_of_week x) =? k); [reflexivity|exact IH].
Qed.

(** The entry found for a day after [enable_day]. *)
Lemma find_day_enabled (d : DayOfWeek) (ohs : list OperatingHours) (k : Z) :
  find_day (enable_day ohs d) k
  = if k =? day_number d
    then Some match find_day ohs k with
              | Some oh => opened oh
              | None => enabled_entry d
              end
    else find_day ohs k.
Proof.
  unfold enable_day. pose proof (find_day_opened d ohs) as H.
  destruct (k =? day_number d) eqn:E.
  - apply Z.eqb_eq in E. subst k.
    destruct (find_day ohs (day_number d)) as [oh|] eqn:Hf.
    + destruct H as (ohs' & -> & Hfind). rewrite Hfind, Z.eqb_refl. reflexivity.
    + rewrite H, find_day_appended, Hf, Z.eqb_refl. reflexivity.
  - destruct (find_day ohs (day_number d)) as [oh|] eqn:Hf.
    + destruct H as (ohs' & -> & Hfind). now rewrite Hfind, E.
    + rewrite H, find_day_appended, E. now destruct (find_day ohs k).
Qed.

Lemma closed_document_fixes (c : Constraints) (emps : list Employee) (s e : date) :
  filter is_open_day (get (operating_hours c) []) = [] ->
  exists more,
    filter auto_fixable (suggestions (detect_scheduling_conflicts c emps s e))
    = mkSuggestion "enable_business_days" "auto_fix" None "critical" true None
        (Some ["monday"; "tuesday"; "wednesday"; "thursday"; "friday"]%string)
      :: more
    /\ (more = []
        \/ more = [mkSuggestion "increase_consecutive_limit" "auto_fix" None "low" true
                     (Some 3) None]).
Proof.
  intros Hclosed. unfold detect_scheduling_conflicts, findings. cbv zeta.
  rewrite Hclosed.
  cbn [filter map app flat_map fst snd no_days_finding nonempty negb suggestions
       unavailable_finding nothing auto_fixable].
  eexists. split; [reflexivity|].
  rewrite !filter_app.
  unfold availability_finding, consecutive_finding, qualifications_finding. cbv zeta.
  repeat match goal with
         | |- context [if ?b then _ else _] => destruct b
         end; cbn; auto.
Qed.

(** On a document that has operating hours, all of them closed, one round
    of the detector's fixes opens Monday to Friday and leaves Sunday and
    Saturday alone: the entry found for a working day is the former one with
    [is_open] set, or, where there was none, a new one with [min_staff] 1,
    [max_staff] 5 and neither [open_time] nor [close_time]. *)
Theorem enabling_days_opens_the_working_week (c : Constraints)
    (ohs : list OperatingHours) (emps : list Employee) (s e : date) :
  operating_hours c = Some ohs -> filter is_open_day ohs = [] ->
  exists ohs',
    operating_hours
      (fixed_constraints
         (apply_suggested_fixes c (detect_scheduling_conflicts c emps s e)))
    = Some ohs'
    /\ forall d,
         find_day ohs' (day_number d)
         = if day_eqb d Sunday || day_eqb d Saturday then find_day ohs (day_number d)
           else Some match find_day ohs (day_number d) with
                     | Some oh => opened oh
                     | None => enabled_entry d
                     end.
Proof.
  intros Hohs Hclosed.
  destruct (closed_document_fixes c emps s e) as (more & Hauto & Hmore);
    [now rewrite Hohs|].
  unfold apply_suggested_fixes.
  destruct (suggestions (detect_scheduling_conflicts c emps s e)) as [|s0 rest] eqn:Hs;
    [discriminate|].
  cbn [nonempty negb]. cbv zeta. rewrite Hauto.
  exists (fold_left enable_day [Monday; Tuesday; Wednesday; Thursday; Friday] ohs).
  split.
  - destruct Hmore as [-> | ->];
      cbn [stable_sort fold_right insert_sorted priority priority_rank String.eqb
           Ascii.eqb Bool.eqb Z.leb Z.compare fold_left];
      unfold apply_fix; cbv zeta;
      cbn [suggestion_type suggested_number suggested_days present String.eqb Ascii.eqb
           Bool.eqb andb get priority];
      unfold on_operating_hours; rewrite Hohs;
      cbn [fixed_constraints with_max_consecutive_days with_operating_hours
           operating_hours];
      f_equal.
  - intros d. cbn [fold_left]. rewrite !find_day_enabled.
    destruct d; cbn [day_number day_eqb Z.eqb Pos.eqb orb]; reflexivity.
Qed.

Lemma enabling_days_opens_the_working_week_witness :
  exists ohs',
    operating_hours
      (fixed_constraints
         (apply_suggested_fixes Examples.closed_week
            (detect_scheduling_conflicts Examples.closed_week Examples.roster2
               Examples.monday Examples.monday)))
    = Some ohs'
    /\ forall d,
         find_day ohs' (day_number d)
         = if day_eqb d Sunday || day_eqb d Saturday
           then find_day (Examples.every_day false "09:00" "13:00" 1 4) (day_number d)
           else Some match find_day (Examples.every_day false "09:00" "13:00" 1 4)
                             (day_number d) with
                     | Some oh => opened oh
                     | None => enabled_entry d
                     end.
Proof.
  apply (enabling_days_opens_the_working_week Examples.closed_week
           (Examples.every_day false "09:00" "13:00" 1 4) Examples.roster2
           Examples.monday Examples.monday); reflexivity.
Defined.

End EnableHours.

(** ** Validation after normalisation *)

Module NormalizedValidation.
Import NormalizerFacts.

Lemma normalized_hours (ohs : list OperatingHours) :
  exists lo hi,
    lo <= hi
    /\ Permutation (completed_second (completed_first ohs))
                   (ohs ++ map (closed_entry lo hi) (missing_days ohs)).
Proof.
  unfold completed_second. destruct (List.length ohs <? 7)%nat eqn:E.
  - apply Nat.ltb_lt in E. rewrite (completed_first_none_missing ohs E).
    cbn [map]. rewrite app_nil_r. exists 0, 0. split; [lia|].
    unfold completed_first.
    replace (List.length ohs <? 7)%nat with true by (symmetry; now apply Nat.ltb_lt).
    apply OptimizerFacts.stable_sort_perm.
  - unfold completed_first. rewrite E. exists 1, 10. split; [lia|reflexivity].
Qed.

Lemma template_defaults_bounds (r : nat) (ohs : list OperatingHours)
    (c enhanced : Constraints) :
  template_defaults r ohs c = Returned enhanced ->
  min_employees_per_day enhanced = min_employees_per_day c
  /\ max_employees_per_day enhanced = max_employees_per_day c.
Proof.
  unfold template_defaults. cbv zeta.
  destruct (negb (nonempty (get (shift_templates c) [])) && nonempty ohs).
  - destruct (_create_business_coverage_plan _ _ _ _ _ _ _) as [ts|exn|];
      cbn [bind]; try discriminate.
    intros H. injection H as <-. destruct (nonempty ts); auto.
  - destruct (nonempty (get (shift_templates c) [])); intros H; injection H as <-; auto.
Qed.

Lemma days_cover_once (ohs : list OperatingHours) (lo hi : Z) :
  Permutation range7
    (map day_of_week (ohs ++ map (closed_entry lo hi) (missing_days ohs)))
  <-> NoDup (map day_of_week ohs).
Proof.
  rewrite map_app, map_map. cbn [closed_entry day_of_week]. rewrite map_id. split.
  - intros Hperm.
    assert (Hnd : NoDup (map day_of_week ohs ++ missing_days ohs)).
    { eapply Permutation_NoDup; [exact Hperm|apply nodup_range7]. }
    now apply NoDup_app_remove_r in Hnd.
  - intros Hnd. apply NoDup_Permutation; [apply nodup_range7| |].
    + apply NoDup_app; [exact Hnd| |].
      * unfold missing_days. apply NoDup_filter. apply nodup_range7.
      * intros d Hd Hmiss. now apply in_missing_days in Hmiss.
    + intros d. split; [|intros _; apply in_range7].
      intros _. apply in_or_app.
      destruct (in_dec DayOfWeek_eq_dec d (map day_of_week ohs)) as [Hin|Hout];
        [now left|right; now apply in_missing_days].
Qed.

(** A document that has been normalised passes validation exactly when the
    operating hours it came with hold no day twice, each of its entries
    carries [min_staff], [max_staff] and [is_open] with the minimum not
    above the maximum, one of them is open, and [min_employees_per_day] is
    not above [max_employees_per_day].  Days that were missing are no
    obstacle; a document that came without operating hours never passes. *)
Theorem normalized_validates_iff (r : nat) (c c1 : Constraints) :
  normalized r c = Returned c1 ->
  validate_constraints c1 = []
  <-> NoDup (map day_of_week (get (operating_hours c) []))
      /\ Forall well_staffed (get (operating_hours c) [])
      /\ (exists oh, In oh (get (operating_hours c) []) /\ is_open_day oh = true)
      /\ get (min_employees_per_day c) 1 <= get (max_employees_per_day c) 10.
Proof.
  intros H. rewrite normalized_value in H.
  destruct (template_defaults r _ c) as [enhanced|exn|] eqn:Ht; cbn [bind] in H;
    try discriminate.
  destruct (template_defaults_bounds _ _ _ _ Ht) as [Hmin Hmax].
  injection H as <-. rewrite ValidationFacts.validation_iff.
  cbn [with_operating_hours with_places operating_hours get min_employees_per_day
       max_employees_per_day].
  rewrite Hmin, Hmax.
  set (ohs := get (operating_hours c) []).
  destruct (normalized_hours ohs) as (lo & hi & Hlohi & Hperm).
  set (ohs1 := completed_second (completed_first ohs)) in *.
  assert (Hdays : Permutation range7 (map day_of_week ohs1)
                  <-> NoDup (map day_of_week ohs)).
  { rewrite <- (days_cover_once ohs lo hi). split; intros Hp.
    - rewrite Hp. now apply Permutation_map.
    - rewrite Hp. apply Permutation_map. now symmetry. }
  assert (Hfields : Forall well_staffed ohs1 <-> Forall well_staffed ohs).
  { split; intros Hf.
    - apply (Permutation_Forall Hperm) in Hf. apply Forall_app in Hf. tauto.
    - apply (Permutation_Forall (Permutation_sym Hperm)). apply Forall_app.
      split; [exact Hf|]. apply Forall_forall. intros oh Hoh.
      apply in_map_iff in Hoh. destruct Hoh as (d & <- & _).
      repeat split; cbn; auto. }
  assert (Hopen : (exists oh, In oh ohs1 /\ is_open_day oh = true)
                  <-> exists oh, In oh ohs /\ is_open_day oh = true).
  { split; intros (oh & Hoh & Ho).
    - apply (Permutation_in _ Hperm) in Hoh. apply in_app_or in Hoh.
      destruct Hoh as [Hoh|Hoh]; [eauto|].
      apply in_map_iff in Hoh. destruct Hoh as (d & <- & _). discriminate.
    - exists oh. split; [|exact Ho].
      apply (Permutation_in _ (Permutation_sym Hperm)). apply in_or_app. now left. }
  rewrite Hdays, Hfields, Hopen. reflexivity.
Qed.

Lemma normalized_validates_iff_witness :
  exists c1,
    normalized 0 (Examples.doc Examples.monday_only 4 8) = Returned c1
    /\ validate_constraints c1 = []
    /\ (validate_constraints c1 = []
        <-> NoDup (map day_of_week Examples.monday_only)
            /\ Forall well_staffed Examples.monday_only
            /\ (exists oh, In oh Examples.monday_only /\ is_open_day oh = true)
            /\ 1 <= 10).
Proof.
  eexists. split; [vm_compute; reflexivity|]. split; [vm_compute; reflexivity|].
  apply (normalized_validates_iff 0 (Examples.doc Examples.monday_only 4 8)).
  vm_compute. reflexivity.
Defined.

End NormalizedValidation.
